(* ===== verification/_CoqProject ===== *)
-Q . S2P
Prelude.v
PyStr.v
PurePath.v
PathConvention.v
CloudIO.v
Payload.v
DeviceFixup.v
FileSystem.v
Backend.v
CheckpointIO.v
Mounts.v
Binding.v
Plugin.v
TrainerContext.v
Interleaving.v
Jobs.v
Scenario.v
Refinement.v
Simulation.v
Paths.v
Loading.v
Logging.v
