(* ===== verification/Prelude.v ===== *)
(** * Verification of the distributed-checkpoint I/O plugin (nemo/lightning/io/pl.py)

    The program is one Python module, [src/nemo/lightning/io/pl.py].  It
    plugs a directory-per-checkpoint save/load/remove protocol into a
    training framework: a checkpoint identifier [<id>.ckpt] is kept in
    the directory [<id>], written and read by a sharded serialization
    backend, and its tensors are moved to the current accelerator after
    a load.

    ** The parts of the program and the files that model them

    Leaf first; each file requires the ones above it.

    - [Prelude.v] (this file): Python values and control as the module
      uses them.  [pystr] is [str]; [exn] the exception classes, each
      with its message; [result] a returned value or a raised exception
      (the monad of pure code that may raise); [eff W] the monad of code
      that also reads and changes a world [W], in which an exception
      keeps the world reached so far.  [site_packages] is the
      environment: the packages installed, which the imports inside the
      functions read (pl.py 79, 118, 163, 205), and the table of
      protocols fsspec knows ([known_implementations]; [fsspec_known] is
      the part of fsspec's own table the examples use).
      [import_megatron] is such an import, and [Megatron] the
      hypothesis that it succeeds.  The rewrite database [py], the
      tactics [py_simpl], [py_case], [vm_refl], [vm_decide], and the list
      lemmas the components share.
    - [PyStr.v], Module [PyStr]: the [str] methods pathlib is built from
      ([rfind], slicing, [split], [join], [lstrip]).
    - [PurePath.v], Module [PurePath]: [pathlib.PurePosixPath] as far as
      the program uses it ([Path(...)], [str], [name], [suffix], [stem],
      [with_suffix], [with_name], after CPython 3.12), the normal form
      [path_wf] and the parse/print round trip.  [Path] of a path
      parses its text again, as CPython does, so what [Path] returns is
      in normal form whatever it is given.
    - [PathConvention.v], Module [PathConvention]: [ckpt_to_dir]
      (pl.py 173-188), line by line.
    - [CloudIO.v], Module [CloudIO]: [get_filesystem] (called at pl.py
      88, 124, 143, 208) as a call that may raise: the protocol before
      ["://"], after fsspec's [split_protocol], is looked up in the
      table of the environment ([get_filesystem_class]); a protocol that
      is not in it raises [ValueError], one whose package is not
      installed [ImportError].
    - [Payload.v], Module [Payload]: the checkpoint payload [value]
      (nested dictionaries, lists and tuples, tensors and other objects
      at the leaves) and [dict_list_map_outplace], the traversal the
      device pass calls.
    - [DeviceFixup.v], Module [DeviceFixup]: [_fix_tensors_device] and
      its local function [_fix_device] (pl.py 159-170), over a record
      [cuda_runtime] of what [torch.cuda] answers.
    - [FileSystem.v]: the class [FileSystem], the four fsspec methods
      the module calls, with the laws [FileSystemLaws] the store's
      theorems assume; Module [MemFS], an in-memory filesystem (a finite
      map from absolute component lists to files and directories) that
      satisfies them.
    - [Backend.v]: the class [Backend], the three functions of
      [megatron.core.dist_checkpointing] the module calls, with the laws
      [BackendLaws]; Module [RefBackend], a backend on [MemFS] that
      satisfies them.  A load takes the filesystem and returns a value,
      so that the backend's load writes nothing is part of the
      interface.
    - [CheckpointIO.v], Module [CheckpointIO]: the class
      [MegatronCheckpointIO] (pl.py 49-156: [__init__],
      [_determine_dist_ckpt_save_strategy], [save_checkpoint],
      [load_checkpoint], [remove_checkpoint]) and [is_distributed_ckpt]
      (pl.py 191-212), each one definition in [eff (world F)].  Each
      selects its filesystem where the source does ([select_filesystem]:
      the call of [get_filesystem], which may raise) before it calls a
      method of it.  The world holds the filesystem, the accelerator
      runtime and the trace of calls to collaborators (log records,
      [makedirs], [rm], backend [save] and [load]).  [after] is the world
      a call of an entry point leaves and [after_all] that of a sequence
      of calls; [step] makes the store a transition system whose
      transitions are those calls.
    - [Mounts.v], Module [Mounts]: a world with a local filesystem and
      remote stores by protocol, as an instance of [FileSystem] and of
      [Backend] in which every method selects its store from the path
      it is given.
    - [Binding.v], Module [Binding]: [bind_call], how Python binds the
      positional and keyword arguments of a call to the parameters of a
      [def], with the [TypeError]s of CPython 3.12; [bind] for a method
      or class method, [bind_function] for a function (they differ in
      the counts a refusal names); what a successful binding is.
      [Plugin] and [TrainerContext] are its clients.
    - [Plugin.v], Module [Plugin]: the entry points as the trainer
      reaches them through the interface of Lightning's [CheckpointIO]:
      the signatures of the three [@override] methods (pl.py 64-65,
      100-103, 135-136) and of the methods of the base class, and
      [save_checkpoint_call], [load_checkpoint_call],
      [remove_checkpoint_call], which bind and then run the method; the
      same for the functions of the module ([_fix_tensors_device_call],
      [ckpt_to_dir_call], [is_distributed_ckpt_call], pl.py 159, 173,
      191).
    - [TrainerContext.v], Module [TrainerContext]: the dataclass
      [TrainerContext] with [from_trainer] and [construct_extra]
      (pl.py 24-46), over objects given by their class name and
      attributes; the class methods as they are called
      ([from_trainer_call], [construct_extra_call]); the constructor
      [@dataclass] writes for the three fields ([dataclass_init]) and
      its call at line 38 ([cls_call]); the type variables of lines
      21-22.
    - [Interleaving.v], Module [Interleaving]: the entry points as
      programs ([prog]) whose steps are the single calls to
      collaborators, each atomic on the shared world ([save_prog],
      [load_prog], [remove_prog], [oracle_prog]; the import and the
      selection of the filesystem touch nothing shared and are no steps:
      [import_prog], [select_prog]; the device pass belongs to the step
      of the backend's load, whose result it maps); [exec] runs a
      program to its end, [interleave] runs two under a schedule.
    - [Jobs.v], Module [Jobs]: any number of such processes beside the
      world they share: [job_step], the step of one process of the
      pool, [turn] and [schedule], the same step run from a list of
      process numbers, and [pass], what a schedule does that lets the
      processes run one after the other.  [establishes] says of a
      program what is known of the checkpoint directory at each of its
      points and that it can return only where the checkpoint is
      complete; it is the invariant of the processes that save.
    - [Scenario.v], Module [Scenario]: the store on [MemFS] and
      [RefBackend]: the end-to-end scenario, the paths on which the entry
      points disagree, a save to a URL on [Mounts], and the instances of
      the store's theorems.
    - [Refinement.v], Module [Refinement]: the contract of the store as
      a finite map from checkpoint directories to payloads ([a_save],
      [a_load], [a_remove]), the abstraction [abs] from a state of
      [MemFS] as [RefBackend] lays it out, the proof that the entry
      points refine the contract, each on every outcome, and what a
      call leaves alone: a checkpoint that was written stays through
      every call that is not a removal at, above or inside its
      directory ([keeps]).
    - [Simulation.v]: Module [Labelled], runs of a labelled transition
      system and the forward-simulation diagram; Module [Simulation],
      the store and the contract as two such systems over the same
      labels (a call and what the caller gets back: [respond]), and the
      simulation between them.
    - [Paths.v], Module [Paths]: the key a path string denotes in
      [MemFS], computed from the parsed path, and what a save leaves
      alone; with them, the two consequences of [save_checkpoint] and
      [is_distributed_ckpt] mapping the path through [ckpt_to_dir]
      while [load_checkpoint] and [remove_checkpoint] do not, for every
      path that ends in the marker.
    - [Loading.v], Module [Loading]: the import statements at the top
      of the module (pl.py 1-15) as the list of the packages they load
      ([module_imports]), run in order by [load_module].
    - [Logging.v], Module [Logging]: the three log records of the
      module (pl.py 90, 146, 155) and the part of Python's logging
      configuration that decides whether a record is passed on: the
      levels in force at the root logger and at the module's logger
      ([config], [effective_level], [enabled]); [shown] filters a trace
      by it.

    Every definition keeps the name the source gives it.  A definition
    that stands for library code (pathlib, [str], torch, fsspec, the
    serialization backend) is named after the library function and
    follows the library's documented behaviour; where the source calls
    it, the call is the line the definition answers for.

    ** Conventions

    - A Python function that may raise returns [result A]; one that also
      reads or changes the outside world is an [eff W A], run with [run].
    - Exceptions carry the message the source builds; two sites that
      raise the same class are told apart by it.
    - Strings are [list ascii]; a literal is written [py "text"] (a
      coercion from [string], so statements may drop the [py]).
    - Integers that Python computes with ([rfind]'s -1, slice bounds,
      the version in the save strategy) are [Z]; no machine-width
      integer occurs in the module.
    - An optional argument ([storage_options], [map_location],
      [sharded_state_dict]) is an [option]; [None] is Python's [None].
    - The environment is a class ([site_packages]), so the definitions
      take it implicitly.  A theorem about a call that reaches the
      backend assumes [Megatron] (the package is installed) or has a
      premise that implies it (the call returned); the theorems that
      speak of every outcome hold in both environments and say what
      happens without the package.  In the same way a theorem about a
      load or a removal either has the premise that [get_filesystem]
      serves the path or says what happens when it does not; a save and
      the oracle need no such premise.

    ** What the theorems show

    - Store ([CheckpointIO]): the save/load round trip; a save that
      returns leaves a checkpoint the oracle recognises; the skip policy
      and its converse; idempotence of saving; what is delegated to the
      backend, in which order and with which strategy; the refusals of
      unsupported options before any effect; every way a load raises, in
      the order of its checks (the import, [map_location], the
      selection of the filesystem, existence, directory, backend), and
      that loading never writes; removal of an existing and of a missing
      path, and of a path no filesystem serves; and, by induction on the runs of the transition system, that any
      sequence of calls keeps the filesystem well formed, the runtime
      unchanged and the strategy fixed, and calls the backend at most
      once per save and per load, with at most two events per call.
      The refusals, the ways a load raises, that a load never writes
      and the properties of sequences of calls are proved with the
      package and without it: without it the import raises
      [ModuleNotFoundError] before every other check, [storage_options]
      and [map_location] included, and nothing is touched.
      They hold for every filesystem and backend satisfying the laws;
      [MemFS] and [RefBackend], and [Mounts], show the laws are
      satisfiable.
    - [CloudIO]: exactly when [get_filesystem] raises and what; a
      directory [ckpt_to_dir] returns never names a protocol, because
      pathlib collapses the double slash, so [get_filesystem] of it is
      the local filesystem and never raises.  (A protocol is what
      stands before ["://"]; see below for the two other ways fsspec
      reads one.)
    - [Mounts]: a save is the save on the local filesystem alone and no
      remote store changes, whatever URL the save is given; and a save
      to a URL at which nothing exists leaves nothing there, so a load
      of the same URL raises [FileNotFoundError].
    - [Binding]: a call binds exactly when it has no more positional
      arguments than parameters, every keyword names a parameter no
      positional argument filled and every parameter gets a value; what
      is bound does not depend on whether the callee is a method or a
      function; every refusal is a [TypeError].
    - [Plugin]: what a call binds and when it is refused; the overrides
      of [save_checkpoint] and [remove_checkpoint] bind as the base
      class does; the override of [load_checkpoint] accepts what the
      base class accepts but takes a second positional argument for
      [sharded_state_dict], so a positional [map_location] reaches the
      backend instead of the [ValueError].
    - [Interleaving]: a program run to its end is the method (the
      lemmas [exec_save_prog] and the like), so what is proved of
      programs is proved of the code; and the skip test is no lock: two
      saves that both test before either writes both call the backend.
    - [Jobs]: any number of processes.  The step relation and the
      schedules agree; the processes run one after the other are the
      calls made in sequence ([after_all]); under every interleaving of
      any number of saves of one path, a save that has returned has left
      a complete checkpoint, whatever the others did meanwhile (the
      order of the body matters here: the test or the backend's save
      comes before the return, and no step of another save undoes a
      complete checkpoint); and of any number of processes that save the
      same checkpoint and all test first, every one calls the backend.
    - [Scenario]: the scenario of the specification, evaluated; the
      entry points without the package; the paths on which the entry
      points disagree; a save to an [s3] URL, which lands on the
      local disk where a load of the same URL does not look; and a load
      and a removal of paths whose protocol has no package installed or
      is not known, which raise before they look.
    - [Paths]: on [MemFS] with [RefBackend], a save that returned
      changed no entry but the directories down to the checkpoint
      directory and the two files in it.  So for every path that ends
      in the marker the save leaves whatever was at the path itself:
      when nothing was there a load of the same path raises
      [FileNotFoundError] and a removal of it removes nothing, while
      the oracle answers [True].  And a checkpoint directory whose own
      name ends in the marker is complete after its save while the
      oracle, asked about it, answers for the directory with the marker
      stripped once more.
    - [Refinement]: on [MemFS] with [RefBackend], a save adds one
      checkpoint or none and touches no other (and changes nothing when
      it raises), a load reads the abstract store and leaves it as it
      was, a removal outside a checkpoint directory forgets exactly the
      checkpoints at and below the path, and the oracle is membership.
      And a checkpoint that was written stays: whatever else is saved,
      loaded, removed or asked, as long as no removal is of its
      directory, of a directory above it or of a path inside it, the
      oracle knows it and a load returns its payload.  A removal inside
      the directory (of the metadata file, say) is excluded because it
      does destroy the checkpoint; removals inside other checkpoints
      are allowed.
    - [Simulation]: every run of calls of the store, with the value or
      exception each call gave, with the package or without, is a run
      of the contract between the abstractions of its first and last
      filesystem (without the package the contract refuses every call
      but a removal and keeps the map, and it passes on what the
      selection of a filesystem raises for a load or a removal); the
      removals of such a run are of paths outside checkpoint
      directories, where the contract's [remove] is defined; the
      contract answers a load after a save with the payload saved.
    - [Loading]: what loading the module raises, by the first missing
      requirement; the examples run the entry points in an environment
      without [megatron], where the module loads, a store is
      constructed and removes checkpoints, and the other entry points
      raise when they are called.
    - [Logging]: of a removal the log shows the record of line 146 when
      something was removed and DEBUG is enabled at the module's
      logger; of the constructor the strategy when INFO is enabled at
      the root logger.  Under the configuration Python starts with
      (root logger at WARNING) no sequence of calls shows anything.
    - [PathConvention]: the assertion of line 183 can never fail; the
      graph of [ckpt_to_dir] (where it raises, what it returns); only
      the name changes and the result is in normal form; the marker
      round trip; a [str] and a [Path] argument agree; the function is
      not idempotent.
    - [TrainerContext]: exactly when [from_trainer] returns and what,
      the three ways it raises, and the keys of [construct_extra]; that
      the result is what the constructor builds from the call of line
      38, that the constructor refuses a call only with a [TypeError],
      that a call of [from_trainer] is refused by the binding or is the
      method on the trainer bound, and that the bound of
      [LightningModuleT] is not checked.
    - [DeviceFixup]: the pass raises exactly without an initialised
      runtime (the assertion) and, with one, without the package (the
      import, which comes after the assertion); it leaves no reachable
      tensor on a foreign accelerator, changes nothing but devices, is
      idempotent, is the identity exactly on placed payloads, keeps
      dictionary keys distinct, and returns every tuple it reaches at
      the same place and unchanged.

    ** Bounds and fuel

    Every definition is structurally recursive or not recursive: there
    is no fuel.  Strings, paths, payloads, traces and filesystems are
    unbounded.  [psteps n] runs a program for [n] steps; the lemmas
    give the [n] that reaches the end (four for a save, three for a
    load or a removal, two for the oracle).  Schedules are arbitrary finite
    lists, over two processes in [Interleaving] and over any number in
    [Jobs]; the processes of a job are fixed at its start (no entry
    point starts another).  A step of a process always ends, so
    nothing is claimed about progress: the theorems on jobs are about
    the states reached, under every interleaving.  The simulation is
    over runs of any length.  Remote stores are a finite map from
    protocols to filesystems; a protocol without a store is an empty
    one.  The concrete instances are evaluated by the virtual machine.

    ** Not modelled

    The bytes and the parallelism of the sharded format, and
    coordination between processes (the backend's contract); calls
    that block or wait: a call to a collaborator is one atomic step
    that returns or raises; reads that raise: [exists] and [isdir]
    always answer, where a real filesystem can refuse (permissions, a
    connection lost); the partial effect of a write that raises:
    [makedirs], [rm] and the backend's [save] either succeed or leave
    the filesystem as it was, so a directory half written by a save
    that failed arises only as an initial state; [python -O], which
    drops the assertions of lines 161 and 183; of the
    imports, an installation that has the package [megatron] without
    the modules the program names (the [ImportError] for a missing
    name), the code an import runs (so also the [__init__] of the
    [nemo] packages on the way to the module, and a third-party package
    that fails to import because of its own dependencies), the names an
    import binds and the module cache: a package is there as a whole or
    not at all, and a successful import is not observed; the
    contents and failures of real remote stores; the two ways fsspec
    reads a protocol off a string without ["://"], chained protocols
    ([a::b]) and the prefix [data:], so the theorems of [CloudIO] and
    [Mounts] are about paths fsspec reads by ["://"] alone; in
    [Mounts] the backend writes to the local filesystem, as it does
    for a directory given by its local path ([MemFS] resolves every
    string as a local path); the options a filesystem is constructed
    with
    and the entries of fsspec's table beyond those of [fsspec_known]
    (the theorems hold for any table); of the logging configuration
    everything but the levels of the two loggers (handlers and their
    levels, filters, formatters, [logging.disable], [propagate]);
    [IOMixin]'s capture of constructor arguments, and of the
    base class [CheckpointIO] everything but the signatures of the three
    methods; calls whose [path] argument is neither a string nor a path;
    barriers and any other coordination between the processes of a job
    (the caller's); Windows paths; tensor contents beyond
    their identity; data descriptors that make [hasattr] run code.
    The simulation and the theorems of [Paths] are proved on [MemFS]
    with [RefBackend], not from the laws: the laws say what a call
    establishes, not what it leaves alone. *)

From Stdlib Require Import Ascii.
From stdpp Require Import base tactics option list strings.

(** ** Python [str] *)

Declare Scope py_scope.
Delimit Scope py_scope with py.

Definition pystr : Type := list ascii.

Definition py (s : string) : pystr := String.list_ascii_of_string s.
Coercion py : string >-> pystr.

(** ** Exceptions

    The built-in exception classes the module raises or lets through,
    each with its message. *)
Inductive exn : Type :=
| TypeError (msg : pystr)
| ValueError (msg : pystr)
| FileNotFoundError (msg : pystr)
| AssertionError (msg : pystr)
| OSError (msg : pystr)
| AttributeError (msg : pystr)
| ModuleNotFoundError (msg : pystr)
| ImportError (msg : pystr)
| CheckpointingException (msg : pystr).

#[export] Instance exn_eq_dec : EqDecision exn.
Proof. solve_decision. Defined.

(** The class of an exception, which is all an [except] clause sees. *)
Inductive exn_class : Type :=
| CTypeError | CValueError | CFileNotFoundError | CAssertionError
| COSError | CAttributeError | CModuleNotFoundError | CImportError
| CCheckpointingException.

#[export] Instance exn_class_eq_dec : EqDecision exn_class.
Proof. solve_decision. Defined.

Definition class_of (e : exn) : exn_class :=
  match e with
  | TypeError _ => CTypeError
  | ValueError _ => CValueError
  | FileNotFoundError _ => CFileNotFoundError
  | AssertionError _ => CAssertionError
  | OSError _ => COSError
  | AttributeError _ => CAttributeError
  | ModuleNotFoundError _ => CModuleNotFoundError
  | ImportError _ => CImportError
  | CheckpointingException _ => CCheckpointingException
  end.

(** ** Results: a value or a raised exception *)
Inductive result (A : Type) : Type :=
| Ok (a : A)
| Raise (e : exn).
Arguments Ok {A} a.
Arguments Raise {A} e.

#[export] Instance result_eq_dec `{EqDecision A} : EqDecision (result A).
Proof. solve_decision. Defined.

#[export] Instance result_ret : MRet result := @Ok.
#[export] Instance result_bind : MBind result :=
  λ A B f m, match m with Ok a => f a | Raise e => Raise e end.
#[export] Instance result_fmap : FMap result :=
  λ A B f m, match m with Ok a => Ok (f a) | Raise e => Raise e end.

Definition is_ok {A} (r : result A) : bool :=
  match r with Ok _ => true | Raise _ => false end.

Definition raised {A} (r : result A) : option exn :=
  match r with Ok _ => None | Raise e => Some e end.

(** [assert cond, msg] *)
Definition py_assert (cond : bool) (msg : pystr) : result unit :=
  if cond then Ok tt else Raise (AssertionError msg).

(** ** Imports

    [site_packages] is the environment the interpreter imports from:
    which top-level packages are installed.  An import of a module of
    an installed package leaves nothing to observe; an import from a
    package that is missing raises [ModuleNotFoundError] for its
    top-level name.

    The module imports the serialization backend where it uses it,
    inside the function, so the import runs at every call and fails at
    the call when the package is missing.  [Megatron] says the package
    [megatron] is installed; the theorems about calls that reach the
    backend are stated under it.

    The environment also holds the table by which fsspec finds the
    class that serves a protocol ([known_implementations] of
    [fsspec.registry]): [get_filesystem] reads it at every call of a
    method with a path that names a protocol.  An entry is a class of
    fsspec itself, or a class of another distribution with the message
    fsspec gives when that distribution is missing. *)
Inductive implementation : Type :=
| Builtin
| Package (package err : pystr).

Class site_packages : Type := SitePackages {
  installed : pystr → bool;
  known_implementations : pystr → option implementation
}.

Definition has_megatron `{site_packages} : bool := installed (py "megatron").

Class Megatron `{site_packages} : Prop :=
  megatron_installed : has_megatron = true.

(** Of fsspec's table, the entries of the local filesystem, of the
    filesystem in memory and of two object stores. *)
Definition fsspec_known (protocol : pystr) : option implementation :=
  if decide (protocol ∈ [py "file"; py "local"; py "memory"]) then Some Builtin
  else if decide (protocol ∈ [py "s3"; py "s3a"]) then
    Some (Package (py "s3fs") (py "Install s3fs to access S3"))
  else if decide (protocol ∈ [py "gcs"; py "gs"]) then
    Some (Package (py "gcsfs") (py "Please install gcsfs to access Google Storage"))
  else None.

(** Everything installed, and everything but [megatron]. *)
Definition with_megatron : site_packages := SitePackages (λ _, true) fsspec_known.
Definition without_megatron : site_packages :=
  SitePackages (λ name, bool_decide (name ≠ py "megatron")) fsspec_known.

#[export] Instance with_megatron_installed : @Megatron with_megatron := eq_refl.

Definition no_module_msg (name : pystr) : pystr :=
  py "No module named '" ++ name ++ py "'".

Abbreviation megatron_missing := (ModuleNotFoundError (no_module_msg (py "megatron"))).

(** [import name...] and [from name... import ...], for a top-level
    package [name]. *)
Definition import_ `{site_packages} (name : pystr) : result unit :=
  if installed name then Ok tt else Raise (ModuleNotFoundError (no_module_msg name)).

(** [from megatron... import ...] *)
Definition import_megatron `{site_packages} : result unit := import_ (py "megatron").

(** ** Effects: state threaded through, exceptions kept with the state *)
Record eff (W A : Type) : Type := Eff { run : W → result A * W }.
Arguments Eff {W A} _.
Arguments run {W A} _ _.

#[export] Instance eff_ret {W} : MRet (eff W) := λ A a, Eff (λ w, (Ok a, w)).
#[export] Instance eff_bind {W} : MBind (eff W) := λ A B f m,
  Eff (λ w, match run m w with
            | (Ok a, w') => run (f a) w'
            | (Raise e, w') => (Raise e, w')
            end).

Definition throw {W A} (e : exn) : eff W A := Eff (λ w, (Raise e, w)).
Definition lift {W A} (r : result A) : eff W A := Eff (λ w, (r, w)).
Definition get {W} : eff W W := Eff (λ w, (Ok w, w)).
Definition gets {W A} (f : W → A) : eff W A := Eff (λ w, (Ok (f w), w)).
Definition modify {W} (f : W → W) : eff W unit := Eff (λ w, (Ok tt, f w)).
(** A step that may fail and, when it succeeds, replaces the state. *)
Definition update {W} (f : W → result W) : eff W unit :=
  Eff (λ w, match f w with Ok w' => (Ok tt, w') | Raise e => (Raise e, w) end).

(** ** Equations of [run], collected in the rewrite database [py] *)

Lemma bind_Ok {A B} (a : A) (f : A → result B) : Ok a ≫= f = f a.
Proof. reflexivity. Qed.

Lemma bind_Raise {A B} (e : exn) (f : A → result B) : Raise e ≫= f = Raise e.
Proof. reflexivity. Qed.

Lemma bind_eq_Ok {A B} (m : result A) (f : A → result B) b :
  m ≫= f = Ok b ↔ ∃ a, m = Ok a ∧ f a = Ok b.
Proof.
  destruct m as [a|e]; simpl; split.
  - eauto.
  - by intros (a' & [= <-] & ?).
  - done.
  - by intros (a' & ? & _).
Qed.

Lemma bind_eq_Raise {A B} (m : result A) (f : A → result B) e :
  m ≫= f = Raise e ↔ m = Raise e ∨ ∃ a, m = Ok a ∧ f a = Raise e.
Proof.
  destruct m as [a|e']; simpl; split.
  - eauto.
  - by intros [?|(a' & [= <-] & ?)].
  - intros [= ->]. by left.
  - intros [?|(a' & ? & _)]; congruence.
Qed.

Lemma py_assert_true msg : py_assert true msg = Ok tt.
Proof. reflexivity. Qed.

Lemma py_assert_Ok cond msg : py_assert cond msg = Ok tt ↔ cond = true.
Proof. by destruct cond. Qed.

Lemma import_megatron_eq `{site_packages} :
  import_megatron = if has_megatron then Ok tt else Raise megatron_missing.
Proof. reflexivity. Qed.

Lemma import_megatron_Ok `{Megatron} : import_megatron = Ok tt.
Proof. by rewrite import_megatron_eq, megatron_installed. Qed.

Lemma import_megatron_Raise `{site_packages} :
  has_megatron = false → import_megatron = Raise megatron_missing.
Proof. rewrite import_megatron_eq. by intros ->. Qed.

Lemma import_megatron_Ok_iff `{site_packages} :
  import_megatron = Ok tt ↔ has_megatron = true.
Proof. rewrite import_megatron_eq. by destruct has_megatron. Qed.

(** The two environments: [destruct megatron_dec] leaves the instance of
    [Megatron] or the equation that there is none. *)
Lemma megatron_dec `{site_packages} : {Megatron} + {has_megatron = false}.
Proof. unfold Megatron. destruct has_megatron; auto. Defined.

Lemma run_ret {W A} (a : A) (w : W) : run (mret a) w = (Ok a, w).
Proof. reflexivity. Qed.

Lemma run_bind {W A B} (m : eff W A) (f : A → eff W B) w :
  run (m ≫= f) w =
  match run m w with
  | (Ok a, w') => run (f a) w'
  | (Raise e, w') => (Raise e, w')
  end.
Proof. reflexivity. Qed.

Lemma run_throw {W A} (e : exn) (w : W) : run (throw (A:=A) e) w = (Raise e, w).
Proof. reflexivity. Qed.

Lemma run_lift {W A} (r : result A) (w : W) : run (lift r) w = (r, w).
Proof. reflexivity. Qed.

Lemma run_get {W} (w : W) : run get w = (Ok w, w).
Proof. reflexivity. Qed.

Lemma run_gets {W A} (f : W → A) (w : W) : run (gets f) w = (Ok (f w), w).
Proof. reflexivity. Qed.

Lemma run_modify {W} (f : W → W) (w : W) : run (modify f) w = (Ok tt, f w).
Proof. reflexivity. Qed.

Lemma run_update_Ok {W} (f : W → result W) w w' :
  f w = Ok w' → run (update f) w = (Ok tt, w').
Proof. unfold update; simpl; intros ->; reflexivity. Qed.

Lemma run_update_Raise {W} (f : W → result W) w e :
  f w = Raise e → run (update f) w = (Raise e, w).
Proof. unfold update; simpl; intros ->; reflexivity. Qed.

Create HintDb py discriminated.
Create Rewrite HintDb py.
#[export] Hint Rewrite @bind_Ok @bind_Raise py_assert_true : py.
#[export] Hint Rewrite @run_ret @run_bind @run_throw @run_lift @run_get
  @run_gets @run_modify : py.

(** ** Tactics *)

(** Rewrite with the equations of the monads until nothing moves. *)
Ltac py_simpl := repeat (progress (autorewrite with py in *; simpl in * ));
  try done.

(** Case analysis on the guard the goal is stuck on: a [decide], a
    [bool_decide], a boolean or a scrutinised result. *)
Ltac py_case :=
  match goal with
  | |- context [decide ?P] => destruct (decide P)
  | |- context [bool_decide ?P] => destruct (bool_decide_reflect P)
  | |- context [if ?b then _ else _] => destruct b eqn:?
  | |- context [match ?r with Ok _ => _ | Raise _ => _ end] => destruct r eqn:?
  end.

(** Closed goals by evaluation: an equation between closed terms, and a
    decidable proposition. *)
Ltac vm_refl :=
  match goal with |- _ = ?y => vm_cast_no_check (eq_refl y) end.
Ltac vm_decide :=
  match goal with
  | |- ?P => apply (bool_decide_eq_true_1 P); vm_cast_no_check (eq_refl true)
  end.

(** ** Lists: facts the components share *)

Lemma py_inj (s t : string) : py s = py t → s = t.
Proof.
  intros H. rewrite <-(String.string_of_list_ascii_of_string s),
    <-(String.string_of_list_ascii_of_string t). unfold py in H. by rewrite H.
Qed.

Lemma drop_take_split {A} (l : list A) n : take n l ++ drop n l = l.
Proof. apply take_drop. Qed.

Lemma last_app_singleton {A} (l : list A) x : last (l ++ [x]) = Some x.
Proof. by rewrite last_snoc. Qed.

Lemma removelast_snoc {A} (l : list A) x : removelast (l ++ [x]) = l.
Proof. apply removelast_last. Qed.

Lemma snoc_removelast_last {A} (l : list A) x :
  last l = Some x → removelast l ++ [x] = l.
Proof.
  destruct l as [|y l _] using rev_ind; [done|].
  rewrite last_snoc, removelast_snoc. by intros [= ->].
Qed.

Lemma Forall_removelast {A} (P : A → Prop) (l : list A) :
  Forall P l → Forall P (removelast l).
Proof.
  destruct l as [|y l _] using rev_ind; [done|].
  rewrite removelast_snoc, Forall_app. tauto.
Qed.

Lemma Forall_last {A} (P : A → Prop) (l : list A) x :
  Forall P l → last l = Some x → P x.
Proof.
  intros Hl Hx. rewrite <-(snoc_removelast_last _ _ Hx), Forall_app in Hl.
  destruct Hl as [_ Hl]. by inversion Hl.
Qed.

Lemma filter_all {A} (P : A → Prop) `{!∀ x, Decision (P x)} (l : list A) :
  Forall P l → filter P l = l.
Proof.
  induction 1 as [|x l Hx _ IH]; [done|].
  by rewrite filter_cons_True, IH.
Qed.

#[export] Hint Resolve Forall_removelast : py.
