(* ===== verification/PyStr.v ===== *)
(** * Python [str] methods

    The methods of [str] that pathlib's pure paths are written with:
    [rfind] on a one-character needle, slices [s[i:]] and [s[:k]] with
    Python's treatment of a negative bound, [in], [startswith],
    [lstrip], [split] and [join].  They stand for interpreter built-ins;
    each is the function CPython documents, on [list ascii].  The lemmas
    are the ones [PurePath] and [PathConvention] reason with: where the
    last occurrence of a character lies, and that [split] and [join]
    undo each other. *)

From Stdlib Require Import Ascii.
From stdpp Require Import base tactics option list numbers strings.
From S2P Require Import Prelude.

#[local] Open Scope Z_scope.

Module PyStr.

(** [len(s)] *)
Definition len (s : pystr) : Z := Z.of_nat (length s).

(** [s.rfind(c)]: the highest index of [c] in [s], or -1. *)
Fixpoint rfind (c : ascii) (s : pystr) : Z :=
  match s with
  | [] => -1
  | x :: s' =>
      let r := rfind c s' in
      if decide (r = -1) then (if decide (x = c) then 0 else -1) else r + 1
  end.

(** A slice bound as Python reads it: negative counts from the end, and
    everything is clipped to the string. *)
Definition bound (s : pystr) (k : Z) : nat :=
  Z.to_nat (if decide (k < 0) then Z.max 0 (len s + k) else Z.min k (len s)).

(** [s[i:]] *)
Definition slice_from (s : pystr) (i : Z) : pystr := drop (bound s i) s.

(** [s[:k]] *)
Definition slice_to (s : pystr) (k : Z) : pystr := take (bound s k) s.

(** [c in s] *)
Definition contains (c : ascii) (s : pystr) : bool := bool_decide (c ∈ s).

(** [s.startswith(c)] *)
Definition startswith (c : ascii) (s : pystr) : bool :=
  match s with x :: _ => bool_decide (x = c) | [] => false end.

(** [s.lstrip(c)] *)
Fixpoint lstrip (c : ascii) (s : pystr) : pystr :=
  match s with
  | x :: s' => if decide (x = c) then lstrip c s' else s
  | [] => []
  end.

(** [s.split(c)] *)
Fixpoint split (c : ascii) (s : pystr) : list pystr :=
  match s with
  | [] => [[]]
  | x :: s' =>
      if decide (x = c) then [] :: split c s'
      else match split c s' with
           | w :: ws => (x :: w) :: ws
           | [] => [[x]]
           end
  end.

(** [c.join(l)] *)
Fixpoint join (c : ascii) (l : list pystr) : pystr :=
  match l with
  | [] => []
  | [w] => w
  | w :: ws => w ++ c :: join c ws
  end.

(** ** [rfind] *)

Lemma rfind_range c s : -1 ≤ rfind c s < len s.
Proof.
  unfold len. induction s as [|x s IH]; simpl; [lia|].
  repeat case_decide; lia.
Qed.

Lemma rfind_neg c s : rfind c s = -1 ↔ c ∉ s.
Proof.
  induction s as [|x s IH]; simpl.
  - split; [intros _; apply not_elem_of_nil | done].
  - pose proof (rfind_range c s). rewrite not_elem_of_cons, <-IH.
    repeat case_decide; subst; intuition (try lia; try congruence).
Qed.

Lemma rfind_nonneg c s : 0 ≤ rfind c s ↔ c ∈ s.
Proof.
  pose proof (rfind_range c s).
  destruct (decide (rfind c s = -1)) as [Hr|Hr].
  - rewrite Hr. apply rfind_neg in Hr. split; [lia|done].
  - split; [intros _|lia].
    destruct (decide (c ∈ s)) as [|Hc]; [done|]. by apply rfind_neg in Hc.
Qed.

(** The last occurrence: [rfind] is the length of what precedes it. *)
Lemma rfind_app c s t : c ∉ t → rfind c (s ++ c :: t) = len s.
Proof.
  intros Ht. unfold len. induction s as [|x s IH]; simpl.
  - apply rfind_neg in Ht. rewrite Ht. by repeat case_decide.
  - rewrite IH. repeat case_decide; lia.
Qed.

Lemma rfind_split c s :
  0 ≤ rfind c s →
  ∃ a b, s = a ++ c :: b ∧ len a = rfind c s ∧ c ∉ b.
Proof.
  unfold len. induction s as [|x s IH]; simpl; [lia|].
  destruct (decide (rfind c s = -1)) as [Hn|Hn].
  - case_decide; [|lia]. subst x. intros _.
    exists [], s. split_and!; [done..|by apply rfind_neg].
  - intros _. pose proof (rfind_range c s).
    destruct IH as (a & b & -> & Ha & Hb); [lia|].
    exists (x :: a), b. split_and!; [done| simpl; lia | done].
Qed.

Lemma rfind_notin_app c s t : c ∉ t → rfind c (s ++ t) = rfind c s.
Proof.
  intros Ht. induction s as [|x s IH]; simpl.
  - by apply rfind_neg.
  - by rewrite IH.
Qed.

(** ** Slices *)

Lemma bound_nonneg s k : 0 ≤ k ≤ len s → bound s k = Z.to_nat k.
Proof. unfold bound. intros. case_decide; f_equal; lia. Qed.

Lemma bound_neg s k : 0 < k ≤ len s → bound s (- k) = (length s - Z.to_nat k)%nat.
Proof. unfold bound, len. intros. case_decide; lia. Qed.

Lemma slice_to_from s i : slice_to s i ++ slice_from s i = s.
Proof. apply take_drop. Qed.

Lemma slice_from_app a b : slice_from (a ++ b) (len a) = b.
Proof.
  unfold slice_from. rewrite bound_nonneg.
  - unfold len. rewrite Nat2Z.id. by rewrite drop_app_length.
  - unfold len. rewrite length_app. lia.
Qed.

Lemma slice_to_app a b : slice_to (a ++ b) (len a) = a.
Proof.
  unfold slice_to. rewrite bound_nonneg.
  - unfold len. rewrite Nat2Z.id. by rewrite take_app_length.
  - unfold len. rewrite length_app. lia.
Qed.

(** [s[:-len(t)]] drops a non-empty tail [t]. *)
Lemma slice_to_neg_app a b : b ≠ [] → slice_to (a ++ b) (- len b) = a.
Proof.
  intros Hb. unfold slice_to. rewrite bound_neg.
  - unfold len. rewrite Nat2Z.id, length_app.
    replace (length a + length b - length b)%nat with (length a) by lia.
    by rewrite take_app_length.
  - unfold len. rewrite length_app. destruct b; [done|]. simpl. lia.
Qed.

(** Python's pitfall: [s[:-0]] is the empty string, not [s]. *)
Lemma slice_to_zero s : slice_to s (- 0) = [].
Proof.
  unfold slice_to. replace (bound s (- 0)) with 0%nat; [done|].
  unfold bound, len. case_decide; lia.
Qed.

(** ** [contains], [startswith], [lstrip] *)

Lemma contains_true c s : contains c s = true ↔ c ∈ s.
Proof. unfold contains. by rewrite bool_decide_eq_true. Qed.

Lemma contains_false c s : contains c s = false ↔ c ∉ s.
Proof. unfold contains. by rewrite bool_decide_eq_false. Qed.

Lemma startswith_true c s : startswith c s = true ↔ ∃ t, s = c :: t.
Proof.
  destruct s as [|x s]; simpl.
  - split; [done|]. by intros [? ?].
  - rewrite bool_decide_eq_true. split; [intros ->; eauto|]. by intros [? [= -> _]].
Qed.

Lemma lstrip_replicate c n s :
  ¬ startswith c s = true → lstrip c (replicate n c ++ s) = s.
Proof.
  intros Hs. induction n as [|n IH]; simpl.
  - destruct s as [|x s]; [done|]. simpl in *.
    rewrite bool_decide_eq_true in Hs. by rewrite decide_False.
  - by rewrite decide_True.
Qed.

Lemma lstrip_spec c s :
  ∃ n, s = replicate n c ++ lstrip c s ∧ startswith c (lstrip c s) = false.
Proof.
  induction s as [|x s (n & Hn & Hs)]; simpl.
  - by exists 0%nat.
  - case_decide; subst.
    + exists (S n). simpl. by rewrite <-Hn.
    + exists 0%nat. simpl. by rewrite bool_decide_eq_false.
Qed.

(** ** [split] and [join] *)

Lemma split_nonempty c s : split c s ≠ [].
Proof. destruct s; simpl; repeat case_match; done. Qed.

Lemma split_notin c s : Forall (λ w, c ∉ w) (split c s).
Proof.
  induction s as [|x s IH]; simpl.
  - repeat constructor. apply not_elem_of_nil.
  - case_decide; subst.
    + constructor; [apply not_elem_of_nil | done].
    + destruct (split c s) as [|w ws].
      * repeat constructor. rewrite list_elem_of_singleton. congruence.
      * inversion_clear IH. constructor; [|done].
        rewrite not_elem_of_cons. split; [congruence | done].
Qed.

Lemma join_cons c w ws : ws ≠ [] → join c (w :: ws) = w ++ c :: join c ws.
Proof. by destruct ws. Qed.

Lemma join_split c s : join c (split c s) = s.
Proof.
  induction s as [|x s IH]; simpl; [done|].
  pose proof (split_nonempty c s) as Hne.
  case_decide; subst.
  - rewrite join_cons by done. simpl. by rewrite IH.
  - destruct (split c s) as [|w ws]; [done|].
    destruct ws as [|w' ws]; simpl in *; by rewrite <-IH.
Qed.

Lemma split_notin_id c w : c ∉ w → split c w = [w].
Proof.
  induction w as [|x w IH]; simpl; [done|].
  rewrite not_elem_of_cons. intros [Hx Hw].
  rewrite decide_False by congruence. by rewrite IH.
Qed.

Lemma split_app c w s : c ∉ w → split c (w ++ c :: s) = w :: split c s.
Proof.
  induction w as [|x w IH]; simpl.
  - intros _. by rewrite decide_True.
  - rewrite not_elem_of_cons. intros [Hx Hw].
    rewrite decide_False by congruence. by rewrite IH.
Qed.

Lemma split_join c l :
  l ≠ [] → Forall (λ w, c ∉ w) l → split c (join c l) = l.
Proof.
  induction l as [|w ws IH]; [done|]. intros _ Hl.
  inversion_clear Hl as [|?? Hw Hws].
  destruct ws as [|w' ws].
  - simpl. by apply split_notin_id.
  - rewrite join_cons by done. rewrite split_app by done.
    f_equal. by apply IH.
Qed.

Lemma join_notin c d l :
  d ≠ c → Forall (λ w, d ∉ w) l → d ∉ join c l.
Proof.
  intros Hd. induction l as [|w ws IH]; intros Hl.
  - apply not_elem_of_nil.
  - inversion_clear Hl as [|?? Hw Hws]. destruct ws as [|w' ws]; [done|].
    rewrite join_cons by done. rewrite not_elem_of_app, not_elem_of_cons.
    split_and!; [done..|by apply IH].
Qed.

(** Text appended to a joined string lands in its last piece. *)
Lemma join_snoc_app c l w t : join c (l ++ [w ++ t]) = join c (l ++ [w]) ++ t.
Proof.
  induction l as [|x l IH]; simpl; [done|].
  destruct (l ++ [w ++ t]) eqn:E1; [by destruct l|].
  destruct (l ++ [w]) eqn:E2; [by destruct l|].
  by rewrite IH, <-app_assoc.
Qed.

Lemma join_snoc_nonempty c l w : w ≠ [] → join c (l ++ [w]) ≠ [].
Proof.
  intros Hw. destruct l as [|x l]; simpl; [done|].
  destruct (l ++ [w]) eqn:E; [by destruct l|]. by destruct x.
Qed.

Lemma join_nil_inv c l : Forall (λ w, w ≠ []) l → join c l = [] → l = [].
Proof.
  destruct l as [|w ws]; [done|]. intros Hl.
  inversion_clear Hl as [|?? Hw _]. destruct ws as [|w' ws]; simpl.
  - done.
  - by destruct w.
Qed.

Lemma startswith_join c l :
  Forall (λ w, w ≠ [] ∧ c ∉ w) l → startswith c (join c l) = false.
Proof.
  destruct l as [|w ws]; [done|]. intros Hl.
  inversion_clear Hl as [|?? [Hw Hc] _].
  destruct w as [|x w]; [done|].
  assert (x ≠ c) by (intros ->; apply Hc; left).
  destruct ws; simpl; by rewrite bool_decide_eq_false.
Qed.

End PyStr.

#[export] Hint Rewrite PyStr.slice_from_app PyStr.slice_to_app : py.
