(* ===== verification/PurePath.v ===== *)
(** * pathlib pure paths (POSIX flavour)

    [ckpt_to_dir] is written entirely with [pathlib.Path]: the
    constructor, [suffix], [with_suffix], [stem] and [with_name]; the
    store passes [str(path)] on.  This file models that part of
    [pathlib.PurePosixPath] as CPython 3.12 defines it: a path is its
    root ([""], ["/"] or ["//"]) and the list of its components, the
    constructor parses a string (or the text of a path) into that normal
    form, and the
    name-editing methods validate their argument and raise [ValueError]
    as the library does.

    [path_wf] is the normal form every [Path] object is in; the lemmas
    show that parsing produces it, that the editing methods keep it, that
    [str] and the constructor are inverse on it, and how [suffix] and
    [stem] cut a name. *)

From Stdlib Require Import Ascii.
From stdpp Require Import base tactics option list numbers strings.
From S2P Require Import Prelude PyStr.

#[local] Open Scope Z_scope.

Module PurePath.
Import PyStr.

Definition sep : ascii := "/"%char.
Definition dot : ascii := "."%char.

(** [_root] and [_tail] of a pure path (a POSIX path has no drive). *)
Record path : Type := MkPath { root : pystr; parts : list pystr }.

#[export] Instance path_eq_dec : EqDecision path.
Proof. solve_decision. Defined.

(** An argument of type [Union[str, Path]]. *)
Inductive pathlike : Type :=
| PStr (s : pystr)
| PPath (p : path).

#[export] Instance pathlike_eq_dec : EqDecision pathlike.
Proof. solve_decision. Defined.

(** [posixpath.splitroot]: the root is ["//"] for exactly two leading
    slashes and ["/"] for any other positive number. *)
Definition splitroot (part : pystr) : pystr * pystr :=
  if startswith sep part then
    let stripped := lstrip sep part in
    if decide (len part - len stripped = 2) then ([sep; sep], stripped)
    else ([sep], stripped)
  else ([], part).

(** The components a relative string contributes: empty ones and ["."]
    are dropped. *)
Definition keep_part (x : pystr) : Prop := x ≠ [] ∧ x ≠ [dot].

#[export] Instance keep_part_dec x : Decision (keep_part x).
Proof. unfold keep_part. apply _. Defined.

(** [PurePosixPath(s)] *)
Definition parse (s : pystr) : path :=
  let '(r, rel) := splitroot s in
  {| root := r; parts := filter keep_part (split sep rel) |}.

(** [str(p)] *)
Definition str (p : path) : pystr :=
  let s := root p ++ join sep (parts p) in
  if decide (s = []) then [dot] else s.

(** [Path(x)] for [x : Union[str, Path]].  The constructor keeps the
    text of its argument and parses it, also when the argument is a
    [Path] object; for a path in normal form that is the path itself
    ([Path_PPath]). *)
Definition Path (x : pathlike) : path :=
  match x with
  | PStr s => parse s
  | PPath p => parse (str p)
  end.

(** [os.fspath(x)], also what an f-string prints for [x]. *)
Definition fspath (x : pathlike) : pystr :=
  match x with
  | PStr s => s
  | PPath p => str p
  end.

(** [repr] of a string and of a path, as messages show them.  Python
    quotes with ['], or with the double quote when the string holds a
    ['] and no double quote, and escapes the backslash, the quote it
    uses, and control characters. *)
Definition quote : ascii := "'"%char.
Definition dquote : ascii := "034"%char.
Definition backslash : ascii := "\"%char.

Definition hex_digit (n : nat) : ascii :=
  nth n (py "0123456789abcdef") "0"%char.

Definition escape (q c : ascii) : pystr :=
  let n := nat_of_ascii c in
  if decide (c = backslash) then [backslash; backslash]
  else if decide (c = q) then [backslash; q]
  else if decide (n = 9%nat) then [backslash; "t"%char]
  else if decide (n = 10%nat) then [backslash; "n"%char]
  else if decide (n = 13%nat) then [backslash; "r"%char]
  else if decide (n < 32 ∨ n = 127)%nat then
    [backslash; "x"%char; hex_digit (n / 16); hex_digit (n mod 16)]
  else [c].

Definition repr_str (s : pystr) : pystr :=
  let q := if decide (quote ∈ s ∧ dquote ∉ s) then dquote else quote in
  [q] ++ concat (map (escape q) s) ++ [q].
Definition repr (p : path) : pystr := py "PosixPath(" ++ repr_str (str p) ++ py ")".

(** [p.name] *)
Definition name (p : path) : pystr := default [] (last (parts p)).

(** [p.suffix] *)
Definition suffix (p : path) : pystr :=
  let name := name p in
  let i := rfind dot name in
  if decide (0 < i < len name - 1) then slice_from name i else [].

(** [p.stem] *)
Definition stem (p : path) : pystr :=
  let name := name p in
  let i := rfind dot name in
  if decide (0 < i < len name - 1) then slice_to name i else name.

(** [p.with_name(name)] *)
Definition with_name (p : path) (new : pystr) : result path :=
  if decide (name p = []) then
    Raise (ValueError (repr p ++ py " has an empty name"))
  else if decide (new = [] ∨ sep ∈ new ∨ new = [dot]) then
    Raise (ValueError (py "Invalid name " ++ repr_str new))
  else Ok {| root := root p; parts := removelast (parts p) ++ [new] |}.

(** [p.with_suffix(suffix)] *)
Definition with_suffix (p : path) (sfx : pystr) : result path :=
  if contains sep sfx then
    Raise (ValueError (py "Invalid suffix " ++ repr_str sfx))
  else if decide ((sfx ≠ [] ∧ startswith dot sfx = false) ∨ sfx = [dot]) then
    Raise (ValueError (py "Invalid suffix " ++ repr_str sfx))
  else
    let name := name p in
    if decide (name = []) then
      Raise (ValueError (repr p ++ py " has an empty name"))
    else
      let old_suffix := suffix p in
      let name :=
        if decide (old_suffix = []) then name ++ sfx
        else slice_to name (- len old_suffix) ++ sfx in
      Ok {| root := root p; parts := removelast (parts p) ++ [name] |}.

(** ** The normal form *)

Definition part_ok (x : pystr) : Prop := x ≠ [] ∧ x ≠ [dot] ∧ sep ∉ x.

Definition root_ok (r : pystr) : Prop := r = [] ∨ r = [sep] ∨ r = [sep; sep].

Definition path_wf (p : path) : Prop := root_ok (root p) ∧ Forall part_ok (parts p).

#[export] Instance part_ok_dec x : Decision (part_ok x).
Proof. unfold part_ok. apply _. Defined.

#[export] Instance path_wf_dec p : Decision (path_wf p).
Proof. unfold path_wf, root_ok. apply _. Defined.

(** A path argument is taken to be a real [Path] object: in normal form. *)
Definition pathlike_wf (x : pathlike) : Prop :=
  match x with
  | PStr _ => True
  | PPath p => path_wf p
  end.

#[export] Instance pathlike_wf_dec x : Decision (pathlike_wf x).
Proof. destruct x; apply _. Defined.

(** ** How [suffix] and [stem] cut a name *)

(** A name has an extension when its last dot is neither its first nor
    its last character. *)
Definition has_ext (n : pystr) : Prop := 0 < rfind dot n < len n - 1.

#[export] Instance has_ext_dec n : Decision (has_ext n).
Proof. unfold has_ext. apply _. Defined.

Lemma has_ext_split n :
  has_ext n ↔ ∃ st ext, n = st ++ dot :: ext ∧ st ≠ [] ∧ ext ≠ [] ∧ dot ∉ ext.
Proof.
  unfold has_ext. split.
  - intros Hi. destruct (rfind_split dot n) as (a & b & -> & Ha & Hb); [lia|].
    exists a, b. unfold len in *. rewrite length_app in Hi. simpl in Hi.
    split_and!; [done| |  |done].
    + intros ->. simpl in *. lia.
    + intros ->. simpl in *. lia.
  - intros (st & ext & -> & Hst & Hext & Hd). rewrite rfind_app by done.
    unfold len. rewrite length_app. simpl.
    destruct st; [done|]. destruct ext; [done|]. simpl. lia.
Qed.

Section cut.
Context (p : path) (st ext : pystr).
Hypothesis Hname : name p = st ++ dot :: ext.
Hypothesis Hst : st ≠ [].
Hypothesis Hext : ext ≠ [].
Hypothesis Hdot : dot ∉ ext.

Lemma has_ext_name : has_ext (name p).
Proof. apply has_ext_split. eauto 10. Qed.

Lemma suffix_cut : suffix p = dot :: ext.
Proof.
  pose proof has_ext_name as H. unfold suffix. rewrite decide_True by done.
  rewrite Hname, rfind_app by done. apply slice_from_app.
Qed.

Lemma stem_cut : stem p = st.
Proof.
  pose proof has_ext_name as H. unfold stem. rewrite decide_True by done.
  rewrite Hname, rfind_app by done. apply slice_to_app.
Qed.
End cut.

Lemma suffix_no_ext p : ¬ has_ext (name p) → suffix p = [].
Proof. intros H. unfold suffix. by rewrite decide_False. Qed.

Lemma stem_no_ext p : ¬ has_ext (name p) → stem p = name p.
Proof. intros H. unfold stem. by rewrite decide_False. Qed.

(** The two shapes of a name, with what [stem] and [suffix] return. *)
Lemma name_cases p :
  (¬ has_ext (name p) ∧ suffix p = [] ∧ stem p = name p) ∨
  (∃ ext, name p = stem p ++ dot :: ext ∧ suffix p = dot :: ext ∧
          stem p ≠ [] ∧ ext ≠ [] ∧ dot ∉ ext).
Proof.
  destruct (decide (has_ext (name p))) as [H|H].
  - right. apply has_ext_split in H as (st & ext & Hn & Hst & Hext & Hd).
    exists ext. rewrite (stem_cut p st ext), (suffix_cut p st ext) by done. eauto.
  - left. eauto using suffix_no_ext, stem_no_ext.
Qed.

Lemma stem_suffix p : stem p ++ suffix p = name p.
Proof.
  destruct (name_cases p) as [(_ & -> & ->)|(ext & Hn & -> & _)].
  - apply app_nil_r.
  - done.
Qed.

Lemma stem_nonempty p : name p ≠ [] → stem p ≠ [].
Proof.
  destruct (name_cases p) as [(_ & _ & ->)|(ext & _ & _ & H & _)]; done.
Qed.

Lemma suffix_shape p : suffix p = [] ∨ ∃ ext, suffix p = dot :: ext ∧ ext ≠ [] ∧ dot ∉ ext.
Proof.
  destruct (name_cases p) as [(_ & -> & _)|(ext & _ & -> & _ & ? & ?)]; eauto.
Qed.

Lemma name_snoc r ps n : name (MkPath r (ps ++ [n])) = n.
Proof. unfold name. simpl. by rewrite last_snoc. Qed.

Lemma name_elem p : name p ≠ [] → last (parts p) = Some (name p).
Proof. unfold name. by destruct (last (parts p)). Qed.

Lemma parts_snoc_name p : name p ≠ [] → removelast (parts p) ++ [name p] = parts p.
Proof. intros H. by apply snoc_removelast_last, name_elem. Qed.

(** ** The normal form is kept *)

Lemma part_ok_name p : path_wf p → name p ≠ [] → part_ok (name p).
Proof. intros [_ Hp] Hn. eapply Forall_last; [done|]. by apply name_elem. Qed.

Lemma name_nonempty_wf p : path_wf p → name p = [] ↔ parts p = [].
Proof.
  intros [_ Hp]. unfold name. split; [|by intros ->].
  destruct (parts p) as [|x l _] using rev_ind; [done|].
  rewrite last_snoc. simpl. intros ->.
  apply Forall_app in Hp as [_ Hp]. inversion_clear Hp as [|?? [? _] _]. done.
Qed.

Lemma with_name_wf p new q :
  path_wf p → with_name p new = Ok q → path_wf q.
Proof.
  intros [Hr Hp]. unfold with_name. repeat case_decide; intros [= <-].
  split; [done|]. simpl. apply Forall_app. split; [auto with py|].
  repeat constructor; unfold part_ok; tauto.
Qed.

(** The name [with_suffix] builds is the stem followed by the new
    suffix, whichever branch computes it. *)
Lemma with_suffix_new_name p sfx :
  (if decide (suffix p = []) then name p ++ sfx
   else slice_to (name p) (- len (suffix p)) ++ sfx) = stem p ++ sfx.
Proof.
  destruct (name_cases p) as [(_ & Hs & Hst)|(ext & Hn & Hs & _)].
  - by rewrite decide_True, Hst by done.
  - rewrite decide_False by (by rewrite Hs).
    rewrite Hn at 1. rewrite Hs, slice_to_neg_app; done.
Qed.

(** A suffix [with_suffix] accepts: empty, or a dot followed by at least
    one character, and free of separators. *)
Definition suffix_ok (sfx : pystr) : Prop :=
  (sep ∉ sfx) ∧ (sfx = [] ∨ ∃ c ext, sfx = dot :: c :: ext).

Lemma suffix_ok_alt sfx :
  suffix_ok sfx ↔
  (contains sep sfx = false) ∧
  ¬ ((sfx ≠ [] ∧ startswith dot sfx = false) ∨ sfx = [dot]).
Proof.
  unfold suffix_ok. rewrite contains_false.
  destruct sfx as [|c [|c' ext]]; simpl.
  - intuition congruence.
  - split; [intros [_ [?|(?&?&?)]]; done|].
    intros [? H]. exfalso. apply H.
    destruct (decide (c = dot)) as [->|]; [by right|left].
    by rewrite bool_decide_eq_false.
  - rewrite bool_decide_eq_false. split.
    + intros [? [?|(?&?&[= -> _ _])]]; [done|]. intuition congruence.
    + intros [? H]. split; [done|]. right. exists c', ext.
      destruct (decide (c = dot)) as [->|]; [done|]. exfalso. apply H. by left.
Qed.

Lemma with_suffix_Ok p sfx :
  suffix_ok sfx → name p ≠ [] →
  with_suffix p sfx = Ok (MkPath (root p) (removelast (parts p) ++ [stem p ++ sfx])).
Proof.
  intros [Hc Hs]%suffix_ok_alt Hn. unfold with_suffix.
  rewrite Hc, decide_False, decide_False by done.
  by rewrite with_suffix_new_name.
Qed.

Lemma with_suffix_Raise p sfx :
  ¬ suffix_ok sfx ∨ name p = [] → ∃ msg, with_suffix p sfx = Raise (ValueError msg).
Proof.
  rewrite suffix_ok_alt. unfold with_suffix. intros H.
  destruct (contains sep sfx); [eauto|].
  case_decide; [eauto|]. case_decide; [eauto|]. tauto.
Qed.

Lemma with_suffix_inv p sfx q :
  with_suffix p sfx = Ok q →
  suffix_ok sfx ∧ name p ≠ [] ∧
  q = MkPath (root p) (removelast (parts p) ++ [stem p ++ sfx]).
Proof.
  intros Hq. assert (suffix_ok sfx ∧ name p ≠ []) as [Hs Hn].
  { rewrite suffix_ok_alt. unfold with_suffix in Hq.
    destruct (contains sep sfx); [done|]. by repeat case_decide. }
  rewrite with_suffix_Ok in Hq by done. by injection Hq as <-.
Qed.

Lemma with_name_Ok p new :
  name p ≠ [] → part_ok new →
  with_name p new = Ok (MkPath (root p) (removelast (parts p) ++ [new])).
Proof.
  intros Hn (? & ? & ?). unfold with_name.
  rewrite decide_False, decide_False by tauto. done.
Qed.

Lemma with_name_Raise p new :
  name p = [] ∨ ¬ part_ok new → ∃ msg, with_name p new = Raise (ValueError msg).
Proof.
  unfold with_name, part_ok. intros H.
  case_decide; [eauto|]. case_decide; [eauto|].
  destruct H as [?|H]; [done|]. exfalso. apply H. tauto.
Qed.

Lemma part_ok_app_suffix st sfx :
  st ≠ [] → sep ∉ st → suffix_ok sfx → sfx ≠ [] → part_ok (st ++ sfx).
Proof.
  intros Hst Hsep [Hs [?|(c & ext & ->)]] Hne; [done|].
  unfold part_ok. rewrite not_elem_of_app. split_and!; [| |done..].
  - by destruct st.
  - destruct st as [|? [|??]]; done.
Qed.

Lemma stem_no_sep p : path_wf p → name p ≠ [] → sep ∉ stem p.
Proof.
  intros Hwf Hn. destruct (part_ok_name p Hwf Hn) as (_ & _ & H).
  rewrite <-(stem_suffix p), not_elem_of_app in H. tauto.
Qed.

(** [with_suffix] keeps the normal form when the new suffix is not empty
    (with an empty one, [Path("..x").with_suffix("")] is left with the
    component ["."]). *)
Lemma with_suffix_wf p sfx q :
  path_wf p → sfx ≠ [] → with_suffix p sfx = Ok q → path_wf q.
Proof.
  intros Hwf Hne (Hs & Hn & ->)%with_suffix_inv. pose proof Hwf as [Hr Hp].
  split; [done|]. simpl. apply Forall_app. split; [auto with py|].
  apply Forall_singleton, part_ok_app_suffix;
    [by apply stem_nonempty | by apply stem_no_sep | done..].
Qed.

(** ** Parsing and printing *)

Lemma splitroot_root_ok s : root_ok (splitroot s).1.
Proof.
  unfold splitroot, root_ok. destruct (startswith sep s); [|auto].
  case_decide; auto.
Qed.

Lemma parse_wf s : path_wf (parse s).
Proof.
  unfold parse. pose proof (splitroot_root_ok s) as Hr.
  destruct (splitroot s) as [r rel]. split; [done|]. simpl.
  apply Forall_forall. intros x [[? ?] Hx]%list_elem_of_filter.
  pose proof (split_notin sep rel) as Hs. rewrite Forall_forall in Hs.
  unfold part_ok. auto.
Qed.

(** Whatever the constructor is given, it makes a path in normal form. *)
Lemma Path_wf x : path_wf (Path x).
Proof. destruct x; apply parse_wf. Qed.

Lemma part_ok_keep x : part_ok x → keep_part x.
Proof. unfold part_ok, keep_part. tauto. Qed.

(** The components of a normal-form path, joined and split again. *)
Lemma parts_of_join ps :
  Forall part_ok ps → filter keep_part (split sep (join sep ps)) = ps.
Proof.
  intros Hps. destruct ps as [|x ps]; [done|].
  rewrite split_join; [|done|by eapply Forall_impl; [done|intros ? (_&_&?)]].
  apply filter_all. by eapply Forall_impl; [|apply part_ok_keep].
Qed.

Lemma startswith_join_parts ps :
  Forall part_ok ps → startswith sep (join sep ps) = false.
Proof.
  intros Hps. apply startswith_join.
  by eapply Forall_impl; [done|intros ? (?&_&?)].
Qed.

Lemma splitroot_rooted r ps :
  r = [sep] ∨ r = [sep; sep] → Forall part_ok ps →
  splitroot (r ++ join sep ps) = (r, join sep ps).
Proof.
  intros Hr Hps. pose proof (startswith_join_parts ps Hps) as Hj.
  assert (lstrip sep (r ++ join sep ps) = join sep ps) as Hl.
  { destruct Hr as [-> | ->].
    - apply (lstrip_replicate sep 1). by rewrite Hj.
    - apply (lstrip_replicate sep 2). by rewrite Hj. }
  unfold splitroot. rewrite Hl.
  destruct Hr as [-> | ->]; simpl; unfold len; simpl;
    case_decide; try done; lia.
Qed.

(** [Path(str(p)) == p] for every path object. *)
Lemma parse_str p : path_wf p → parse (str p) = p.
Proof.
  destruct p as [r ps]. intros [Hr Hps]. simpl in *. unfold str. simpl.
  destruct Hr as [-> | Hr].
  - simpl. case_decide as Hj.
    + apply join_nil_inv in Hj as ->; [done|].
      by eapply Forall_impl; [done|intros ? (?&_)].
    + unfold parse, splitroot. rewrite startswith_join_parts by done.
      by rewrite parts_of_join.
  - rewrite decide_False by (by destruct Hr as [-> | ->]).
    unfold parse. rewrite splitroot_rooted by done.
    by rewrite parts_of_join.
Qed.

(** [str] of a parsed string is a fixed point of parsing and printing. *)
Lemma str_parse_str s : str (parse (str (parse s))) = str (parse s).
Proof. by rewrite parse_str by apply parse_wf. Qed.

(** [Path(p) == p] for every path object. *)
Lemma Path_PPath p : path_wf p → Path (PPath p) = p.
Proof. apply parse_str. Qed.

Lemma Path_fspath x : Path (PStr (fspath x)) = Path x.
Proof. by destruct x. Qed.

(** Text appended to the string of a path with a name extends the name. *)
Lemma str_app_name p t :
  name p ≠ [] →
  str p ++ t = str (MkPath (root p) (removelast (parts p) ++ [name p ++ t])).
Proof.
  intros Hn. unfold str. simpl.
  rewrite join_snoc_app, parts_snoc_name by done.
  assert (join sep (parts p) ≠ []) as Hj.
  { rewrite <-(parts_snoc_name p Hn). by apply join_snoc_nonempty. }
  rewrite !decide_False, app_assoc; [done|..];
    intros [_ ?]%app_eq_nil; by destruct (join sep (parts p)).
Qed.

(** [repr] on the strings Python quotes differently. *)
Example repr_str_quotes :
  repr_str "torch_dist" = py "'torch_dist'" ∧
  repr_str "it's" = [dquote] ++ py "it's" ++ [dquote] ∧
  repr_str (py "it's " ++ [dquote]) = py "'it\'s " ++ [dquote] ++ py "'" ∧
  repr_str ["a"; "010"; "\"; "001"]%char = py "'a\n\\\x01'".
Proof. by vm_compute. Qed.

(** [Path(s)] is in normal form for every string [s] (no empty
    component, no ["."], no separator inside a component), and printing
    it and parsing the text again gives the same path. *)
Theorem Path_normal_form (s : pystr) :
  path_wf (Path (PStr s)) ∧ Path (PStr (str (Path (PStr s)))) = Path (PStr s).
Proof. split; [apply parse_wf|]. simpl. apply parse_str, parse_wf. Qed.

End PurePath.
