(* ===== verification/PathConvention.v ===== *)
(** * The path convention: [ckpt_to_dir] (pl.py 173-188)

    The training framework names a checkpoint [<id>.ckpt]; the store
    keeps it in the directory [<id>].  [ckpt_to_dir] first makes sure the
    path carries the marker extension (appending it to whatever extension
    is there), asserts that it does, and then replaces the name by its
    stem.

    The theorems give the function's whole graph on path objects:
    - the assertion of line 183 is dead code: no input makes it fail;
    - it raises (a [ValueError] from pathlib) exactly on a path with no
      name and on the name ["..ckpt"];
    - a name without the marker is returned as it is, a name with the
      marker loses exactly one marker;
    - only the last component changes, and the result is a path in
      normal form whose marked form maps back to it. *)

From Stdlib Require Import Ascii.
From stdpp Require Import base tactics option list numbers strings.
From S2P Require Import Prelude PyStr PurePath.

Module PathConvention.
Import PyStr PurePath.

(** The marker extension. *)
Definition ckpt : pystr := py ".ckpt".

(** Lines 179-180: [if not filepath.suffix == ".ckpt": filepath =
    filepath.with_suffix(filepath.suffix + ".ckpt")]. *)
Definition ensure_ckpt_suffix (filepath : path) : result path :=
  if decide (¬ suffix filepath = ckpt)
  then with_suffix filepath (suffix filepath ++ ckpt)
  else Ok filepath.

(** Line 183: the message of the assertion. *)
Definition assert_msg (filepath : path) : pystr :=
  py "filepath: " ++ str filepath ++ py " must have .ckpt extension".

(** [ckpt_to_dir(filepath)] *)
Definition ckpt_to_dir (filepath : pathlike) : result path :=
  let filepath := Path filepath in
  filepath ← ensure_ckpt_suffix filepath;
  py_assert (bool_decide (suffix filepath = ckpt)) (assert_msg filepath);;
  let checkpoint_dir := with_name filepath (stem filepath) in
  checkpoint_dir.

(** The directory of a path: its last component replaced. *)
Definition sibling (p : path) (n : pystr) : path :=
  MkPath (root p) (removelast (parts p) ++ [n]).

(** The inputs on which [ckpt_to_dir] raises. *)
Definition unnameable (p : path) : Prop :=
  name p = [] ∨ name p = py "..ckpt".

#[export] Instance unnameable_dec p : Decision (unnameable p).
Proof. unfold unnameable. apply _. Defined.

(** The result in one formula: the name of the directory is the name of
    the path with one trailing marker removed, if there is one. *)
Definition dir_name (p : path) : pystr :=
  if decide (suffix p = ckpt) then stem p else name p.

(** ** The marker on a name *)

Lemma ckpt_unfold : ckpt = dot :: py "ckpt".
Proof. reflexivity. Qed.

Lemma dot_notin_ckpt : dot ∉ py "ckpt".
Proof. compute_done. Qed.

Lemma sep_notin_ckpt : sep ∉ ckpt.
Proof. compute_done. Qed.

Section marked.
Context (p : path) (n : pystr).
Hypothesis Hname : name p = n ++ ckpt.
Hypothesis Hn : n ≠ [].

Lemma suffix_marked : suffix p = ckpt.
Proof. apply (suffix_cut p n (py "ckpt")); auto using dot_notin_ckpt. Qed.

Lemma stem_marked : stem p = n.
Proof. apply (stem_cut p n (py "ckpt")); auto using dot_notin_ckpt. Qed.
End marked.

Lemma suffix_ckpt_name p : suffix p = ckpt → name p = stem p ++ ckpt.
Proof. intros H. by rewrite <-(stem_suffix p), H. Qed.

Lemma name_sibling p n : name (sibling p n) = n.
Proof. apply name_snoc. Qed.

Lemma sibling_sibling p n m : sibling (sibling p n) m = sibling p m.
Proof. unfold sibling. simpl. by rewrite removelast_snoc. Qed.

Lemma sibling_name p : name p ≠ [] → sibling p (name p) = p.
Proof.
  intros H. unfold sibling. rewrite parts_snoc_name by done. by destruct p.
Qed.

Lemma sibling_wf p n : path_wf p → part_ok n → path_wf (sibling p n).
Proof.
  intros [Hr Hp] Hn. split; [done|]. simpl.
  apply Forall_app. split; [auto with py|]. by apply Forall_singleton.
Qed.

(** The suffix line 180 hands to [with_suffix] is one it accepts. *)
Lemma suffix_ckpt_ok p : sep ∉ suffix p → suffix_ok (suffix p ++ ckpt).
Proof.
  intros Hs. split.
  - rewrite not_elem_of_app. split; [done | apply sep_notin_ckpt].
  - right. destruct (suffix_shape p) as [-> | (ext & -> & Hext & _)].
    + by exists "c"%char, (py "kpt").
    + destruct ext as [|c ext]; [done|]. by exists c, (ext ++ ckpt).
Qed.

Lemma suffix_no_sep p : path_wf p → name p ≠ [] → sep ∉ suffix p.
Proof.
  intros Hwf Hn. destruct (part_ok_name p Hwf Hn) as (_ & _ & H).
  rewrite <-(stem_suffix p), not_elem_of_app in H. tauto.
Qed.

(** ** Lines 179-180 *)

(** Whatever path comes out of lines 179-180 carries the marker. *)
Lemma ensure_ckpt_suffix_suffix p q :
  ensure_ckpt_suffix p = Ok q → suffix q = ckpt.
Proof.
  unfold ensure_ckpt_suffix. case_decide as Hs.
  - intros (_ & Hn & ->)%with_suffix_inv.
    apply (suffix_marked _ (stem p ++ suffix p)).
    + by rewrite name_snoc, app_assoc.
    + rewrite stem_suffix. done.
  - intros [= <-]. by destruct (decide (suffix p = ckpt)).
Qed.

Lemma ensure_ckpt_suffix_marked p :
  suffix p = ckpt → ensure_ckpt_suffix p = Ok p.
Proof. intros H. unfold ensure_ckpt_suffix. rewrite decide_False; [done|tauto]. Qed.

Lemma ensure_ckpt_suffix_unmarked p :
  path_wf p → name p ≠ [] → suffix p ≠ ckpt →
  ensure_ckpt_suffix p = Ok (sibling p (name p ++ ckpt)).
Proof.
  intros Hwf Hn Hs. unfold ensure_ckpt_suffix. rewrite decide_True by done.
  rewrite with_suffix_Ok; [|by apply suffix_ckpt_ok, suffix_no_sep|done].
  by rewrite app_assoc, stem_suffix.
Qed.

Lemma ensure_ckpt_suffix_noname p :
  name p = [] → ∃ msg, ensure_ckpt_suffix p = Raise (ValueError msg).
Proof.
  intros Hn. unfold ensure_ckpt_suffix.
  assert (suffix p = []) as Hs.
  { apply suffix_no_ext. rewrite Hn. unfold has_ext, len. simpl. lia. }
  rewrite decide_True by (by rewrite Hs). apply with_suffix_Raise. auto.
Qed.

(** ** The function on every input *)

(** After line 183 the function is [with_name] on the stem. *)
Lemma ckpt_to_dir_unfold x :
  ckpt_to_dir x =
  q ← ensure_ckpt_suffix (Path x); with_name q (stem q).
Proof.
  unfold ckpt_to_dir. destruct (ensure_ckpt_suffix (Path x)) as [q|e] eqn:E; [|done].
  simpl. by rewrite (ensure_ckpt_suffix_suffix _ _ E), bool_decide_eq_true_2.
Qed.

(** Both ways the function can raise are pathlib refusing a name. *)
Lemma ckpt_to_dir_Raise_inv x e :
  ckpt_to_dir x = Raise e → ∃ msg, e = ValueError msg.
Proof.
  rewrite ckpt_to_dir_unfold.
  intros [H | (q & _ & H)]%bind_eq_Raise.
  - unfold ensure_ckpt_suffix in H. case_decide; [|done].
    unfold with_suffix in H. repeat case_match; simplify_eq; eauto.
  - unfold with_name in H. repeat case_match; simplify_eq; eauto.
Qed.

(** A path whose name does not end in the marker is its own directory:
    the marker is appended and stripped again. *)
Lemma ckpt_to_dir_unmarked (x : pathlike) :
  name (Path x) ≠ [] → suffix (Path x) ≠ ckpt →
  ckpt_to_dir x = Ok (Path x).
Proof.
  intros Hn Hs. pose proof (Path_wf x) as Hwf. rewrite ckpt_to_dir_unfold.
  rewrite ensure_ckpt_suffix_unmarked by done. simpl.
  rewrite (stem_marked _ (name (Path x))) by (by rewrite ?name_sibling).
  rewrite with_name_Ok.
  - f_equal. change (MkPath ?r (removelast ?ps ++ [?n])) with (sibling (MkPath r ps) n).
    change (MkPath _ _) with (sibling (Path x) (name (Path x) ++ ckpt)) at 1.
    by rewrite sibling_sibling, sibling_name.
  - rewrite name_sibling. by destruct (name (Path x)).
  - by apply part_ok_name.
Qed.

(** A path whose name ends in the marker loses exactly that marker: the
    directory is the sibling named by the stem. *)
Lemma ckpt_to_dir_marked (x : pathlike) :
  suffix (Path x) = ckpt → stem (Path x) ≠ [dot] →
  ckpt_to_dir x = Ok (sibling (Path x) (stem (Path x))).
Proof.
  intros Hs Hd. pose proof (Path_wf x) as Hwf. rewrite ckpt_to_dir_unfold.
  rewrite ensure_ckpt_suffix_marked by done. simpl.
  assert (name (Path x) ≠ []) as Hn.
  { rewrite (suffix_ckpt_name _ Hs). by destruct (stem (Path x)). }
  apply with_name_Ok; [done|].
  split_and!; [by apply stem_nonempty | done | by apply stem_no_sep].
Qed.

Lemma not_unnameable p :
  ¬ unnameable p ↔ name p ≠ [] ∧ name p ≠ py "..ckpt".
Proof. unfold unnameable. tauto. Qed.

Lemma stem_dot_iff p : suffix p = ckpt → stem p = [dot] ↔ name p = py "..ckpt".
Proof.
  intros Hs. rewrite (suffix_ckpt_name _ Hs). split.
  - by intros ->.
  - intros H. by apply (app_inv_tail ckpt).
Qed.

Lemma ckpt_to_dir_unnameable x :
  unnameable (Path x) → ∃ msg, ckpt_to_dir x = Raise (ValueError msg).
Proof.
  rewrite ckpt_to_dir_unfold. intros [Hn | Hn].
  - destruct (ensure_ckpt_suffix_noname _ Hn) as [msg ->]. eauto.
  - assert (suffix (Path x) = ckpt) as Hs.
    { by apply (suffix_marked _ [dot]). }
    rewrite ensure_ckpt_suffix_marked by done. simpl.
    apply with_name_Raise. right. intros (_ & Hd & _). apply Hd.
    by apply stem_dot_iff.
Qed.

Lemma ckpt_to_dir_is_ok (x : pathlike) :
  is_ok (ckpt_to_dir x) = false ↔ unnameable (Path x).
Proof.
  split.
  - intros Hr. destruct (decide (unnameable (Path x))) as [|Hu]; [done|].
    apply not_unnameable in Hu as [Hn Hd]. exfalso.
    destruct (decide (suffix (Path x) = ckpt)) as [Hs|Hs].
    + rewrite ckpt_to_dir_marked in Hr; [done..|]. by rewrite stem_dot_iff.
    + by rewrite ckpt_to_dir_unmarked in Hr.
  - intros Hu. by destruct (ckpt_to_dir_unnameable x Hu) as [msg ->].
Qed.

Lemma ckpt_to_dir_Ok x d :
  ckpt_to_dir x = Ok d → d = sibling (Path x) (dir_name (Path x)) ∧
  name (Path x) ≠ [] ∧ part_ok (dir_name (Path x)).
Proof.
  intros Hd. assert (¬ unnameable (Path x)) as Hu.
  { rewrite <-ckpt_to_dir_is_ok, Hd. done. }
  apply not_unnameable in Hu as [Hn Hdot].
  pose proof (Path_wf x) as Hp. unfold dir_name. case_decide as Hs.
  - rewrite ckpt_to_dir_marked in Hd; [|by rewrite ?stem_dot_iff..].
    injection Hd as <-. split_and!; [done..|].
    split_and!; [by apply stem_nonempty | by rewrite stem_dot_iff | by apply stem_no_sep].
  - rewrite ckpt_to_dir_unmarked in Hd by done. injection Hd as <-.
    split_and!; [by rewrite sibling_name | done | by apply part_ok_name].
Qed.

(** The directory is a path in normal form, and has a name. *)
Lemma ckpt_to_dir_Ok_wf (x : pathlike) (d : path) :
  ckpt_to_dir x = Ok d → path_wf d ∧ name d ≠ [].
Proof.
  intros (-> & Hn & Hok)%ckpt_to_dir_Ok. split.
  - by apply sibling_wf; [apply Path_wf|].
  - rewrite name_sibling. by destruct Hok.
Qed.

(** ** The theorems *)

(** C21. The assertion of line 183 never fails: whatever the argument,
    [ckpt_to_dir] does not end in an [AssertionError]; what it raises
    is a [ValueError] of pathlib. *)
Theorem ckpt_to_dir_assertion_dead (x : pathlike) (e : exn) :
  ckpt_to_dir x = Raise e → class_of e = CValueError.
Proof. by intros [msg ->]%ckpt_to_dir_Raise_inv. Qed.

(** C22. The graph of [ckpt_to_dir], on strings and on path objects.
    It raises exactly on a path without a name ([""], ["."], ["/"]) and
    on the name ["..ckpt"], whose stem ["."] pathlib refuses as a name.
    On every other path the directory is the path with its name replaced
    by [dir_name]: the name itself when it does not end in the marker,
    the name without one trailing marker when it does. *)
Theorem ckpt_to_dir_graph (x : pathlike) :
  if decide (unnameable (Path x))
  then ∃ msg, ckpt_to_dir x = Raise (ValueError msg)
  else ckpt_to_dir x = Ok (sibling (Path x) (dir_name (Path x))) ∧
       (suffix (Path x) ≠ ckpt → ckpt_to_dir x = Ok (Path x)).
Proof.
  case_decide as Hu; [by apply ckpt_to_dir_unnameable|].
  destruct (ckpt_to_dir x) as [d|e] eqn:Hd.
  - apply ckpt_to_dir_Ok in Hd as (-> & Hn & _). split; [done|].
    intros Hs. unfold dir_name. by rewrite decide_False, sibling_name.
  - destruct Hu. apply ckpt_to_dir_is_ok. by rewrite Hd.
Qed.

(** C23. The directory is a path in normal form, whatever the argument,
    with the same root and the same parent components as the path the
    argument denotes: only the name changes, and it is never empty. *)
Theorem ckpt_to_dir_wf (x : pathlike) (d : path) :
  ckpt_to_dir x = Ok d →
  path_wf d ∧ root d = root (Path x) ∧
  removelast (parts d) = removelast (parts (Path x)) ∧ name d ≠ [].
Proof.
  intros Hd. destruct (ckpt_to_dir_Ok_wf x d Hd) as [Hp Hn].
  apply ckpt_to_dir_Ok in Hd as (-> & _ & _).
  split_and!; [done..|simpl; by rewrite removelast_snoc|done].
Qed.

(** ** Strings and path objects *)

(** An argument given as a string and the same path given as a
    [Path] object have the same directory (or raise alike). *)
Theorem ckpt_to_dir_fspath (x : pathlike) :
  ckpt_to_dir (PStr (fspath x)) = ckpt_to_dir x.
Proof. rewrite !ckpt_to_dir_unfold. by rewrite Path_fspath. Qed.

(** The marked form of a directory: [str(d) + ".ckpt"], parsed. *)
Lemma parse_marked d :
  path_wf d → name d ≠ [] →
  parse (str d ++ ckpt) = sibling d (name d ++ ckpt).
Proof.
  intros Hwf Hn. rewrite str_app_name by done. apply parse_str.
  apply (sibling_wf d); [done|].
  destruct (part_ok_name d Hwf Hn) as (? & ? & ?).
  apply part_ok_app_suffix; [done..| |done].
  split; [apply sep_notin_ckpt|]. right. by exists "c"%char, (py "kpt").
Qed.

(** C24. The marker names the directory it was stripped to: for every
    directory [d] the function returns, [str(d) + ".ckpt"] maps back to
    [d]. *)
Theorem ckpt_to_dir_marker_roundtrip (x : pathlike) (d : path) :
  ckpt_to_dir x = Ok d →
  ckpt_to_dir (PStr (str d ++ ckpt)) = Ok d.
Proof.
  intros (Hd & Hn)%ckpt_to_dir_Ok_wf.
  pose proof (part_ok_name d Hd Hn) as (_ & Hdot & _).
  assert (suffix (Path (PStr (str d ++ ckpt))) = ckpt ∧
          stem (Path (PStr (str d ++ ckpt))) = name d) as [Hs Hst].
  { simpl. rewrite parse_marked by done.
    split; [eapply suffix_marked | eapply stem_marked]; by rewrite ?name_sibling. }
  rewrite ckpt_to_dir_marked, Hst; [|done|by rewrite Hst].
  simpl. by rewrite parse_marked, sibling_sibling, sibling_name.
Qed.

(** ** Concrete identifiers *)

Example ckpt_to_dir_step10 :
  ckpt_to_dir (PStr "step10.ckpt") = Ok (parse "step10") ∧
  ckpt_to_dir (PStr "step10") = Ok (parse "step10") ∧
  ckpt_to_dir (PStr "/runs//x/./model.pt") = Ok (parse "/runs/x/model.pt").
Proof. by vm_compute. Qed.

(** [ckpt_to_dir] is not idempotent: it strips one marker per call,
    so a name that carries two has a directory that is itself marked. *)
Example ckpt_to_dir_not_idempotent :
  ckpt_to_dir (PStr "a.ckpt.ckpt") = Ok (parse "a.ckpt") ∧
  ckpt_to_dir (PPath (parse "a.ckpt")) = Ok (parse "a").
Proof. by vm_compute. Qed.

(** The two kinds of argument the function refuses, with the
    exception pathlib raises for each. *)
Example ckpt_to_dir_refused :
  ckpt_to_dir (PStr "") = Raise (ValueError "PosixPath('.') has an empty name") ∧
  ckpt_to_dir (PStr "/") = Raise (ValueError "PosixPath('/') has an empty name") ∧
  ckpt_to_dir (PStr "runs/..ckpt") = Raise (ValueError "Invalid name '.'").
Proof. by vm_compute. Qed.

(** ** Witnesses *)

Lemma ckpt_to_dir_assertion_dead_witness :
  class_of (ValueError "Invalid name '.'") = CValueError.
Proof.
  apply (ckpt_to_dir_assertion_dead (PStr "..ckpt")). by vm_compute.
Defined.

Lemma ckpt_to_dir_wf_witness :
  path_wf (parse "step10") ∧ root (parse "step10") = root (Path (PStr "step10.ckpt")) ∧
  removelast (parts (parse "step10")) = removelast (parts (Path (PStr "step10.ckpt"))) ∧
  name (parse "step10") ≠ [].
Proof.
  apply (ckpt_to_dir_wf (PStr "step10.ckpt") (parse "step10")). by vm_compute.
Defined.

Lemma ckpt_to_dir_marker_roundtrip_witness :
  ckpt_to_dir (PStr (str (parse "step10") ++ ckpt)) = Ok (parse "step10").
Proof.
  apply (ckpt_to_dir_marker_roundtrip (PStr "step10")). by vm_compute.
Defined.

End PathConvention.
