(* ===== verification/CloudIO.v ===== *)
(** * Which filesystem a path selects: [get_filesystem]

    Every method of the store begins with [fs = get_filesystem(x)]
    (pl.py 88, 124, 143, 208).  [get_filesystem]
    (lightning_fabric.utilities.cloud_io) hands the string of [x] to
    fsspec, which reads the protocol off the text before the first
    ["://"], takes the local filesystem when there is none, and otherwise
    looks the protocol up in its table: a protocol that is not in the
    table is a [ValueError], a protocol whose class is in a distribution
    that is not installed an [ImportError].
    [save_checkpoint] and [is_distributed_ckpt] select with the
    directory [ckpt_to_dir] returned, a [Path]; [load_checkpoint] and
    [remove_checkpoint] select with the path as the caller gave it.

    This file models the selection ([find], [split_protocol],
    [get_filesystem_class], [get_filesystem]) and shows what the two
    ways of selecting come to: the string of a [Path] never holds
    ["://"], because pathlib collapses the two slashes, so the directory
    of a save is always on the local filesystem and its selection never
    raises, also when the caller named a remote store; the selection of
    a load or a removal raises exactly for a protocol fsspec cannot
    serve.

    Of fsspec's rule, the chaining of filesystems with ["::"] and
    [data:] URLs are left out. *)

From Stdlib Require Import Ascii.
From stdpp Require Import base tactics option list numbers strings.
From S2P Require Import Prelude PyStr PurePath PathConvention.

Module CloudIO.
Import PyStr PurePath PathConvention.

(** ** Selection *)

(** [s.find(sub)]: the index of the first occurrence, [None] for
    Python's [-1]. *)
Fixpoint find (sub s : pystr) : option nat :=
  if decide (sub `prefix_of` s) then Some 0%nat
  else match s with
       | [] => None
       | _ :: s' => S <$> find sub s'
       end.

Definition url_sep : pystr := py "://".

(** [fsspec.core.split_protocol]: a protocol of one character is taken
    for a Windows drive. *)
Definition split_protocol (urlpath : pystr) : option pystr * pystr :=
  match find url_sep urlpath with
  | Some i =>
      let protocol := take i urlpath in
      if decide (1 < length protocol)%nat
      then (Some protocol, drop (i + length url_sep) urlpath)
      else (None, urlpath)
  | None => (None, urlpath)
  end.

(** The protocol a path names; [None] when it names none. *)
Definition protocol_of (path : pathlike) : option pystr :=
  (split_protocol (fspath path)).1.

Definition not_known_msg (protocol : pystr) : pystr :=
  py "Protocol not known: " ++ protocol.

Section environment.
Context `{SP : site_packages}.

(** [fsspec.registry.get_filesystem_class(protocol)], as far as it can
    fail: the class itself is not modelled. *)
Definition get_filesystem_class (protocol : pystr) : result unit :=
  match known_implementations protocol with
  | None => Raise (ValueError (not_known_msg protocol))
  | Some Builtin => Ok tt
  | Some (Package package err) =>
      if installed package then Ok tt else Raise (ImportError err)
  end.

(** [get_filesystem(path)]: the protocol of the filesystem that serves
    [path]; [None] is the local one, which is always there. *)
Definition get_filesystem (path : pathlike) : result (option pystr) :=
  match protocol_of path with
  | None => Ok None
  | Some protocol => get_filesystem_class protocol;; Ok (Some protocol)
  end.

End environment.

(** Two separators next to each other somewhere in the string. *)
Fixpoint dslash (s : pystr) : bool :=
  match s with
  | a :: (b :: _) as t => bool_decide (a = sep ∧ b = sep) || dslash t
  | _ => false
  end.

(** ** [find] *)

Lemma find_here sub s : sub `prefix_of` s → find sub s = Some 0%nat.
Proof. intros Hp. destruct s; simpl; by rewrite decide_True. Qed.

Lemma find_later sub x s :
  ¬ sub `prefix_of` x :: s → find sub (x :: s) = S <$> find sub s.
Proof. intros Hp. simpl. by rewrite decide_False. Qed.

Lemma find_None sub s : find sub s = None ↔ ∀ a b, s ≠ a ++ sub ++ b.
Proof.
  induction s as [|x s IH]; simpl.
  - case_decide as Hp; split; try done.
    + intros H. destruct Hp as [b Hb]. by destruct (H [] b).
    + intros _ a b Hs. apply Hp. symmetry in Hs.
      apply app_eq_nil in Hs as [_ [-> _]%app_eq_nil]. done.
  - case_decide as Hp.
    + split; [done|]. intros H. destruct Hp as [b Hb]. destruct (H [] b). done.
    + rewrite fmap_None, IH. split.
      * intros H [|y a] b Hs; [apply Hp; by exists b|].
        injection Hs as -> Hs. by apply (H a b).
      * intros H a b ->. by apply (H (x :: a) b).
Qed.

Lemma find_Some sub s i :
  find sub s = Some i →
  ∃ b, s = take i s ++ sub ++ b ∧ length (take i s) = i ∧
       ∀ a' b', s = a' ++ sub ++ b' → (i ≤ length a')%nat.
Proof.
  revert i. induction s as [|x s IH]; intros i; simpl.
  - case_decide as Hp; [|done]. intros [= <-]. destruct Hp as [b Hb].
    exists b. split_and!; [done..|]. intros. lia.
  - case_decide as Hp.
    + intros [= <-]. destruct Hp as [b Hb]. exists b. split_and!; [done..|]. intros. lia.
    + intros (j & (b & Hs & Hl & Hmin)%IH & ->)%fmap_Some. exists b. simpl.
      split_and!; [by rewrite <-Hs|by rewrite Hl|].
      intros [|y a'] b' Ha; [destruct Hp; by exists b'|].
      injection Ha as -> Ha. apply Hmin in Ha. simpl. lia.
Qed.

(** The first occurrence of the separator after a protocol name. *)
Lemma find_url proto rest :
  sep ∉ proto → find url_sep (proto ++ url_sep ++ rest) = Some (length proto).
Proof.
  induction proto as [|x proto IH]; intros Hsep.
  - apply find_here. by exists rest.
  - apply not_elem_of_cons in Hsep as [Hx Hp]. cbn [app].
    rewrite find_later; [by rewrite IH|].
    intros [b Hb]. injection Hb as -> Hb.
    destruct proto as [|y proto]; [done|]. injection Hb as -> _.
    apply Hp. left.
Qed.

Lemma split_protocol_url proto rest :
  sep ∉ proto → (1 < length proto)%nat →
  split_protocol (proto ++ url_sep ++ rest) = (Some proto, rest).
Proof.
  intros Hsep Hlen. unfold split_protocol. rewrite find_url by done.
  rewrite take_app_length, decide_True by done.
  by rewrite <-drop_drop, !drop_app_length.
Qed.

Lemma split_protocol_None s : find url_sep s = None → split_protocol s = (None, s).
Proof. unfold split_protocol. by intros ->. Qed.

(** ** The string of a path holds no ["://"] *)

Lemma dslash_cons x s :
  dslash (x :: s) = bool_decide (x = sep) && startswith sep s || dslash s.
Proof.
  destruct s as [|y s]; simpl; [by rewrite andb_false_r|].
  by rewrite bool_decide_and.
Qed.

Lemma dslash_notin w t : sep ∉ w → dslash (w ++ t) = dslash t.
Proof.
  induction w as [|x w IH]; [done|]. intros [Hx Hw]%not_elem_of_cons.
  cbn [app]. by rewrite dslash_cons, bool_decide_eq_false_2, IH.
Qed.

Lemma dslash_infix a b : dslash (a ++ sep :: sep :: b) = true.
Proof.
  induction a as [|x a IH]; [done|].
  cbn [app]. by rewrite dslash_cons, IH, orb_true_r.
Qed.

Lemma dslash_join ps : Forall part_ok ps → dslash (join sep ps) = false.
Proof.
  induction 1 as [|w ws (_ & _ & Hw) Hws IH]; [done|].
  destruct ws as [|w' ws].
  - cbn [join]. rewrite <-(app_nil_r w). by rewrite dslash_notin.
  - rewrite join_cons, dslash_notin, dslash_cons, IH by done.
    by rewrite startswith_join_parts.
Qed.

(** Past its first character, the string of a path has no two
    separators in a row. *)
Lemma dslash_str p : path_wf p → dslash (tail (str p)) = false.
Proof.
  destruct p as [r ps]. intros [Hr Hps]. simpl in *. unfold str. simpl.
  pose proof (dslash_join ps Hps) as Hj.
  pose proof (startswith_join_parts ps Hps) as Hs.
  case_decide as Hnil; [done|].
  destruct Hr as [-> | [-> | ->]]; cbn [app tail].
  - destruct (join sep ps) as [|x s]; [done|]. cbn [tail].
    rewrite dslash_cons in Hj. by apply orb_false_elim in Hj as [_ ?].
  - done.
  - by rewrite dslash_cons, Hs, Hj.
Qed.

Lemma find_url_sep_str p : path_wf p → find url_sep (str p) = None.
Proof.
  intros Hwf. apply find_None. intros a b Hs.
  pose proof (dslash_str p Hwf) as Hd. rewrite Hs in Hd.
  destruct a as [|x a]; [done|]. cbn [app tail] in Hd.
  assert (a ++ url_sep ++ b = (a ++ [":"%char]) ++ sep :: sep :: b) as Heq
    by (by rewrite <-app_assoc).
  by rewrite Heq, dslash_infix in Hd.
Qed.

Lemma split_protocol_str p : path_wf p → split_protocol (str p) = (None, str p).
Proof. intros Hwf. by apply split_protocol_None, find_url_sep_str. Qed.

Lemma protocol_of_url proto rest :
  sep ∉ proto → (1 < length proto)%nat →
  protocol_of (PStr (proto ++ url_sep ++ rest)) = Some proto.
Proof. intros. unfold protocol_of. cbn [fspath]. by rewrite split_protocol_url. Qed.

(** ** What the selection returns and when it raises *)

Section selection.
Context `{SP : site_packages}.
Implicit Types (p : pathlike) (d : path) (protocol : pystr).

(** Every failure to find a class is one of two: the protocol is not in
    the table, or the distribution of its class is missing. *)
Lemma get_filesystem_class_Raise protocol e :
  get_filesystem_class protocol = Raise e ↔
  (known_implementations protocol = None ∧ e = ValueError (not_known_msg protocol)) ∨
  ∃ package err, known_implementations protocol = Some (Package package err) ∧
                 installed package = false ∧ e = ImportError err.
Proof.
  unfold get_filesystem_class.
  destruct (known_implementations protocol) as [[|package err]|] eqn:Hk.
  - split; [done|]. by intros [[? _]|(? & ? & ? & _)].
  - destruct (installed package) eqn:Hi.
    + split; [done|]. intros [[? _]|(? & ? & ? & ? & _)]; congruence.
    + split; [intros [= <-]; right; eauto|].
      intros [[? _]|(? & ? & ? & ? & ->)]; congruence.
  - split; [intros [= <-]; by left|]. by intros [[_ ->]|(? & ? & ? & _)].
Qed.

Lemma get_filesystem_local p : protocol_of p = None → get_filesystem p = Ok None.
Proof. unfold get_filesystem. by intros ->. Qed.

(** The filesystem selected is the one of the protocol the path names. *)
Lemma get_filesystem_Ok p o : get_filesystem p = Ok o → o = protocol_of p.
Proof.
  unfold get_filesystem. destruct (protocol_of p) as [protocol|]; [|congruence].
  destruct (get_filesystem_class protocol); simpl; congruence.
Qed.

Lemma get_filesystem_Raise p e :
  get_filesystem p = Raise e ↔
  ∃ protocol, protocol_of p = Some protocol ∧ get_filesystem_class protocol = Raise e.
Proof.
  unfold get_filesystem. destruct (protocol_of p) as [protocol|].
  - destruct (get_filesystem_class protocol) as [[]|e'] eqn:Hc; simpl.
    + split; [done|]. intros (? & [= <-] & ?). congruence.
    + split; [intros [= <-]; eauto|]. intros (? & [= <-] & ?). congruence.
  - split; [done|]. by intros (? & ? & _).
Qed.

(** A path object selects the local filesystem. *)
Lemma get_filesystem_path d : path_wf d → get_filesystem (PPath d) = Ok None.
Proof.
  intros Hd. apply get_filesystem_local. unfold protocol_of. cbn [fspath].
  by rewrite split_protocol_str.
Qed.

Lemma get_filesystem_dir p d : ckpt_to_dir p = Ok d → get_filesystem (PPath d) = Ok None.
Proof. intros [Hd _]%ckpt_to_dir_Ok_wf. by apply get_filesystem_path. Qed.

(** C19. The directory of a save is on the local filesystem, whatever
    path the caller gave and whatever fsspec can serve: [get_filesystem]
    finds no protocol in the string of the path [ckpt_to_dir] returns,
    so it consults no table and never raises. *)
Theorem ckpt_to_dir_local p d :
  ckpt_to_dir p = Ok d →
  get_filesystem (PPath d) = Ok None ∧ split_protocol (str d) = (None, str d).
Proof.
  intros [Hd _]%ckpt_to_dir_Ok_wf.
  split; [by apply get_filesystem_path|by apply split_protocol_str].
Qed.

(** The path as given selects by its protocol, and the selection raises
    when fsspec cannot serve it. *)
Lemma get_filesystem_url proto rest :
  sep ∉ proto → (1 < length proto)%nat →
  get_filesystem (PStr (proto ++ url_sep ++ rest)) =
    (get_filesystem_class proto;; Ok (Some proto)).
Proof. intros. unfold get_filesystem. by rewrite protocol_of_url. Qed.

End selection.

(** The directory of a save to a URL, and the selections of the URL
    itself: with everything installed, without the distribution of the
    protocol, and with a protocol fsspec does not know. *)
Lemma ckpt_to_dir_local_witness :
  (get_filesystem (SP:=without_megatron) (PPath (parse "s3:/bucket/step10")) = Ok None ∧
   split_protocol (str (parse "s3:/bucket/step10")) = (None, py "s3:/bucket/step10")) ∧
  get_filesystem (SP:=with_megatron) (PStr "s3://bucket/step10.ckpt") = Ok (Some (py "s3")) ∧
  get_filesystem (SP:=SitePackages (λ name, bool_decide (name ≠ py "s3fs")) fsspec_known)
    (PStr "s3://bucket/step10.ckpt") = Raise (ImportError "Install s3fs to access S3") ∧
  get_filesystem (SP:=with_megatron) (PStr "ceph://pool/step10.ckpt") =
    Raise (ValueError "Protocol not known: ceph").
Proof.
  split; [|by vm_compute].
  apply (ckpt_to_dir_local (PStr "s3://bucket/step10.ckpt")). by vm_compute.
Defined.

End CloudIO.
