(* ===== verification/Payload.v ===== *)
(** * The checkpoint payload

    A checkpoint is a [Dict[str, Any]]: dictionaries and lists nested to
    any depth, with tensors and other objects at the leaves.  [value] is
    that tree.  A dictionary is the list of its items in insertion order
    (Python dictionaries keep it); [dict_wf] says its keys are distinct.
    A tensor is its contents and the device it lives on, which is all the
    device pass looks at or changes.

    [dict_list_map_outplace] is the traversal the device pass is written
    with (it belongs to the serialization backend's utilities): it
    rebuilds dictionaries and lists and applies the function to
    everything else, tuples included, without looking inside.

    The induction principle [value_ind] gives the hypothesis for every
    item of a container, which the generated one does not. *)

From Stdlib Require Import Ascii.
From stdpp Require Import base tactics option list numbers strings.
From S2P Require Import Prelude.

Module Payload.

(** [torch.device]: a type and, for accelerators, an index. *)
Inductive device_type : Type := cpu | cuda | meta.

#[export] Instance device_type_eq_dec : EqDecision device_type.
Proof. solve_decision. Defined.

Record device : Type := Device { dev_type : device_type; dev_index : option nat }.

#[export] Instance device_eq_dec : EqDecision device.
Proof. solve_decision. Defined.

(** [torch.Tensor], as far as placement is concerned. *)
Record tensor : Type := Tensor { data : list Z; dev : device }.

#[export] Instance tensor_eq_dec : EqDecision tensor.
Proof. solve_decision. Defined.

(** [t.is_cuda] *)
Definition is_cuda (t : tensor) : bool := bool_decide (dev_type (dev t) = cuda).

(** [t.to(d)]: the same contents on device [d]. *)
Definition to (t : tensor) (d : device) : tensor := Tensor (data t) d.

#[local] Unset Elimination Schemes.

Inductive value : Type :=
| VDict (items : list (pystr * value))
| VList (elems : list value)
| VTuple (elems : list value)
| VTensor (t : tensor)
| VObj (repr : pystr).

#[local] Set Elimination Schemes.

(** ** Induction over payloads *)

Section value_ind.
Context (P : value → Prop).
Hypothesis Hdict : ∀ items, Forall (λ kv, P kv.2) items → P (VDict items).
Hypothesis Hlist : ∀ elems, Forall P elems → P (VList elems).
Hypothesis Htuple : ∀ elems, Forall P elems → P (VTuple elems).
Hypothesis Htensor : ∀ t, P (VTensor t).
Hypothesis Hobj : ∀ r, P (VObj r).

Fixpoint value_ind (v : value) : P v :=
  match v with
  | VDict items =>
      Hdict items
        ((fix go (l : list (pystr * value)) : Forall (λ kv, P kv.2) l :=
            match l with
            | [] => Forall_nil_2 _
            | kv :: l' => Forall_cons_2 _ kv l' (value_ind kv.2) (go l')
            end) items)
  | VList elems =>
      Hlist elems
        ((fix go (l : list value) : Forall P l :=
            match l with
            | [] => Forall_nil_2 _
            | x :: l' => Forall_cons_2 _ x l' (value_ind x) (go l')
            end) elems)
  | VTuple elems =>
      Htuple elems
        ((fix go (l : list value) : Forall P l :=
            match l with
            | [] => Forall_nil_2 _
            | x :: l' => Forall_cons_2 _ x l' (value_ind x) (go l')
            end) elems)
  | VTensor t => Htensor t
  | VObj r => Hobj r
  end.
End value_ind.

#[export] Instance value_eq_dec : EqDecision value.
Proof.
  refine (fix go (v w : value) {struct v} : Decision (v = w) :=
    let _ : EqDecision value := go in
    match v, w with
    | VDict i, VDict i' => cast_if (decide (i = i'))
    | VList l, VList l' => cast_if (decide (l = l'))
    | VTuple l, VTuple l' => cast_if (decide (l = l'))
    | VTensor t, VTensor t' => cast_if (decide (t = t'))
    | VObj r, VObj r' => cast_if (decide (r = r'))
    | _, _ => right _
    end); congruence.
Defined.

(** ** The out-of-place map *)

(** [dict_list_map_outplace(f, x)] *)
Fixpoint dict_list_map_outplace (f : value → value) (x : value) : value :=
  match x with
  | VDict items => VDict (map (λ '(k, v), (k, dict_list_map_outplace f v)) items)
  | VList elems => VList (map (dict_list_map_outplace f) elems)
  | _ => f x
  end.

(** ** What a traversal can and cannot change *)

(** The key lists of all dictionaries of a payload, outermost first. *)
Fixpoint all_keys (v : value) : list (list pystr) :=
  match v with
  | VDict items => map fst items :: concat (map (λ '(k, x), all_keys x) items)
  | VList elems | VTuple elems => concat (map all_keys elems)
  | _ => []
  end.

(** The keys of every dictionary are distinct. *)
Definition dict_wf (v : value) : Prop := Forall NoDup (all_keys v).

#[export] Instance dict_wf_dec v : Decision (dict_wf v).
Proof. unfold dict_wf. apply _. Defined.

(** The leaves the traversal reaches, left to right: everything that is
    neither a dictionary nor a list. *)
Fixpoint leaves (v : value) : list value :=
  match v with
  | VDict items => concat (map (λ '(k, x), leaves x) items)
  | VList elems => concat (map leaves elems)
  | _ => [v]
  end.

(** The payload with every leaf replaced by the unit object: its
    containers, keys and order. *)
Definition shape (v : value) : value :=
  dict_list_map_outplace (λ _, VObj []) v.

(** ** Lemmas *)

Lemma map_items_ext (f g : value → value) (items : list (pystr * value)) :
  Forall (λ kv, f kv.2 = g kv.2) items →
  map (λ '(k, v), (k, f v)) items = map (λ '(k, v), (k, g v)) items.
Proof.
  induction 1 as [|[k v] l Hv _ IH]; simpl in *; [done|]. by rewrite Hv, IH.
Qed.

Lemma map_elems_ext (f g : value → value) (elems : list value) :
  Forall (λ v, f v = g v) elems → map f elems = map g elems.
Proof. induction 1 as [|v l Hv _ IH]; simpl; [done|]. by rewrite Hv, IH. Qed.

Lemma map_items_compose (f g : value → value) (items : list (pystr * value)) :
  map (λ '(k, v), (k, f v)) (map (λ '(k, v), (k, g v)) items) =
  map (λ '(k, v), (k, f (g v))) items.
Proof. induction items as [|[k v] l IH]; simpl; [done|]. by rewrite IH. Qed.

Lemma map_items_keys (f : value → value) (items : list (pystr * value)) :
  map fst (map (λ '(k, v), (k, f v)) items) = map fst items.
Proof. induction items as [|[k v] l IH]; simpl; [done|]. by rewrite IH. Qed.

(** Two functions that agree on the leaves give the same map. *)
Lemma dict_list_map_outplace_ext f g v :
  Forall (λ x, f x = g x) (leaves v) →
  dict_list_map_outplace f v = dict_list_map_outplace g v.
Proof.
  induction v as [items IH|elems IH|elems _|t|r] using value_ind; simpl; intros H;
    try (by inversion_clear H).
  - f_equal. apply map_items_ext.
    induction IH as [|[k v] l Hv _ IHl]; simpl in *; [done|].
    apply Forall_app in H as [H1 H2]. constructor; auto.
  - f_equal. apply map_elems_ext.
    induction IH as [|v l Hv _ IHl]; simpl in *; [done|].
    apply Forall_app in H as [H1 H2]. constructor; auto.
Qed.

(** A function that maps leaves to leaves composes under the map. *)
Definition leaf (v : value) : Prop :=
  match v with VDict _ | VList _ => False | _ => True end.

Lemma leaves_leaf v : Forall leaf (leaves v).
Proof.
  induction v as [items IH|elems IH|elems _|t|r] using value_ind; simpl;
    try (by repeat constructor).
  - induction IH as [|[k v] l Hv _ IHl]; simpl in *; [done|].
    apply Forall_app. auto.
  - induction IH as [|v l Hv _ IHl]; simpl in *; [done|].
    apply Forall_app. auto.
Qed.

Lemma dict_list_map_outplace_leaf f v :
  leaf v → dict_list_map_outplace f v = f v.
Proof. by destruct v. Qed.

Lemma dict_list_map_outplace_compose f g v :
  (∀ x, leaf x → leaf (g x)) →
  dict_list_map_outplace f (dict_list_map_outplace g v) =
  dict_list_map_outplace (λ x, f (g x)) v.
Proof.
  intros Hg. induction v as [items IH|elems IH|elems _|t|r] using value_ind; simpl;
    try (by apply dict_list_map_outplace_leaf, Hg).
  - f_equal. rewrite map_items_compose. by apply map_items_ext.
  - f_equal. rewrite map_map. by apply map_elems_ext.
Qed.

Lemma dict_list_map_outplace_id f v :
  Forall (λ x, f x = x) (leaves v) → dict_list_map_outplace f v = v.
Proof.
  induction v as [items IH|elems IH|elems _|t|r] using value_ind; simpl; intros H;
    try (by inversion_clear H).
  - f_equal. induction IH as [|[k v] l Hv _ IHl]; simpl in *; [done|].
    apply Forall_app in H as [H1 H2]. by rewrite Hv, IHl.
  - f_equal. induction IH as [|v l Hv _ IHl]; simpl in *; [done|].
    apply Forall_app in H as [H1 H2]. by rewrite Hv, IHl.
Qed.

(** The leaves of a mapped payload are the mapped leaves. *)
Lemma leaves_map f v :
  (∀ x, leaf x → leaf (f x)) →
  leaves (dict_list_map_outplace f v) = map f (leaves v).
Proof.
  intros Hf. induction v as [items IH|elems IH|elems _|t|r] using value_ind; simpl.
  - induction IH as [|[k v] l Hv _ IHl]; simpl in *; [done|].
    by rewrite map_app, Hv, IHl.
  - induction IH as [|v l Hv _ IHl]; simpl in *; [done|].
    by rewrite map_app, Hv, IHl.
  - specialize (Hf (VTuple elems) I). by destruct (f (VTuple elems)).
  - specialize (Hf (VTensor t) I). by destruct (f (VTensor t)).
  - specialize (Hf (VObj r) I). by destruct (f (VObj r)).
Qed.

(** The map keeps the shape, whatever the function does to the leaves. *)
Lemma shape_map f v :
  (∀ x, leaf x → leaf (f x)) →
  shape (dict_list_map_outplace f v) = shape v.
Proof.
  intros Hf. unfold shape. by rewrite dict_list_map_outplace_compose.
Qed.

(** A function that keeps the dictionaries inside each leaf keeps all
    key lists. *)
Lemma all_keys_map f v :
  (∀ x, leaf x → all_keys (f x) = all_keys x) →
  all_keys (dict_list_map_outplace f v) = all_keys v.
Proof.
  intros Hf. induction v as [items IH|elems IH|elems _|t|r] using value_ind;
    [simpl|simpl|by apply Hf..].
  - rewrite map_items_keys. f_equal.
    induction IH as [|[k v] l Hx _ IHl]; simpl in *; [done|]. by rewrite Hx, IHl.
  - induction IH as [|v l Hx _ IHl]; simpl in *; [done|]. by rewrite Hx, IHl.
Qed.

Lemma dict_wf_map f v :
  (∀ x, leaf x → all_keys (f x) = all_keys x) →
  dict_wf v → dict_wf (dict_list_map_outplace f v).
Proof. intros Hf. unfold dict_wf. by rewrite all_keys_map. Qed.

End Payload.
