(* ===== verification/DeviceFixup.v ===== *)
(** * The device pass: [_fix_tensors_device] (pl.py 159-170)

    After a load every process moves the tensors it received onto its
    own accelerator.  The pass asserts that the accelerator runtime is
    initialised, reads the current device, imports the traversal, and
    maps [_fix_device] over the payload out of place: a tensor on an
    accelerator other than the current one is copied to the current
    one, everything else is returned as it is.

    The runtime is the part of [torch.cuda] the pass reads
    ([cuda_runtime]).  The theorems: the pass fails exactly when the
    runtime is not initialised or, after that check, the package of the
    traversal is missing; when it returns, no tensor the traversal
    reaches is on a foreign accelerator ([placed]); nothing but devices
    changes ([undevice] is kept: containers, keys, order, tensor
    contents, other leaves); the pass is idempotent and is the identity
    exactly on payloads already placed.  The traversal does not enter
    tuples, so a tensor inside a tuple stays where it was. *)

From Stdlib Require Import Ascii.
From stdpp Require Import base tactics option list numbers strings.
From S2P Require Import Prelude Payload.

Module DeviceFixup.
Import Payload.

(** What the pass reads of [torch.cuda]. *)
Record cuda_runtime : Type := CudaRuntime {
  is_available : bool;
  is_initialized : bool;
  current_device : nat
}.

(** [str((a, b))] for two booleans: the message of the assertion. *)
Definition repr_bool (b : bool) : pystr := if b then py "True" else py "False".
Definition assert_msg (rt : cuda_runtime) : pystr :=
  py "(" ++ repr_bool (is_available rt) ++ py ", " ++
  repr_bool (is_initialized rt) ++ py ")".

(** Line 162: [torch.device("cuda", index=torch.cuda.current_device())]. *)
Definition cur_dev (rt : cuda_runtime) : device :=
  Device cuda (Some (current_device rt)).

(** Lines 165-168, the local function [_fix_device(t)], closed over
    [cur_dev]. *)
Definition _fix_device (cur_dev : device) (t : value) : value :=
  match t with
  | VTensor x =>
      if is_cuda x && bool_decide (dev x ≠ cur_dev)
      then VTensor (to x cur_dev)
      else t
  | _ => t
  end.

(** [_fix_tensors_device(ckpt)]: the assertion, the current device, the
    import of the traversal (line 163), the traversal. *)
Definition _fix_tensors_device `{SP : site_packages}
    (rt : cuda_runtime) (ckpt : value) : result value :=
  py_assert (is_initialized rt) (assert_msg rt);;
  let cur_dev := cur_dev rt in
  import_megatron;;
  Ok (dict_list_map_outplace (_fix_device cur_dev) ckpt).

(** ** What the pass guarantees, as predicates *)

(** A leaf is placed for device [d] when it is not a tensor on an
    accelerator other than [d]. *)
Definition leaf_placed (d : device) (x : value) : Prop :=
  match x with
  | VTensor t => is_cuda t = true → dev t = d
  | _ => True
  end.

#[export] Instance leaf_placed_dec d x : Decision (leaf_placed d x).
Proof. destruct x; simpl; apply _. Defined.

Definition placed (d : device) (v : value) : Prop :=
  Forall (leaf_placed d) (leaves v).

#[export] Instance placed_dec d v : Decision (placed d v).
Proof. unfold placed. apply _. Defined.

(** The payload with every reachable tensor put on the CPU: all that is
    left is what a change of device cannot touch. *)
Definition on_cpu (x : value) : value :=
  match x with
  | VTensor t => VTensor (to t (Device cpu None))
  | _ => x
  end.

Definition undevice (v : value) : value := dict_list_map_outplace on_cpu v.

(** ** [_fix_device] on one leaf *)

Lemma fix_device_leaf d x : leaf x → leaf (_fix_device d x).
Proof. destruct x as [| | |t|]; simpl; try done. by case_match. Qed.

Lemma fix_device_placed d x : leaf_placed d (_fix_device d x).
Proof.
  destruct x as [| | |t|]; simpl; try done.
  destruct (is_cuda t) eqn:Hc; simpl; [|by rewrite Hc].
  case_bool_decide as Hd; simpl; [done|]. intros _.
  destruct (decide (dev t = d)); [done|]. by destruct Hd.
Qed.

Lemma fix_device_id d x : leaf_placed d x ↔ _fix_device d x = x.
Proof.
  destruct x as [| | |t|]; simpl; try done.
  destruct (is_cuda t) eqn:Hc; simpl; [|by split].
  case_bool_decide as Hd; simpl.
  - split; [intros H; by destruct Hd; apply H|].
    intros [= H] _. by rewrite <-H.
  - split; [done|]. intros _ _. by destruct (decide (dev t = d)).
Qed.

Lemma fix_device_idemp d x : _fix_device d (_fix_device d x) = _fix_device d x.
Proof. apply fix_device_id, fix_device_placed. Qed.

Lemma on_cpu_fix_device d x : on_cpu (_fix_device d x) = on_cpu x.
Proof. destruct x as [| | |t|]; simpl; try done. by case_match. Qed.

Lemma on_cpu_leaf x : leaf x → leaf (on_cpu x).
Proof. by destruct x. Qed.

Lemma all_keys_fix_device d x : all_keys (_fix_device d x) = all_keys x.
Proof. destruct x as [| | |t|]; simpl; try done. by case_match. Qed.

(** A CPU tensor and a leaf that is no tensor are returned as they are,
    whatever the current device. *)
Lemma fix_device_passthrough d x :
  (∀ t, x = VTensor t → is_cuda t = false) → _fix_device d x = x.
Proof.
  intros H. apply fix_device_id. destruct x as [| | |t|]; simpl; try done.
  by rewrite (H t eq_refl).
Qed.

(** ** The pass *)

Section pass.
Context `{SP : site_packages}.

Lemma fix_tensors_device_Ok `{MI : !Megatron} rt v :
  is_initialized rt = true →
  _fix_tensors_device rt v = Ok (dict_list_map_outplace (_fix_device (cur_dev rt)) v).
Proof.
  intros H. unfold _fix_tensors_device. by rewrite H, import_megatron_Ok.
Qed.

Lemma fix_tensors_device_inv rt v v' :
  _fix_tensors_device rt v = Ok v' →
  is_initialized rt = true ∧ v' = dict_list_map_outplace (_fix_device (cur_dev rt)) v.
Proof.
  unfold _fix_tensors_device. rewrite import_megatron_eq.
  destruct (is_initialized rt), has_megatron; simpl; try done.
  by intros [= <-].
Qed.

(** A pass that returned found the package. *)
Lemma fix_tensors_device_imported rt v v' :
  _fix_tensors_device rt v = Ok v' → Megatron.
Proof.
  unfold _fix_tensors_device, Megatron. rewrite import_megatron_eq.
  by destruct (is_initialized rt), has_megatron.
Qed.

(** C29. Every way the pass raises, in the order of its lines: the
    [AssertionError] of line 161 when the accelerator runtime is not
    initialised, whatever is installed; with an initialised runtime the
    [ModuleNotFoundError] of the import of line 163 when the package
    is missing; and nothing else. *)
Theorem fix_tensors_device_raises_iff (rt : cuda_runtime) (v : value) (e : exn) :
  _fix_tensors_device rt v = Raise e ↔
  (is_initialized rt = false ∧ e = AssertionError (assert_msg rt)) ∨
  (is_initialized rt = true ∧ has_megatron = false ∧
   e = ModuleNotFoundError (no_module_msg (py "megatron"))).
Proof.
  unfold _fix_tensors_device. rewrite import_megatron_eq.
  destruct (is_initialized rt), has_megatron; simpl;
    (split; [intros [= <-]; auto|intros [[? ->]|(? & ? & ->)]; done]).
Qed.

(** C30. After the pass no tensor the traversal reaches is on an
    accelerator other than the current one. *)
Theorem fix_tensors_device_placed (rt : cuda_runtime) (v v' : value) :
  _fix_tensors_device rt v = Ok v' → placed (cur_dev rt) v'.
Proof.
  intros [_ ->]%fix_tensors_device_inv. unfold placed.
  rewrite leaves_map by apply fix_device_leaf.
  apply Forall_fmap, Forall_true. intros x. apply fix_device_placed.
Qed.

(** C31. The pass changes nothing but devices: containers, keys, their
    order, tensor contents and all other leaves are those of the input. *)
Theorem fix_tensors_device_undevice (rt : cuda_runtime) (v v' : value) :
  _fix_tensors_device rt v = Ok v' → undevice v' = undevice v.
Proof.
  intros [_ ->]%fix_tensors_device_inv. unfold undevice.
  rewrite dict_list_map_outplace_compose by apply fix_device_leaf.
  apply dict_list_map_outplace_ext, Forall_true. intros x.
  apply on_cpu_fix_device.
Qed.

(** The pass is idempotent: run on its own result, it returns it. *)
Theorem fix_tensors_device_idempotent (rt : cuda_runtime) (v v' : value) :
  _fix_tensors_device rt v = Ok v' → _fix_tensors_device rt v' = Ok v'.
Proof.
  intros H. pose proof (fix_tensors_device_imported _ _ _ H) as MI.
  apply fix_tensors_device_inv in H as [Hi ->]. rewrite fix_tensors_device_Ok by done.
  f_equal. rewrite dict_list_map_outplace_compose by apply fix_device_leaf.
  apply dict_list_map_outplace_ext, Forall_true. intros x.
  apply fix_device_idemp.
Qed.

Lemma map_fix_device_id d v :
  dict_list_map_outplace (_fix_device d) v = v ↔ placed d v.
Proof.
  unfold placed. split.
  - intros H. rewrite <-H, leaves_map by apply fix_device_leaf.
    apply Forall_fmap, Forall_true. intros x. apply fix_device_placed.
  - intros H. apply dict_list_map_outplace_id.
    eapply Forall_impl; [done|]. intros x. apply fix_device_id.
Qed.

(** C32. The pass is the identity exactly on the payloads that are
    already placed for the current device, given an initialised
    runtime and the package of the traversal. *)
Theorem fix_tensors_device_noop_iff (rt : cuda_runtime) (v : value) :
  _fix_tensors_device rt v = Ok v ↔
  is_initialized rt = true ∧ has_megatron = true ∧ placed (cur_dev rt) v.
Proof.
  split.
  - intros H. pose proof (fix_tensors_device_imported _ _ _ H) as MI.
    apply fix_tensors_device_inv in H as [Hi Hv].
    split_and!; [done..|]. by apply map_fix_device_id.
  - intros (Hi & MI & Hp). change Megatron in MI.
    rewrite fix_tensors_device_Ok by done. f_equal. by apply map_fix_device_id.
Qed.

(** The leaves after the pass are the leaves before it, each through
    [_fix_device]. *)
Lemma fix_tensors_device_leaves rt v v' :
  _fix_tensors_device rt v = Ok v' →
  leaves v' = map (_fix_device (cur_dev rt)) (leaves v).
Proof.
  intros [_ ->]%fix_tensors_device_inv. apply leaves_map, fix_device_leaf.
Qed.

(** The pass keeps the payload well formed: the keys of every
    dictionary stay distinct. *)
Theorem fix_tensors_device_dict_wf (rt : cuda_runtime) (v v' : value) :
  dict_wf v → _fix_tensors_device rt v = Ok v' → dict_wf v'.
Proof.
  intros Hwf [_ ->]%fix_tensors_device_inv.
  apply dict_wf_map; [|done]. intros x _. apply all_keys_fix_device.
Qed.

(** C33. The traversal does not enter tuples: a tuple it reaches is in
    the result at the same place and as it was, so a tensor on a foreign
    accelerator inside a tuple stays on it. *)
Theorem fix_tensors_device_tuples (rt : cuda_runtime) (v v' : value) i elems :
  _fix_tensors_device rt v = Ok v' →
  leaves v !! i = Some (VTuple elems) → leaves v' !! i = Some (VTuple elems).
Proof.
  intros ->%fix_tensors_device_leaves Hi.
  by rewrite list_lookup_fmap, Hi.
Qed.

End pass.

(** ** Concrete payloads *)

#[local] Existing Instance with_megatron.

Definition rt0 : cuda_runtime := CudaRuntime true true 0.
Definition cold : cuda_runtime := CudaRuntime true false 0.
Definition t_on (k : nat) : value :=
  VTensor (Tensor [1; 2; 3]%Z (Device cuda (Some k))).
Definition t_cpu : value := VTensor (Tensor [4%Z] (Device cpu None)).
Definition sample : value :=
  VDict [(py "w", t_on 1); (py "opt", VList [t_cpu; t_on 0; VObj (py "step=10")])].
Definition sample_fixed : value :=
  VDict [(py "w", t_on 0); (py "opt", VList [t_cpu; t_on 0; VObj (py "step=10")])].

Example fix_tensors_device_sample :
  _fix_tensors_device rt0 sample = Ok sample_fixed ∧
  _fix_tensors_device cold sample = Raise (AssertionError "(True, False)").
Proof. by vm_compute. Qed.

(** The assertion comes before the import: without the package a cold
    runtime still raises the [AssertionError]. *)
Example fix_tensors_device_without_megatron :
  _fix_tensors_device (SP:=without_megatron) rt0 sample =
    Raise (ModuleNotFoundError "No module named 'megatron'") ∧
  _fix_tensors_device (SP:=without_megatron) cold sample =
    Raise (AssertionError "(True, False)").
Proof. by vm_compute. Qed.

(** A tensor on a foreign accelerator inside a tuple is returned where
    it was. *)
Example fix_tensors_device_tuple :
  _fix_tensors_device rt0 (VDict [(py "state", VTuple [t_on 1])]) =
  Ok (VDict [(py "state", VTuple [t_on 1])]).
Proof. by vm_compute. Qed.

(** ** Witnesses *)

Lemma fix_tensors_device_tuples_witness :
  leaves (VDict [(py "state", VTuple [t_on 1])]) !! 0 = Some (VTuple [t_on 1]).
Proof.
  apply (fix_tensors_device_tuples rt0 (VDict [(py "state", VTuple [t_on 1])]));
    by vm_compute.
Defined.

Lemma fix_tensors_device_placed_witness : placed (cur_dev rt0) sample_fixed.
Proof. apply (fix_tensors_device_placed rt0 sample). by vm_compute. Defined.

Lemma fix_tensors_device_undevice_witness : undevice sample_fixed = undevice sample.
Proof. apply (fix_tensors_device_undevice rt0 sample). by vm_compute. Defined.

Lemma fix_tensors_device_idempotent_witness :
  _fix_tensors_device rt0 sample_fixed = Ok sample_fixed.
Proof. apply (fix_tensors_device_idempotent rt0 sample). by vm_compute. Defined.

Lemma fix_tensors_device_dict_wf_witness : dict_wf sample_fixed.
Proof.
  apply (fix_tensors_device_dict_wf rt0 sample); [compute_done|by vm_compute].
Defined.

End DeviceFixup.
