(* ===== verification/FileSystem.v ===== *)
(** * The filesystem the store talks to

    The store reaches the disk through an fsspec filesystem object and
    uses four of its methods: [exists], [isdir], [makedirs(...,
    exist_ok=True)] and [rm(..., recursive=True)].  [FileSystem] is that
    interface, over any type of filesystem states, and [FileSystemLaws]
    is what the store's theorems assume of it.  Every method takes the
    path as the string [os.fspath] gives.

    [MemFS] is a filesystem that satisfies the laws: a finite map from
    absolute component lists to nodes, with a working directory against
    which relative paths are resolved.  Its invariant [tree_wf] (every
    proper ancestor of an entry is a directory) is kept by all
    operations.  It is the instance the witnesses and the end-to-end
    scenario run on. *)

From Stdlib Require Import Ascii.
From stdpp Require Import base tactics option list numbers strings gmap.
From S2P Require Import Prelude PyStr PurePath Payload.

(** ** The interface *)

Module FileSystem.

Class FileSystem (F : Type) : Type := {
  (** the states the laws speak about *)
  fs_wf : F → Prop;
  (** [fs.exists(path)] *)
  fs_exists : F → pystr → bool;
  (** [fs.isdir(path)] *)
  fs_isdir : F → pystr → bool;
  (** [fs.makedirs(path, exist_ok=...)] *)
  fs_makedirs : pystr → bool → F → result F;
  (** [fs.rm(path, recursive=...)] *)
  fs_rm : pystr → bool → F → result F
}.

Class FileSystemLaws (F : Type) `{FileSystem F} : Prop := {
  isdir_exists f p : fs_isdir f p = true → fs_exists f p = true;
  makedirs_isdir f p f' :
    fs_wf f → fs_makedirs p true f = Ok f' → fs_isdir f' p = true;
  makedirs_existing f p :
    fs_wf f → fs_isdir f p = true → fs_makedirs p true f = Ok f;
  makedirs_wf f p e f' : fs_wf f → fs_makedirs p e f = Ok f' → fs_wf f';
  rm_gone f p f' : fs_rm p true f = Ok f' → fs_exists f' p = false;
  rm_existing f p : fs_exists f p = true → is_ok (fs_rm p true f) = true;
  rm_wf f p r f' : fs_wf f → fs_rm p r f = Ok f' → fs_wf f'
}.

End FileSystem.

(** ** An in-memory filesystem *)

Module MemFS.
Import PurePath Payload FileSystem.

Inductive node : Type :=
| File (content : value)
| Dir.

#[export] Instance node_eq_dec : EqDecision node.
Proof. solve_decision. Defined.

Abbreviation key := (list pystr).

Record memfs : Type := Mem { cwd : key; tree : gmap key node }.

#[export] Instance memfs_eq_dec : EqDecision memfs.
Proof. solve_decision. Defined.

(** The absolute components a path string denotes: an absolute path
    starts at the root, a relative one at the working directory, and
    [".."] steps to the parent. *)
Definition step (acc : key) (x : pystr) : key :=
  if decide (x = py "..") then removelast acc else acc ++ [x].

Definition resolve (f : memfs) (p : pystr) : key :=
  let q := parse p in
  foldl step (if decide (root q = []) then cwd f else []) (parts q).

(** All prefixes of a key, the key itself included. *)
Definition prefixes (k : key) : list key := (λ n, take n k) <$> seq 0 (S (length k)).

Definition is_file (o : option node) : Prop := ∃ c, o = Some (File c).

#[export] Instance is_file_dec o : Decision (is_file o).
Proof.
  destruct o as [[c|]|]; [left; by exists c|right; by intros [? ?]..].
Defined.

(** Every proper ancestor of an entry is a directory. *)
Definition entry_ok (t : gmap key node) (a : key) : Prop :=
  Forall (λ b, b = a ∨ t !! b = Some Dir) (prefixes a).

Definition tree_wf (t : gmap key node) : Prop :=
  map_Forall (λ a _, entry_ok t a) t.

#[export] Instance tree_wf_dec t : Decision (tree_wf t).
Proof. unfold tree_wf, entry_ok. apply _. Defined.

Definition mem_exists (f : memfs) (p : pystr) : bool :=
  bool_decide (is_Some (tree f !! resolve f p)).

Definition mem_isdir (f : memfs) (p : pystr) : bool :=
  bool_decide (tree f !! resolve f p = Some Dir).

(** Directories at every prefix of [k]. *)
Definition mkdirs (k : key) (t : gmap key node) : gmap key node :=
  foldr (λ a t, <[a := Dir]> t) t (prefixes k).

(** [os.makedirs]: fails when a component of the path is a file, or when
    the directory is there and [exist_ok] is false. *)
Definition mem_makedirs (p : pystr) (exist_ok : bool) (f : memfs) : result memfs :=
  let k := resolve f p in
  if decide (Exists (λ a, is_file (tree f !! a)) (prefixes k)) then
    Raise (OSError (py "[Errno 20] Not a directory: " ++ repr_str p))
  else if decide (tree f !! k = Some Dir ∧ exist_ok = false) then
    Raise (OSError (py "[Errno 17] File exists: " ++ repr_str p))
  else Ok (Mem (cwd f) (mkdirs k (tree f))).

(** The entries outside the subtree at [k]. *)
Definition rmtree (k : key) (t : gmap key node) : gmap key node :=
  filter (λ '(a, _), ¬ k `prefix_of` a) t.

(** [fs.rm]: a missing path and a directory without [recursive] are
    errors. *)
Definition mem_rm (p : pystr) (recursive : bool) (f : memfs) : result memfs :=
  let k := resolve f p in
  match tree f !! k with
  | None => Raise (FileNotFoundError (py "[Errno 2] No such file or directory: " ++ repr_str p))
  | Some Dir =>
      if recursive then Ok (Mem (cwd f) (rmtree k (tree f)))
      else Raise (ValueError (py "Cannot delete directory, set recursive=True"))
  | Some (File _) => Ok (Mem (cwd f) (delete k (tree f)))
  end.

#[export] Instance memfs_fs : FileSystem memfs := {
  fs_wf f := tree_wf (tree f);
  fs_exists := mem_exists;
  fs_isdir := mem_isdir;
  fs_makedirs := mem_makedirs;
  fs_rm := mem_rm
}.

(** ** Prefixes *)

Lemma elem_of_prefixes a k : a ∈ prefixes k ↔ a `prefix_of` k.
Proof.
  unfold prefixes. rewrite list_elem_of_fmap. split.
  - intros (n & -> & _). apply prefix_take.
  - intros [r ->]. exists (length a). split.
    + by rewrite take_app_length.
    + apply elem_of_seq. rewrite length_app. lia.
Qed.

Lemma prefixes_self k : k ∈ prefixes k.
Proof. by apply elem_of_prefixes. Qed.

Lemma entry_ok_alt t a :
  entry_ok t a ↔ ∀ b, b `prefix_of` a → b ≠ a → t !! b = Some Dir.
Proof.
  unfold entry_ok. rewrite Forall_forall. split.
  - intros H b Hb Hne. destruct (H b) as [?|?]; [by apply elem_of_prefixes|done..].
  - intros H b Hb%elem_of_prefixes.
    destruct (decide (b = a)); [by left|right; auto].
Qed.

Lemma tree_wf_alt t :
  tree_wf t ↔
  ∀ a n, t !! a = Some n → ∀ b, b `prefix_of` a → b ≠ a → t !! b = Some Dir.
Proof.
  unfold tree_wf. rewrite map_Forall_lookup. split.
  - intros H a n Ha. by apply entry_ok_alt, (H a n).
  - intros H a n Ha. apply entry_ok_alt. eauto.
Qed.

(** ** [mkdirs] and [rmtree] by their lookups *)

Lemma lookup_foldr_insert (l : list key) (t : gmap key node) a :
  foldr (λ a t, <[a := Dir]> t) t l !! a =
  if decide (a ∈ l) then Some Dir else t !! a.
Proof.
  induction l as [|b l IH]; cbn [foldr].
  - by rewrite decide_False by apply not_elem_of_nil.
  - destruct (decide (b = a)) as [->|Hne].
    + rewrite lookup_insert_eq. by rewrite decide_True by left.
    + rewrite lookup_insert_ne, IH by done.
      destruct (decide (a ∈ l)).
      * by rewrite decide_True by (by right).
      * rewrite decide_False; [done|]. rewrite not_elem_of_cons. auto.
Qed.

Lemma lookup_mkdirs k t a :
  mkdirs k t !! a = if decide (a `prefix_of` k) then Some Dir else t !! a.
Proof.
  unfold mkdirs. rewrite lookup_foldr_insert.
  pose proof (elem_of_prefixes a k) as H. repeat case_decide; try done; tauto.
Qed.

Lemma lookup_rmtree k t a :
  rmtree k t !! a = if decide (k `prefix_of` a) then None else t !! a.
Proof.
  unfold rmtree. destruct (decide (k `prefix_of` a)) as [H|H].
  - apply map_lookup_filter_None. right. intros n _. simpl. tauto.
  - destruct (t !! a) as [n|] eqn:E.
    + by apply map_lookup_filter_Some.
    + apply map_lookup_filter_None. by left.
Qed.

(** A tree in which all prefixes of [k] are directories is unchanged by
    [mkdirs k]. *)
Lemma mkdirs_id k t :
  (∀ a, a `prefix_of` k → t !! a = Some Dir) → mkdirs k t = t.
Proof.
  intros H. apply map_eq. intros a. rewrite lookup_mkdirs.
  case_decide; [by rewrite H|done].
Qed.

(** ** The invariant *)

Lemma tree_wf_empty : tree_wf ∅.
Proof. apply map_Forall_empty. Qed.

Lemma mkdirs_wf k t :
  tree_wf t → ¬ Exists (λ a, is_file (t !! a)) (prefixes k) → tree_wf (mkdirs k t).
Proof.
  rewrite !tree_wf_alt, Exists_exists. intros Hwf Hnf a n Ha b Hb Hne.
  rewrite lookup_mkdirs in Ha. rewrite lookup_mkdirs.
  destruct (decide (b `prefix_of` k)) as [Hbk|Hbk]; [done|].
  destruct (decide (a `prefix_of` k)) as [Hak|Hak].
  - destruct Hbk. by etrans.
  - by apply (Hwf a n).
Qed.

Lemma rmtree_wf k t : tree_wf t → tree_wf (rmtree k t).
Proof.
  rewrite !tree_wf_alt. intros Hwf a n Ha b Hb Hne.
  rewrite lookup_rmtree in Ha. rewrite lookup_rmtree.
  destruct (decide (k `prefix_of` a)) as [Hka|Hka]; [done|].
  rewrite decide_False; [by apply (Hwf a n)|].
  intros Hkb. apply Hka. by etrans.
Qed.

(** Under the invariant a file has nothing below it, so deleting the
    entry deletes the subtree. *)
Lemma delete_file_rmtree k c t :
  tree_wf t → t !! k = Some (File c) → delete k t = rmtree k t.
Proof.
  rewrite tree_wf_alt. intros Hwf Hk. apply map_eq. intros a.
  rewrite lookup_rmtree. destruct (decide (a = k)) as [->|Hne].
  - by rewrite lookup_delete_eq, decide_True.
  - rewrite lookup_delete_ne by done. case_decide as Hka; [|done].
    destruct (t !! a) as [n|] eqn:Ha; [|done].
    assert (t !! k = Some Dir) by (apply (Hwf a n); [done..|congruence]).
    congruence.
Qed.

(** A directory's ancestors are directories. *)
Lemma dir_prefixes t k :
  tree_wf t → t !! k = Some Dir → ∀ a, a `prefix_of` k → t !! a = Some Dir.
Proof.
  rewrite tree_wf_alt. intros Hwf Hk a Ha.
  destruct (decide (a = k)) as [->|]; [done|]. by apply (Hwf k Dir).
Qed.

(** ** The laws *)

Lemma mem_isdir_true f p : mem_isdir f p = true ↔ tree f !! resolve f p = Some Dir.
Proof. unfold mem_isdir. by rewrite bool_decide_eq_true. Qed.

Lemma mem_exists_true f p : mem_exists f p = true ↔ is_Some (tree f !! resolve f p).
Proof. unfold mem_exists. by rewrite bool_decide_eq_true. Qed.

Lemma mem_exists_false f p : mem_exists f p = false ↔ tree f !! resolve f p = None.
Proof.
  unfold mem_exists. by rewrite bool_decide_eq_false, eq_None_not_Some.
Qed.

Lemma resolve_cwd f t p : resolve (Mem (cwd f) t) p = resolve f p.
Proof. done. Qed.

Lemma mem_makedirs_inv p e f f' :
  mem_makedirs p e f = Ok f' →
  ¬ Exists (λ a, is_file (tree f !! a)) (prefixes (resolve f p)) ∧
  f' = Mem (cwd f) (mkdirs (resolve f p) (tree f)).
Proof. unfold mem_makedirs. repeat case_decide; [done..|]. by intros [= <-]. Qed.

Lemma mem_rm_inv p f f' :
  tree_wf (tree f) → mem_rm p true f = Ok f' →
  is_Some (tree f !! resolve f p) ∧
  f' = Mem (cwd f) (rmtree (resolve f p) (tree f)).
Proof.
  intros Hwf. unfold mem_rm.
  destruct (tree f !! resolve f p) as [[c|]|] eqn:E; [| |done].
  - intros [= <-]. split; [done|]. by erewrite delete_file_rmtree.
  - by intros [= <-].
Qed.

#[export] Instance memfs_laws : FileSystemLaws memfs.
Proof.
  split; simpl.
  - intros f p Hd%mem_isdir_true. apply mem_exists_true. by rewrite Hd.
  - intros f p f' _ [_ ->]%mem_makedirs_inv. apply mem_isdir_true.
    rewrite resolve_cwd. simpl. by rewrite lookup_mkdirs, decide_True.
  - intros f p Hwf Hd%mem_isdir_true. unfold mem_makedirs.
    rewrite decide_False, decide_False.
    + rewrite mkdirs_id; [by destruct f|]. by apply dir_prefixes.
    + by intros [_ ?].
    + rewrite Exists_exists. intros (a & Ha%elem_of_prefixes & c & Hc).
      pose proof (dir_prefixes _ _ Hwf Hd a Ha). congruence.
  - intros f p e f' Hwf [Hnf ->]%mem_makedirs_inv. by apply mkdirs_wf.
  - intros f p f'. unfold mem_rm.
    destruct (tree f !! resolve f p) as [[c|]|] eqn:E; [| |done]; intros [= <-];
      apply mem_exists_false; rewrite resolve_cwd; simpl.
    + apply lookup_delete_eq.
    + by rewrite lookup_rmtree, decide_True.
  - intros f p [n Hn]%mem_exists_true. unfold mem_rm. rewrite Hn. by destruct n.
  - intros f p r f' Hwf. unfold mem_rm.
    destruct (tree f !! resolve f p) as [[c|]|] eqn:E; [| |done].
    + intros [= <-]. simpl. erewrite delete_file_rmtree by done. by apply rmtree_wf.
    + destruct r; [|done]. intros [= <-]. by apply rmtree_wf.
Qed.

End MemFS.
