(* ===== verification/Backend.v ===== *)
(** * The sharded serialization backend

    The store delegates the writing and reading of shards to
    [megatron.core.dist_checkpointing] and calls three of its functions:
    [check_is_distributed_checkpoint], [save] and [load].  [Backend] is
    that interface over a type of filesystem states, and [BackendLaws]
    what the store's theorems assume of it: a save that returns leaves a
    complete checkpoint that loads back as the payload saved, and keeps
    the filesystem well formed.

    [RefBackend] is a backend on the in-memory filesystem that satisfies
    the laws.  It keeps the library's protocol without its format: the
    destination must be an existing, empty directory; the payload goes
    into one file and the completeness marker [metadata.json] is what
    [check_is_distributed_checkpoint] looks for. *)

From Stdlib Require Import Ascii.
From stdpp Require Import base tactics option list numbers strings gmap pretty.
From S2P Require Import Prelude PyStr PurePath Payload FileSystem.

(** ** The interface *)

Module dist_checkpointing.
Import PurePath Payload FileSystem.

(** The save strategy descriptor: a format tag and a version. *)
Definition strategy : Type := pystr * Z.

(** [repr] of the strategy pair, as a log line or a metadata file shows it. *)
Definition repr_int (z : Z) : pystr := py (pretty z).
Definition repr_strategy (s : strategy) : pystr :=
  py "(" ++ repr_str s.1 ++ py ", " ++ repr_int s.2 ++ py ")".

Class Backend (F : Type) : Type := {
  (** [check_is_distributed_checkpoint(checkpoint_dir)] *)
  check_is_distributed_checkpoint : F → pystr → bool;
  (** [save(sharded_state_dict, checkpoint_dir, sharded_strategy)] *)
  save : value → pystr → strategy → F → result F;
  (** [load(sharded_state_dict, checkpoint_dir)] *)
  load : option value → pystr → F → result value
}.

Class BackendLaws (F : Type) `{FileSystem F, Backend F} : Prop := {
  save_complete f v d s f' :
    fs_wf f → save v d s f = Ok f' →
    fs_isdir f' d = true ∧ check_is_distributed_checkpoint f' d = true;
  save_load f v d s f' hint :
    fs_wf f → save v d s f = Ok f' → load hint d f' = Ok v;
  save_wf f v d s f' : fs_wf f → save v d s f = Ok f' → fs_wf f'
}.

End dist_checkpointing.

(** ** A reference backend on the in-memory filesystem *)

Module RefBackend.
Import PurePath Payload FileSystem MemFS dist_checkpointing.

Definition metadata : pystr := py "metadata.json".
Definition common : pystr := py "common.pt".

(** The entries strictly below a key. *)
Definition below (k : key) (t : gmap key node) : gmap key node :=
  filter (λ '(a, _), k `prefix_of` a ∧ a ≠ k) t.

Definition ref_check (f : memfs) (d : pystr) : bool :=
  bool_decide (is_file (tree f !! (resolve f d ++ [metadata]))).

Definition ref_save (v : value) (d : pystr) (s : strategy) (f : memfs) : result memfs :=
  let k := resolve f d in
  if decide (tree f !! k ≠ Some Dir) then
    Raise (CheckpointingException
             (py "Checkpoint destination directory does not exist: " ++ d))
  else if decide (below k (tree f) ≠ ∅) then
    Raise (CheckpointingException
             (py "Checkpoint destination directory (" ++ d ++ py ") is not empty"))
  else
    Ok (Mem (cwd f)
          (<[k ++ [metadata] := File (VObj (repr_strategy s))]>
             (<[k ++ [common] := File v]> (tree f)))).

Definition ref_load (hint : option value) (d : pystr) (f : memfs) : result value :=
  if ref_check f d then
    match tree f !! (resolve f d ++ [common]) with
    | Some (File v) => Ok v
    | _ => Raise (CheckpointingException (py "Missing shard in " ++ d))
    end
  else Raise (CheckpointingException (d ++ py " is not a distributed checkpoint")).

#[export] Instance ref_backend : Backend memfs := {
  check_is_distributed_checkpoint := ref_check;
  save := ref_save;
  load := ref_load
}.

(** ** Lemmas *)

Lemma snoc_ne {A} (k : list A) x : k ++ [x] ≠ k.
Proof. intros H. apply (f_equal length) in H. rewrite length_app in H. simpl in H. lia. Qed.

Lemma snoc_not_prefix {A} (k : list A) x a : a `prefix_of` k → k ++ [x] ≠ a.
Proof.
  intros Ha%prefix_length Hx. subst a. rewrite length_app in Ha. simpl in Ha. lia.
Qed.

Lemma prefix_snoc_inv {A} (b k : list A) x :
  b `prefix_of` k ++ [x] → b ≠ k ++ [x] → b `prefix_of` k.
Proof.
  intros [r Hr] Hne. destruct r as [|y r _] using rev_ind.
  - rewrite app_nil_r in Hr. congruence.
  - rewrite app_assoc in Hr. apply app_inj_tail in Hr as [-> _].
    by apply prefix_app_r.
Qed.

Lemma below_empty k t a n :
  below k t = ∅ → t !! a = Some n → k `prefix_of` a → a = k.
Proof.
  intros He Ha Hk. destruct (decide (a = k)) as [|Hne]; [done|].
  assert (below k t !! a = Some n) as H by (by apply map_lookup_filter_Some).
  by rewrite He, lookup_empty in H.
Qed.

Lemma ref_save_inv v d s f f' :
  ref_save v d s f = Ok f' →
  tree f !! resolve f d = Some Dir ∧ below (resolve f d) (tree f) = ∅ ∧
  f' = Mem (cwd f)
         (<[resolve f d ++ [metadata] := File (VObj (repr_strategy s))]>
            (<[resolve f d ++ [common] := File v]> (tree f))).
Proof.
  unfold ref_save. case_decide as H1; [done|]. case_decide as H2; [done|].
  by intros [= <-].
Qed.

(** The tree after a save, by its lookups. *)
Lemma lookup_saved (k : key) (m c : node) (t : gmap key node) a :
  <[k ++ [metadata] := m]> (<[k ++ [common] := c]> t) !! a =
  if decide (a = k ++ [metadata]) then Some m
  else if decide (a = k ++ [common]) then Some c else t !! a.
Proof.
  repeat case_decide; subst.
  - apply lookup_insert_eq.
  - rewrite lookup_insert_ne, lookup_insert_eq; [done|].
    intros [_ [=]]%app_inj_tail.
  - by rewrite !lookup_insert_ne.
Qed.

Lemma saved_wf (k : key) m c t :
  tree_wf t → t !! k = Some Dir → below k t = ∅ →
  tree_wf (<[k ++ [metadata] := m]> (<[k ++ [common] := c]> t)).
Proof.
  intros Hwf Hk He. apply tree_wf_alt. intros a n Ha b Hb Hne.
  assert (∀ x, b `prefix_of` k → b ≠ k ++ [x]) as Hbk.
  { intros x Hp ->. by apply prefix_snoc_not in Hp. }
  rewrite lookup_saved in Ha. rewrite lookup_saved.
  assert (b `prefix_of` k → t !! b = Some Dir) as Hdir by (by apply dir_prefixes).
  destruct (decide (a = k ++ [metadata])) as [->|Ha1];
    [|destruct (decide (a = k ++ [common])) as [->|Ha2]].
  - apply prefix_snoc_inv in Hb; [|done].
    rewrite !decide_False by (by apply Hbk). auto.
  - apply prefix_snoc_inv in Hb; [|done].
    rewrite !decide_False by (by apply Hbk). auto.
  - assert (∀ x, b ≠ k ++ [x]) as Hx.
    { intros x ->. assert (a = k) as ->.
      { eapply below_empty; [done..|]. etrans; [|done]. by apply prefix_app_r. }
      by apply prefix_snoc_not in Hb. }
    rewrite !decide_False by apply Hx.
    by apply (proj1 (tree_wf_alt t) Hwf a n).
Qed.

#[export] Instance ref_backend_laws : BackendLaws memfs.
Proof.
  split; simpl.
  - intros f v d s f' _ (Hk & _ & ->)%ref_save_inv. split.
    + apply mem_isdir_true. rewrite resolve_cwd. simpl.
      rewrite lookup_saved, !decide_False;
        [done|intros H; symmetry in H; by apply snoc_ne in H..].
    + unfold ref_check. apply bool_decide_eq_true. rewrite resolve_cwd. simpl.
      rewrite lookup_saved, decide_True by done. by eexists.
  - intros f v d s f' hint _ (Hk & _ & ->)%ref_save_inv. unfold ref_load, ref_check.
    rewrite resolve_cwd. simpl.
    rewrite bool_decide_eq_true_2.
    + rewrite lookup_saved, decide_False, decide_True; [done..|].
      intros [_ [=]]%app_inj_tail.
    + rewrite lookup_saved, decide_True by done. by eexists.
  - intros f v d s f' Hwf (Hk & He & ->)%ref_save_inv. by apply saved_wf.
Qed.

End RefBackend.
