(* ===== verification/CheckpointIO.v ===== *)
(** * The checkpoint store: MegatronCheckpointIO and is_distributed_ckpt

    The class [MegatronCheckpointIO] (pl.py 49-156) and the function
    [is_distributed_ckpt] (pl.py 191-212), each method as one definition
    in the monad [eff (world F)].

    The world is what the methods read and change outside their
    arguments: the filesystem [fs] (any type [F] with the [FileSystem]
    and [Backend] operations), the accelerator runtime [cuda] the device
    pass asks, and the [trace] of the calls made to collaborators, in
    order: log records, [makedirs], [rm], and the backend's [save] and
    [load].  An event is recorded when the call is made, so a call that
    raises is in the trace too.

    The three entry points that call the backend import it first
    ([import_dist_checkpointing]), at every call, and every method
    selects the filesystem of its path ([select_filesystem], the call of
    [get_filesystem] at lines 88, 124, 143 and 208) before it calls a
    method of it.  Section [methods]
    gives each method as a function of the world, without the package
    (the import raises) and with it; Section [theory] holds the
    theorems about calls that reach the backend, under [Megatron];
    Section [environment] the theorems that hold with the package and
    without.

    The theorems are proved for every filesystem and backend that
    satisfy [FileSystemLaws] and [BackendLaws]; the ones that hold
    without the laws do not assume them. *)

From Stdlib Require Import Ascii.
From stdpp Require Import base tactics option list numbers strings relations.
From S2P Require Import Prelude PyStr PurePath PathConvention CloudIO Payload.
From S2P Require Import DeviceFixup FileSystem Backend.

Module CheckpointIO.
Import PurePath PathConvention CloudIO Payload DeviceFixup FileSystem dist_checkpointing.

(** ** The world *)

Inductive level : Type := INFO | DEBUG.

(** [logging.info] writes to the root logger, [log.debug] to the logger
    of the module ([log = logging.getLogger(__name__)], line 18). *)
Inductive logger : Type := root_logger | module_logger.

Inductive event : Type :=
| Log (lg : logger) (lvl : level) (msg : pystr)
| Makedirs (dir : pystr) (exist_ok : bool)
| Rm (target : pystr) (recursive : bool)
| Save (checkpoint : value) (checkpoint_dir : pystr) (sharded_strategy : strategy)
| Load (sharded_state_dict : option value) (checkpoint_dir : pystr).

#[export] Instance level_eq_dec : EqDecision level.
Proof. solve_decision. Defined.
#[export] Instance logger_eq_dec : EqDecision logger.
Proof. solve_decision. Defined.
#[export] Instance event_eq_dec : EqDecision event.
Proof. solve_decision. Defined.

Record world (F : Type) : Type :=
  World { fs : F; cuda : cuda_runtime; trace : list event }.
Arguments World {F} _ _ _.
Arguments fs {F} _.
Arguments cuda {F} _.
Arguments trace {F} _.

(** An event that writes to the filesystem. *)
Definition is_write (e : event) : bool :=
  match e with Makedirs _ _ | Rm _ _ | Save _ _ _ => true | _ => false end.

Definition is_save (e : event) : bool :=
  match e with Save _ _ _ => true | _ => false end.

Definition is_load (e : event) : bool :=
  match e with Load _ _ => true | _ => false end.

Definition with_fs {F} (w : world F) (f : F) : world F := World f (cuda w) (trace w).
Definition record {F} (w : world F) (es : list event) : world F :=
  World (fs w) (cuda w) (trace w ++ es).

(** ** The class *)

Record MegatronCheckpointIO : Type := {
  save_ckpt_format : pystr;
  save_sharded_strategy : strategy
}.

(** [self.__class__.__name__] *)
Definition class_name : pystr := py "MegatronCheckpointIO".

Section store.
Context {F : Type} `{FileSystem F, Backend F} `{SP : site_packages}.

(** ** Calls to the collaborators *)

(** [from megatron.core import dist_checkpointing], the first statement
    of the three entry points that call the backend. *)
Definition import_dist_checkpointing : eff (world F) unit := lift import_megatron.

Definition emit (e : event) : eff (world F) unit := modify (λ w, record w [e]).
Definition on_fs (f : F → result F) : eff (world F) unit :=
  update (λ w, with_fs w <$> f (fs w)).

(** [logging.info(msg)] and [log.debug(msg)] *)
Definition logging_info (msg : pystr) : eff (world F) unit := emit (Log root_logger INFO msg).
Definition log_debug (msg : pystr) : eff (world F) unit := emit (Log module_logger DEBUG msg).

(** [fs = get_filesystem(path)].  The call finds the filesystem of the
    protocol [path] names, or raises; the filesystem it returns is the
    part of the world that serves that protocol, and its methods are
    the four operations below at the same path. *)
Definition select_filesystem (path : pathlike) : eff (world F) (option pystr) :=
  lift (get_filesystem path).

(** [fs.exists(path)], [fs.isdir(path)], [fs.makedirs(path, exist_ok=e)],
    [fs.rm(path, recursive=r)] *)
Definition exists_ (p : pystr) : eff (world F) bool := gets (λ w, fs_exists (fs w) p).
Definition isdir (p : pystr) : eff (world F) bool := gets (λ w, fs_isdir (fs w) p).
Definition makedirs (p : pystr) (exist_ok : bool) : eff (world F) unit :=
  emit (Makedirs p exist_ok);; on_fs (fs_makedirs p exist_ok).
Definition rm (p : pystr) (recursive : bool) : eff (world F) unit :=
  emit (Rm p recursive);; on_fs (fs_rm p recursive).

(** [dist_checkpointing.check_is_distributed_checkpoint], [.save], [.load] *)
Definition dist_check (checkpoint_dir : pystr) : eff (world F) bool :=
  gets (λ w, check_is_distributed_checkpoint (fs w) checkpoint_dir).
Definition dist_save (checkpoint : value) (checkpoint_dir : pystr)
    (sharded_strategy : strategy) : eff (world F) unit :=
  emit (Save checkpoint checkpoint_dir sharded_strategy);;
  on_fs (save checkpoint checkpoint_dir sharded_strategy).
Definition dist_load (sharded_state_dict : option value) (checkpoint_dir : pystr) :
    eff (world F) value :=
  emit (Load sharded_state_dict checkpoint_dir);;
  w ← get; lift (load sharded_state_dict checkpoint_dir (fs w)).

(** [fs.isdir(checkpoint_dir) and check_is_distributed_checkpoint(checkpoint_dir)]:
    the second call is made only when the first returns true. *)
Definition isdir_and_dist_check (checkpoint_dir : path) : eff (world F) bool :=
  d ← isdir (str checkpoint_dir);
  if d : bool then dist_check (str checkpoint_dir) else mret false.

(** ** Messages *)

Definition storage_options_msg : pystr :=
  py "`Trainer.save_checkpoint(..., storage_options=...)` with `storage_options` arg"
  ++ py " is not supported for `" ++ class_name
  ++ py "`. Please implement your custom `CheckpointIO`"
  ++ py " to define how you'd like to use `storage_options`.".

Definition skip_msg (checkpoint_dir : path) : pystr :=
  py "Distributed checkpoint at path " ++ str checkpoint_dir
  ++ py " already exists, skipping saving".

Definition map_location_msg : pystr :=
  py "`map_location` argument is not supported for `MegatronCheckpointIO.load_checkpoint`.".

Definition not_found_msg (p : pathlike) : pystr :=
  py "Checkpoint file not found: " ++ fspath p.

Definition not_a_directory_msg (p : pathlike) : pystr :=
  py "Distributed checkpoints should be a directory. Found: " ++ fspath p ++ py ".".

Definition removed_msg (p : pathlike) : pystr := py "Removed checkpoint: " ++ fspath p.

Definition strategy_msg (save_strategy : strategy) : pystr :=
  py "Using " ++ repr_strategy save_strategy ++ py " dist-ckpt save strategy.".

(** ** The methods *)

(** [_determine_dist_ckpt_save_strategy(self)], reading
    [self.save_ckpt_format] *)
Definition _determine_dist_ckpt_save_strategy (save_ckpt_format : pystr) :
    eff (world F) strategy :=
  let save_strategy := (save_ckpt_format, 1%Z) in
  logging_info (strategy_msg save_strategy);;
  mret save_strategy.

(** [MegatronCheckpointIO(save_ckpt_format)] *)
Definition __init__ (save_ckpt_format : pystr) : eff (world F) MegatronCheckpointIO :=
  save_sharded_strategy ← _determine_dist_ckpt_save_strategy save_ckpt_format;
  mret {| save_ckpt_format := save_ckpt_format;
          save_sharded_strategy := save_sharded_strategy |}.

Definition default_save_ckpt_format : pystr := py "torch_dist".

(** [self.save_checkpoint(checkpoint, path, storage_options)] *)
Definition save_checkpoint {SO : Type} (self : MegatronCheckpointIO)
    (checkpoint : value) (p : pathlike) (storage_options : option SO) :
    eff (world F) unit :=
  import_dist_checkpointing;;
  match storage_options with
  | Some _ => throw (TypeError storage_options_msg)
  | None =>
      checkpoint_dir ← lift (ckpt_to_dir p);
      select_filesystem (PPath checkpoint_dir);;
      present ← isdir_and_dist_check checkpoint_dir;
      if present : bool then
        logging_info (skip_msg checkpoint_dir)
      else
        makedirs (str checkpoint_dir) true;;
        dist_save checkpoint (str checkpoint_dir) (save_sharded_strategy self)
  end.

(** [self.load_checkpoint(path, sharded_state_dict, map_location)] *)
Definition load_checkpoint {ML : Type} (self : MegatronCheckpointIO)
    (p : pathlike) (sharded_state_dict : option value) (map_location : option ML) :
    eff (world F) value :=
  import_dist_checkpointing;;
  match map_location with
  | Some _ => throw (ValueError map_location_msg)
  | None =>
      select_filesystem p;;
      e ← exists_ (fspath p);
      if negb e then throw (FileNotFoundError (not_found_msg p)) else
      d ← isdir (fspath p);
      if negb d then throw (ValueError (not_a_directory_msg p)) else
      checkpoint ← dist_load sharded_state_dict (fspath p);
      w ← get;
      checkpoint ← lift (_fix_tensors_device (cuda w) checkpoint);
      mret checkpoint
  end.

(** [self.remove_checkpoint(path)] *)
Definition remove_checkpoint (self : MegatronCheckpointIO) (p : pathlike) :
    eff (world F) unit :=
  select_filesystem p;;
  e ← exists_ (fspath p);
  if e : bool then
    rm (fspath p) true;;
    log_debug (removed_msg p)
  else mret tt.

(** [is_distributed_ckpt(path)] *)
Definition is_distributed_ckpt (p : pathlike) : eff (world F) bool :=
  import_dist_checkpointing;;
  checkpoint_dir ← lift (ckpt_to_dir p);
  select_filesystem (PPath checkpoint_dir);;
  present ← isdir_and_dist_check checkpoint_dir;
  if present : bool then mret true else mret false.

(** ** Observations the theorems are stated with *)

(** A complete checkpoint is present at the directory. *)
Definition complete (f : F) (checkpoint_dir : path) : bool :=
  fs_isdir f (str checkpoint_dir) && check_is_distributed_checkpoint f (str checkpoint_dir).

(** The events a run added to the trace. *)
Definition added (w w' : world F) : list event := drop (length (trace w)) (trace w').

(** ** The store as a transition system

    A client (the training loop) calls the four entry points in any
    order, with any arguments, and goes on whether a call returned or
    raised.  [after] is the world a call leaves, [step] one call, and
    the reachable worlds are [rtc step]. *)
Inductive call : Type :=
| CallSave (checkpoint : value) (p : pathlike) (storage_options : option value)
| CallLoad (p : pathlike) (sharded_state_dict : option value) (map_location : option value)
| CallRemove (p : pathlike)
| CallIsDistributed (p : pathlike).

Definition after (self : MegatronCheckpointIO) (k : call) (w : world F) : world F :=
  match k with
  | CallSave c p so => (run (save_checkpoint self c p so) w).2
  | CallLoad p hint ml => (run (load_checkpoint self p hint ml) w).2
  | CallRemove p => (run (remove_checkpoint self p) w).2
  | CallIsDistributed p => (run (is_distributed_ckpt p) w).2
  end.

Inductive step (self : MegatronCheckpointIO) : world F → world F → Prop :=
| step_call k w : step self w (after self k w).

(** The world after a sequence of calls, first call first. *)
Definition after_all (self : MegatronCheckpointIO) (ks : list call) (w : world F) :
    world F :=
  foldl (λ w k, after self k w) w ks.

(** A call to the backend's [save] carries the strategy [st]. *)
Definition save_with (st : strategy) (e : event) : Prop :=
  match e with Save _ _ s => s = st | _ => True end.

Definition is_CallSave (k : call) : bool :=
  match k with CallSave _ _ _ => true | _ => false end.

Definition is_CallLoad (k : call) : bool :=
  match k with CallLoad _ _ _ => true | _ => false end.

(** The events one call can add to the trace: nothing when it is
    refused or has nothing to do, and otherwise its calls to the
    filesystem and the backend in the order of the method's body, up to
    the one that raised. *)
Definition call_events (self : MegatronCheckpointIO) (k : call) (es : list event) : Prop :=
  match k with
  | CallSave c p _ =>
      es = [] ∨
      ∃ d, ckpt_to_dir p = Ok d ∧
           (es = [Log root_logger INFO (skip_msg d)] ∨
            es = [Makedirs (str d) true] ∨
            es = [Makedirs (str d) true; Save c (str d) (save_sharded_strategy self)])
  | CallLoad p hint _ => es = [] ∨ es = [Load hint (fspath p)]
  | CallRemove p =>
      es = [] ∨ es = [Rm (fspath p) true] ∨
      es = [Rm (fspath p) true; Log module_logger DEBUG (removed_msg p)]
  | CallIsDistributed _ => es = []
  end.

(** What a call can leave behind: the world as it was, or the world
    after the calls to collaborators that one path through its body
    makes, the last of which may have raised. *)
Inductive leaves (self : MegatronCheckpointIO) (w : world F) : call → world F → Prop :=
| leaves_same k : leaves self w k w
| leaves_skip c p so d :
    ckpt_to_dir p = Ok d →
    leaves self w (CallSave c p so) (record w [Log root_logger INFO (skip_msg d)])
| leaves_makedirs_raised c p so d :
    ckpt_to_dir p = Ok d →
    leaves self w (CallSave c p so) (record w [Makedirs (str d) true])
| leaves_save c p so d f1 f2 :
    ckpt_to_dir p = Ok d → fs_makedirs (str d) true (fs w) = Ok f1 →
    f2 = f1 ∨ save c (str d) (save_sharded_strategy self) f1 = Ok f2 →
    leaves self w (CallSave c p so)
      (World f2 (cuda w)
         (trace w ++ [Makedirs (str d) true; Save c (str d) (save_sharded_strategy self)]))
| leaves_load p hint ml :
    leaves self w (CallLoad p hint ml) (record w [Load hint (fspath p)])
| leaves_rm_raised p :
    leaves self w (CallRemove p) (record w [Rm (fspath p) true])
| leaves_rm p f' :
    fs_rm (fspath p) true (fs w) = Ok f' →
    leaves self w (CallRemove p)
      (World f' (cuda w)
         (trace w ++ [Rm (fspath p) true; Log module_logger DEBUG (removed_msg p)])).

End store.

(** ** Equations of [run] for the calls *)

Section calls.
Context {F : Type} `{FileSystem F, Backend F}.
Implicit Types (w : world F) (d : path) (p : pathlike) (self : MegatronCheckpointIO).

Lemma run_emit e w : run (emit e) w = (Ok tt, record w [e]).
Proof. reflexivity. Qed.

Lemma run_on_fs (g : F → result F) w :
  run (on_fs g) w =
  match g (fs w) with Ok f' => (Ok tt, with_fs w f') | Raise e => (Raise e, w) end.
Proof. unfold on_fs, update. simpl. by destruct (g (fs w)). Qed.

(** A recorded call that writes: the event, then the new filesystem. *)
Lemma run_recorded e (g : F → result F) w :
  run (emit e;; on_fs g) w =
  match g (fs w) with
  | Ok f' => (Ok tt, World f' (cuda w) (trace w ++ [e]))
  | Raise x => (Raise x, record w [e])
  end.
Proof. rewrite run_bind, run_emit, run_on_fs. simpl. by destruct (g (fs w)). Qed.

Lemma run_logging_info msg w :
  run (logging_info msg) w = (Ok tt, record w [Log root_logger INFO msg]).
Proof. reflexivity. Qed.

Lemma run_log_debug msg w :
  run (log_debug msg) w = (Ok tt, record w [Log module_logger DEBUG msg]).
Proof. reflexivity. Qed.

Lemma run_exists s w : run (exists_ s) w = (Ok (fs_exists (fs w) s), w).
Proof. reflexivity. Qed.

Lemma run_isdir s w : run (isdir s) w = (Ok (fs_isdir (fs w) s), w).
Proof. reflexivity. Qed.

Lemma run_dist_check s w :
  run (dist_check s) w = (Ok (check_is_distributed_checkpoint (fs w) s), w).
Proof. reflexivity. Qed.

Lemma run_makedirs s e w :
  run (makedirs s e) w =
  match fs_makedirs s e (fs w) with
  | Ok f' => (Ok tt, World f' (cuda w) (trace w ++ [Makedirs s e]))
  | Raise x => (Raise x, record w [Makedirs s e])
  end.
Proof. apply run_recorded. Qed.

Lemma run_rm s r w :
  run (rm s r) w =
  match fs_rm s r (fs w) with
  | Ok f' => (Ok tt, World f' (cuda w) (trace w ++ [Rm s r]))
  | Raise x => (Raise x, record w [Rm s r])
  end.
Proof. apply run_recorded. Qed.

Lemma run_dist_save c s st w :
  run (dist_save c s st) w =
  match save c s st (fs w) with
  | Ok f' => (Ok tt, World f' (cuda w) (trace w ++ [Save c s st]))
  | Raise x => (Raise x, record w [Save c s st])
  end.
Proof. apply run_recorded. Qed.

Lemma run_dist_load hint s w :
  run (dist_load hint s) w = (load hint s (fs w), record w [Load hint s]).
Proof. unfold dist_load. rewrite run_bind, run_emit. reflexivity. Qed.

Lemma run_isdir_and_dist_check d w :
  run (isdir_and_dist_check d) w = (Ok (complete (fs w) d), w).
Proof.
  unfold isdir_and_dist_check, complete. rewrite run_bind, run_isdir.
  by destruct (fs_isdir (fs w) (str d)).
Qed.

Lemma added_record w es : added w (record w es) = es.
Proof. unfold added, record. simpl. by rewrite drop_app_length. Qed.

Lemma added_refl w : added w w = [].
Proof. unfold added. by rewrite drop_all. Qed.

Lemma record_nil w : record w [] = w.
Proof. destruct w. unfold record. simpl. by rewrite app_nil_r. Qed.

Lemma record_record w es es' : record (record w es) es' = record w (es ++ es').
Proof. unfold record. simpl. by rewrite app_assoc. Qed.

End calls.

#[export] Hint Rewrite @run_emit @run_logging_info @run_log_debug @run_exists
  @run_isdir @run_dist_check @run_makedirs @run_rm @run_dist_save @run_dist_load
  @run_isdir_and_dist_check @added_record @added_refl @record_nil
  @record_record : py.

(** ** Each method as a function of the world *)

Section methods.
Context {F : Type} `{FileSystem F, Backend F} `{SP : site_packages} {SO ML : Type}.
Implicit Types (w : world F) (d : path) (p : pathlike) (self : MegatronCheckpointIO).

(** Without the package the import raises and nothing after it runs. *)
Lemma run_import_missing {A} (m : eff (world F) A) w :
  has_megatron = false →
  run (import_dist_checkpointing;; m) w = (Raise megatron_missing, w).
Proof.
  intros Hno. rewrite run_bind. unfold import_dist_checkpointing.
  by rewrite run_lift, (import_megatron_Raise Hno).
Qed.

Lemma save_checkpoint_unimportable self c p (so : option SO) w :
  has_megatron = false →
  run (save_checkpoint self c p so) w = (Raise megatron_missing, w).
Proof. apply run_import_missing. Qed.

Lemma load_checkpoint_unimportable self p hint (ml : option ML) w :
  has_megatron = false →
  run (load_checkpoint self p hint ml) w = (Raise megatron_missing, w).
Proof. apply run_import_missing. Qed.

Lemma is_distributed_ckpt_unimportable p w :
  has_megatron = false →
  run (is_distributed_ckpt p) w = (Raise megatron_missing, w).
Proof. apply run_import_missing. Qed.

(** A save, a load or an answer of the oracle that returned found the
    package. *)
Lemma save_checkpoint_imported self c p (so : option SO) w r w' :
  run (save_checkpoint self c p so) w = (Ok r, w') → Megatron.
Proof.
  intros Hr. destruct megatron_dec as [MI|Hno]; [done|].
  by rewrite save_checkpoint_unimportable in Hr.
Qed.

Lemma load_checkpoint_imported self p hint (ml : option ML) w r w' :
  run (load_checkpoint self p hint ml) w = (Ok r, w') → Megatron.
Proof.
  intros Hr. destruct megatron_dec as [MI|Hno]; [done|].
  by rewrite load_checkpoint_unimportable in Hr.
Qed.

Lemma is_distributed_ckpt_imported p w r w' :
  run (is_distributed_ckpt p) w = (Ok r, w') → Megatron.
Proof.
  intros Hr. destruct megatron_dec as [MI|Hno]; [done|].
  by rewrite is_distributed_ckpt_unimportable in Hr.
Qed.

(** A selection that raises ends the method before anything is
    looked at; one that returns is not seen. *)
Lemma run_select_Raise {A} p (m : eff (world F) A) e w :
  get_filesystem p = Raise e → run (select_filesystem p;; m) w = (Raise e, w).
Proof. intros Hg. unfold select_filesystem. by rewrite run_bind, run_lift, Hg. Qed.

Lemma run_select_Ok {A} p (m : eff (world F) A) o w :
  get_filesystem p = Ok o → run (select_filesystem p;; m) w = run m w.
Proof. intros Hg. unfold select_filesystem. by rewrite run_bind, run_lift, Hg. Qed.

(** The directory of a save and of the oracle always selects the local
    filesystem. *)
Lemma run_select_dir {A} p d (m : eff (world F) A) w :
  ckpt_to_dir p = Ok d → run (select_filesystem (PPath d);; m) w = run m w.
Proof. intros Hg%get_filesystem_dir. by eapply run_select_Ok. Qed.

Lemma remove_checkpoint_unserved self p e w :
  get_filesystem p = Raise e → run (remove_checkpoint self p) w = (Raise e, w).
Proof. apply run_select_Raise. Qed.

Lemma run_remove_checkpoint self p o w :
  get_filesystem p = Ok o →
  run (remove_checkpoint self p) w =
  if fs_exists (fs w) (fspath p) then
    match fs_rm (fspath p) true (fs w) with
    | Ok f' => (Ok tt, World f' (cuda w)
                  (trace w ++ [Rm (fspath p) true; Log module_logger DEBUG (removed_msg p)]))
    | Raise e => (Raise e, record w [Rm (fspath p) true])
    end
  else (Ok tt, w).
Proof.
  intros Hg. unfold remove_checkpoint. rewrite (run_select_Ok _ _ _ _ Hg), run_bind, run_exists.
  destruct (fs_exists (fs w) (fspath p)); [|done].
  rewrite run_bind, run_rm.
  destruct (fs_rm (fspath p) true (fs w)); [|done].
  rewrite run_log_debug. unfold record. simpl. by rewrite <-app_assoc.
Qed.

(** A removal that returned had its filesystem. *)
Lemma remove_checkpoint_served self p w r w' :
  run (remove_checkpoint self p) w = (Ok r, w') → is_ok (get_filesystem p) = true.
Proof.
  destruct (get_filesystem p) as [o|e] eqn:Hg; [done|].
  by rewrite (remove_checkpoint_unserved _ _ _ _ Hg).
Qed.

Lemma run_init fmt w :
  run (__init__ fmt) w =
  (Ok {| save_ckpt_format := fmt; save_sharded_strategy := (fmt, 1%Z) |},
   record w [Log root_logger INFO (strategy_msg (fmt, 1%Z))]).
Proof. reflexivity. Qed.

(** With the package the import is not seen, and each method is the
    function of the world its body reads as. *)
Context {MI : Megatron}.

Lemma run_import {A} (m : eff (world F) A) w :
  run (import_dist_checkpointing;; m) w = run m w.
Proof.
  rewrite run_bind. unfold import_dist_checkpointing.
  by rewrite run_lift, import_megatron_Ok.
Qed.

Lemma run_save_checkpoint_options self c p (x : SO) w :
  run (save_checkpoint self c p (Some x)) w = (Raise (TypeError storage_options_msg), w).
Proof. unfold save_checkpoint. by rewrite run_import. Qed.

Lemma run_load_checkpoint_map_location self p hint (x : ML) w :
  run (load_checkpoint self p hint (Some x)) w = (Raise (ValueError map_location_msg), w).
Proof. unfold load_checkpoint. by rewrite run_import. Qed.

Lemma run_save_checkpoint self c p w :
  run (save_checkpoint self c p (@None SO)) w =
  match ckpt_to_dir p with
  | Raise e => (Raise e, w)
  | Ok d =>
      let st := save_sharded_strategy self in
      let es := [Makedirs (str d) true; Save c (str d) st] in
      if complete (fs w) d then (Ok tt, record w [Log root_logger INFO (skip_msg d)])
      else match fs_makedirs (str d) true (fs w) with
           | Raise e => (Raise e, record w [Makedirs (str d) true])
           | Ok f1 =>
               match save c (str d) st f1 with
               | Raise e => (Raise e, World f1 (cuda w) (trace w ++ es))
               | Ok f2 => (Ok tt, World f2 (cuda w) (trace w ++ es))
               end
           end
  end.
Proof.
  unfold save_checkpoint. rewrite run_import, run_bind, run_lift.
  destruct (ckpt_to_dir p) as [d|e] eqn:Hd; [|done].
  rewrite (run_select_dir _ _ _ _ Hd), run_bind, run_isdir_and_dist_check.
  destruct (complete (fs w) d); [done|].
  rewrite run_bind, run_makedirs.
  destruct (fs_makedirs (str d) true (fs w)) as [f1|e]; [|done].
  rewrite run_dist_save. simpl.
  destruct (save c (str d) _ f1); unfold record; simpl; by rewrite <-app_assoc.
Qed.

Lemma load_checkpoint_unserved self p hint e w :
  get_filesystem p = Raise e →
  run (load_checkpoint self p hint (@None ML)) w = (Raise e, w).
Proof. intros Hg. unfold load_checkpoint. by rewrite run_import, (run_select_Raise _ _ _ _ Hg). Qed.

Lemma run_load_checkpoint self p hint o w :
  get_filesystem p = Ok o →
  run (load_checkpoint self p hint (@None ML)) w =
  if negb (fs_exists (fs w) (fspath p)) then
    (Raise (FileNotFoundError (not_found_msg p)), w)
  else if negb (fs_isdir (fs w) (fspath p)) then
    (Raise (ValueError (not_a_directory_msg p)), w)
  else (load hint (fspath p) (fs w) ≫= _fix_tensors_device (cuda w),
        record w [Load hint (fspath p)]).
Proof.
  intros Hg. unfold load_checkpoint.
  rewrite run_import, (run_select_Ok _ _ _ _ Hg), run_bind, run_exists.
  destruct (fs_exists (fs w) (fspath p)); [|done]. simpl.
  destruct (fs_isdir (fs w) (fspath p)); [|done]. simpl.
  destruct (load hint (fspath p) (fs w)) as [v|e]; [|done]. simpl.
  by destruct (_fix_tensors_device (cuda w) v).
Qed.

Lemma run_is_distributed_ckpt p w :
  run (is_distributed_ckpt p) w = (complete (fs w) <$> ckpt_to_dir p, w).
Proof.
  unfold is_distributed_ckpt. rewrite run_import, run_bind, run_lift.
  destruct (ckpt_to_dir p) as [d|e] eqn:Hd; [|done].
  rewrite (run_select_dir _ _ _ _ Hd), run_bind, run_isdir_and_dist_check. simpl.
  by destruct (complete (fs w) d).
Qed.

End methods.

(** ** What the store guarantees, for any lawful filesystem and backend *)

Section theory.
Context {F : Type} {FS : FileSystem F} {BE : Backend F}.
Context {FSL : FileSystemLaws F} {BEL : BackendLaws F}.
Context `{SP : site_packages} {SO ML : Type}.
Implicit Types (w : world F) (d : path) (p : pathlike) (self : MegatronCheckpointIO).

Local Abbreviation save_ self c p := (save_checkpoint self c p (@None SO)).
Local Abbreviation load_ self p hint := (load_checkpoint self p hint (@None ML)).

Lemma complete_true f d :
  complete f d = true ↔
  fs_isdir f (str d) = true ∧ check_is_distributed_checkpoint f (str d) = true.
Proof. unfold complete. apply andb_true_iff. Qed.

Lemma complete_exists f d : complete f d = true → fs_exists f (str d) = true.
Proof. intros [Hd _]%complete_true. by apply isdir_exists. Qed.

Section installed.
Context {MI : Megatron}.

(** A save that writes: the directory is made, then the backend saves. *)
Lemma save_checkpoint_write_inv self c p d w r w' :
  ckpt_to_dir p = Ok d → complete (fs w) d = false →
  run (save_ self c p) w = (r, w') →
  match fs_makedirs (str d) true (fs w) with
  | Raise e => r = Raise e ∧ w' = record w [Makedirs (str d) true]
  | Ok f1 =>
      trace w' = trace w ++ [Makedirs (str d) true;
                             Save c (str d) (save_sharded_strategy self)] ∧
      cuda w' = cuda w ∧
      match save c (str d) (save_sharded_strategy self) f1 with
      | Raise e => r = Raise e ∧ fs w' = f1
      | Ok f2 => r = Ok tt ∧ fs w' = f2
      end
  end.
Proof.
  intros Hd Hc. rewrite run_save_checkpoint, Hd. simpl. rewrite Hc.
  destruct (fs_makedirs _ _ _); [|by intros [= <- <-]].
  destruct (save _ _ _ _); by intros [= <- <-].
Qed.

(** What a save that returned has established. *)
Lemma save_checkpoint_Ok_inv self c p w w' :
  fs_wf (fs w) → run (save_ self c p) w = (Ok tt, w') →
  ∃ d, ckpt_to_dir p = Ok d ∧ complete (fs w') d = true ∧ fs_wf (fs w').
Proof.
  intros Hwf Hr. destruct (ckpt_to_dir p) as [d|e] eqn:Hd;
    [|by rewrite run_save_checkpoint, Hd in Hr].
  exists d. split; [done|]. destruct (complete (fs w) d) eqn:Hc.
  - rewrite run_save_checkpoint, Hd in Hr. simpl in Hr. rewrite Hc in Hr.
    by injection Hr as <-.
  - pose proof (save_checkpoint_write_inv _ _ _ _ _ _ _ Hd Hc Hr) as Hi.
    destruct (fs_makedirs _ _ _) as [f1|] eqn:Hm; [|by destruct Hi].
    pose proof (makedirs_wf _ _ _ _ Hwf Hm) as Hwf1.
    destruct Hi as (_ & _ & Hi).
    destruct (save _ _ _ f1) as [f2|] eqn:Hs; [|by destruct Hi].
    destruct Hi as [_ ->].
    split; [apply complete_true; by eapply save_complete|by eapply save_wf].
Qed.

(** The skip: nothing but one log record. *)
Lemma save_checkpoint_skip self c p d w :
  ckpt_to_dir p = Ok d → complete (fs w) d = true →
  run (save_ self c p) w = (Ok tt, record w [Log root_logger INFO (skip_msg d)]).
Proof. intros Hd Hc. rewrite run_save_checkpoint, Hd. simpl. by rewrite Hc. Qed.

End installed.

(** *** Saving *)

(** C1. Round trip.  A save that wrote a fresh checkpoint and returned,
    followed by a load of the directory it chose, gives back the payload
    saved, after the device pass, and changes nothing but the trace. *)
Theorem save_load_roundtrip self c p d hint w w1 :
  fs_wf (fs w) → ckpt_to_dir p = Ok d → complete (fs w) d = false →
  run (save_ self c p) w = (Ok tt, w1) →
  run (load_ self (PPath d) hint) w1 =
    (_fix_tensors_device (cuda w) c, record w1 [Load hint (str d)]).
Proof.
  intros Hwf Hd Hc Hr. pose proof (save_checkpoint_imported _ _ _ _ _ _ _ Hr) as MI.
  pose proof (save_checkpoint_write_inv _ _ _ _ _ _ _ Hd Hc Hr) as Hi.
  destruct (fs_makedirs _ _ _) as [f1|] eqn:Hm; [|by destruct Hi].
  destruct Hi as (_ & Hcuda & Hi).
  destruct (save _ _ _ f1) as [f2|] eqn:Hs; [|by destruct Hi].
  destruct Hi as [_ Hfs]. pose proof (makedirs_wf _ _ _ _ Hwf Hm) as Hwf1.
  destruct (save_complete _ _ _ _ _ Hwf1 Hs) as [Hdir _].
  rewrite (run_load_checkpoint _ _ _ _ _ (get_filesystem_dir _ _ Hd)).
  simpl. rewrite Hfs, Hcuda.
  by rewrite (isdir_exists _ _ Hdir), Hdir, (save_load _ _ _ _ _ hint Hwf1 Hs).
Qed.

(** C2. A save that returns leaves a complete checkpoint behind: the
    filesystem is well formed and [is_distributed_ckpt] answers [True]
    for the same path, without changing the world. *)
Theorem save_checkpoint_establishes self c p w w' :
  fs_wf (fs w) → run (save_ self c p) w = (Ok tt, w') →
  fs_wf (fs w') ∧ run (is_distributed_ckpt p) w' = (Ok true, w').
Proof.
  intros Hwf Hr. pose proof (save_checkpoint_imported _ _ _ _ _ _ _ Hr) as MI.
  apply save_checkpoint_Ok_inv in Hr as (d & Hd & Hc & Hwf'); [|done].
  split; [done|]. rewrite run_is_distributed_ckpt, Hd. simpl. by rewrite Hc.
Qed.

(** C3. Skip policy.  [save_checkpoint] writes nothing and only logs
    that it skips exactly when [is_distributed_ckpt] holds of the path:
    the filesystem is untouched and the backend is not called, whatever
    the payload. *)
Theorem save_checkpoint_skip_iff self c p w :
  run (is_distributed_ckpt p) w = (Ok true, w) ↔
  ∃ d, ckpt_to_dir p = Ok d ∧
       run (save_ self c p) w = (Ok tt, record w [Log root_logger INFO (skip_msg d)]).
Proof.
  split.
  - intros Ho. pose proof (is_distributed_ckpt_imported _ _ _ _ Ho) as MI.
    rewrite run_is_distributed_ckpt in Ho.
    destruct (ckpt_to_dir p) as [d|e] eqn:Hd; simpl in Ho; [|done].
    injection Ho as Hc. exists d. split; [done|]. by apply save_checkpoint_skip.
  - intros (d & Hd & Hr). pose proof (save_checkpoint_imported _ _ _ _ _ _ _ Hr) as MI.
    rewrite run_is_distributed_ckpt, Hd. simpl.
    destruct (complete (fs w) d) eqn:Hc; [done|]. exfalso.
    pose proof (save_checkpoint_write_inv _ _ _ _ _ _ _ Hd Hc Hr) as Hi.
    destruct (fs_makedirs _ _ _); [|by destruct Hi].
    destruct Hi as (Ht & _). simpl in Ht. by apply app_inv_head in Ht.
Qed.

(** C4. Idempotence.  After a save that returned, any further save to
    the same path, of any payload by any store, returns and is a skip:
    one log record, no write. *)
Theorem save_checkpoint_idempotent self c p self' c' w w' :
  fs_wf (fs w) → run (save_ self c p) w = (Ok tt, w') →
  ∃ d, ckpt_to_dir p = Ok d ∧
       run (save_ self' c' p) w' = (Ok tt, record w' [Log root_logger INFO (skip_msg d)]).
Proof.
  intros Hwf Hr. pose proof (save_checkpoint_imported _ _ _ _ _ _ _ Hr) as MI.
  apply save_checkpoint_Ok_inv in Hr as (d & Hd & Hc & _); [|done].
  exists d. split; [done|]. by apply save_checkpoint_skip.
Qed.

(** C5. Delegation.  Every call to the backend's [save] that a
    [save_checkpoint] makes is made once, after [makedirs] on the same
    directory, with the payload as given, the directory [ckpt_to_dir]
    chose and the strategy of the store; and it is made only when no
    complete checkpoint was there. *)
Theorem save_checkpoint_delegates self c p w e :
  let w' := (run (save_ self c p) w).2 in
  e ∈ added w w' → is_save e = true →
  ∃ d, ckpt_to_dir p = Ok d ∧ complete (fs w) d = false ∧
       e = Save c (str d) (save_sharded_strategy self) ∧
       added w w' = [Makedirs (str d) true; e].
Proof.
  cbv zeta. destruct megatron_dec as [MI|Hno];
    [|rewrite save_checkpoint_unimportable by done; by rewrite added_refl, elem_of_nil].
  destruct (run (save_ self c p) w) as [r w'] eqn:Hr. simpl.
  destruct (ckpt_to_dir p) as [d|x] eqn:Hd.
  2: { rewrite run_save_checkpoint, Hd in Hr. injection Hr as _ <-.
       by rewrite added_refl, elem_of_nil. }
  destruct (complete (fs w) d) eqn:Hc.
  { rewrite (save_checkpoint_skip _ _ _ _ _ Hd Hc) in Hr. injection Hr as _ <-.
    rewrite added_record. by intros ->%list_elem_of_singleton. }
  pose proof (save_checkpoint_write_inv _ _ _ _ _ _ _ Hd Hc Hr) as Hi.
  destruct (fs_makedirs _ _ _).
  - destruct Hi as (Ht & _). unfold added. rewrite Ht, drop_app_length.
    intros [-> | ->%list_elem_of_singleton]%elem_of_cons; [done|]. eauto.
  - destruct Hi as [_ ->]. rewrite added_record. by intros ->%list_elem_of_singleton.
Qed.

(** *** Loading *)

(** C10. What a load returns is what the backend loaded from the path as
    given (no [ckpt_to_dir]), through the device pass; it is returned
    only for a directory on a filesystem fsspec serves, with an
    initialised accelerator runtime, and the backend was called once. *)
Theorem load_checkpoint_returns self p hint w v w' :
  run (load_ self p hint) w = (Ok v, w') →
  get_filesystem p = Ok (protocol_of p) ∧
  fs_isdir (fs w) (fspath p) = true ∧ is_initialized (cuda w) = true ∧
  w' = record w [Load hint (fspath p)] ∧
  ∃ v0, load hint (fspath p) (fs w) = Ok v0 ∧
        v = dict_list_map_outplace (_fix_device (cur_dev (cuda w))) v0.
Proof.
  intros Hr. pose proof (load_checkpoint_imported _ _ _ _ _ _ _ Hr) as MI. revert Hr.
  destruct (get_filesystem p) as [o|e] eqn:Hg;
    [|by rewrite (load_checkpoint_unserved _ _ _ _ _ Hg)].
  rewrite (run_load_checkpoint _ _ _ _ _ Hg), (get_filesystem_Ok _ _ Hg).
  destruct (fs_exists _ _); [|done]. destruct (fs_isdir _ _); [|done]. simpl.
  destruct (load _ _ _) as [v0|]; [|done]. simpl.
  intros [= [Hi ->]%fix_tensors_device_inv <-]. eauto 10.
Qed.

(** *** Removing *)

(** C12. A removal on a filesystem fsspec serves always returns and
    leaves the path absent.  When the path exists it calls [rm] on it,
    recursively, once, and logs the removal on the module's logger at
    debug level; when it does not, it does nothing: no call, no log
    record, no error.  The one way a removal raises without touching
    anything is the selection of the filesystem: a path that names a
    protocol fsspec cannot serve. *)
Theorem remove_checkpoint_removes self p w :
  match get_filesystem p with
  | Raise e => run (remove_checkpoint self p) w = (Raise e, w)
  | Ok _ =>
      ∃ w', run (remove_checkpoint self p) w = (Ok tt, w') ∧
            fs_exists (fs w') (fspath p) = false ∧
            if fs_exists (fs w) (fspath p)
            then ∃ f', fs_rm (fspath p) true (fs w) = Ok f' ∧
                       w' = World f' (cuda w)
                              (trace w ++ [Rm (fspath p) true;
                                           Log module_logger DEBUG (removed_msg p)])
            else w' = w
  end.
Proof.
  destruct (get_filesystem p) as [o|e] eqn:Hg; [|by apply remove_checkpoint_unserved].
  rewrite (run_remove_checkpoint _ _ _ _ Hg). destruct (fs_exists _ _) eqn:He; [|by exists w].
  pose proof (rm_existing _ _ He) as Hok.
  destruct (fs_rm _ _ _) as [f'|] eqn:Hrm; [|done].
  eexists. split_and!; [done| |by exists f']. by eapply rm_gone.
Qed.

(** C14. After a removal that returned, a load of the same path raises
    [FileNotFoundError], whether or not there was something to remove
    (where the package is installed: the removal does not need it, the
    load does). *)
Theorem remove_then_load `{MI : !Megatron} self p hint w w' :
  run (remove_checkpoint self p) w = (Ok tt, w') →
  run (load_ self p hint) w' = (Raise (FileNotFoundError (not_found_msg p)), w').
Proof.
  destruct (get_filesystem p) as [o|e] eqn:Hg;
    [|by rewrite (remove_checkpoint_unserved _ _ _ _ Hg)].
  rewrite (run_remove_checkpoint _ _ _ _ Hg), (run_load_checkpoint _ _ _ _ _ Hg).
  destruct (fs_exists (fs w) _) eqn:He.
  - destruct (fs_rm _ _ _) as [f'|] eqn:Hrm; [|done]. intros [= <-]. simpl.
    by rewrite (rm_gone _ _ _ Hrm).
  - intros [= <-]. by rewrite He.
Qed.

End theory.

(** ** In every environment, with the package or without *)

Section environment.
Context {F : Type} {FS : FileSystem F} {BE : Backend F}.
Context {FSL : FileSystemLaws F} {BEL : BackendLaws F}.
Context `{SP : site_packages} {SO ML : Type}.
Implicit Types (w : world F) (d : path) (p : pathlike) (self : MegatronCheckpointIO).

(** C6. Refusals, in the order of the body.  Without the package a save
    raises the [ModuleNotFoundError] of its import, whatever its
    arguments; with it, a save given [storage_options] raises
    [TypeError] and a save of a path that has no directory the
    [ValueError] of pathlib.  Each is raised before anything is touched:
    the world, trace included, is the one the call started in. *)
Theorem save_checkpoint_refuses self c p (so : option SO) w :
  has_megatron = false ∨ is_Some so ∨ is_ok (ckpt_to_dir p) = false →
  ∃ e, run (save_checkpoint self c p so) w = (Raise e, w) ∧
       if has_megatron then
         match so with
         | Some _ => e = TypeError storage_options_msg
         | None => class_of e = CValueError
         end
       else e = megatron_missing.
Proof.
  intros Hr. destruct megatron_dec as [MI|Hno].
  - rewrite megatron_installed in *.
    destruct so as [x|]; [rewrite run_save_checkpoint_options; eauto|].
    destruct Hr as [?|[[? [=]]|Hd]]; [done|].
    rewrite run_save_checkpoint. destruct (ckpt_to_dir p) as [d|e] eqn:Hp; [done|].
    exists e. split; [done|]. by apply ckpt_to_dir_Raise_inv in Hp as [msg ->].
  - rewrite Hno. eexists. split; [by apply save_checkpoint_unimportable|done].
Qed.

(** C9. Every way [load_checkpoint] raises, in the order of its body.
    Without the package it is the [ModuleNotFoundError] of the import.
    With it: given [map_location] a [ValueError] before the path is
    looked at; otherwise what [get_filesystem] raises for a protocol
    fsspec cannot serve, [FileNotFoundError] for a missing path,
    [ValueError] for a path that is not a directory.  These leave the
    world unchanged.  Any other exception is the backend's own or the
    assertion of the device pass, passed on unchanged after the one call
    to the backend. *)
Theorem load_checkpoint_raises_iff self p hint (ml : option ML) w e w' :
  run (load_checkpoint self p hint ml) w = (Raise e, w') ↔
  (has_megatron = false ∧ e = megatron_missing ∧ w' = w) ∨
  has_megatron = true ∧
  ((is_Some ml ∧ e = ValueError map_location_msg ∧ w' = w) ∨
   (ml = None ∧ get_filesystem p = Raise e ∧ w' = w) ∨
   ml = None ∧ is_ok (get_filesystem p) = true ∧
   ((fs_exists (fs w) (fspath p) = false ∧
     e = FileNotFoundError (not_found_msg p) ∧ w' = w) ∨
    (fs_exists (fs w) (fspath p) = true ∧ fs_isdir (fs w) (fspath p) = false ∧
     e = ValueError (not_a_directory_msg p) ∧ w' = w) ∨
    (fs_exists (fs w) (fspath p) = true ∧ fs_isdir (fs w) (fspath p) = true ∧
     load hint (fspath p) (fs w) ≫= _fix_tensors_device (cuda w) = Raise e ∧
     w' = record w [Load hint (fspath p)]))).
Proof.
  destruct megatron_dec as [MI|Hno].
  2: { rewrite load_checkpoint_unimportable, Hno by done.
       split; [intros [= <- <-]; auto|]. by intros [(_ & -> & ->)|[? _]]. }
  rewrite (megatron_installed (Megatron:=MI)). destruct ml as [x|].
  { rewrite run_load_checkpoint_map_location.
    split; [intros [= <- <-]; right; split; [done|]; left; eauto|].
    by intros [(? & _)|[_ [(_ & -> & ->)|[(? & _)|(? & _)]]]]. }
  destruct (get_filesystem p) as [o|x] eqn:Hg.
  2: { rewrite (load_checkpoint_unserved _ _ _ _ _ Hg).
       split; [intros [= <- <-]; right; split; [done|]; right; left; eauto|].
       by intros [(? & _)|[_ [([? ?] & _)|[(_ & [= ->] & ->)|(_ & ? & _)]]]]. }
  rewrite (run_load_checkpoint _ _ _ _ _ Hg).
  destruct (fs_exists _ _), (fs_isdir _ _); simpl;
    (split; [intros [= ? ?]; subst; right; split; [done|]; do 2 right; eauto 10|]);
    intros [(? & _)|[_ [([? ?] & _)|[(_ & ? & _)|(_ & _ & [(? & ? & ?)|
              [(? & ? & ? & ?)|(? & ? & ? & ?)]])]]]];
    congruence.
Qed.

(** C11. Loading never writes: whatever the arguments, the environment
    and the outcome, the filesystem and the runtime are the ones it
    started with, and the trace grew by at most the one call to the
    backend's [load]. *)
Theorem load_checkpoint_readonly self p hint (ml : option ML) w :
  let w' := (run (load_checkpoint self p hint ml) w).2 in
  fs w' = fs w ∧ cuda w' = cuda w ∧
  (added w w' = [] ∨ added w w' = [Load hint (fspath p)]).
Proof.
  cbv zeta. destruct megatron_dec as [MI|Hno];
    [|rewrite load_checkpoint_unimportable by done; by rewrite added_refl; auto].
  destruct ml as [x|];
    [rewrite run_load_checkpoint_map_location; by rewrite added_refl; auto|].
  destruct (get_filesystem p) as [o|x] eqn:Hg;
    [|rewrite (load_checkpoint_unserved _ _ _ _ _ Hg); by rewrite added_refl; auto].
  rewrite (run_load_checkpoint _ _ _ _ _ Hg).
  destruct (negb _); [by rewrite added_refl; auto|].
  destruct (negb _); [by rewrite added_refl; auto|].
  simpl. rewrite added_record. auto.
Qed.

(** *** Any sequence of calls *)

(** Every call leaves one of the worlds of [leaves]: with the package
    or without, served or not, returning or raising. *)
Lemma after_leaves self k w : leaves self w k (after self k w).
Proof.
  destruct k as [c p so|p hint ml|p|p]; unfold after.
  - destruct megatron_dec as [MI|Hno];
      [|rewrite save_checkpoint_unimportable by done; constructor].
    destruct so as [x|]; [rewrite run_save_checkpoint_options; constructor|].
    rewrite run_save_checkpoint.
    destruct (ckpt_to_dir p) as [d|] eqn:Hd; [|constructor]. simpl.
    destruct (complete _ _); [by constructor|].
    destruct (fs_makedirs _ _ _) as [f1|] eqn:Hm; [|by constructor].
    destruct (save _ _ _ _) as [f2|] eqn:Hs; eapply leaves_save; eauto.
  - destruct megatron_dec as [MI|Hno];
      [|rewrite load_checkpoint_unimportable by done; constructor].
    destruct ml as [x|]; [rewrite run_load_checkpoint_map_location; constructor|].
    destruct (get_filesystem p) as [o|x] eqn:Hg;
      [|rewrite (load_checkpoint_unserved _ _ _ _ _ Hg); constructor].
    rewrite (run_load_checkpoint _ _ _ _ _ Hg).
    repeat (destruct (negb _); [constructor|]). constructor.
  - destruct (get_filesystem p) as [o|x] eqn:Hg;
      [|rewrite (remove_checkpoint_unserved _ _ _ _ Hg); constructor].
    rewrite (run_remove_checkpoint _ _ _ _ Hg). destruct (fs_exists _ _); [|constructor].
    destruct (fs_rm _ _ _) as [f'|] eqn:Hrm; by constructor.
  - destruct megatron_dec as [MI|Hno];
      [|rewrite is_distributed_ckpt_unimportable by done; constructor].
    rewrite run_is_distributed_ckpt. constructor.
Qed.

(** One call keeps the filesystem well formed and the runtime as it
    was, and extends the trace by calls that carry the store's strategy. *)
Lemma after_invariant self k w :
  fs_wf (fs w) →
  fs_wf (fs (after self k w)) ∧ cuda (after self k w) = cuda w ∧
  ∃ es, trace (after self k w) = trace w ++ es ∧
        Forall (save_with (save_sharded_strategy self)) es.
Proof.
  intros Hwf.
  destruct (after_leaves self k w) as [k| | |c p so d f1 f2 _ Hm Hs| | |p f' Hrm].
  { split_and!; [done..|]. exists []. by rewrite app_nil_r. }
  all: split_and!; [..|eexists; split; [done|by repeat constructor]]; try done.
  - pose proof (makedirs_wf _ _ _ _ Hwf Hm). destruct Hs as [->|Hs]; eauto using save_wf.
  - by eapply rm_wf.
Qed.

(** Every sequence of calls is a run of the transition system. *)
Lemma after_all_steps self ks w : rtc (step self) w (after_all self ks w).
Proof.
  revert w. induction ks as [|k ks IH]; intros w; [done|].
  eapply rtc_l; [apply (step_call self k w)|apply IH].
Qed.

(** What one call adds to the trace. *)
Lemma after_events self k w :
  ∃ es, trace (after self k w) = trace w ++ es ∧ call_events self k es.
Proof.
  destruct (after_leaves self k w) as [k| | | | | |];
    [exists []; rewrite app_nil_r; split; [done|destruct k; by try left]
    |eexists; split; [done|]; simpl; eauto 10..].
Qed.

Lemma call_events_bound self k es :
  call_events self k es →
  length es ≤ 2 ∧
  length (filter is_save es) ≤ (if is_CallSave k then 1 else 0) ∧
  length (filter is_load es) ≤ (if is_CallLoad k then 1 else 0).
Proof.
  destruct k; simpl; intros He; destruct_or?; try destruct He as (d & _ & He);
    destruct_or?; subst; simpl; lia.
Qed.

(** C13. Delegation is bounded.  Over any sequence of calls, whatever
    they return or raise, the backend's [save] is called at most once
    per [save_checkpoint] and its [load] at most once per
    [load_checkpoint], and no call adds more than two events: nothing
    is retried. *)
Theorem delegations_bounded self ks w :
  let es := added w (after_all self ks w) in
  trace (after_all self ks w) = trace w ++ es ∧
  length (filter is_save es) ≤ length (filter is_CallSave ks) ∧
  length (filter is_load es) ≤ length (filter is_CallLoad ks) ∧
  length es ≤ 2 * length ks.
Proof.
  cbv zeta.
  assert (∃ es, trace (after_all self ks w) = trace w ++ es ∧
                length (filter is_save es) ≤ length (filter is_CallSave ks) ∧
                length (filter is_load es) ≤ length (filter is_CallLoad ks) ∧
                length es ≤ 2 * length ks) as (es & Ht & Hb).
  { revert w. induction ks as [|k ks IH]; intros w.
    - exists []. by rewrite app_nil_r.
    - destruct (after_events self k w) as (es1 & Ht1 & Hk%call_events_bound).
      destruct (IH (after self k w)) as (es2 & Ht2 & Hb2).
      exists (es1 ++ es2). split; [by rewrite app_assoc, <-Ht1|].
      rewrite !filter_app, !length_app, !filter_cons. simpl.
      destruct (is_CallSave k), (is_CallLoad k); simpl; lia. }
  unfold added. by rewrite Ht, drop_app_length.
Qed.

(** C15. Invariant of the store.  From a world with a well-formed
    filesystem, whatever calls are made, in whatever order and whether
    they return or raise: the filesystem stays well formed, the
    accelerator runtime is never changed, the trace only grows, and
    every call to the backend's [save] carries the strategy the store was
    constructed with. *)
Theorem reachable_invariant self w0 w :
  fs_wf (fs w0) → rtc (step self) w0 w →
  fs_wf (fs w) ∧ cuda w = cuda w0 ∧
  ∃ es, trace w = trace w0 ++ es ∧
        Forall (save_with (save_sharded_strategy self)) es.
Proof.
  intros Hwf Hr. induction Hr as [w|w1 w2 w3 [k w1'] _ IH].
  - split_and!; [done..|]. exists []. by rewrite app_nil_r.
  - destruct (after_invariant self k w1' Hwf) as (H1 & H2 & es1 & H3 & H4).
    destruct (IH H1) as (? & ? & es2 & H5 & H6).
    split_and!; [done|congruence|]. exists (es1 ++ es2).
    rewrite H5, H3, app_assoc. split; [done|]. by apply Forall_app.
Qed.

End environment.

End CheckpointIO.
