(* ===== verification/Mounts.v ===== *)
(** * A local filesystem and remote stores

    [Mounts] is a world with a local filesystem and one store per
    protocol.  Its operations select the store from the path they are
    given, as the filesystem [get_filesystem] returned for that path
    does: a path without a protocol, or with the protocol [file] or
    [local], is served by the local filesystem, any other protocol by the
    store of its name, with the protocol stripped.  The backend works on
    the local filesystem, as megatron's reference implementation does.

    It is the instance on which a save to a URL is run: the save is the
    save on the local filesystem alone ([save_checkpoint_local]), so a
    load of the same URL does not find it ([save_url_not_loadable]). *)

From Stdlib Require Import Ascii.
From stdpp Require Import base tactics option list numbers strings gmap.
From S2P Require Import Prelude PyStr PurePath PathConvention CloudIO Payload.
From S2P Require Import DeviceFixup FileSystem Backend CheckpointIO.

Module Mounts.
Import PurePath PathConvention Payload DeviceFixup FileSystem MemFS.
Import dist_checkpointing RefBackend CheckpointIO CloudIO.

(** A protocol without an entry in [remote] is an empty store. *)
Record mounts : Type := Mount { local : memfs; remote : gmap pystr memfs }.

#[export] Instance mounts_eq_dec : EqDecision mounts.
Proof. solve_decision. Defined.

Definition empty_store : memfs := Mem [] ∅.

(** The protocols of fsspec's [LocalFileSystem]. *)
Definition local_protocols : list pystr := [py "file"; py "local"].

(** The remote store a string names, if it names one. *)
Definition remote_of (urlpath : pystr) : option pystr :=
  protocol ← (split_protocol urlpath).1;
  if decide (protocol ∈ local_protocols) then None else Some protocol.

(** The store that serves a string, and the path inside that store. *)
Definition store_of (m : mounts) (urlpath : pystr) : memfs * pystr :=
  let path := (split_protocol urlpath).2 in
  match remote_of urlpath with
  | Some protocol => (default empty_store (remote m !! protocol), path)
  | None => (local m, path)
  end.

Definition put_store (m : mounts) (urlpath : pystr) (f : memfs) : mounts :=
  match remote_of urlpath with
  | Some protocol => Mount (local m) (<[protocol := f]> (remote m))
  | None => Mount f (remote m)
  end.

(** An operation of the selected store, as an operation of the world. *)
Definition in_store (op : pystr → memfs → result memfs) (urlpath : pystr)
    (m : mounts) : result mounts :=
  put_store m urlpath <$> op (store_of m urlpath).2 (store_of m urlpath).1.

Definition mounts_wf (m : mounts) : Prop :=
  tree_wf (tree (local m)) ∧ map_Forall (λ _ f, tree_wf (tree f)) (remote m).

#[export] Instance mounts_fs : FileSystem mounts := {
  fs_wf := mounts_wf;
  fs_exists m s := mem_exists (store_of m s).1 (store_of m s).2;
  fs_isdir m s := mem_isdir (store_of m s).1 (store_of m s).2;
  fs_makedirs s e := in_store (λ p, mem_makedirs p e) s;
  fs_rm s r := in_store (λ p, mem_rm p r) s
}.

(** The backend reads and writes local files only. *)
#[export] Instance mounts_backend : Backend mounts := {
  check_is_distributed_checkpoint m d := ref_check (local m) d;
  save v d s m := (λ f, Mount f (remote m)) <$> ref_save v d s (local m);
  load hint d m := ref_load hint d (local m)
}.

(** The world the local store alone would see, and a world of the local
    store put back beside the remote ones. *)
Definition on_local (w : world mounts) : world memfs :=
  World (local (fs w)) (cuda w) (trace w).

Definition with_local (w : world mounts) (v : world memfs) : world mounts :=
  World (Mount (fs v) (remote (fs w))) (cuda v) (trace v).

(** ** A string without a protocol is served by the local store *)

Section local.
Context (m : mounts) (s : pystr).
Hypothesis Hs : split_protocol s = (None, s).

Lemma remote_of_local : remote_of s = None.
Proof. unfold remote_of. by rewrite Hs. Qed.

Lemma store_of_local : store_of m s = (local m, s).
Proof. unfold store_of. by rewrite remote_of_local, Hs. Qed.

Lemma in_store_local op :
  in_store op s m = (λ f, Mount f (remote m)) <$> op s (local m).
Proof. unfold in_store, put_store. by rewrite store_of_local, remote_of_local. Qed.

Lemma exists_local : fs_exists m s = mem_exists (local m) s.
Proof. cbn [fs_exists mounts_fs]. by rewrite store_of_local. Qed.

Lemma isdir_local : fs_isdir m s = mem_isdir (local m) s.
Proof. cbn [fs_isdir mounts_fs]. by rewrite store_of_local. Qed.

Lemma makedirs_local e :
  fs_makedirs s e m = (λ f, Mount f (remote m)) <$> mem_makedirs s e (local m).
Proof. apply in_store_local. Qed.

End local.

(** A string that names a remote store names a protocol. *)
Lemma remote_of_protocol s proto :
  remote_of s = Some proto → protocol_of (PStr s) = Some proto.
Proof.
  unfold remote_of, protocol_of. cbn [fspath].
  destruct (split_protocol s).1 as [q|]; [|done]. simpl. by case_decide.
Qed.

(** ** The filesystem laws, store by store *)

Lemma store_of_wf m s : mounts_wf m → tree_wf (tree (store_of m s).1).
Proof.
  intros [Hl Hr]. unfold store_of. destruct (remote_of s) as [proto|]; [|done].
  simpl. destruct (remote m !! proto) as [f|] eqn:E; simpl.
  - apply (map_Forall_lookup_1 _ _ _ _ Hr E).
  - apply tree_wf_empty.
Qed.

Lemma store_of_put m s f : store_of (put_store m s f) s = (f, (store_of m s).2).
Proof.
  unfold store_of, put_store. destruct (remote_of s) as [proto|]; simpl; [|done].
  by rewrite lookup_insert_eq.
Qed.

Lemma put_store_wf m s f : mounts_wf m → tree_wf (tree f) → mounts_wf (put_store m s f).
Proof.
  intros [Hl Hr] Hf. unfold put_store. destruct (remote_of s); split; simpl; try done.
  by apply map_Forall_insert_2.
Qed.

(** Putting back the store a string selects changes nothing, when that
    store has an entry. *)
Lemma put_store_id m s :
  is_Some (tree (store_of m s).1 !! resolve (store_of m s).1 (store_of m s).2) →
  put_store m s (store_of m s).1 = m.
Proof.
  unfold store_of, put_store. destruct m as [l r].
  destruct (remote_of s) as [proto|]; simpl; [|done].
  destruct (r !! proto) as [f|] eqn:E; simpl.
  - intros _. by rewrite insert_id.
  - rewrite lookup_empty. by intros [? ?].
Qed.

Lemma in_store_Ok op s m m' :
  in_store op s m = Ok m' →
  ∃ f', op (store_of m s).2 (store_of m s).1 = Ok f' ∧ m' = put_store m s f'.
Proof.
  unfold in_store. destruct (op _ _) as [f'|]; [|done]. intros [= <-]. eauto.
Qed.

#[export] Instance mounts_laws : FileSystemLaws mounts.
Proof.
  destruct memfs_laws as [L1 L2 L3 L4 L5 L6 L7]. simpl in *. split; simpl.
  - intros m s. apply L1.
  - intros m s m' Hwf (f' & Hm & ->)%in_store_Ok. rewrite store_of_put. simpl.
    eapply L2; [by apply store_of_wf|done].
  - intros m s Hwf Hd. unfold in_store.
    rewrite (L3 _ _ (store_of_wf m s Hwf) Hd). simpl.
    f_equal. apply put_store_id. apply mem_isdir_true in Hd. by rewrite Hd.
  - intros m s e m' Hwf (f' & Hm & ->)%in_store_Ok. apply put_store_wf; [done|].
    eapply L4; [by apply store_of_wf|done].
  - intros m s m' (f' & Hm & ->)%in_store_Ok. rewrite store_of_put. simpl.
    by eapply L5.
  - intros m s He%L6. unfold in_store. by destruct (mem_rm _ _ _).
  - intros m s r m' Hwf (f' & Hm & ->)%in_store_Ok. apply put_store_wf; [done|].
    eapply L7; [by apply store_of_wf|done].
Qed.

Lemma with_local_on_local w : with_local w (on_local w) = w.
Proof. by destruct w as [[??]??]. Qed.

Lemma with_local_record w v es : with_local w (record v es) = record (with_local w v) es.
Proof. done. Qed.

(** Puts a result computed on the local store back in the world. *)
Ltac back_local :=
  cbn [run fst snd]; rewrite ?with_local_record, ?with_local_on_local.

Lemma complete_local (m : mounts) (d : path) :
  path_wf d → complete m d = complete (local m) d.
Proof.
  intros Hd%split_protocol_str. unfold complete. by rewrite isdir_local.
Qed.

Section methods.
Context `{SP : site_packages} {SO : Type}.
Implicit Types (w : world mounts) (p : pathlike) (self : MegatronCheckpointIO).

(** A save on a world with remote stores is the save on the local
    filesystem alone, put back beside the remote stores. *)
Lemma save_on_local self c p (so : option SO) w :
  run (save_checkpoint self c p so) w =
    ((run (save_checkpoint self c p so) (on_local w)).1,
     with_local w (run (save_checkpoint self c p so) (on_local w)).2).
Proof.
  destruct megatron_dec as [MI|Hno];
    [|rewrite !save_checkpoint_unimportable by done; by back_local].
  destruct so as [x|]; [rewrite !run_save_checkpoint_options; by back_local|].
  rewrite !run_save_checkpoint.
  destruct (ckpt_to_dir p) as [d|e] eqn:Hd; [|by back_local].
  destruct (ckpt_to_dir_Ok_wf p d Hd) as [Hwf _].
  pose proof (split_protocol_str d Hwf) as Hs.
  cbv zeta. rewrite complete_local, (makedirs_local _ _ Hs) by done. cbn [fs on_local].
  destruct (complete (local (fs w)) d); [by back_local|].
  cbn [fs_makedirs memfs_fs].
  destruct (mem_makedirs _ _ _) as [f1|e]; [|by back_local].
  cbn [fmap result_fmap save mounts_backend local remote ref_backend].
  by destruct (ref_save _ _ _ f1).
Qed.

(** C8. A save never reaches a remote store.  Whatever the path, a URL
    included, [save_checkpoint] on a world with remote stores returns or
    raises as it does on the local filesystem alone, does to the local
    filesystem, the runtime and the trace what it does there, and leaves
    every remote store as it was. *)
Theorem save_checkpoint_local self c p (so : option SO) w :
  let out := run (save_checkpoint self c p so) w in
  let loc := run (save_checkpoint self c p so) (on_local w) in
  out.1 = loc.1 ∧ on_local out.2 = loc.2 ∧ remote (fs out.2) = remote (fs w).
Proof.
  cbv zeta. rewrite (save_on_local self c p so w).
  by destruct (run _ (on_local w)) as [r [f rt tr]].
Qed.

(** A string that names a remote store is served by that store. *)
Lemma exists_remote (m m' : mounts) s :
  is_Some (remote_of s) → remote m' = remote m → fs_exists m' s = fs_exists m s.
Proof.
  intros [proto Hs] Hr. cbn [fs_exists mounts_fs]. unfold store_of.
  by rewrite Hs, Hr.
Qed.

(** C20. A save to a URL does not make the URL loadable.  Let the path
    name a remote store that fsspec serves, and nothing exist at it in
    that store.  After [save_checkpoint] of the path, returned or
    raised, there is still nothing at it: [load_checkpoint] of the same
    path raises [FileNotFoundError], and [remove_checkpoint] of it finds
    nothing to remove.  What the save wrote is on the local filesystem. *)
Theorem save_url_not_loadable `{MI : !Megatron} {ML} self c url hint w :
  is_Some (remote_of url) → is_ok (get_filesystem (PStr url)) = true →
  fs_exists (fs w) url = false →
  let w' := (run (save_checkpoint self c (PStr url) (@None SO)) w).2 in
  remote (fs w') = remote (fs w) ∧
  run (load_checkpoint self (PStr url) hint (@None ML)) w' =
    (Raise (FileNotFoundError (not_found_msg (PStr url))), w') ∧
  run (remove_checkpoint self (PStr url)) w' = (Ok tt, w').
Proof.
  intros Hu Hg He w'. destruct (get_filesystem (PStr url)) as [o|] eqn:Ho; [|done].
  assert (remote (fs w') = remote (fs w)) as Hr by (subst w'; by rewrite save_on_local).
  assert (fs_exists (fs w') url = false) as He'
    by (by rewrite (exists_remote (fs w) (fs w') url Hu Hr)).
  split_and!; [done| |].
  - rewrite (run_load_checkpoint _ _ _ _ _ Ho). cbn [fspath]. by rewrite He'.
  - rewrite (run_remove_checkpoint _ _ _ _ Ho). cbn [fspath]. by rewrite He'.
Qed.

(** The existence oracle looks at the local filesystem only. *)
Lemma is_distributed_ckpt_local p w :
  run (is_distributed_ckpt p) w = ((run (is_distributed_ckpt p) (on_local w)).1, w).
Proof.
  destruct megatron_dec as [MI|Hno];
    [|by rewrite !is_distributed_ckpt_unimportable by done].
  rewrite !run_is_distributed_ckpt. cbn [fst].
  destruct (ckpt_to_dir p) as [d|e] eqn:Hd; [|done].
  destruct (ckpt_to_dir_Ok_wf p d Hd) as [Hwf _].
  simpl. by rewrite complete_local.
Qed.

End methods.

End Mounts.
