(* ===== verification/Binding.v ===== *)
(** * Binding a call to a signature

    Before the body of a function runs, Python binds the positional and
    keyword arguments of the call to the parameters of the [def].  The
    module is called this way at every entry point (the three overrides
    and the constructor of [MegatronCheckpointIO], lines 57-60, 65,
    101-103 and 136; the class methods of [TrainerContext], lines 31-32
    and 40-41; the functions of lines 159, 173 and 191) and calls the
    constructor that [@dataclass] writes for [TrainerContext] (lines
    24-28, called at line 38).

    [bind_call] is that step for signatures of plain parameters with
    defaults (no [*args], no [**kwargs], no keyword-only parameters: the
    module has none), with the [TypeError]s of CPython 3.12 in the order
    CPython finds them.  [bind] is the call of a method or class method,
    whose first parameter the call itself binds, and [bind_function] the
    call of a function.  The lemmas say what a successful binding is and
    that every refusal is a [TypeError]; [Plugin] and [TrainerContext]
    are their clients. *)

From Stdlib Require Import Ascii.
From stdpp Require Import base tactics option list numbers strings pretty.
From S2P Require Import Prelude PyStr PurePath.

Module Binding.
Import PurePath.

Section binding.
Context {X : Type}.

(** The parameters a caller binds (those after [self] or [cls], for a
    method), each with its default if it has one. *)
Definition signature : Type := list (pystr * option X).

Definition repr_nat (n : nat) : pystr := py (pretty n).

Definition plural (n : nat) : pystr := if decide (n = 1) then [] else py "s".

(** ['a'], ['a' and 'b'], ['a', 'b', and 'c'] *)
Fixpoint name_list (ns : list pystr) : pystr :=
  match ns with
  | [] => []
  | [a] => repr_str a
  | [a; b] => repr_str a ++ py " and " ++ repr_str b
  | a :: (_ :: _ :: _) as rest =>
      repr_str a ++ py ", " ++
      match rest with
      | [b; c] => repr_str b ++ py ", and " ++ repr_str c
      | _ => name_list rest
      end
  end.

Definition unexpected_msg (fname k : pystr) : pystr :=
  fname ++ py "() got an unexpected keyword argument " ++ repr_str k.

Definition multiple_msg (fname k : pystr) : pystr :=
  fname ++ py "() got multiple values for argument " ++ repr_str k.

(** The counts include the [bound] parameters the call itself binds:
    [self] of a method, [cls] of a class method, none of a function. *)
Definition too_many_msg (bound : nat) (fname : pystr) (sig : signature) (given : nat) :
    pystr :=
  let total := bound + length sig in
  let required := bound + length (filter (λ p, p.2 = None) sig) in
  fname ++ py "() takes " ++
  (if decide (required = total) then repr_nat total
   else py "from " ++ repr_nat required ++ py " to " ++ repr_nat total) ++
  py " positional argument" ++
  (if decide (required = total) then plural total else py "s") ++
  py " but " ++ repr_nat (bound + given) ++ py " were given".

Definition missing_msg (fname : pystr) (ns : list pystr) : pystr :=
  fname ++ py "() missing " ++ repr_nat (length ns) ++ py " required positional argument" ++
  plural (length ns) ++ py ": " ++ name_list ns.

(** The position of a parameter. *)
Definition position (sig : signature) (k : pystr) : option nat :=
  fst <$> list_find (λ p, p.1 = k) sig.

(** The value a keyword gives. *)
Definition keyword (kwargs : list (pystr * X)) (k : pystr) : option X :=
  (λ r, r.2.2) <$> list_find (λ kv, kv.1 = k) kwargs.

(** The keywords, in the order written: each names a parameter that no
    positional argument has filled. *)
Fixpoint check_keywords (fname : pystr) (sig : signature) (filled : nat)
    (kwargs : list (pystr * X)) : result unit :=
  match kwargs with
  | [] => Ok tt
  | (k, _) :: rest =>
      match position sig k with
      | None => Raise (TypeError (unexpected_msg fname k))
      | Some i =>
          if decide (i < filled) then Raise (TypeError (multiple_msg fname k))
          else check_keywords fname sig filled rest
      end
  end.

(** What a parameter is bound to: the positional argument at its place,
    else the keyword of its name, else its default. *)
Definition fill (args : list X) (kwargs : list (pystr * X)) (i : nat)
    (p : pystr * option X) : pystr * option X :=
  (p.1, match args !! i with
        | Some a => Some a
        | None => match keyword kwargs p.1 with
                  | Some a => Some a
                  | None => p.2
                  end
        end).

(** The parameters a frame leaves without a value, and the values of
    the others. *)
Definition missing (frame : list (pystr * option X)) : list pystr :=
  omap (λ p, match p.2 with None => Some p.1 | Some _ => None end) frame.

Definition values (frame : list (pystr * option X)) : list (pystr * X) :=
  omap (λ p, pair p.1 <$> p.2) frame.

(** The call of [fname] with the positional arguments [args] and the
    keyword arguments [kwargs], on the signature [sig]. *)
Definition bind_call (bound : nat) (fname : pystr) (sig : signature) (args : list X)
    (kwargs : list (pystr * X)) : result (list (pystr * X)) :=
  check_keywords fname sig (length args `min` length sig) kwargs;;
  if decide (length sig < length args) then
    Raise (TypeError (too_many_msg bound fname sig (length args)))
  else
    let frame := imap (fill args kwargs) sig in
    match missing frame with
    | [] => Ok (values frame)
    | ns => Raise (TypeError (missing_msg fname ns))
    end.

(** The call of a method or of a class method, and of a function. *)
Definition bind : pystr → signature → list X → list (pystr * X) →
    result (list (pystr * X)) := bind_call 1.
Definition bind_function : pystr → signature → list X → list (pystr * X) →
    result (list (pystr * X)) := bind_call 0.

(** The override binds every call the base class accepts, and binds the
    parameters of the base class as the base class does. *)
Definition agrees (base override : signature) : Prop :=
  ∀ fname args kwargs b,
    bind fname base args kwargs = Ok b →
    ∃ b', bind fname override args kwargs = Ok b' ∧ b ⊆ b'.

End binding.

Arguments signature X : clear implicits.

(** ** What a binding is *)

Section bind_spec.
Context {X : Type}.
Implicit Types (sig : signature X) (args : list X) (kwargs : list (pystr * X)).

Lemma check_keywords_Ok fname sig filled kwargs :
  check_keywords fname sig filled kwargs = Ok tt ↔
  Forall (λ kv, ∃ i, position sig kv.1 = Some i ∧ filled ≤ i) kwargs.
Proof.
  induction kwargs as [|[k a] kwargs IH]; simpl; [by split|].
  rewrite Forall_cons. simpl. destruct (position sig k) as [i|].
  - case_decide as Hi.
    + split; [done|]. intros [(j & [= <-] & ?) _]. lia.
    + rewrite IH. split; [intros ?; split; [exists i; split; [done|lia]|done]|by intros [_ ?]].
  - split; [done|]. by intros [(j & ? & _) _].
Qed.

Lemma check_keywords_Raise fname sig filled kwargs e :
  check_keywords fname sig filled kwargs = Raise e → class_of e = CTypeError.
Proof.
  induction kwargs as [|[k a] kwargs IH]; simpl; [done|].
  destruct (position sig k); [case_decide|]; try done; by intros [= <-].
Qed.

(** The frame of a binding that succeeded, parameter by parameter. *)
Definition framed sig args kwargs (b : list (pystr * X)) : Prop :=
  imap (fill args kwargs) sig = (λ kv, (kv.1, Some kv.2)) <$> b.

Lemma missing_nil (frame : list (pystr * option X)) :
  missing frame = [] ↔ frame = (λ kv, (kv.1, Some kv.2)) <$> values frame.
Proof.
  induction frame as [|[k [x|]] frame IH]; [done|..].
  - change (missing ((k, Some x) :: frame)) with (missing frame).
    change (values ((k, Some x) :: frame)) with ((k, x) :: values frame).
    split; [intros Hm; cbn [fmap list_fmap]; f_equal; by apply IH|intros [= Hf]; by apply IH].
  - change (values ((k, None) :: frame)) with (values frame).
    split; [done|]. by destruct (values frame) as [|[] ?].
Qed.

Lemma values_bound (b : list (pystr * X)) :
  values ((λ kv, (kv.1, Some kv.2)) <$> b) = b.
Proof. induction b as [|[k x] b IH]; [done|]. cbn. f_equal. apply IH. Qed.

(** What a call binds.  A call is accepted exactly when it has no more
    positional arguments than the signature has parameters, every
    keyword names a parameter that no positional argument filled, and
    every parameter gets a value; the frame then binds each parameter,
    in the order of the signature, to the positional argument at its
    place, else to the keyword of its name, else to its default. *)
Lemma bind_call_Ok_iff bound fname sig args kwargs (b : list (pystr * X)) :
  bind_call bound fname sig args kwargs = Ok b ↔
  length args ≤ length sig ∧
  Forall (λ kv, ∃ i, position sig kv.1 = Some i ∧ length args ≤ i) kwargs ∧
  framed sig args kwargs b.
Proof.
  unfold bind_call, framed. cbv zeta. split.
  - destruct (check_keywords _ _ _ _) as [[]|] eqn:Hk; [|done]. simpl.
    case_decide as Hlen; [done|]. apply check_keywords_Ok in Hk.
    rewrite Nat.min_l in Hk by lia.
    destruct (missing _) eqn:Hm; [|done]. intros [= <-].
    split_and!; [lia|done|by apply missing_nil].
  - intros (Hlen & Hk & Hf).
    rewrite (proj2 (check_keywords_Ok fname sig _ kwargs)) by (by rewrite Nat.min_l).
    simpl. rewrite decide_False by lia.
    rewrite Hf, values_bound, (proj2 (missing_nil _)); [done|by rewrite values_bound].
Qed.

Lemma bind_Ok_iff fname sig args kwargs (b : list (pystr * X)) :
  bind fname sig args kwargs = Ok b ↔
  length args ≤ length sig ∧
  Forall (λ kv, ∃ i, position sig kv.1 = Some i ∧ length args ≤ i) kwargs ∧
  framed sig args kwargs b.
Proof. apply bind_call_Ok_iff. Qed.

(** What is bound does not depend on who binds the first parameter:
    only the counts in the message of a refusal do. *)
Lemma bind_call_bound bound bound' fname sig args kwargs (b : list (pystr * X)) :
  bind_call bound fname sig args kwargs = Ok b →
  bind_call bound' fname sig args kwargs = Ok b.
Proof. by rewrite !bind_call_Ok_iff. Qed.

(** Every refusal of a call is a [TypeError]. *)
Lemma bind_call_refuses bound fname sig args kwargs e :
  bind_call bound fname sig args kwargs = Raise e → class_of e = CTypeError.
Proof.
  unfold bind_call. cbv zeta.
  destruct (check_keywords _ _ _ _) as [[]|] eqn:Hk;
    [|intros [= <-]; by eapply check_keywords_Raise].
  simpl. case_decide; [by intros [= <-]|]. destruct (missing _); [done|by intros [= <-]].
Qed.

Lemma bind_refuses fname sig args kwargs e :
  bind fname sig args kwargs = Raise e → class_of e = CTypeError.
Proof. apply bind_call_refuses. Qed.

Lemma imap_fst {A B} (g : nat → A * B → A * B) (l : list (A * B)) :
  (∀ i p, (g i p).1 = p.1) → (imap g l).*1 = l.*1.
Proof.
  revert g. induction l as [|p l IH]; intros g Hg; [done|].
  cbn. f_equal; [apply Hg|apply IH]. intros i q. apply Hg.
Qed.

(** A binding that succeeded binds the parameters of the signature, by
    their names and in their order. *)
Lemma bind_names bound fname sig args kwargs (b : list (pystr * X)) :
  bind_call bound fname sig args kwargs = Ok b → b.*1 = sig.*1.
Proof.
  intros (_ & _ & Hf)%bind_call_Ok_iff. unfold framed in Hf.
  rewrite <-(imap_fst (fill args kwargs) sig), Hf by done.
  clear. induction b as [|[k x] b IH]; [done|]. cbn. by f_equal.
Qed.

(** A signature of one parameter binds one value. *)
Lemma bind_call_one bound fname k d args kwargs (b : list (pystr * X)) :
  bind_call bound fname [(k, d)] args kwargs = Ok b → ∃ x, b = [(k, x)].
Proof.
  intros Hn%bind_names. destruct b as [|[k' x] [|? ?]]; try done.
  exists x. by injection Hn as ->.
Qed.

Lemma agrees_refl (sig : signature X) : agrees sig sig.
Proof. intros fname args kwargs b Hb. by exists b. Qed.

End bind_spec.

End Binding.
