(* ===== verification/Plugin.v ===== *)
(** * The entry points as a caller reaches them

    [MegatronCheckpointIO] implements the checkpoint-IO interface of
    Lightning: [save_checkpoint], [load_checkpoint] and
    [remove_checkpoint], each marked [@override].  The trainer calls
    them through that interface, with positional and keyword arguments,
    and Python binds the arguments to the parameters of the [def] before
    the body runs.

    This file models that step with [bind] of [Binding].
    The signatures are those of lines 57-60, 65, 101-103 and 136; the
    signatures of the base class are those of
    [lightning_fabric.plugins.io.CheckpointIO].  [init_call],
    [save_checkpoint_call], [load_checkpoint_call] and
    [remove_checkpoint_call] bind and then run the constructor or the
    method of [CheckpointIO].  The three functions of the module
    ([_fix_tensors_device], [ckpt_to_dir], [is_distributed_ckpt], lines
    159, 173 and 191) are called the same way, without [self].

    The theorems say what a successful binding is, that the overrides
    of [save_checkpoint] and [remove_checkpoint] bind every call as the
    base class does, and that the override of [load_checkpoint] accepts
    every call the base class accepts but does not bind it the same: it
    has a parameter before [map_location]. *)

From Stdlib Require Import Ascii.
From stdpp Require Import base tactics option list numbers strings pretty.
From S2P Require Import Prelude PyStr PurePath PathConvention CloudIO Payload.
From S2P Require Import DeviceFixup FileSystem Backend CheckpointIO Binding.

Module Plugin.
Import PurePath PathConvention CloudIO Payload DeviceFixup FileSystem.
Import dist_checkpointing CheckpointIO.
Export Binding.

(** ** The signatures *)

Section signatures.
Context {X : Type} (none : X).

(** [def save_checkpoint(self, checkpoint, path, storage_options=None)] *)
Definition save_checkpoint_sig : signature X :=
  [(py "checkpoint", None); (py "path", None); (py "storage_options", Some none)].

(** [def load_checkpoint(self, path, sharded_state_dict=None, map_location=None)] *)
Definition load_checkpoint_sig : signature X :=
  [(py "path", None); (py "sharded_state_dict", Some none); (py "map_location", Some none)].

(** [def remove_checkpoint(self, path)] *)
Definition remove_checkpoint_sig : signature X := [(py "path", None)].

(** The abstract methods of [lightning_fabric.plugins.io.CheckpointIO]. *)
Definition base_save_checkpoint_sig : signature X :=
  [(py "checkpoint", None); (py "path", None); (py "storage_options", Some none)].

Definition base_load_checkpoint_sig : signature X :=
  [(py "path", None); (py "map_location", Some none)].

Definition base_remove_checkpoint_sig : signature X := [(py "path", None)].

End signatures.

(** [MegatronCheckpointIO.save_checkpoint], as error messages name it. *)
Definition qualname (method : pystr) : pystr := class_name ++ py "." ++ method.

(** ** Calls with their arguments *)

(** An argument: [None], a string, a path object, or any other object. *)
Inductive arg : Type :=
| ANone
| AStr (s : pystr)
| APathObj (p : path)
| AValue (v : value).

#[export] Instance arg_eq_dec : EqDecision arg.
Proof. solve_decision. Defined.

Definition as_pathlike (a : arg) : option pathlike :=
  match a with
  | AStr s => Some (PStr s)
  | APathObj p => Some (PPath p)
  | _ => None
  end.

(** What [x is not None] lets through. *)
Definition not_none (a : arg) : option arg :=
  match a with ANone => None | _ => Some a end.

(** The argument as a payload: an object that is not a container is a
    leaf, known by its [repr]. *)
Definition obj_of (a : arg) : value :=
  match a with
  | ANone => VObj (py "None")
  | AStr s => VObj (repr_str s)
  | APathObj p => VObj (repr p)
  | AValue v => v
  end.

(** [def __init__(self, save_ckpt_format='torch_dist')] *)
Definition init_sig : signature arg :=
  [(py "save_ckpt_format", Some (AStr default_save_ckpt_format))].

Section calls.
Context {F : Type} `{FileSystem F, Backend F} `{SP : site_packages}.

(** [MegatronCheckpointIO(...)]: the binding, then the constructor.
    [None] when the format is not a string. *)
Definition init_call (args : list arg) (kwargs : list (pystr * arg)) :
    option (eff (world F) MegatronCheckpointIO) :=
  match bind (qualname (py "__init__")) init_sig args kwargs with
  | Raise e => Some (throw e)
  | Ok [(_, AStr save_ckpt_format)] => Some (__init__ save_ckpt_format)
  | Ok _ => None
  end.

(** A call of an entry point: the binding, then the method.  [None]
    when the path argument is neither a string nor a path, which the
    model of the methods does not cover. *)
Definition save_checkpoint_call (self : MegatronCheckpointIO) (args : list arg)
    (kwargs : list (pystr * arg)) : option (eff (world F) unit) :=
  match bind (qualname (py "save_checkpoint")) (save_checkpoint_sig ANone) args kwargs with
  | Raise e => Some (throw e)
  | Ok [(_, checkpoint); (_, path); (_, storage_options)] =>
      p ← as_pathlike path;
      Some (save_checkpoint self (obj_of checkpoint) p (not_none storage_options))
  | Ok _ => None
  end.

Definition load_checkpoint_call (self : MegatronCheckpointIO) (args : list arg)
    (kwargs : list (pystr * arg)) : option (eff (world F) value) :=
  match bind (qualname (py "load_checkpoint")) (load_checkpoint_sig ANone) args kwargs with
  | Raise e => Some (throw e)
  | Ok [(_, path); (_, sharded_state_dict); (_, map_location)] =>
      p ← as_pathlike path;
      Some (load_checkpoint self p (obj_of <$> not_none sharded_state_dict)
              (not_none map_location))
  | Ok _ => None
  end.

Definition remove_checkpoint_call (self : MegatronCheckpointIO) (args : list arg)
    (kwargs : list (pystr * arg)) : option (eff (world F) unit) :=
  match bind (qualname (py "remove_checkpoint")) remove_checkpoint_sig args kwargs with
  | Raise e => Some (throw e)
  | Ok [(_, path)] => p ← as_pathlike path; Some (remove_checkpoint self p)
  | Ok _ => None
  end.

(** *** The functions of the module *)

(** [def _fix_tensors_device(ckpt: Dict) -> Dict] *)
Definition _fix_tensors_device_sig : signature arg := [(py "ckpt", None)].

(** [def ckpt_to_dir(filepath: Union[str, Path]) -> Path] *)
Definition ckpt_to_dir_sig : signature arg := [(py "filepath", None)].

(** [def is_distributed_ckpt(path) -> bool] *)
Definition is_distributed_ckpt_sig : signature arg := [(py "path", None)].

Definition _fix_tensors_device_call (rt : cuda_runtime) (args : list arg)
    (kwargs : list (pystr * arg)) : option (result value) :=
  match bind_function (py "_fix_tensors_device") _fix_tensors_device_sig args kwargs with
  | Raise e => Some (Raise e)
  | Ok [(_, ckpt)] => Some (_fix_tensors_device rt (obj_of ckpt))
  | Ok _ => None
  end.

Definition ckpt_to_dir_call (args : list arg) (kwargs : list (pystr * arg)) :
    option (result path) :=
  match bind_function (py "ckpt_to_dir") ckpt_to_dir_sig args kwargs with
  | Raise e => Some (Raise e)
  | Ok [(_, filepath)] => p ← as_pathlike filepath; Some (ckpt_to_dir p)
  | Ok _ => None
  end.

Definition is_distributed_ckpt_call (args : list arg) (kwargs : list (pystr * arg)) :
    option (eff (world F) bool) :=
  match bind_function (py "is_distributed_ckpt") is_distributed_ckpt_sig args kwargs with
  | Raise e => Some (throw e)
  | Ok [(_, path)] => p ← as_pathlike path; Some (is_distributed_ckpt p)
  | Ok _ => None
  end.

End calls.

(** ** The overrides against the base class *)

Section overrides.
Context {X : Type} (none : X).

Lemma save_checkpoint_agrees :
  agrees (base_save_checkpoint_sig none) (save_checkpoint_sig none).
Proof. apply agrees_refl. Qed.

Lemma remove_checkpoint_agrees :
  agrees (X:=X) base_remove_checkpoint_sig remove_checkpoint_sig.
Proof. apply agrees_refl. Qed.

(** A second positional argument is [map_location] for the base class
    and [sharded_state_dict] for the override. *)
Lemma load_checkpoint_rebinds fname (p m : X) :
  bind fname (base_load_checkpoint_sig none) [p; m] [] =
    Ok [(py "path", p); (py "map_location", m)] ∧
  bind fname (load_checkpoint_sig none) [p; m] [] =
    Ok [(py "path", p); (py "sharded_state_dict", m); (py "map_location", none)] ∧
  bind fname (load_checkpoint_sig none) [p] [(py "map_location", m)] =
    Ok [(py "path", p); (py "sharded_state_dict", none); (py "map_location", m)].
Proof. done. Qed.

Lemma load_checkpoint_disagrees (m : X) :
  m ≠ none → ¬ agrees (base_load_checkpoint_sig none) (load_checkpoint_sig none).
Proof.
  intros Hm Ha.
  destruct (Ha [] [m; m] [] _ (proj1 (load_checkpoint_rebinds [] m m))) as (b' & Hb & Hsub).
  rewrite (proj1 (proj2 (load_checkpoint_rebinds [] m m))) in Hb. injection Hb as <-.
  assert ((py "map_location", m) ∈ [(py "path", m); (py "map_location", m)]) as Hin
    by (right; left).
  apply Hsub in Hin. rewrite !elem_of_cons, elem_of_nil in Hin.
  destruct Hin as [[=]|[[=]|[[= ?]|[]]]]. by apply Hm.
Qed.

(** A parameter with a default always gets a value. *)
Lemma fill_default (args : list X) kwargs i k d :
  ∃ y, fill args kwargs i (k, Some d) = (k, Some y).
Proof.
  unfold fill. cbn [fst snd].
  destruct (args !! i); [eauto|]. destruct (keyword kwargs k); eauto.
Qed.

(** A keyword the base class takes is a keyword of the override, at the
    same place or later. *)
Lemma load_checkpoint_position k i :
  position (base_load_checkpoint_sig none) k = Some i →
  ∃ j, position (load_checkpoint_sig none) k = Some j ∧ i ≤ j.
Proof.
  unfold position, base_load_checkpoint_sig, load_checkpoint_sig.
  cbn [list_find fst]. repeat case_decide; simplify_eq/=;
    intros [= <-]; eexists; (split; [done|lia]).
Qed.

(** The override of [load_checkpoint] refuses no call the base class
    accepts, and binds [path] as the base class does. *)
Lemma load_checkpoint_accepted fname (args : list X) kwargs b :
  bind fname (base_load_checkpoint_sig none) args kwargs = Ok b →
  ∃ b', bind fname (load_checkpoint_sig none) args kwargs = Ok b' ∧ b' !! 0 = b !! 0.
Proof.
  intros (Hlen & Hk & Hf)%bind_Ok_iff. unfold framed in Hf.
  destruct b as [|[k0 x0] b]; [done|]. injection Hf as Hk0 Hx0 Hf.
  destruct (fill_default args kwargs 1 (py "sharded_state_dict") none) as [y Hy].
  destruct (fill_default args kwargs 2 (py "map_location") none) as [z Hz].
  exists [(k0, x0); (py "sharded_state_dict", y); (py "map_location", z)].
  split; [|done]. apply bind_Ok_iff. split_and!.
  - cbn [length base_load_checkpoint_sig load_checkpoint_sig] in *. lia.
  - eapply Forall_impl; [exact Hk|]. intros kv (i & Hi & Hle).
    destruct (load_checkpoint_position _ _ Hi) as (j & Hj & Hij).
    exists j. split; [done|lia].
  - unfold framed, load_checkpoint_sig. cbn [imap compose fmap list_fmap fst snd].
    rewrite Hy, Hz. f_equal. unfold fill. cbn [fst snd]. by f_equal.
Qed.

(** C25. The overrides against the interface they implement.  The
    overrides of [save_checkpoint] and [remove_checkpoint] bind every
    call as the base class does.  The override of [load_checkpoint]
    refuses no call the base class accepts and binds [path] the same,
    but it does not bind [map_location] as the base class does: a
    second positional argument is [sharded_state_dict]. *)
Theorem overrides_against_base (m : X) :
  m ≠ none →
  agrees (base_save_checkpoint_sig none) (save_checkpoint_sig none) ∧
  agrees (X:=X) base_remove_checkpoint_sig remove_checkpoint_sig ∧
  (∀ fname args kwargs b,
     bind fname (base_load_checkpoint_sig none) args kwargs = Ok b →
     ∃ b', bind fname (load_checkpoint_sig none) args kwargs = Ok b' ∧ b' !! 0 = b !! 0) ∧
  ¬ agrees (base_load_checkpoint_sig none) (load_checkpoint_sig none).
Proof.
  intros Hm. split_and!.
  - apply save_checkpoint_agrees.
  - apply remove_checkpoint_agrees.
  - apply load_checkpoint_accepted.
  - by apply (load_checkpoint_disagrees m).
Qed.

End overrides.

Section calls_spec.
Context {F : Type} {FS : FileSystem F} {BE : Backend F} {FSL : FileSystemLaws F}.
Context `{SP : site_packages} {MI : Megatron}.

(** C28. The override of [load_checkpoint] moves [map_location].  A
    caller that passes [map_location] as the second positional
    argument, as the signature of the base class allows, is not refused:
    the override takes the argument for [sharded_state_dict] and, at a
    directory, hands it to the backend as the layout of the checkpoint.
    The same argument passed by keyword is refused with [ValueError]. *)
Theorem load_checkpoint_call_positional (self : MegatronCheckpointIO) (s : pystr)
    (m : value) (w : world F) :
  is_ok (get_filesystem (PStr s)) = true → fs_isdir (fs w) s = true →
  bind (qualname (py "load_checkpoint")) (base_load_checkpoint_sig ANone)
    [AStr s; AValue m] [] = Ok [(py "path", AStr s); (py "map_location", AValue m)] ∧
  (∃ call, load_checkpoint_call self [AStr s; AValue m] [] = Some call ∧
           run call w = (load (Some m) s (fs w) ≫= _fix_tensors_device (cuda w),
                         record w [Load (Some m) s])) ∧
  (∃ call, load_checkpoint_call self [AStr s] [(py "map_location", AValue m)] = Some call ∧
           run call w = (Raise (ValueError map_location_msg), w)).
Proof.
  intros Hg Hd. destruct (get_filesystem (PStr s)) as [o|] eqn:Ho; [|done].
  split; [done|]. split.
  - exists (load_checkpoint self (PStr s) (Some m) (@None arg)). split; [done|].
    rewrite (run_load_checkpoint _ _ _ _ _ Ho). cbn [fspath].
    by rewrite (isdir_exists _ _ Hd), Hd.
  - exists (load_checkpoint self (PStr s) None (Some (AValue m))). split; [done|].
    apply run_load_checkpoint_map_location.
Qed.

(** The refusals of a call, as CPython words them. *)
Example call_refusals (self : MegatronCheckpointIO) (a : arg) :
  save_checkpoint_call self [] [] =
    Some (throw (TypeError "MegatronCheckpointIO.save_checkpoint() missing 2 required positional arguments: 'checkpoint' and 'path'")) ∧
  remove_checkpoint_call self [] [] =
    Some (throw (TypeError "MegatronCheckpointIO.remove_checkpoint() missing 1 required positional argument: 'path'")) ∧
  remove_checkpoint_call self [a; a] [] =
    Some (throw (TypeError "MegatronCheckpointIO.remove_checkpoint() takes 2 positional arguments but 3 were given")) ∧
  load_checkpoint_call self [a; a; a; a] [] =
    Some (throw (TypeError "MegatronCheckpointIO.load_checkpoint() takes from 2 to 4 positional arguments but 5 were given")) ∧
  load_checkpoint_call self [a] [(py "path", a)] =
    Some (throw (TypeError "MegatronCheckpointIO.load_checkpoint() got multiple values for argument 'path'")) ∧
  load_checkpoint_call self [a] [(py "strict", a)] =
    Some (throw (TypeError "MegatronCheckpointIO.load_checkpoint() got an unexpected keyword argument 'strict'")).
Proof. split_and!; by vm_compute. Qed.

(** The functions of the module, called: the path by position or by the
    keyword of its parameter, which is [filepath] for [ckpt_to_dir] and
    [path] for [is_distributed_ckpt]; the counts of a refusal are those
    of a function. *)
Example function_calls (s : pystr) (a : arg) (rt : cuda_runtime) (v : value) :
  ckpt_to_dir_call [AStr s] [] = Some (ckpt_to_dir (PStr s)) ∧
  ckpt_to_dir_call [] [(py "filepath", AStr s)] = Some (ckpt_to_dir (PStr s)) ∧
  ckpt_to_dir_call [] [(py "path", a)] =
    Some (Raise (TypeError "ckpt_to_dir() got an unexpected keyword argument 'path'")) ∧
  is_distributed_ckpt_call (F:=F) [] [(py "path", AStr s)] =
    Some (is_distributed_ckpt (PStr s)) ∧
  is_distributed_ckpt_call (F:=F) [a; a] [] =
    Some (throw (TypeError "is_distributed_ckpt() takes 1 positional argument but 2 were given")) ∧
  _fix_tensors_device_call rt [AValue v] [] = Some (_fix_tensors_device rt v) ∧
  _fix_tensors_device_call rt [] [] =
    Some (Raise (TypeError "_fix_tensors_device() missing 1 required positional argument: 'ckpt'")).
Proof. split_and!; reflexivity. Qed.

(** A call of [is_distributed_ckpt] that is not refused by the binding
    is the oracle on the path bound; a refusal is a [TypeError] and
    leaves the world as it was. *)
Lemma is_distributed_ckpt_call_cases args kwargs call (w : world F) :
  is_distributed_ckpt_call args kwargs = Some call →
  (∃ e, class_of e = CTypeError ∧ run call w = (Raise e, w)) ∨
  (∃ x p, bind_function (py "is_distributed_ckpt") is_distributed_ckpt_sig args kwargs =
            Ok [(py "path", x)] ∧ as_pathlike x = Some p ∧ call = is_distributed_ckpt p).
Proof.
  unfold is_distributed_ckpt_call. destruct (bind_function _ _ _ _) as [b|e] eqn:Hb.
  - destruct (bind_call_one _ _ _ _ _ _ _ Hb) as [x ->].
    destruct (as_pathlike x) as [p|] eqn:Hp; [|done]. intros [= <-]. right. by exists x, p.
  - intros [= <-]. left. exists e. split; [by eapply bind_call_refuses|done].
Qed.

(** The constructor called without arguments takes the default format;
    the format may be given by position or by keyword. *)
Example constructor_calls :
  init_call (F:=F) [] [] = Some (__init__ default_save_ckpt_format) ∧
  init_call (F:=F) [AStr (py "zarr")] [] = Some (__init__ (py "zarr")) ∧
  init_call (F:=F) [] [(py "save_ckpt_format", AStr (py "zarr"))] =
    Some (__init__ (py "zarr")) ∧
  init_call (F:=F) [AStr (py "zarr"); ANone] [] =
    Some (throw (TypeError "MegatronCheckpointIO.__init__() takes from 1 to 2 positional arguments but 3 were given")).
Proof. split_and!; by vm_compute. Qed.

End calls_spec.

(** ** Witnesses *)

Lemma overrides_against_base_witness :
  agrees (base_save_checkpoint_sig ANone) (save_checkpoint_sig ANone) ∧
  agrees (X:=arg) base_remove_checkpoint_sig remove_checkpoint_sig ∧
  (∀ fname args kwargs b,
     bind fname (base_load_checkpoint_sig ANone) args kwargs = Ok b →
     ∃ b', bind fname (load_checkpoint_sig ANone) args kwargs = Ok b' ∧ b' !! 0 = b !! 0) ∧
  ¬ agrees (base_load_checkpoint_sig ANone) (load_checkpoint_sig ANone).
Proof. apply (overrides_against_base ANone (AStr (py "cpu"))). discriminate. Defined.

End Plugin.
