(* ===== verification/TrainerContext.v ===== *)
(** * The context snapshot: TrainerContext (pl.py 25-46)

    [TrainerContext] is a dataclass with the fields [model], [trainer]
    and [extra].  Its two class methods only look at attributes of the
    objects they are given: [from_trainer] checks that the trainer and
    its module carry an [__io__] attribute and builds the record,
    [construct_extra] collects the [__io__] of the data module when there
    is one.  The constructor that [@dataclass] writes is the binding of
    [Binding] on the three fields, and [from_trainer] returns what it
    builds; the type variables of lines 21-22 are data that nothing
    checks.

    Python objects are modelled as far as these methods see them: [None],
    or an instance with the name of its class and its attributes.
    [getattr] raises [AttributeError] on a missing attribute and
    [hasattr] is whether [getattr] returns, as in Python. *)

From Stdlib Require Import Ascii.
From stdpp Require Import base tactics option list numbers strings.
From S2P Require Import Prelude PurePath Binding.

Module TrainerContext.
Import PurePath Binding.

#[local] Arguments py : simpl never.

(** ** Objects *)

#[local] Unset Elimination Schemes.

Inductive obj : Type :=
| PyNone
| Obj (cls : pystr) (attrs : list (pystr * obj)).

#[local] Set Elimination Schemes.

#[export] Instance obj_eq_dec : EqDecision obj.
Proof.
  refine (fix go (x y : obj) {struct x} : Decision (x = y) :=
    let _ : EqDecision obj := go in
    match x, y with
    | PyNone, PyNone => left _
    | Obj c a, Obj c' a' => cast_if_and (decide (c = c')) (decide (a = a'))
    | _, _ => right _
    end); congruence.
Defined.

(** [type(o).__name__] *)
Definition type_name (o : obj) : pystr :=
  match o with PyNone => py "NoneType" | Obj cls _ => cls end.

(** The first binding of a name. *)
Fixpoint assoc (name : pystr) (attrs : list (pystr * obj)) : option obj :=
  match attrs with
  | [] => None
  | (k, v) :: rest => if decide (k = name) then Some v else assoc name rest
  end.

Definition attributes (o : obj) : list (pystr * obj) :=
  match o with PyNone => [] | Obj _ attrs => attrs end.

Definition attribute_error (o : obj) (name : pystr) : exn :=
  AttributeError (py "'" ++ type_name o ++ py "' object has no attribute '"
                  ++ name ++ py "'").

(** [o.name] *)
Definition getattr (o : obj) (name : pystr) : result obj :=
  match assoc name (attributes o) with
  | Some v => Ok v
  | None => Raise (attribute_error o name)
  end.

(** [hasattr(o, name)]: whether [o.name] returns. *)
Definition hasattr (o : obj) (name : pystr) : bool := is_ok (getattr o name).

(** ** The dataclass *)

Record TrainerContext : Type := {
  model : obj;
  trainer : obj;
  extra : list (pystr * obj)
}.

#[export] Instance TrainerContext_eq_dec : EqDecision TrainerContext.
Proof. solve_decision. Defined.

(** [repr(IOProtocol)], the class imported at line 14. *)
Definition IOProtocol : pystr := py "<class 'nemo.lightning.io.capture.IOProtocol'>".

Definition trainer_msg : pystr :=
  py "Trainer must be an instance of " ++ IOProtocol
  ++ py ". Please use the Trainer from nemo.".

Definition module_msg : pystr := py "LightningModule must extend IOMixin.".

(** [TrainerContext.construct_extra(trainer)] *)
Definition construct_extra (trainer : obj) : result (list (pystr * obj)) :=
  let extra := [] in
  has_dm ← (if hasattr trainer (py "datamodule")
            then datamodule ← getattr trainer (py "datamodule");
                 Ok (hasattr datamodule (py "__io__"))
            else Ok false);
  if has_dm : bool then
    datamodule ← getattr trainer (py "datamodule");
    io ← getattr datamodule (py "__io__");
    Ok (extra ++ [(py "datamodule", io)])
  else Ok extra.

(** [TrainerContext.from_trainer(trainer)] *)
Definition from_trainer (trainer : obj) : result TrainerContext :=
  if negb (hasattr trainer (py "__io__")) then Raise (ValueError trainer_msg) else
  lightning_module ← getattr trainer (py "lightning_module");
  if negb (hasattr lightning_module (py "__io__")) then Raise (ValueError module_msg) else
  lightning_module ← getattr trainer (py "lightning_module");
  extra ← construct_extra trainer;
  Ok {| trainer := trainer; model := lightning_module; extra := extra |}.

(** ** The type variables (pl.py 21-22)

    [TypeVar(name, bound=cls)] makes an object that type checkers read:
    [TrainerContext] is generic in [LightningModuleT], the type of its
    field [model].  Nothing at run time compares a value with the bound;
    [ModuleT] is not used in the module. *)

Record TypeVar : Type := { __name__ : pystr; __bound__ : pystr }.

Definition LightningModuleT : TypeVar :=
  {| __name__ := py "LightningModuleT"; __bound__ := py "pl.LightningModule" |}.
Definition ModuleT : TypeVar :=
  {| __name__ := py "ModuleT"; __bound__ := py "nn.Module" |}.

(** ** The constructor of the dataclass (pl.py 24-28)

    [@dataclass] writes [__init__(self, model, trainer, extra=...)] from
    the three fields, in their order; [extra] has the default
    [field(default_factory=dict)], a new empty dictionary at every
    call.  The constructor stores what it is given and checks no
    annotation. *)

(** What a call passes for a field: an object or a dictionary. *)
Inductive field_value : Type :=
| FObj (o : obj)
| FDict (d : list (pystr * obj)).

Definition dataclass_sig : signature field_value :=
  [(py "model", None); (py "trainer", None); (py "extra", Some (FDict []))].

(** [TrainerContext(...)]: the binding, then the record.  [None] when
    [model] or [trainer] is given a dictionary or [extra] an object,
    which the record of the model does not hold. *)
Definition dataclass_init (args : list field_value) (kwargs : list (pystr * field_value)) :
    option (result TrainerContext) :=
  match bind (py "TrainerContext.__init__") dataclass_sig args kwargs with
  | Raise e => Some (Raise e)
  | Ok [(_, FObj model); (_, FObj trainer); (_, FDict extra)] =>
      Some (Ok {| model := model; trainer := trainer; extra := extra |})
  | Ok _ => None
  end.

(** The call of line 38: [cls(trainer=..., model=..., extra=...)]. *)
Definition cls_call (trainer model : obj) (extra : list (pystr * obj)) :
    option (result TrainerContext) :=
  dataclass_init [] [(py "trainer", FObj trainer); (py "model", FObj model);
                     (py "extra", FDict extra)].

(** ** The class methods as they are called (pl.py 31-32, 40-41)

    [from_trainer] and [construct_extra] are class methods of one
    parameter, [trainer]; the call binds [cls] itself. *)

Definition from_trainer_sig : signature obj := [(py "trainer", None)].
Definition construct_extra_sig : signature obj := [(py "trainer", None)].

(** [TrainerContext.from_trainer(...)]: the binding, then the method. *)
Definition from_trainer_call (args : list obj) (kwargs : list (pystr * obj)) :
    option (result TrainerContext) :=
  match bind (py "TrainerContext.from_trainer") from_trainer_sig args kwargs with
  | Raise e => Some (Raise e)
  | Ok [(_, trainer)] => Some (from_trainer trainer)
  | Ok _ => None
  end.

(** [TrainerContext.construct_extra(...)] *)
Definition construct_extra_call (args : list obj) (kwargs : list (pystr * obj)) :
    option (result (list (pystr * obj))) :=
  match bind (py "TrainerContext.construct_extra") construct_extra_sig args kwargs with
  | Raise e => Some (Raise e)
  | Ok [(_, trainer)] => Some (construct_extra trainer)
  | Ok _ => None
  end.

(** The [__io__] of the data module, when the trainer has a data module
    that has one. *)
Definition datamodule_io (trainer : obj) : option obj :=
  match assoc (py "datamodule") (attributes trainer) with
  | Some dm => assoc (py "__io__") (attributes dm)
  | None => None
  end.

(** ** Attributes *)

Lemma getattr_Ok o name v : getattr o name = Ok v ↔ assoc name (attributes o) = Some v.
Proof. unfold getattr. destruct (assoc _ _); split; congruence. Qed.

Lemma getattr_Raise o name e : getattr o name = Raise e → class_of e = CAttributeError.
Proof. unfold getattr. destruct (assoc _ _); [done|]. by intros [= <-]. Qed.

Lemma hasattr_true o name : hasattr o name = true ↔ ∃ v, getattr o name = Ok v.
Proof.
  unfold hasattr. destruct (getattr o name) as [v|e]; simpl.
  - split; eauto.
  - split; [done|]. by intros [? ?].
Qed.

Lemma hasattr_false o name :
  hasattr o name = false ↔ getattr o name = Raise (attribute_error o name).
Proof.
  unfold hasattr, getattr. destruct (assoc _ _); simpl; split; congruence.
Qed.

Lemma hasattr_None name : hasattr PyNone name = false.
Proof. reflexivity. Qed.

Lemma construct_extra_eq t :
  construct_extra t =
  Ok (match datamodule_io t with Some io => [(py "datamodule", io)] | None => [] end).
Proof.
  unfold construct_extra, datamodule_io, hasattr, getattr.
  destruct (assoc (py "datamodule") (attributes t)) as [dm|]; [|done].
  cbn [is_ok mbind result_bind].
  by destruct (assoc (py "__io__") (attributes dm)).
Qed.

(** ** The theorems *)

(** C26. [construct_extra] never raises, and the dictionary it returns
    has the key ["datamodule"], bound to the data module's [__io__],
    exactly when the trainer has a data module with that attribute; it
    has no other key. *)
Theorem construct_extra_spec (t : obj) :
  ∃ extra, construct_extra t = Ok extra ∧
    (∀ io, assoc (py "datamodule") extra = Some io ↔
           ∃ dm, getattr t (py "datamodule") = Ok dm ∧ getattr dm (py "__io__") = Ok io) ∧
    (∀ k, k ≠ py "datamodule" → assoc k extra = None) ∧
    (length extra ≤ 1)%nat.
Proof.
  rewrite construct_extra_eq. eexists. split; [done|].
  setoid_rewrite getattr_Ok. unfold datamodule_io.
  destruct (assoc (py "datamodule") (attributes t)) as [dm|];
    [destruct (assoc (py "__io__") (attributes dm)) as [io|] eqn:Hio|];
    cbn [assoc length].
  - split_and!; [|intros k Hk; by rewrite decide_False|lia].
    intros io'. rewrite decide_True by done. split.
    + intros [= <-]. eauto.
    + intros (dm' & [= <-] & Hio'). congruence.
  - split_and!; [|done|lia]. intros io. split; [done|].
    intros (dm' & [= <-] & Hio'). congruence.
  - split_and!; [|done|lia]. intros io. split; [done|]. by intros (dm' & ? & ?).
Qed.

(** [from_trainer] returns a context exactly for a trainer that has
    [__io__] and whose [lightning_module] has [__io__]; the context
    holds the trainer itself, that module, and [construct_extra] of the
    trainer. *)
Lemma from_trainer_Ok (t : obj) (ctx : TrainerContext) :
  from_trainer t = Ok ctx ↔
  hasattr t (py "__io__") = true ∧
  (∃ lm, getattr t (py "lightning_module") = Ok lm ∧
         hasattr lm (py "__io__") = true ∧ model ctx = lm) ∧
  trainer ctx = t ∧ construct_extra t = Ok (extra ctx).
Proof.
  unfold from_trainer. rewrite construct_extra_eq.
  destruct (hasattr t (py "__io__")); simpl; [|by split; [|intros [? _]]].
  destruct (getattr t (py "lightning_module")) as [lm|e]; simpl.
  2: { split; [done|]. by intros (_ & (lm & ? & _) & _). }
  destruct (hasattr lm (py "__io__")) eqn:Hlm; simpl.
  - split.
    + intros [= <-]. simpl. eauto 10.
    + intros (_ & (lm' & [= <-] & _ & Hm) & Ht & [= He]).
      destruct ctx. simpl in *. by subst.
  - split; [done|]. intros (_ & (lm' & [= <-] & Hl & _) & _). congruence.
Qed.

(** The three ways [from_trainer] raises, in the order the checks are
    made: a trainer without [__io__] is a [ValueError] that names the
    protocol; a trainer without the attribute [lightning_module] is the
    [AttributeError] of the access; a module without [__io__] ([None]
    included) is the [ValueError] about [IOMixin]. *)
Lemma from_trainer_Raise (t : obj) (e : exn) :
  from_trainer t = Raise e ↔
  (hasattr t (py "__io__") = false ∧ e = ValueError trainer_msg) ∨
  (hasattr t (py "__io__") = true ∧
   (getattr t (py "lightning_module") = Raise e ∨
    ∃ lm, getattr t (py "lightning_module") = Ok lm ∧
          hasattr lm (py "__io__") = false ∧ e = ValueError module_msg)).
Proof.
  unfold from_trainer. rewrite construct_extra_eq.
  destruct (hasattr t (py "__io__")); simpl.
  2: { split; [intros [= <-]; auto|]. by intros [[_ ->]|[? _]]. }
  destruct (getattr t (py "lightning_module")) as [lm|e']; simpl.
  2: { split; [intros [= <-]; auto|]. intros [[? _]|[_ [[= ->]|(? & ? & _)]]]; done. }
  destruct (hasattr lm (py "__io__")) eqn:Hlm; simpl.
  - split; [done|]. intros [[? _]|[_ [?|(lm' & [= <-] & ? & _)]]]; congruence.
  - split; [intros [= <-]; eauto 10|].
    intros [[? _]|[_ [?|(lm' & [= <-] & _ & ->)]]]; done.
Qed.

(** C27. [from_trainer] on every trainer.  It returns a context exactly
    for a trainer that has [__io__] and whose [lightning_module] has
    [__io__], and the context holds the trainer itself, that module and
    [construct_extra] of the trainer.  It raises in exactly three ways,
    in the order the checks are made: the [ValueError] that names the
    protocol, the [AttributeError] of the access to [lightning_module],
    the [ValueError] about [IOMixin]. *)
Theorem from_trainer_spec (t : obj) :
  (∀ ctx, from_trainer t = Ok ctx ↔
     hasattr t (py "__io__") = true ∧
     (∃ lm, getattr t (py "lightning_module") = Ok lm ∧
            hasattr lm (py "__io__") = true ∧ model ctx = lm) ∧
     trainer ctx = t ∧ construct_extra t = Ok (extra ctx)) ∧
  (∀ e, from_trainer t = Raise e ↔
     (hasattr t (py "__io__") = false ∧ e = ValueError trainer_msg) ∨
     (hasattr t (py "__io__") = true ∧
      (getattr t (py "lightning_module") = Raise e ∨
       ∃ lm, getattr t (py "lightning_module") = Ok lm ∧
             hasattr lm (py "__io__") = false ∧ e = ValueError module_msg))).
Proof. split; [apply from_trainer_Ok|apply from_trainer_Raise]. Qed.

(** ** The constructor *)

(** The call of line 38 passes the three fields by keyword, in another
    order than the fields have; it binds, and the record holds each
    value under its name. *)
Lemma cls_call_eq (t m : obj) (e : list (pystr * obj)) :
  cls_call t m e = Some (Ok {| model := m; trainer := t; extra := e |}).
Proof. reflexivity. Qed.

(** So [from_trainer] returns what the constructor builds from the
    trainer, its module and [construct_extra] of it. *)
Theorem from_trainer_constructs (t : obj) (ctx : TrainerContext) :
  from_trainer t = Ok ctx →
  ∃ lm e, getattr t (py "lightning_module") = Ok lm ∧ construct_extra t = Ok e ∧
          cls_call t lm e = Some (Ok ctx).
Proof.
  intros (_ & (lm & Hlm & _ & Hm) & Ht & He)%from_trainer_Ok.
  exists lm, (extra ctx). split_and!; [done..|]. rewrite cls_call_eq.
  destruct ctx; simpl in *; by subst.
Qed.

(** Without [extra] the context gets the empty dictionary of the
    factory. *)
Lemma dataclass_init_default (m t : obj) :
  dataclass_init [FObj m; FObj t] [] =
    Some (Ok {| model := m; trainer := t; extra := [] |}).
Proof. reflexivity. Qed.

(** Every refusal of the constructor is the [TypeError] of a call that
    does not fit the three fields. *)
Lemma dataclass_init_refuses args kwargs e :
  dataclass_init args kwargs = Some (Raise e) → class_of e = CTypeError.
Proof.
  unfold dataclass_init.
  destruct (bind _ _ _ _) as [b|e'] eqn:Hb; [|intros [= <-]; by eapply bind_refuses].
  by repeat case_match.
Qed.

(** A constructor that returned was given [model] and [trainer]: by
    position or by keyword, the record holds what the call passed. *)
Lemma dataclass_init_Ok args kwargs ctx :
  dataclass_init args kwargs = Some (Ok ctx) ↔
  bind (py "TrainerContext.__init__") dataclass_sig args kwargs =
    Ok [(py "model", FObj (model ctx)); (py "trainer", FObj (trainer ctx));
        (py "extra", FDict (extra ctx))].
Proof.
  unfold dataclass_init.
  destruct (bind _ _ _ _) as [b|e'] eqn:Hb; [|by split].
  pose proof (bind_names _ _ _ _ _ _ Hb) as Hn. split.
  - repeat case_match; try done. intros [= <-]. simplify_eq/=. done.
  - intros [= ->]. by destruct ctx.
Qed.

(** ** The class methods, called *)

(** Every call of [from_trainer] is refused by the binding with a
    [TypeError] or is the method on the trainer bound. *)
Lemma from_trainer_call_cases args kwargs :
  (∃ e, from_trainer_call args kwargs = Some (Raise e) ∧ class_of e = CTypeError ∧
        bind (py "TrainerContext.from_trainer") from_trainer_sig args kwargs = Raise e) ∨
  (∃ t, from_trainer_call args kwargs = Some (from_trainer t) ∧
        bind (py "TrainerContext.from_trainer") from_trainer_sig args kwargs =
          Ok [(py "trainer", t)]).
Proof.
  unfold from_trainer_call. destruct (bind _ _ _ _) as [b|e] eqn:Hb.
  - right. destruct (bind_call_one _ _ _ _ _ _ _ Hb) as [t ->]. by exists t.
  - left. exists e. eauto using bind_refuses.
Qed.

Lemma construct_extra_call_cases args kwargs :
  (∃ e, construct_extra_call args kwargs = Some (Raise e) ∧ class_of e = CTypeError) ∨
  (∃ t, construct_extra_call args kwargs = Some (construct_extra t) ∧
        bind (py "TrainerContext.construct_extra") construct_extra_sig args kwargs =
          Ok [(py "trainer", t)]).
Proof.
  unfold construct_extra_call. destruct (bind _ _ _ _) as [b|e] eqn:Hb.
  - right. destruct (bind_call_one _ _ _ _ _ _ _ Hb) as [t ->]. by exists t.
  - left. exists e. eauto using bind_refuses.
Qed.

(** So a call of [from_trainer] raises one of three classes: the
    [TypeError] of a call that does not fit, and the [ValueError] and
    [AttributeError] of the method. *)
Lemma from_trainer_call_raises args kwargs e :
  from_trainer_call args kwargs = Some (Raise e) →
  class_of e ∈ [CTypeError; CValueError; CAttributeError].
Proof.
  destruct (from_trainer_call_cases args kwargs) as [(e' & -> & He & _)|(t & -> & _)].
  - intros [= <-]. rewrite He. repeat constructor.
  - intros [= Ht].
    apply from_trainer_Raise in Ht as [[_ ->]|[_ [Hg%getattr_Raise|(lm & _ & _ & ->)]]];
      [|rewrite Hg|]; repeat constructor.
Qed.

(** The annotation [model: LightningModuleT] is not checked: whatever
    the class of the trainer's module, [from_trainer] takes it when it
    has [__io__]. *)
Lemma from_trainer_unbounded (c : pystr) (io_t io_m : obj) attrs :
  let lm := Obj c ((py "__io__", io_m) :: attrs) in
  ∃ ctx, from_trainer (Obj (py "Trainer") [(py "__io__", io_t); (py "lightning_module", lm)])
         = Ok ctx ∧ type_name (model ctx) = c.
Proof. by eexists. Qed.

(** ** Concrete trainers *)

Definition io (tag : string) : obj := Obj (py "IO") [(py "tag", Obj (py tag) [])].
Definition module0 : obj := Obj (py "GPTModel") [(py "__io__", io "model")].
Definition data0 : obj := Obj (py "DataModule") [(py "__io__", io "data")].
Definition trainer0 : obj :=
  Obj (py "Trainer") [(py "__io__", io "trainer");
                      (py "lightning_module", module0);
                      (py "datamodule", data0)].
(** A trainer that is not attached to a module or to data. *)
Definition detached : obj :=
  Obj (py "Trainer") [(py "__io__", io "trainer");
                      (py "lightning_module", PyNone);
                      (py "datamodule", PyNone)].
(** A trainer of the framework, without the capture protocol. *)
Definition foreign : obj :=
  Obj (py "Trainer") [(py "lightning_module", module0); (py "datamodule", PyNone)].

Example from_trainer_trainer0 :
  from_trainer trainer0 =
    Ok {| model := module0; trainer := trainer0;
          extra := [(py "datamodule", io "data")] |}.
Proof. reflexivity. Qed.

(** The constructor called directly: without its required fields, with
    a field given twice, and with a name that is no field. *)
Example dataclass_init_refusals :
  dataclass_init [] [] = Some (Raise (TypeError
    "TrainerContext.__init__() missing 2 required positional arguments: 'model' and 'trainer'")) ∧
  dataclass_init [FObj module0] [(py "model", FObj module0)] = Some (Raise (TypeError
    "TrainerContext.__init__() got multiple values for argument 'model'")) ∧
  dataclass_init [FObj module0; FObj trainer0] [(py "datamodule", FObj data0)] =
    Some (Raise (TypeError
      "TrainerContext.__init__() got an unexpected keyword argument 'datamodule'")).
Proof. by vm_compute. Qed.

(** The class methods called by position, by keyword, and wrongly. *)
Example class_method_calls :
  from_trainer_call [trainer0] [] = Some (from_trainer trainer0) ∧
  from_trainer_call [] [(py "trainer", trainer0)] = Some (from_trainer trainer0) ∧
  from_trainer_call [] [] = Some (Raise (TypeError
    "TrainerContext.from_trainer() missing 1 required positional argument: 'trainer'")) ∧
  from_trainer_call [trainer0; module0] [] = Some (Raise (TypeError
    "TrainerContext.from_trainer() takes 2 positional arguments but 3 were given")) ∧
  construct_extra_call [] [(py "model", module0)] = Some (Raise (TypeError
    "TrainerContext.construct_extra() got an unexpected keyword argument 'model'")).
Proof. by vm_compute. Qed.

Example from_trainer_refusals :
  from_trainer foreign = Raise (ValueError
    "Trainer must be an instance of <class 'nemo.lightning.io.capture.IOProtocol'>. Please use the Trainer from nemo.") ∧
  from_trainer detached = Raise (ValueError "LightningModule must extend IOMixin.") ∧
  from_trainer PyNone = Raise (ValueError trainer_msg) ∧
  construct_extra detached = Ok [].
Proof. by vm_compute. Qed.

End TrainerContext.
