(* ===== verification/Interleaving.v ===== *)
(** * Two processes on one checkpoint directory

    A distributed job runs one store per process, all on the same
    filesystem.  The store takes no lock: between its test for a
    complete checkpoint and its write, another process may act.  To
    reason about that, the entry points are written here as programs
    whose steps are the single calls to collaborators ([prog]), each
    atomic on the shared world.  The import of the backend and the
    selection of the filesystem read the environment only: they are no
    steps, and decide whether the program has any ([import_prog],
    [select_prog]).

    Every step is total: a call answers or raises at once.  A call
    that waits for another process (a barrier inside the backend, spec
    5) has no counterpart here, so nothing is claimed about progress.

    [exec] runs a program to its end; the first group of lemmas shows
    that the programs are the methods of [CheckpointIO] and bounds the
    calls a program can make ([ends_within]: four for a save, three for
    a load or a removal, two for the oracle).  [interleave] runs two
    programs under a schedule; the last group shows that the skip test
    is no lock: two saves of the same path can both pass the test and
    both call the backend. *)

From Stdlib Require Import Ascii.
From stdpp Require Import base tactics option list numbers strings relations.
From S2P Require Import Prelude PyStr PurePath PathConvention CloudIO Payload.
From S2P Require Import DeviceFixup FileSystem Backend CheckpointIO.

Module Interleaving.
Import PurePath PathConvention CloudIO Payload DeviceFixup FileSystem dist_checkpointing.
Import CheckpointIO.

(** ** Programs *)

(** A result, or one call to a collaborator and what to do with its
    answer. *)
Inductive prog (F A : Type) : Type :=
| Ret (r : result A)
| Act (X : Type) (a : eff (world F) X) (k : X → prog F A).
Arguments Ret {F A} r.
Arguments Act {F A X} a k.

(** Two programs and the world they share. *)
Record pool (F A B : Type) : Type :=
  Pool { first : prog F A; second : prog F B; shared : world F }.
Arguments Pool {F A B} _ _ _.
Arguments first {F A B} _.
Arguments second {F A B} _.
Arguments shared {F A B} _.

Section programs.
Context {F : Type} {FS : FileSystem F} {BE : Backend F} `{SP : site_packages}.

(** The program run to its end. *)
Fixpoint exec {A} (p : prog F A) : eff (world F) A :=
  match p with
  | Ret r => lift r
  | Act a k => x ← a; exec (k x)
  end.

(** One step: the next call, if there is one.  A call that raises ends
    the program. *)
Definition pstep {A} (p : prog F A) (w : world F) : prog F A * world F :=
  match p with
  | Ret r => (Ret r, w)
  | Act a k =>
      match run a w with
      | (Ok x, w') => (k x, w')
      | (Raise e, w') => (Ret (Raise e), w')
      end
  end.

Fixpoint psteps {A} (n : nat) (p : prog F A) (w : world F) : prog F A * world F :=
  match n with
  | 0 => (p, w)
  | S n => let '(p', w') := pstep p w in psteps n p' w'
  end.

(** The program has ended. *)
Definition finished {A} (p : prog F A) : bool :=
  match p with Ret _ => true | Act _ _ => false end.

(** The program with its result mapped. *)
Fixpoint pmap {A B} (f : A → B) (p : prog F A) : prog F B :=
  match p with
  | Ret r => Ret (f <$> r)
  | Act a k => Act a (λ x, pmap f (k x))
  end.

(** [fs.isdir(d) and check_is_distributed_checkpoint(d)]: two calls, the
    second only after the first answered true. *)
Definition check_prog {A} (checkpoint_dir : path) (k : bool → prog F A) : prog F A :=
  Act (isdir (str checkpoint_dir)) (λ b,
    if b : bool then Act (dist_check (str checkpoint_dir)) k else k false).

(** The import at the head of an entry point.  It calls no collaborator
    and is no step: the program that follows it, or the exception when
    the package is missing. *)
Definition import_prog {A} (k : prog F A) : prog F A :=
  match import_megatron with
  | Raise e => Ret (Raise e)
  | Ok _ => k
  end.

(** [fs = get_filesystem(path)].  Like the import it reads no state the
    processes share and is no step: the program that follows it, or the
    exception when fsspec cannot serve the protocol of the path. *)
Definition select_prog {A} (path : pathlike) (k : prog F A) : prog F A :=
  match get_filesystem path with
  | Raise e => Ret (Raise e)
  | Ok _ => k
  end.

(** [save_checkpoint], call by call. *)
Definition save_prog {SO : Type} (self : MegatronCheckpointIO) (checkpoint : value)
    (p : pathlike) (storage_options : option SO) : prog F unit :=
  import_prog
  match storage_options with
  | Some _ => Ret (Raise (TypeError storage_options_msg))
  | None =>
      match ckpt_to_dir p with
      | Raise e => Ret (Raise e)
      | Ok checkpoint_dir =>
          select_prog (PPath checkpoint_dir) $
          check_prog checkpoint_dir (λ present,
            if present : bool then
              Act (logging_info (skip_msg checkpoint_dir)) (λ _, Ret (Ok tt))
            else
              Act (makedirs (str checkpoint_dir) true) (λ _,
              Act (dist_save checkpoint (str checkpoint_dir) (save_sharded_strategy self))
                (λ _, Ret (Ok tt))))
      end
  end.

(** [load_checkpoint], call by call.  The device pass asks the
    accelerator runtime of the process and touches nothing the
    processes share: it belongs to the step of the backend's load. *)
Definition load_prog {ML : Type} (self : MegatronCheckpointIO) (p : pathlike)
    (sharded_state_dict : option value) (map_location : option ML) : prog F value :=
  import_prog
  match map_location with
  | Some _ => Ret (Raise (ValueError map_location_msg))
  | None =>
      select_prog p $
      Act (exists_ (fspath p)) (λ e,
        if negb e then Ret (Raise (FileNotFoundError (not_found_msg p))) else
        Act (isdir (fspath p)) (λ d,
          if negb d then Ret (Raise (ValueError (not_a_directory_msg p))) else
          Act (checkpoint ← dist_load sharded_state_dict (fspath p);
               w ← get;
               lift (_fix_tensors_device (cuda w) checkpoint))
            (λ checkpoint, Ret (Ok checkpoint))))
  end.

(** [remove_checkpoint], call by call. *)
Definition remove_prog (self : MegatronCheckpointIO) (p : pathlike) : prog F unit :=
  select_prog p $
  Act (exists_ (fspath p)) (λ e,
    if e : bool then
      Act (rm (fspath p) true) (λ _,
      Act (log_debug (removed_msg p)) (λ _, Ret (Ok tt)))
    else Ret (Ok tt)).

(** [is_distributed_ckpt], call by call. *)
Definition oracle_prog (p : pathlike) : prog F bool :=
  import_prog
  match ckpt_to_dir p with
  | Raise e => Ret (Raise e)
  | Ok checkpoint_dir =>
      select_prog (PPath checkpoint_dir) $
      check_prog checkpoint_dir (λ present,
        if present : bool then Ret (Ok true) else Ret (Ok false))
  end.

(** The program of a call of an entry point, its result dropped. *)
Definition call_prog (self : MegatronCheckpointIO) (k : call) : prog F unit :=
  match k with
  | CallSave c p so => save_prog self c p so
  | CallLoad p hint ml => pmap (λ _, tt) (load_prog self p hint ml)
  | CallRemove p => remove_prog self p
  | CallIsDistributed p => pmap (λ _, tt) (oracle_prog p)
  end.

(** ** Schedules *)

(** One step of the pool: [true] lets the first program step, [false]
    the second. *)
Definition sched_step {A B} (b : bool) (s : pool F A B) : pool F A B :=
  if b then
    let '(p, w) := pstep (first s) (shared s) in Pool p (second s) w
  else
    let '(q, w) := pstep (second s) (shared s) in Pool (first s) q w.

Definition interleave {A B} (sched : list bool) (s : pool F A B) : pool F A B :=
  foldl (λ s b, sched_step b s) s sched.

(** The program makes at most [n] calls, whatever they answer. *)
Inductive ends_within {A} : nat → prog F A → Prop :=
| ends_Ret n r : ends_within n (Ret r)
| ends_Act n X (a : eff (world F) X) k :
    (∀ x, ends_within n (k x)) → ends_within (S n) (Act a k).

End programs.

(** ** The programs are the methods *)

Section adequacy.
Context {F : Type} {FS : FileSystem F} {BE : Backend F} `{SP : site_packages}.
Context {SO ML : Type}.
Implicit Types (w : world F) (p : pathlike) (self : MegatronCheckpointIO).

Lemma import_prog_installed `{MI : !Megatron} {A} (k : prog F A) : import_prog k = k.
Proof. unfold import_prog. by rewrite import_megatron_Ok. Qed.

Lemma import_prog_missing {A} (k : prog F A) :
  has_megatron = false → import_prog k = Ret (Raise megatron_missing).
Proof. intros Hno. unfold import_prog. by rewrite (import_megatron_Raise Hno). Qed.

(** The environment of a program that starts with the import: the
    package is there and the import is not seen, or the program is the
    exception. *)
Lemma import_prog_cases {A} (k : prog F A) :
  import_prog k = k ∨ import_prog k = Ret (Raise megatron_missing).
Proof.
  destruct megatron_dec as [MI|Hno];
    [left; apply import_prog_installed|right; by apply import_prog_missing].
Qed.

Ltac import_cases :=
  match goal with
  | |- context [import_prog ?k] => destruct (import_prog_cases k) as [->| ->]
  end.

Lemma select_prog_Ok {A} p o (k : prog F A) : get_filesystem p = Ok o → select_prog p k = k.
Proof. unfold select_prog. by intros ->. Qed.

Lemma select_prog_Raise {A} p e (k : prog F A) :
  get_filesystem p = Raise e → select_prog p k = Ret (Raise e).
Proof. unfold select_prog. by intros ->. Qed.

(** The directory of a save and of the oracle is always served. *)
Lemma select_prog_dir {A} p d (k : prog F A) :
  ckpt_to_dir p = Ok d → select_prog (PPath d) k = k.
Proof.
  intros Hg%get_filesystem_dir. by eapply select_prog_Ok.
Qed.

(** The program after a selection, or the exception. *)
Lemma select_prog_cases {A} p (k : prog F A) :
  select_prog p k = k ∨ ∃ e, select_prog p k = Ret (Raise e).
Proof. unfold select_prog. destruct (get_filesystem p); eauto. Qed.

Ltac select_cases :=
  match goal with
  | |- context [select_prog ?p ?k] =>
      destruct (select_prog_cases p k) as [->|[? ->]]
  end.

Lemma run_exec_Act {A X} (a : eff (world F) X) (k : X → prog F A) w :
  run (exec (Act a k)) w =
  match run a w with
  | (Ok x, w') => run (exec (k x)) w'
  | (Raise e, w') => (Raise e, w')
  end.
Proof. reflexivity. Qed.

Lemma run_exec_check {A} d (k : bool → prog F A) w :
  run (exec (check_prog d k)) w = run (exec (k (complete (fs w) d))) w.
Proof.
  unfold check_prog, complete. rewrite run_exec_Act, run_isdir.
  destruct (fs_isdir (fs w) (str d)); [|done].
  by rewrite run_exec_Act, run_dist_check.
Qed.

Lemma exec_save_prog self c p (so : option SO) w :
  run (exec (save_prog self c p so)) w = run (save_checkpoint self c p so) w.
Proof.
  unfold save_prog. destruct megatron_dec as [MI|Hno];
    [rewrite import_prog_installed
    |by rewrite import_prog_missing, save_checkpoint_unimportable].
  destruct so as [x|]; [by rewrite run_save_checkpoint_options|].
  rewrite run_save_checkpoint.
  destruct (ckpt_to_dir p) as [d|e] eqn:Hd; [|done].
  rewrite (select_prog_dir _ _ _ Hd), run_exec_check.
  destruct (complete (fs w) d); [done|]. rewrite run_exec_Act, run_makedirs.
  destruct (fs_makedirs _ _ _) as [f1|]; [|done]. rewrite run_exec_Act, run_dist_save.
  simpl. destruct (save _ _ _ _); unfold record; simpl; by rewrite <-app_assoc.
Qed.

Lemma exec_load_prog self p hint (ml : option ML) w :
  run (exec (load_prog self p hint ml)) w = run (load_checkpoint self p hint ml) w.
Proof.
  unfold load_prog. destruct megatron_dec as [MI|Hno];
    [rewrite import_prog_installed
    |by rewrite import_prog_missing, load_checkpoint_unimportable].
  destruct ml as [x|]; [by rewrite run_load_checkpoint_map_location|].
  destruct (get_filesystem p) as [o|e] eqn:Hg;
    [|by rewrite (select_prog_Raise _ _ _ Hg), (load_checkpoint_unserved _ _ _ _ _ Hg)].
  rewrite (select_prog_Ok _ _ _ Hg), (run_load_checkpoint _ _ _ _ _ Hg).
  rewrite run_exec_Act, run_exists. destruct (fs_exists _ _); [|done]. cbn [negb].
  rewrite run_exec_Act, run_isdir. destruct (fs_isdir _ _); [|done]. cbn [negb].
  rewrite run_exec_Act, run_bind, run_dist_load.
  destruct (load hint (fspath p) (fs w)) as [v|]; [|done].
  rewrite run_bind, run_get, run_lift. cbn [cuda record mbind result_bind].
  by destruct (_fix_tensors_device _ v).
Qed.

Lemma exec_remove_prog self p w :
  run (exec (remove_prog self p)) w = run (remove_checkpoint self p) w.
Proof.
  unfold remove_prog. destruct (get_filesystem p) as [o|e] eqn:Hg;
    [|by rewrite (select_prog_Raise _ _ _ Hg), (remove_checkpoint_unserved _ _ _ _ Hg)].
  rewrite (select_prog_Ok _ _ _ Hg), (run_remove_checkpoint _ _ _ _ Hg).
  rewrite run_exec_Act, run_exists. destruct (fs_exists _ _); [|done].
  rewrite run_exec_Act, run_rm. destruct (fs_rm _ _ _); [|done].
  simpl. unfold record. simpl. by rewrite <-app_assoc.
Qed.

Lemma exec_oracle_prog p w :
  run (exec (oracle_prog p)) w = run (is_distributed_ckpt p) w.
Proof.
  unfold oracle_prog. destruct megatron_dec as [MI|Hno];
    [rewrite import_prog_installed
    |by rewrite import_prog_missing, is_distributed_ckpt_unimportable].
  rewrite run_is_distributed_ckpt.
  destruct (ckpt_to_dir p) as [d|e] eqn:Hd; [|done].
  rewrite (select_prog_dir _ _ _ Hd), run_exec_check.
  cbn [fmap result_fmap]. by destruct (complete (fs w) d).
Qed.

(** A step does not change where the program ends. *)
Lemma exec_pstep {A} (q : prog F A) w :
  run (exec (pstep q w).1) (pstep q w).2 = run (exec q) w.
Proof.
  destruct q as [r|X a k]; [done|]. simpl.
  by destruct (run a w) as [[x|e] w'].
Qed.

(** A program that has ended after [n] steps has ended as [exec] does. *)
Lemma psteps_finished {A} n (q : prog F A) w :
  finished (psteps n q w).1 = true →
  psteps n q w = (Ret (run (exec q) w).1, (run (exec q) w).2).
Proof.
  revert q w. induction n as [|n IH]; intros q w; simpl.
  - by destruct q.
  - rewrite <-(exec_pstep q w). destruct (pstep q w) as [q' w']. apply IH.
Qed.

(** Every program ends, after finitely many steps. *)
Lemma exec_terminates {A} (q : prog F A) w :
  ∃ n, psteps n q w = (Ret (run (exec q) w).1, (run (exec q) w).2).
Proof.
  revert w. induction q as [r|X a k IH]; intros w; [by exists 0|].
  destruct (run a w) as [[x|e] w'] eqn:Ha.
  - destruct (IH x w') as [n Hn]. exists (S n). simpl.
    by rewrite Ha, Hn.
  - exists 1. simpl. by rewrite Ha.
Qed.

End adequacy.

(** ** The calls a program can make *)

Section progress.
Context {F : Type} {FS : FileSystem F} {BE : Backend F} `{SP : site_packages}.
Implicit Types (w : world F) (p : pathlike) (self : MegatronCheckpointIO).

Lemma ends_mono {A} n m (q : prog F A) : ends_within n q → n ≤ m → ends_within m q.
Proof.
  intros Hq. revert m. induction Hq as [n r|n X a k _ IH]; intros m Hm; [constructor|].
  destruct m as [|m]; [lia|]. constructor. intros x. apply IH. lia.
Qed.

Lemma ends_finished {A} (q : prog F A) : ends_within 0 q → finished q = true.
Proof. by inversion 1. Qed.

(** A step uses up one of the calls the program may make, whatever the
    world it is taken in. *)
Lemma pstep_ends {A} n (q : prog F A) w :
  ends_within n q → ends_within (pred n) (pstep q w).1.
Proof.
  intros [n' r|n' X a k Hk]; simpl; [constructor|].
  destruct (run a w) as [[x|e] w']; simpl; [apply Hk|constructor].
Qed.

Lemma ends_pmap {A B} (f : A → B) n (q : prog F A) :
  ends_within n q → ends_within n (pmap f q).
Proof. induction 1; simpl; constructor; auto. Qed.

Lemma ends_check {A} n d (k : bool → prog F A) :
  (∀ b, ends_within n (k b)) → ends_within (S (S n)) (check_prog d k).
Proof.
  intros Hk. constructor. intros [|]; [by constructor|].
  apply (ends_mono n); [done|lia].
Qed.

Lemma ends_import {A} n (k : prog F A) : ends_within n k → ends_within n (import_prog k).
Proof. destruct (import_prog_cases k) as [->| ->]; [done|constructor]. Qed.

Lemma ends_select {A} n p (k : prog F A) : ends_within n k → ends_within n (select_prog p k).
Proof. destruct (select_prog_cases p k) as [->|[? ->]]; [done|constructor]. Qed.

Lemma ends_save_prog {SO} self c p (so : option SO) : ends_within 4 (save_prog self c p so).
Proof.
  apply ends_import. destruct so; [constructor|]. destruct (ckpt_to_dir p); [|constructor].
  apply ends_select, (ends_check 2). intros [|]; repeat (constructor; intros).
Qed.

Lemma ends_load_prog {ML} self p hint (ml : option ML) :
  ends_within 3 (load_prog self p hint ml).
Proof.
  apply ends_import. destruct ml; [constructor|]. apply ends_select.
  constructor. intros [|]; [|constructor]. constructor. intros [|]; [|constructor].
  repeat (constructor; intros).
Qed.

Lemma ends_remove_prog self p : ends_within 3 (remove_prog self p).
Proof.
  apply ends_select. constructor. intros [|]; repeat (constructor; intros).
Qed.

Lemma ends_oracle_prog p : ends_within 2 (oracle_prog (F:=F) p).
Proof.
  apply ends_import. destruct (ckpt_to_dir p); [|constructor].
  apply ends_select, (ends_check 0). intros [|]; constructor.
Qed.

Lemma ends_call_prog self k : ends_within 4 (call_prog self k).
Proof.
  destruct k; simpl.
  - apply ends_save_prog.
  - apply ends_pmap, (ends_mono 3); [apply ends_load_prog|lia].
  - apply (ends_mono 3); [apply ends_remove_prog|lia].
  - apply ends_pmap, (ends_mono 2); [apply ends_oracle_prog|lia].
Qed.

End progress.

(** ** Two saves of one path *)

Section schedules.
Context {F : Type} {FS : FileSystem F} {BE : Backend F}.
Context {FSL : FileSystemLaws F} {BEL : BackendLaws F} `{SP : site_packages}.
Implicit Types (w : world F) (p : pathlike) (self : MegatronCheckpointIO).

Context {MI : Megatron}.

(** The schedule in which both processes test before either writes. *)
Definition race : list bool := [true; false; true; true; false; false].

(** Where the race ends. *)
Lemma race_pool {SO} self1 self2 c1 c2 p d (w : world F) f1 f2 :
  fs_wf (fs w) → ckpt_to_dir p = Ok d → fs_isdir (fs w) (str d) = false →
  fs_makedirs (str d) true (fs w) = Ok f1 →
  save c1 (str d) (save_sharded_strategy self1) f1 = Ok f2 →
  interleave race (Pool (save_prog self1 c1 p (@None SO))
                        (save_prog self2 c2 p (@None SO)) w) =
  Pool (Ret (Ok tt))
       (Ret ((λ _, tt) <$> save c2 (str d) (save_sharded_strategy self2) f2))
       (World (match save c2 (str d) (save_sharded_strategy self2) f2 with
               | Ok f3 => f3
               | Raise _ => f2
               end) (cuda w)
          (trace w ++ [Makedirs (str d) true; Save c1 (str d) (save_sharded_strategy self1);
                       Makedirs (str d) true; Save c2 (str d) (save_sharded_strategy self2)])).
Proof.
  intros Hwf Hd Hdir Hm Hs.
  pose proof (makedirs_wf _ _ _ _ Hwf Hm) as Hwf1.
  destruct (save_complete _ _ _ _ _ Hwf1 Hs) as [Hdir2 Hchk2].
  pose proof (makedirs_existing _ _ (save_wf _ _ _ _ _ Hwf1 Hs) Hdir2) as Hm2.
  unfold race, save_prog. rewrite !import_prog_installed, Hd, !(select_prog_dir _ _ _ Hd).
  cbn [interleave foldl].
  unfold sched_step at 6. cbn [first second shared check_prog pstep].
  rewrite run_isdir, Hdir.
  unfold sched_step at 5. cbn [first second shared check_prog pstep].
  rewrite run_isdir. cbn [fs]. rewrite Hdir.
  unfold sched_step at 4. cbn [first second shared pstep].
  rewrite run_makedirs, Hm.
  unfold sched_step at 3. cbn [first second shared pstep].
  rewrite run_dist_save. cbn [fs]. rewrite Hs.
  unfold sched_step at 2. cbn [first second shared pstep].
  rewrite run_makedirs. cbn [fs]. rewrite Hm2.
  unfold sched_step. cbn [first second shared pstep].
  rewrite run_dist_save. cbn [fs cuda trace].
  destruct (save c2 (str d) (save_sharded_strategy self2) f2) as [f3|e];
    unfold record; cbn [fmap result_fmap fs cuda trace]; by rewrite <-?app_assoc.
Qed.

(** The skip test is no lock.  Two saves of the same path, started
    when the directory does not exist: under the schedule [race] both
    find no checkpoint, the first makes the directory and saves, and the
    second then calls [makedirs] and the backend's [save] on a directory
    that holds a complete checkpoint.  The backend is called twice. *)
Theorem save_race {SO} self1 self2 c1 c2 p d (w : world F) f1 f2 :
  fs_wf (fs w) → ckpt_to_dir p = Ok d → fs_isdir (fs w) (str d) = false →
  fs_makedirs (str d) true (fs w) = Ok f1 →
  save c1 (str d) (save_sharded_strategy self1) f1 = Ok f2 →
  let s := interleave race (Pool (save_prog self1 c1 p (@None SO))
                                 (save_prog self2 c2 p (@None SO)) w) in
  first s = Ret (Ok tt) ∧
  second s = Ret ((λ _, tt) <$> save c2 (str d) (save_sharded_strategy self2) f2) ∧
  complete f2 d = true ∧
  trace (shared s) =
    trace w ++ [Makedirs (str d) true; Save c1 (str d) (save_sharded_strategy self1);
                Makedirs (str d) true; Save c2 (str d) (save_sharded_strategy self2)].
Proof.
  intros Hwf Hd Hdir Hm Hs s. subst s.
  rewrite (race_pool _ _ _ _ _ _ _ _ _ Hwf Hd Hdir Hm Hs). cbn [first second shared trace].
  pose proof (makedirs_wf _ _ _ _ Hwf Hm) as Hwf1.
  destruct (save_complete _ _ _ _ _ Hwf1 Hs) as [Hdir2 Hchk2].
  split_and!; [done..|by apply andb_true_iff|done].
Qed.

End schedules.

End Interleaving.
