(* ===== verification/Jobs.v ===== *)
(** * Any number of processes on one checkpoint directory

    A distributed job runs one process per shard, each with a store of
    its own, all on one filesystem.  [Interleaving] has two of them;
    here a job is a pool of any number of processes, each at some point
    of a call of an entry point, beside the world they share.

    [turn i] lets process [i] make its next call to a collaborator;
    [schedule] runs a list of turns.  [job_step] is the same step as a
    relation on the pool, and the two agree.  [serial k n] is the
    schedule that gives the processes [0], ..., [n-1], in that order,
    [k] turns each; what it does is [pass k].

    The theorems: that the processes run one after the other are the
    calls made in sequence by one client; that under every schedule of
    any number of processes saving the same checkpoint, a process that
    has returned leaves a complete checkpoint, whatever the others did
    in between ([establishes], an invariant of the pool by induction on
    the steps of the job); and that the skip test of [save_checkpoint]
    serialises nothing: of [n] processes that save the same checkpoint
    and all test before any of them writes, every one calls the
    backend.

    A step is total, as in [Interleaving]: nothing is claimed about
    processes that wait for each other. *)

From Stdlib Require Import Ascii.
From stdpp Require Import base tactics option list numbers strings relations.
From S2P Require Import Prelude PyStr PurePath PathConvention Payload.
From S2P Require Import DeviceFixup FileSystem Backend CheckpointIO Interleaving.

Module Jobs.
Import PurePath PathConvention Payload DeviceFixup FileSystem dist_checkpointing.
Import CheckpointIO Interleaving.

Section jobs.
Context {F : Type} {FS : FileSystem F} {BE : Backend F} `{SP : site_packages}.
Implicit Types (p q : prog F unit) (t : list (prog F unit)) (w : world F).

(** The processes and the world they share. *)
Definition job : Type := list (prog F unit) * world F.

(** Process [i] makes its next call.  A turn given to a process that is
    not there is lost. *)
Definition turn (i : nat) (s : job) : job :=
  match s.1 !! i with
  | Some p => (<[i := (pstep p s.2).1]> s.1, (pstep p s.2).2)
  | None => s
  end.

Definition schedule (sched : list nat) (s : job) : job :=
  foldl (λ s i, turn i s) s sched.

(** One step of the job: some process of the pool makes its next call. *)
Inductive job_step : job → job → Prop :=
| job_step_at t1 p t2 w :
    job_step (t1 ++ p :: t2, w) (t1 ++ (pstep p w).1 :: t2, (pstep p w).2).

(** The processes one after the other, [k] turns each. *)
Definition serial_from (i k n : nat) : list nat := flat_map (replicate k) (seq i n).
Definition serial (k n : nat) : list nat := serial_from 0 k n.

Fixpoint pass (k : nat) t w : job :=
  match t with
  | [] => ([], w)
  | p :: t => let s := pass k t (psteps k p w).2 in ((psteps k p w).1 :: s.1, s.2)
  end.

(** The job in which process [i] makes the [i]-th call of the list, on
    the store that comes with it. *)
Definition start (cs : list (MegatronCheckpointIO * call)) w : job :=
  ((λ c, call_prog c.1 c.2) <$> cs, w).

(** ** Turns *)

Lemma schedule_app a b (s : job) : schedule (a ++ b) s = schedule b (schedule a s).
Proof. apply foldl_app. Qed.

Lemma turn_middle t1 p t2 w :
  turn (length t1) (t1 ++ p :: t2, w) = (t1 ++ (pstep p w).1 :: t2, (pstep p w).2).
Proof.
  unfold turn. cbn [fst snd]. rewrite list_lookup_middle by done.
  by rewrite insert_app_r_alt, Nat.sub_diag by lia.
Qed.

Lemma turn_length i (s : job) : length (turn i s).1 = length s.1.
Proof. unfold turn. destruct (s.1 !! i); [apply length_insert|done]. Qed.

Lemma schedule_length sched (s : job) : length (schedule sched s).1 = length s.1.
Proof.
  revert s. induction sched as [|i sched IH]; intros s; [done|].
  cbn [schedule foldl]. fold (schedule sched (turn i s)). by rewrite IH, turn_length.
Qed.

(** What process [i] is after a turn of process [j]. *)
Lemma turn_lookup i j (s : job) q :
  (turn j s).1 !! i = Some q →
  (i = j ∧ ∃ p, s.1 !! i = Some p ∧ q = (pstep p s.2).1) ∨ (i ≠ j ∧ s.1 !! i = Some q).
Proof.
  unfold turn. destruct (s.1 !! j) as [p|] eqn:Hj; cbn [fst].
  - destruct (decide (i = j)) as [->|Hij].
    + rewrite list_lookup_insert_eq by by eapply lookup_lt_Some.
      intros [= <-]. left. eauto.
    + rewrite list_lookup_insert_ne by done. auto.
  - intros Hi. destruct (decide (i = j)) as [->|]; [congruence|auto].
Qed.

(** The step relation is the turn of some process. *)
Lemma job_step_turn (s s' : job) :
  job_step s s' ↔ ∃ i, i < length s.1 ∧ s' = turn i s.
Proof.
  split.
  - intros [t1 p t2 w]. exists (length t1). rewrite turn_middle.
    split; [|done]. cbn [fst]. rewrite length_app. simpl. lia.
  - intros (i & Hi & ->). destruct s as [t w]. cbn [fst] in Hi.
    destruct (lookup_lt_is_Some_2 _ _ Hi) as [p Hp].
    destruct (list_elem_of_split_length _ _ _ Hp) as (t1 & t2 & -> & ->).
    rewrite turn_middle. constructor.
Qed.

(** Every schedule is a run of the step relation, and every run is a
    schedule. *)
Lemma schedule_steps sched (s : job) :
  Forall (λ i, i < length s.1) sched → rtc job_step s (schedule sched s).
Proof.
  revert s. induction sched as [|i sched IH]; intros s; [constructor|].
  intros [Hi Hs]%Forall_cons. cbn [schedule foldl]. fold (schedule sched (turn i s)).
  eapply rtc_l; [apply job_step_turn; eauto|].
  apply IH. by rewrite turn_length.
Qed.

Lemma steps_schedule (s s' : job) :
  rtc job_step s s' → ∃ sched, s' = schedule sched s.
Proof.
  induction 1 as [s|s s1 s' (i & _ & ->)%job_step_turn _ [sched ->]]; [by exists []|].
  by exists (i :: sched).
Qed.

(** ** Serial schedules *)

Lemma turns_middle k t1 p t2 w :
  schedule (replicate k (length t1)) (t1 ++ p :: t2, w) =
  (t1 ++ (psteps k p w).1 :: t2, (psteps k p w).2).
Proof.
  revert p w. induction k as [|k IH]; intros p w; [done|].
  cbn [replicate schedule foldl psteps]. rewrite turn_middle.
  fold (schedule (replicate k (length t1)) (t1 ++ (pstep p w).1 :: t2, (pstep p w).2)).
  rewrite IH. by destruct (pstep p w).
Qed.

Lemma serial_pass k t1 t w :
  schedule (serial_from (length t1) k (length t)) (t1 ++ t, w) =
  (t1 ++ (pass k t w).1, (pass k t w).2).
Proof.
  revert t1 w. induction t as [|p t IH]; intros t1 w; [done|].
  unfold serial_from. cbn [length seq flat_map pass fst snd].
  rewrite schedule_app, turns_middle, cons_middle, app_assoc.
  replace (S (length t1)) with (length (t1 ++ [(psteps k p w).1]))
    by (rewrite length_app; simpl; lia).
  fold (serial_from (length (t1 ++ [(psteps k p w).1])) k (length t)).
  rewrite IH. by rewrite <-app_assoc.
Qed.

Lemma serial_schedule k t w : schedule (serial k (length t)) (t, w) = pass k t w.
Proof. etrans; [apply (serial_pass k [] t w)|]. by destruct (pass k t w). Qed.

(** ** One process after the other *)

Lemma psteps_ends n p w : ends_within n p → finished (psteps n p w).1 = true.
Proof.
  revert p w. induction n as [|n IH]; intros p w Hp; [by apply ends_finished|].
  cbn [psteps]. pose proof (pstep_ends _ _ w Hp) as Hp'.
  destruct (pstep p w) as [p' w']. by apply IH.
Qed.

Lemma exec_pmap {A B} (f : A → B) (q : prog F A) w :
  run (exec (pmap f q)) w = (f <$> (run (exec q) w).1, (run (exec q) w).2).
Proof.
  revert w. induction q as [r|X a k IH]; intros w; [done|].
  cbn [pmap]. rewrite !run_exec_Act. destruct (run a w) as [[x|e] w']; [apply IH|done].
Qed.

Lemma exec_call_prog self k w : (run (exec (call_prog self k)) w).2 = after self k w.
Proof.
  destruct k; cbn [call_prog after];
    by rewrite ?exec_pmap, ?exec_save_prog, ?exec_load_prog, ?exec_remove_prog,
               ?exec_oracle_prog.
Qed.

(** Four turns take a call to its end, where the method ends. *)
Lemma psteps_call_prog self k w :
  psteps 4 (call_prog self k) w =
  (Ret (run (exec (call_prog self k)) w).1, after self k w).
Proof. rewrite <-exec_call_prog. apply psteps_finished, psteps_ends, ends_call_prog. Qed.

Lemma pass_calls cs w :
  (pass 4 (start cs w).1 w).2 = foldl (λ w c, after c.1 c.2 w) w cs ∧
  Forall (λ p, finished p = true) (pass 4 (start cs w).1 w).1.
Proof.
  unfold start. cbn [fst]. revert w. induction cs as [|c cs IH]; intros w; [done|].
  cbn [fmap list_fmap pass fst snd foldl]. rewrite psteps_call_prog. cbn [fst snd].
  destruct (IH (after c.1 c.2 w)) as [-> ?]. by split; [|constructor].
Qed.

(** The pool of [Interleaving] is the job of two processes. *)
Lemma pool_job sched p q w :
  schedule ((λ b : bool, if b then 0 else 1) <$> sched) ([p; q], w) =
  ([first (interleave sched (Pool p q w)); second (interleave sched (Pool p q w))],
   shared (interleave sched (Pool p q w))).
Proof.
  revert p q w. induction sched as [|b sched IH]; intros p q w; [done|].
  cbn [fmap list_fmap schedule foldl interleave].
  fold (schedule ((λ b : bool, if b then 0 else 1) <$> sched)).
  fold (interleave sched (sched_step b (Pool p q w))).
  destruct b; unfold turn, sched_step; cbn [fst snd lookup list_lookup first second shared];
    [destruct (pstep p w)|destruct (pstep q w)]; apply IH.
Qed.

(** The processes run one after the other, each to its end, are the
    calls made in sequence: the job ends in the world of [after_all]. *)
Theorem serial_schedule_sequential self ks w :
  let s := schedule (serial 4 (length ks)) (start (pair self <$> ks) w) in
  s.2 = after_all self ks w ∧ Forall (λ p, finished p = true) s.1.
Proof.
  intros s. subst s. destruct (pass_calls (pair self <$> ks) w) as [Hw Hf].
  unfold start in *. cbn [fst] in *.
  replace (length ks) with (length ((λ c, call_prog c.1 c.2) <$> (pair self <$> ks)))
    by (by rewrite !length_fmap).
  rewrite serial_schedule, Hw. split; [|done]. unfold after_all. by rewrite foldl_fmap.
Qed.

End jobs.

(** ** Under every schedule *)

Section safety.
Context {F : Type} {FS : FileSystem F} {BE : Backend F}.
Context {FSL : FileSystemLaws F} {BEL : BackendLaws F} `{SP : site_packages}.
Implicit Types (w : world F) (s : job (F:=F)).

Implicit Types (d : path).

(** The processes: each saves its payload, with its store, to [p]. *)
Definition savers (cs : list (MegatronCheckpointIO * value)) (p : pathlike) :
    list (prog F unit) :=
  (λ c, save_prog c.1 c.2 p (@None unit)) <$> cs.

(** What is left of a save once it has found no checkpoint. *)
Definition write_prog (c : MegatronCheckpointIO * value) d : prog F unit :=
  Act (makedirs (str d) true) (λ _,
  Act (dist_save c.2 (str d) (save_sharded_strategy c.1)) (λ _, Ret (Ok tt))).

(** ** What savers establish, under every schedule *)

(** What a process has learnt of the directory [d] from the answers to
    its calls: nothing, that it is a directory, or that it holds a
    complete checkpoint. *)
Inductive knows : Type := Nothing | IsDir | IsComplete.

#[export] Instance knows_eq_dec : EqDecision knows.
Proof. solve_decision. Defined.

Definition holds d (kn : knows) (f : F) : Prop :=
  match kn with
  | Nothing => True
  | IsDir => fs_isdir f (str d) = true
  | IsComplete => complete f d = true
  end.

(** A call that keeps the filesystem well formed and whatever is known
    of [d], whether it returns or raises. *)
Definition steady d {X} (a : eff (world F) X) : Prop :=
  ∀ w kn, fs_wf (fs w) → holds d kn (fs w) →
          fs_wf (fs (run a w).2) ∧ holds d kn (fs (run a w).2).

(** A program that returns only once it knows of a complete checkpoint
    at [d], and whose calls are steady.  What it knows after a call
    ([next], from the answer) follows from what it knew before. *)
Inductive establishes d : knows → prog F unit → Prop :=
| est_returned : establishes d IsComplete (Ret (Ok tt))
| est_raised kn e : establishes d kn (Ret (Raise e))
| est_Act kn X (a : eff (world F) X) k (next : X → knows) :
    steady d a →
    (∀ w x w', fs_wf (fs w) → holds d kn (fs w) → run a w = (Ok x, w') →
               holds d (next x) (fs w')) →
    (∀ x, establishes d (next x) (k x)) →
    establishes d kn (Act a k).

(** The invariant of a job of savers: the filesystem is well formed and
    every process establishes the checkpoint from what it knows. *)
Definition job_inv d s : Prop :=
  fs_wf (fs s.2) ∧ Forall (λ q, ∃ kn, holds d kn (fs s.2) ∧ establishes d kn q) s.1.

Lemma steady_read {X} d (a : eff (world F) X) : (∀ w, fs (run a w).2 = fs w) → steady d a.
Proof. intros Ha w kn Hwf Hkn. by rewrite Ha. Qed.

Lemma holds_isdir d kn f : holds d kn f → kn ≠ Nothing → fs_isdir f (str d) = true.
Proof. destruct kn; [done..|]. by intros [? _]%andb_true_iff. Qed.

(** [makedirs] with [exist_ok] does nothing to a directory that is
    there. *)
Lemma steady_makedirs d : steady d (makedirs (str d) true).
Proof.
  intros w kn Hwf Hkn. rewrite run_makedirs.
  destruct (fs_makedirs _ _ _) as [f1|] eqn:Hm; cbn [snd fs record]; [|done].
  split; [by eapply makedirs_wf|]. destruct (decide (kn = Nothing)) as [->|Hne]; [done|].
  rewrite (makedirs_existing (fs w) (str d)) in Hm by eauto using holds_isdir.
  by injection Hm as <-.
Qed.

(** The backend's [save], made or refused, leaves a directory a
    directory and a complete checkpoint complete. *)
Lemma steady_dist_save d v st : steady d (dist_save v (str d) st).
Proof.
  intros w kn Hwf Hkn. rewrite run_dist_save.
  destruct (save _ _ _ _) as [f1|] eqn:Hs; cbn [snd fs record]; [|done].
  destruct (save_complete _ _ _ _ _ Hwf Hs) as [Hdir Hchk].
  split; [by eapply save_wf|]. destruct kn; [done..|]. by apply andb_true_iff.
Qed.

Lemma establishes_write c d kn : establishes d kn (write_prog c d).
Proof.
  apply (est_Act d kn _ _ _ (λ _, IsDir)); [apply steady_makedirs| |intros _].
  { intros w [] w' Hwf _. rewrite run_makedirs.
    destruct (fs_makedirs _ _ _) as [f1|] eqn:Hm; [|done]. intros [= <-].
    by eapply makedirs_isdir. }
  apply (est_Act d IsDir _ _ _ (λ _, IsComplete)); [apply steady_dist_save| |constructor].
  intros w [] w' Hwf _. rewrite run_dist_save.
  destruct (save _ _ _ _) as [f2|] eqn:Hs; [|done]. intros [= <-].
  destruct (save_complete _ _ _ _ _ Hwf Hs) as [Hdir Hchk]. by apply andb_true_iff.
Qed.

(** A save returns only after it has found the checkpoint complete or
    the backend has written it. *)
Lemma establishes_save_prog c p d :
  ckpt_to_dir p = Ok d → establishes d Nothing (save_prog c.1 c.2 p (@None unit)).
Proof.
  intros Hd. unfold save_prog.
  match goal with
  | |- context [import_prog ?k] => destruct (import_prog_cases k) as [-> | ->]
  end; [|constructor].
  rewrite Hd, (select_prog_dir _ _ _ Hd).
  apply (est_Act d _ _ _ _ (λ b : bool, if b then IsDir else Nothing));
    [by apply steady_read| |intros [|]; [|apply establishes_write]].
  { intros w b w' _ _. rewrite run_isdir. intros [= <- <-].
    by destruct (fs_isdir (fs w) (str d)) eqn:Hdir. }
  apply (est_Act d _ _ _ _ (λ b : bool, if b then IsComplete else Nothing));
    [by apply steady_read| |intros [|]; [|apply establishes_write]].
  { intros w b w' _ Hdir. rewrite run_dist_check. intros [= <- <-].
    destruct (check_is_distributed_checkpoint _ _) eqn:Hchk; [|done].
    by apply andb_true_iff. }
  apply (est_Act d _ _ _ _ (λ _, IsComplete)); [by apply steady_read| |constructor].
  intros w [] w' _ Hc. rewrite run_logging_info. by intros [= <-].
Qed.

Lemma start_inv cs p d w :
  fs_wf (fs w) → ckpt_to_dir p = Ok d → job_inv d (savers cs p, w).
Proof.
  intros Hwf Hd. split; [done|]. apply Forall_fmap, Forall_forall. intros c _.
  exists Nothing. split; [done|by apply establishes_save_prog].
Qed.

(** A step of a process keeps what the others know, and the process
    knows after it what its program needs. *)
Lemma pstep_inv d kn q w :
  fs_wf (fs w) → holds d kn (fs w) → establishes d kn q →
  fs_wf (fs (pstep q w).2) ∧
  (∀ kn', holds d kn' (fs w) → holds d kn' (fs (pstep q w).2)) ∧
  ∃ kn', holds d kn' (fs (pstep q w).2) ∧ establishes d kn' (pstep q w).1.
Proof.
  intros Hwf Hkn Hest. revert Hkn.
  destruct Hest as [|kn0 e|kn0 X a k next Ha Hnext Hk]; intros Hkn; cbn [pstep fst snd];
    [split_and!; [done..|eexists; split; [done|constructor]]..|].
  pose proof (λ kn', Ha w kn' Hwf) as Hst. specialize (Hnext w).
  destruct (run a w) as [[x|e] w']; cbn [fst snd] in *.
  - split_and!; [by apply (Hst Nothing)|intros kn'; apply Hst|]. exists (next x). eauto.
  - split_and!; [by apply (Hst Nothing)|intros kn'; apply Hst|].
    exists Nothing. split; [done|constructor].
Qed.

Lemma turn_inv d i s : job_inv d s → job_inv d (turn i s).
Proof.
  intros (Hwf & Hs). unfold turn. destruct (s.1 !! i) as [q|] eqn:Hq; [|done].
  destruct (Forall_lookup_1 _ _ _ _ Hs Hq) as (kn & Hkn & Hest).
  destruct (pstep_inv d kn q s.2 Hwf Hkn Hest) as (Hwf' & Hothers & Hq').
  split; cbn [fst snd]; [done|]. apply Forall_insert; [|done].
  eapply Forall_impl; [done|]. intros q0 (kn0 & ? & ?). eauto.
Qed.

Lemma job_step_inv d s s' : job_inv d s → rtc job_step s s' → job_inv d s'.
Proof.
  intros Hs Hsteps. induction Hsteps as [s|s s1 s' (i & _ & ->)%job_step_turn _ IH];
    [done|]. by apply IH, turn_inv.
Qed.

(** C35. A save that returned left a complete checkpoint, whatever the
    other savers did meanwhile.  Any number of processes save the same
    path, each with its store and payload, from any well-formed world,
    their calls to the filesystem and the backend interleaved in any
    way.  In every state the job reaches, a process that has returned
    has the checkpoint complete at the directory of the path: it had
    found it complete, or written it itself, and no call of another
    saver, returning or raising, takes that away. *)
Theorem savers_establish cs p d w s i :
  fs_wf (fs w) → ckpt_to_dir p = Ok d → rtc job_step (savers cs p, w) s →
  s.1 !! i = Some (Ret (Ok tt)) →
  complete (fs s.2) d = true ∧ fs_wf (fs s.2).
Proof.
  intros Hwf Hd Hsteps Hi.
  destruct (job_step_inv d _ _ (start_inv cs p d w Hwf Hd) Hsteps) as [Hwf' Hs].
  destruct (Forall_lookup_1 _ _ _ _ Hs Hi) as (kn & Hkn & Hest).
  split; [|done]. by inversion Hest; subst.
Qed.

(** ** The race of any number of saves *)

Context {MI : Megatron}.
Implicit Types (c : MegatronCheckpointIO * value).

(** The calls the processes make when each of them writes. *)
Definition writes d (cs : list (MegatronCheckpointIO * value)) : list event :=
  flat_map (λ c, [Makedirs (str d) true; Save c.2 (str d) (save_sharded_strategy c.1)]) cs.

(** The schedule in which every process tests before any of them
    writes, and then they write one after the other. *)
Definition all_test_first (n : nat) : list nat := serial 1 n ++ serial 2 n.

(** The filesystem after a call to the backend's [save], made or refused. *)
Definition saved c d (f : F) : F :=
  match save c.2 (str d) (save_sharded_strategy c.1) f with Ok f' => f' | Raise _ => f end.

Lemma writes_saves d cs : length (filter is_save (writes d cs)) = length cs.
Proof.
  induction cs as [|c cs IH]; [done|].
  change (writes d (c :: cs)) with
    (Makedirs (str d) true :: Save c.2 (str d) (save_sharded_strategy c.1) :: writes d cs).
  rewrite filter_cons_False, filter_cons_True by (cbn; tauto). cbn [length]. by rewrite IH.
Qed.

Lemma pstep_save_test c p d w :
  ckpt_to_dir p = Ok d → fs_isdir (fs w) (str d) = false →
  pstep (save_prog c.1 c.2 p (@None unit)) w = (write_prog c d, w).
Proof.
  intros Hd Hdir. unfold save_prog.
  rewrite import_prog_installed, Hd, (select_prog_dir _ _ _ Hd).
  cbn [check_prog pstep].
  by rewrite run_isdir, Hdir.
Qed.

Lemma pass_tests cs p d w :
  ckpt_to_dir p = Ok d → fs_isdir (fs w) (str d) = false →
  pass 1 (savers cs p) w = ((λ c, write_prog c d) <$> cs, w).
Proof.
  intros Hd Hdir. induction cs as [|c cs IH]; [done|].
  cbn [savers fmap list_fmap pass psteps]. rewrite (pstep_save_test c p d w Hd Hdir).
  cbn [fst snd]. fold (savers cs p). by rewrite IH.
Qed.

Lemma psteps_write c d w f1 :
  fs_makedirs (str d) true (fs w) = Ok f1 →
  psteps 2 (write_prog c d) w =
  (Ret ((λ _, tt) <$> save c.2 (str d) (save_sharded_strategy c.1) f1),
   World (saved c d f1) (cuda w) (trace w ++ writes d [c])).
Proof.
  intros Hm. unfold write_prog, saved. cbn [psteps pstep]. rewrite run_makedirs, Hm.
  cbn [pstep]. rewrite run_dist_save. cbn [fs cuda trace].
  destruct (save _ _ _ _); unfold record; cbn; by rewrite <-app_assoc.
Qed.

(** A call to the backend's [save] on a complete checkpoint leaves a
    complete checkpoint, whether the backend writes or refuses. *)
Lemma saved_complete c d f :
  fs_wf f → complete f d = true → fs_wf (saved c d f) ∧ complete (saved c d f) d = true.
Proof.
  intros Hwf Hc. unfold saved. destruct (save _ _ _ _) as [f'|] eqn:Hs; [|done].
  destruct (save_complete _ _ _ _ _ Hwf Hs). split; [by eapply save_wf|].
  by apply andb_true_iff.
Qed.

Lemma pass_writes cs d w :
  fs_wf (fs w) → complete (fs w) d = true →
  Forall (λ q, finished q = true) (pass 2 ((λ c, write_prog c d) <$> cs) w).1 ∧
  trace (pass 2 ((λ c, write_prog c d) <$> cs) w).2 = trace w ++ writes d cs ∧
  complete (fs (pass 2 ((λ c, write_prog c d) <$> cs) w).2) d = true.
Proof.
  revert w. induction cs as [|c cs IH]; intros w Hwf Hc;
    cbn [fmap list_fmap pass fst snd]; [by rewrite app_nil_r|].
  pose proof Hc as [Hdir _]%andb_true_iff.
  rewrite (psteps_write c d w (fs w)) by by apply makedirs_existing. cbn [fst snd].
  destruct (saved_complete c d (fs w) Hwf Hc) as [Hwf' Hc'].
  destruct (IH (World (saved c d (fs w)) (cuda w) (trace w ++ writes d [c])))
    as (Hf & -> & ?); [done..|].
  split_and!; [by constructor| |done]. cbn [trace]. by rewrite <-app_assoc.
Qed.

Lemma all_test_first_pass cs p d w :
  ckpt_to_dir p = Ok d → fs_isdir (fs w) (str d) = false →
  schedule (all_test_first (length cs)) (savers cs p, w) =
  pass 2 ((λ c, write_prog c d) <$> cs) w.
Proof.
  intros Hd Hdir. unfold all_test_first. rewrite schedule_app.
  replace (schedule (serial 1 (length cs)) (savers cs p, w))
    with (pass 1 (savers cs p) w)
    by (rewrite <-serial_schedule; unfold savers; by rewrite length_fmap).
  rewrite (pass_tests cs p d w Hd Hdir), <-serial_schedule. by rewrite length_fmap.
Qed.

(** C34. The skip test serialises nothing.  Any number of processes save the
    same checkpoint, started when its directory does not exist.  When
    all of them test before any of them writes, and [makedirs] and the
    backend's [save] of the first to write return, all of them find no
    checkpoint, and every one calls [makedirs] and the backend's [save]:
    the first on a new directory, each of the others on a directory
    that holds a complete checkpoint.  There are as many calls to the
    backend as there are processes, and a complete checkpoint at the
    end. *)
Theorem all_savers_write c cs p d w f1 f2 :
  fs_wf (fs w) → ckpt_to_dir p = Ok d → fs_isdir (fs w) (str d) = false →
  fs_makedirs (str d) true (fs w) = Ok f1 →
  save c.2 (str d) (save_sharded_strategy c.1) f1 = Ok f2 →
  let s := schedule (all_test_first (length (c :: cs))) (savers (c :: cs) p, w) in
  Forall (λ q, finished q = true) s.1 ∧
  trace s.2 = trace w ++ writes d (c :: cs) ∧
  length (filter is_save (added w s.2)) = length (c :: cs) ∧
  complete f2 d = true ∧ complete (fs s.2) d = true.
Proof.
  intros Hwf Hd Hdir Hm Hs s. subst s. rewrite (all_test_first_pass _ p d w Hd Hdir).
  cbn [fmap list_fmap pass fst snd]. rewrite (psteps_write c d w f1 Hm). cbn [fst snd].
  pose proof (makedirs_wf _ _ _ _ Hwf Hm) as Hwf1.
  destruct (save_complete _ _ _ _ _ Hwf1 Hs) as [Hdir2 Hchk2].
  assert (complete f2 d = true) as Hc2 by by apply andb_true_iff.
  assert (saved c d f1 = f2) as -> by (unfold saved; by rewrite Hs).
  destruct (pass_writes cs d (World f2 (cuda w) (trace w ++ writes d [c])))
    as (Hf & Ht & Hc); [by eapply save_wf|done|].
  unfold added. rewrite Ht. cbn [trace]. rewrite <-app_assoc, drop_app_length.
  split_and!; [by constructor|done|apply (writes_saves d (c :: cs))|done..].
Qed.

End safety.

End Jobs.
