(* ===== verification/Scenario.v ===== *)
(** * The store on a concrete filesystem

    The store of [CheckpointIO] run on the in-memory filesystem [MemFS]
    with the reference backend [RefBackend]: the end-to-end scenario
    (construct, save, save again, load, remove, load), the cases in
    which the path given to [save_checkpoint] and the path given to the
    other entry points name different directories, two and three
    processes racing on one checkpoint, a save to a URL beside a remote
    store ([Mounts]), and the instances of the store's theorems on this
    world.

    The disk starts with the working directory [/work] and a plain file
    [/work/notes.txt]; the accelerator runtime is initialised with
    current device 0, and the payload has one tensor on device 1. *)

From Stdlib Require Import Ascii.
From stdpp Require Import base tactics option list numbers strings gmap relations.
From S2P Require Import Prelude PyStr PurePath PathConvention CloudIO Payload.
From S2P Require Import DeviceFixup FileSystem Backend CheckpointIO Mounts Plugin Interleaving Jobs.

Module Scenario.
Import PurePath PathConvention Payload DeviceFixup FileSystem MemFS.
Import dist_checkpointing RefBackend CheckpointIO CloudIO Mounts Plugin Interleaving Jobs.

(** ** The world *)

(** The environment of the scenario has the serialization package. *)
#[local] Existing Instance with_megatron.

Definition disk0 : memfs :=
  Mem [py "work"]
      (<[[py "work"; py "notes.txt"] := File (VObj (py "notes"))]>
         (mkdirs [py "work"] ∅)).

Definition w0 : world memfs := World disk0 rt0 [].

Definition payload : value := VDict [(py "w", t_on 1)].
Definition relocated : value := VDict [(py "w", t_on 0)].

Definition store : MegatronCheckpointIO :=
  {| save_ckpt_format := py "format-A"; save_sharded_strategy := (py "format-A", 1%Z) |}.

Definition save_ (c : value) (p : string) : eff (world memfs) unit :=
  save_checkpoint store c (PStr p) (@None unit).
Definition load_ (p : string) : eff (world memfs) value :=
  load_checkpoint store (PStr p) None (@None unit).
Definition remove_ (p : string) : eff (world memfs) unit :=
  remove_checkpoint store (PStr p).

(** The scenario up to the removal, with what the client observes. *)
Definition scenario : eff (world memfs) (bool * value * bool) :=
  self ← __init__ (py "format-A");
  save_checkpoint self payload (PStr "step10.ckpt") (@None unit);;
  complete ← is_distributed_ckpt (PStr "step10.ckpt");
  save_checkpoint self payload (PStr "step10.ckpt") (@None unit);;
  loaded ← load_checkpoint self (PStr "step10/") None (@None unit);
  remove_checkpoint self (PStr "step10/");;
  left ← is_distributed_ckpt (PStr "step10.ckpt");
  mret (complete, loaded, left).

Definition scenario_trace : list event :=
  [Log root_logger INFO "Using ('format-A', 1) dist-ckpt save strategy.";
   Makedirs "step10" true;
   Save payload "step10" (py "format-A", 1%Z);
   Log root_logger INFO
     "Distributed checkpoint at path step10 already exists, skipping saving";
   Load None "step10/";
   Rm "step10/" true;
   Log module_logger DEBUG "Removed checkpoint: step10/"].

(** The worlds the witnesses use: after one save, and after removing
    what it wrote. *)
Definition w1 : world memfs := (run (save_ payload "step10.ckpt") w0).2.
Definition w2 : world memfs := (run (remove_ "step10") w1).2.

Definition calls : list call :=
  [CallSave payload (PStr "step10.ckpt") None;
   CallLoad (PStr "notes.txt") None None;
   CallSave relocated (PStr "step10") None;
   CallIsDistributed (PStr "");
   CallRemove (PStr "step10");
   CallSave relocated (PStr "/work/notes.txt/x") None].

(** ** The end-to-end scenario *)

(** The scenario of the specification.  A store constructed for
    the format ["format-A"] saves to ["step10.ckpt"]: the directory
    [step10] is made and the backend called once; the oracle reports it
    complete; the second save only logs; the load of ["step10/"]
    returns the payload with its tensor moved to the current device;
    after the removal the oracle reports nothing, the disk is as it
    started, and a further load raises [FileNotFoundError]. *)
Example end_to_end :
  run scenario w0 = (Ok (true, relocated, false), World disk0 rt0 scenario_trace) ∧
  run (scenario;; load_ "step10/") w0 =
    (Raise (FileNotFoundError "Checkpoint file not found: step10/"),
     World disk0 rt0 scenario_trace).
Proof. split; vm_refl. Qed.

(** Without the package.  The three entry points that call the backend
    raise at their import, before their own checks (the save is given
    [storage_options], the load [map_location]) and touch nothing;
    [remove_checkpoint] imports nothing and removes the checkpoint. *)
Example without_the_package :
  run (save_checkpoint (SP:=without_megatron) store payload (PStr "step10.ckpt") (Some tt)) w0 =
    (Raise (ModuleNotFoundError "No module named 'megatron'"), w0) ∧
  run (load_checkpoint (SP:=without_megatron) store (PStr "step10") None (Some tt)) w1 =
    (Raise (ModuleNotFoundError "No module named 'megatron'"), w1) ∧
  run (is_distributed_ckpt (SP:=without_megatron) (PStr "step10.ckpt")) w1 =
    (Raise (ModuleNotFoundError "No module named 'megatron'"), w1) ∧
  run (remove_checkpoint store (PStr "step10")) w1 = (Ok tt, w2).
Proof. split_and!; vm_refl. Qed.

(** ** Paths that do not name the same directory *)

(** [save_checkpoint] maps the path through [ckpt_to_dir];
    [load_checkpoint] and [remove_checkpoint] take it as it is.  So the
    identifier a checkpoint was saved under does not load it and does
    not remove it: after a save to ["step10.ckpt"], a load of
    ["step10.ckpt"] raises [FileNotFoundError], a removal of
    ["step10.ckpt"] returns having done nothing, and the checkpoint is
    still complete in [step10]. *)
Example marked_path_on_memfs :
  run (save_ payload "step10.ckpt";; load_ "step10.ckpt") w0 =
    (Raise (FileNotFoundError "Checkpoint file not found: step10.ckpt"), w1) ∧
  run (remove_ "step10.ckpt") w1 = (Ok tt, w1) ∧
  run (is_distributed_ckpt (PStr "step10.ckpt")) w1 = (Ok true, w1) ∧
  run (load_ "step10") w1 = (Ok relocated, record w1 [Load None "step10"]).
Proof. split_and!; vm_refl. Qed.

(** [is_distributed_ckpt] maps its argument through [ckpt_to_dir]
    too, so it does not answer for the directory it is given when the
    name of that directory ends in the marker: the checkpoint saved
    under ["a.ckpt.ckpt"] lives in the directory [a.ckpt], which loads,
    and the oracle asked about ["a.ckpt"] probes [a] and answers
    [False].  On a path without a name it raises instead of answering. *)
Example oracle_on_marked_directory :
  let w := (run (save_ payload "a.ckpt.ckpt") w0).2 in
  fs_isdir (fs w) "a.ckpt" = true ∧
  check_is_distributed_checkpoint (fs w) "a.ckpt" = true ∧
  run (load_ "a.ckpt") w = (Ok relocated, record w [Load None "a.ckpt"]) ∧
  run (is_distributed_ckpt (PStr "a.ckpt")) w = (Ok false, w) ∧
  run (is_distributed_ckpt (PStr "")) w =
    (Raise (ValueError "PosixPath('.') has an empty name"), w).
Proof. cbv zeta. split_and!; vm_refl. Qed.

(** ** Two processes *)

(** The disk after [makedirs] of the checkpoint directory. *)
Definition disk1 : memfs := Mem [py "work"] (mkdirs [py "work"; py "step10"] (tree disk0)).

(** Two saves of the same identifier, racing: the second process finds a
    directory that is no longer empty, and the reference backend
    refuses it.  One after the other, the second save is a skip. *)
Example race_on_memfs :
  let s := interleave race (Pool (save_prog store payload (PStr "step10.ckpt") (@None unit))
                                 (save_prog store relocated (PStr "step10.ckpt") (@None unit))
                                 w0) in
  first s = Ret (Ok tt) ∧
  second s = Ret (Raise (CheckpointingException
                "Checkpoint destination directory (step10) is not empty")) ∧
  fs (shared s) = fs w1 ∧
  run (save_ payload "step10.ckpt";; save_ relocated "step10.ckpt") w0 =
    (Ok tt, record w1 [Log root_logger INFO
       "Distributed checkpoint at path step10 already exists, skipping saving"]).
Proof. cbv zeta. split_and!; vm_refl. Qed.

Lemma save_race_witness :
  let s := interleave race (Pool (save_prog store payload (PStr "step10.ckpt") (@None unit))
                                 (save_prog store relocated (PStr "step10.ckpt") (@None unit))
                                 w0) in
  first s = Ret (Ok tt) ∧
  second s = Ret ((λ _, tt) <$> save relocated (str (parse "step10"))
                                  (save_sharded_strategy store) (fs w1)) ∧
  complete (fs w1) (parse "step10") = true ∧
  trace (shared s) =
    trace w0 ++ [Makedirs (str (parse "step10")) true;
                 Save payload (str (parse "step10")) (save_sharded_strategy store);
                 Makedirs (str (parse "step10")) true;
                 Save relocated (str (parse "step10")) (save_sharded_strategy store)].
Proof.
  apply (save_race (SO:=unit) store store payload relocated (PStr "step10.ckpt")
           (parse "step10") w0 disk1 (fs w1)); [vm_decide|vm_refl..].
Defined.

(** ** Three processes *)

(** A schedule in which the second rank tests before the first has
    written and the third after. *)
Definition staggered : list nat := [0; 1; 0; 0; 2; 1; 1; 2; 2].

(** Three ranks save the same checkpoint. *)
Definition savers0 : list (MegatronCheckpointIO * value) :=
  [(store, payload); (store, relocated); (store, payload)].

(** When all three test first, the first writes and the reference
    backend refuses the other two; the backend is called three times. *)
Example three_savers_on_memfs :
  let s := schedule (all_test_first 3) (savers savers0 (PStr "step10.ckpt"), w0) in
  s.1 = [Ret (Ok tt);
         Ret (Raise (CheckpointingException
                "Checkpoint destination directory (step10) is not empty"));
         Ret (Raise (CheckpointingException
                "Checkpoint destination directory (step10) is not empty"))] ∧
  fs s.2 = fs w1 ∧
  filter is_save (trace s.2) =
    [Save payload "step10" (py "format-A", 1%Z);
     Save relocated "step10" (py "format-A", 1%Z);
     Save payload "step10" (py "format-A", 1%Z)].
Proof. cbv zeta. split_and!; vm_refl. Qed.

(** The first rank writes, the second is refused by the reference
    backend, and the third finds the checkpoint and skips. *)
Example savers_staggered :
  (schedule staggered (savers savers0 (PStr "step10.ckpt"), w0)).1 =
    [Ret (Ok tt);
     Ret (Raise (CheckpointingException
            "Checkpoint destination directory (step10) is not empty"));
     Ret (Ok tt)] ∧
  (schedule staggered (savers savers0 (PStr "step10.ckpt"), w0)).2 =
    World (fs w1) (cuda w0)
      [Makedirs "step10" true; Save payload "step10" (py "format-A", 1%Z);
       Makedirs "step10" true; Save relocated "step10" (py "format-A", 1%Z);
       Log root_logger INFO
         "Distributed checkpoint at path step10 already exists, skipping saving"].
Proof. split; vm_refl. Qed.

Lemma savers_establish_witness :
  complete (fs (schedule staggered (savers savers0 (PStr "step10.ckpt"), w0)).2)
    (parse "step10") = true ∧
  fs_wf (fs (schedule staggered (savers savers0 (PStr "step10.ckpt"), w0)).2).
Proof.
  apply (savers_establish savers0 (PStr "step10.ckpt") (parse "step10") w0
           (schedule staggered (savers savers0 (PStr "step10.ckpt"), w0)) 2);
    [vm_decide|vm_refl|apply schedule_steps; vm_decide|vm_refl].
Defined.

Lemma all_savers_write_witness :
  let s := schedule (all_test_first 3) (savers savers0 (PStr "step10.ckpt"), w0) in
  Forall (λ q, finished q = true) s.1 ∧
  trace s.2 = trace w0 ++ writes (parse "step10") savers0 ∧
  length (filter is_save (added w0 s.2)) = 3 ∧
  complete (fs w1) (parse "step10") = true ∧ complete (fs s.2) (parse "step10") = true.
Proof.
  apply (all_savers_write (store, payload) [(store, relocated); (store, payload)]
           (PStr "step10.ckpt") (parse "step10") w0 disk1 (fs w1)); [vm_decide|vm_refl..].
Defined.

(** ** A remote store *)

(** The same disk beside an object store mounted under the protocol
    [s3], with one bucket. *)
Definition bucket0 : memfs := Mem [] (mkdirs [py "bucket"] ∅).

Definition wu0 : world mounts := World (Mount disk0 {[ py "s3" := bucket0 ]}) rt0 [].

Definition save_url : eff (world mounts) unit :=
  save_checkpoint store payload (PStr "s3://bucket/step10.ckpt") (@None unit).

Definition wu1 : world mounts := (run save_url wu0).2.

(** A save to a URL.  [save_checkpoint] given
    ["s3://bucket/step10.ckpt"] returns, having written the checkpoint
    to the local directory [s3:/bucket/step10] under the working
    directory; the bucket is untouched.  The oracle, which selects as
    the save does, reports the checkpoint complete.  [load_checkpoint]
    and [remove_checkpoint] select by the URL and look in the bucket:
    the load of ["s3://bucket/step10"] raises [FileNotFoundError] and
    the removal does nothing.  The checkpoint loads from the local path. *)
Example save_to_url :
  run save_url wu0 = (Ok tt, wu1) ∧
  remote (fs wu1) = remote (fs wu0) ∧
  trace wu1 = [Makedirs "s3:/bucket/step10" true;
               Save payload "s3:/bucket/step10" (py "format-A", 1%Z)] ∧
  mem_isdir (local (fs wu1)) "/work/s3:/bucket/step10" = true ∧
  run (is_distributed_ckpt (PStr "s3://bucket/step10.ckpt")) wu1 = (Ok true, wu1) ∧
  run (load_checkpoint store (PStr "s3://bucket/step10") None (@None unit)) wu1 =
    (Raise (FileNotFoundError "Checkpoint file not found: s3://bucket/step10"), wu1) ∧
  run (remove_checkpoint store (PStr "s3://bucket/step10")) wu1 = (Ok tt, wu1) ∧
  run (load_checkpoint store (PStr "s3:/bucket/step10") None (@None unit)) wu1 =
    (Ok relocated, record wu1 [Load None "s3:/bucket/step10"]).
Proof. split_and!; vm_refl. Qed.

Lemma save_checkpoint_local_witness :
  (run save_url wu0).1 = (run (save_ payload "s3://bucket/step10.ckpt") w0).1 ∧
  on_local (run save_url wu0).2 = (run (save_ payload "s3://bucket/step10.ckpt") w0).2 ∧
  remote (fs (run save_url wu0).2) = remote (fs wu0).
Proof.
  apply (save_checkpoint_local (SO:=unit) store payload (PStr "s3://bucket/step10.ckpt")
           None wu0).
Defined.

Lemma save_url_not_loadable_witness :
  remote (fs wu1) = remote (fs wu0) ∧
  run (load_checkpoint store (PStr "s3://bucket/step10.ckpt") None (@None unit)) wu1 =
    (Raise (FileNotFoundError (not_found_msg (PStr "s3://bucket/step10.ckpt"))), wu1) ∧
  run (remove_checkpoint store (PStr "s3://bucket/step10.ckpt")) wu1 = (Ok tt, wu1).
Proof.
  apply (save_url_not_loadable (SO:=unit) (ML:=unit) store payload
           (py "s3://bucket/step10.ckpt") None wu0); [by eexists|vm_refl..].
Defined.

(** A path whose protocol fsspec cannot serve.  Without the package
    [s3fs] a load and a removal of an [s3] URL raise the [ImportError]
    of fsspec; with a protocol that is not in its table they raise
    [ValueError]; nothing is looked at or touched.  A save of either
    path selects the local filesystem and writes there. *)
Example unserved_protocols :
  let no_s3fs := SitePackages (λ name, bool_decide (name ≠ py "s3fs")) fsspec_known in
  run (load_checkpoint (SP:=no_s3fs) store (PStr "s3://bucket/step10") None (@None unit)) wu1 =
    (Raise (ImportError "Install s3fs to access S3"), wu1) ∧
  run (remove_checkpoint (SP:=no_s3fs) store (PStr "s3://bucket/step10")) wu1 =
    (Raise (ImportError "Install s3fs to access S3"), wu1) ∧
  run (load_checkpoint store (PStr "ceph://pool/step10") None (@None unit)) wu1 =
    (Raise (ValueError "Protocol not known: ceph"), wu1) ∧
  run (remove_checkpoint store (PStr "ceph://pool/step10")) wu1 =
    (Raise (ValueError "Protocol not known: ceph"), wu1) ∧
  (run (save_checkpoint (SP:=no_s3fs) store payload (PStr "s3://bucket/step10.ckpt")
          (@None unit)) wu0).1 = Ok tt ∧
  (run (save_checkpoint store payload (PStr "ceph://pool/step10.ckpt") (@None unit)) wu0).1 =
    Ok tt.
Proof. cbv zeta. split_and!; vm_refl. Qed.

(** ** The store's theorems on this world *)

Lemma save_load_roundtrip_witness :
  run (load_checkpoint store (PPath (parse "step10")) None (@None unit)) w1 =
    (_fix_tensors_device (cuda w0) payload,
     record w1 [Load None (str (parse "step10"))]).
Proof.
  apply (save_load_roundtrip (SO:=unit) store payload (PStr "step10.ckpt")
           (parse "step10") None w0 w1); [vm_decide|vm_refl..].
Defined.

Lemma save_checkpoint_establishes_witness :
  fs_wf (fs w1) ∧ run (is_distributed_ckpt (PStr "step10.ckpt")) w1 = (Ok true, w1).
Proof.
  apply (save_checkpoint_establishes (SO:=unit) store payload (PStr "step10.ckpt") w0 w1);
    [vm_decide|vm_refl].
Defined.

Lemma save_checkpoint_idempotent_witness :
  ∃ d, ckpt_to_dir (PStr "step10.ckpt") = Ok d ∧
       run (save_ relocated "step10.ckpt") w1 =
         (Ok tt, record w1 [Log root_logger INFO (skip_msg d)]).
Proof.
  apply (save_checkpoint_idempotent (SO:=unit) store payload (PStr "step10.ckpt")
           store relocated w0 w1); [vm_decide|vm_refl].
Defined.

Lemma save_checkpoint_delegates_witness :
  ∃ d, ckpt_to_dir (PStr "step10.ckpt") = Ok d ∧ complete (fs w0) d = false ∧
       Save payload "step10" (py "format-A", 1%Z) =
         Save payload (str d) (save_sharded_strategy store) ∧
       added w0 w1 = [Makedirs (str d) true; Save payload "step10" (py "format-A", 1%Z)].
Proof.
  apply (save_checkpoint_delegates (SO:=unit) store payload (PStr "step10.ckpt") w0
           (Save payload "step10" (py "format-A", 1%Z))); [vm_decide|reflexivity].
Defined.

Lemma save_checkpoint_refuses_witness :
  ∃ e, run (save_ payload "/") w0 = (Raise e, w0) ∧
       if has_megatron then class_of e = CValueError else e = megatron_missing.
Proof.
  apply (save_checkpoint_refuses (SO:=unit) store payload (PStr "/") None w0).
  right. right. vm_refl.
Defined.

Lemma save_checkpoint_skip_iff_witness :
  run (is_distributed_ckpt (PStr "step10.ckpt")) w1 = (Ok true, w1) ↔
  ∃ d, ckpt_to_dir (PStr "step10.ckpt") = Ok d ∧
       run (save_ relocated "step10.ckpt") w1 =
         (Ok tt, record w1 [Log root_logger INFO (skip_msg d)]).
Proof. apply (save_checkpoint_skip_iff (SO:=unit) store relocated (PStr "step10.ckpt") w1). Defined.

Lemma load_checkpoint_returns_witness :
  get_filesystem (PStr "step10/") = Ok (protocol_of (PStr "step10/")) ∧
  fs_isdir (fs w1) (fspath (PStr "step10/")) = true ∧
  is_initialized (cuda w1) = true ∧
  record w1 [Load None "step10/"] = record w1 [Load None (fspath (PStr "step10/"))] ∧
  ∃ v0, load None (fspath (PStr "step10/")) (fs w1) = Ok v0 ∧
        relocated = dict_list_map_outplace (_fix_device (cur_dev (cuda w1))) v0.
Proof.
  apply (load_checkpoint_returns (ML:=unit) store (PStr "step10/") None w1 relocated).
  vm_refl.
Defined.

Lemma remove_checkpoint_removes_witness :
  match get_filesystem (PStr "step10") with
  | Raise e => run (remove_ "step10") w1 = (Raise e, w1)
  | Ok _ =>
      ∃ w', run (remove_ "step10") w1 = (Ok tt, w') ∧
            fs_exists (fs w') (fspath (PStr "step10")) = false ∧
            if fs_exists (fs w1) (fspath (PStr "step10"))
            then ∃ f', fs_rm (fspath (PStr "step10")) true (fs w1) = Ok f' ∧
                       w' = World f' (cuda w1)
                              (trace w1 ++ [Rm (fspath (PStr "step10")) true;
                                            Log module_logger DEBUG
                                              (removed_msg (PStr "step10"))])
            else w' = w1
  end.
Proof. apply (remove_checkpoint_removes store (PStr "step10") w1). Defined.

Lemma remove_then_load_witness :
  run (load_ "step10") w2 =
    (Raise (FileNotFoundError (not_found_msg (PStr "step10"))), w2).
Proof.
  apply (remove_then_load (ML:=unit) store (PStr "step10") None w1 w2). vm_refl.
Defined.

Lemma reachable_invariant_witness :
  fs_wf (fs (after_all store calls w0)) ∧ cuda (after_all store calls w0) = cuda w0 ∧
  ∃ es, trace (after_all store calls w0) = trace w0 ++ es ∧
        Forall (save_with (save_sharded_strategy store)) es.
Proof.
  apply (reachable_invariant store w0 (after_all store calls w0));
    [vm_decide|apply after_all_steps].
Defined.

(** A device passed where the base class takes [map_location] reaches
    the backend as the layout of the checkpoint. *)
Lemma load_checkpoint_call_positional_witness :
  bind (qualname (py "load_checkpoint")) (base_load_checkpoint_sig ANone)
    [AStr (py "step10"); AValue (VObj (py "cpu"))] [] =
    Ok [(py "path", AStr (py "step10")); (py "map_location", AValue (VObj (py "cpu")))] ∧
  (∃ call, load_checkpoint_call store [AStr (py "step10"); AValue (VObj (py "cpu"))] [] = Some call ∧
           run call w1 =
             (load (Some (VObj (py "cpu"))) (py "step10") (fs w1) ≫= _fix_tensors_device (cuda w1),
              record w1 [Load (Some (VObj (py "cpu"))) (py "step10")])) ∧
  (∃ call, load_checkpoint_call store [AStr (py "step10")]
             [(py "map_location", AValue (VObj (py "cpu")))] = Some call ∧
           run call w1 = (Raise (ValueError map_location_msg), w1)).
Proof.
  apply (load_checkpoint_call_positional store (py "step10") (VObj (py "cpu")) w1); vm_refl.
Defined.

End Scenario.
