(* ===== verification/Refinement.v ===== *)
(** * The store refines a map from directories to payloads

    What the store promises, without paths, files or a backend: a finite
    map [astore] from checkpoint directories to the payload kept there.
    [a_save] adds a payload unless the directory has one, [a_load] reads
    it (through the device pass), [a_remove] forgets a directory and
    everything below it.

    [abs] reads that map off a state of the in-memory filesystem as the
    reference backend lays checkpoints out: a directory is a checkpoint
    when it holds the completeness marker, and its payload is the
    contents of the shard file, if that is (still) there.  The theorems
    show that [save_checkpoint], [load_checkpoint], [remove_checkpoint]
    and [is_distributed_ckpt], run on [MemFS] with [RefBackend], are
    [a_save], [a_load], [a_remove] and membership under [abs].

    The last part is about what a call leaves alone.  [keeps] says of a
    call that it is no removal at, above or inside a given directory;
    a checkpoint written there stays through every sequence of such
    calls, returned or raised: the oracle knows it and a load returns
    its payload. *)

From Stdlib Require Import Ascii.
From stdpp Require Import base tactics option list numbers strings gmap relations.
From S2P Require Import Prelude PyStr PurePath PathConvention CloudIO Payload.
From S2P Require Import DeviceFixup FileSystem Backend CheckpointIO Scenario.

Module Refinement.
Import PurePath PathConvention CloudIO Payload DeviceFixup FileSystem MemFS.
Import dist_checkpointing RefBackend CheckpointIO.

(** ** The abstract store *)

(** A directory with a checkpoint maps to its payload, or to [None] when
    the checkpoint is marked complete and its shard is missing. *)
Abbreviation astore := (gmap (list pystr) (option value)).

Definition a_save (k : key) (c : value) (m : astore) : astore :=
  if decide (is_Some (m !! k)) then m else <[k := Some c]> m.

Definition a_remove (r : key) (m : astore) : astore :=
  filter (λ '(a, _), ¬ r `prefix_of` a) m.

Inductive outcome : Type :=
| Loaded (r : result value)
| Damaged
| Absent.

Definition a_load `{SP : site_packages} (rt : cuda_runtime) (k : key) (m : astore) :
    outcome :=
  match m !! k with
  | Some (Some v) => Loaded (_fix_tensors_device rt v)
  | Some None => Damaged
  | None => Absent
  end.

(** ** The abstraction *)

(** The directory [k] carries the completeness marker. *)
Definition marked (t : gmap key node) (k : key) : Prop :=
  t !! k = Some Dir ∧ is_file (t !! (k ++ [metadata])).

#[export] Instance marked_dec t k : Decision (marked t k).
Proof. unfold marked. apply _. Defined.

(** The payload in the shard file of [k]. *)
Definition shard (t : gmap key node) (k : key) : option value :=
  match t !! (k ++ [common]) with Some (File v) => Some v | _ => None end.

Definition stored (t : gmap key node) (k : key) : option (option value) :=
  if decide (marked t k) then Some (shard t k) else None.

Definition abs (f : memfs) : astore := map_imap (λ k _, stored (tree f) k) (tree f).

(** No checkpoint directory lies strictly above [r]. *)
Definition outside (m : astore) (r : key) : Prop :=
  map_Forall (λ k _, k `prefix_of` r → k = r) m.

#[export] Instance outside_dec m r : Decision (outside m r).
Proof. unfold outside. apply _. Defined.

(** The call leaves the directory [k] alone: it is not a removal of
    [k], of a directory above it or of a path inside it.  Paths are
    resolved as in [f0]. *)
Definition keeps (f0 : memfs) (k : key) (c : call) : Prop :=
  match c with
  | CallRemove p =>
      ¬ resolve f0 (fspath p) `prefix_of` k ∧ ¬ k `prefix_of` resolve f0 (fspath p)
  | _ => True
  end.

#[export] Instance keeps_dec f0 k c : Decision (keeps f0 k c).
Proof. destruct c; apply _. Defined.

(** ** Lookups *)

Lemma lookup_abs f k : abs f !! k = stored (tree f) k.
Proof.
  unfold abs. rewrite map_lookup_imap.
  destruct (tree f !! k) eqn:E; simpl; [done|].
  unfold stored. rewrite decide_False; [done|]. intros [? _]; congruence.
Qed.

Lemma stored_Some t k : is_Some (stored t k) ↔ marked t k.
Proof. unfold stored. case_decide; split; done. Qed.

Lemma stored_ext t t' k k' :
  (marked t k ↔ marked t' k') → (marked t k → shard t k = shard t' k') →
  stored t k = stored t' k'.
Proof.
  intros Hm Hs. unfold stored. repeat case_decide; try tauto. by rewrite Hs.
Qed.

Lemma complete_abs (f : memfs) d :
  complete f d = true ↔ is_Some (abs f !! resolve f (str d)).
Proof.
  rewrite lookup_abs, stored_Some. unfold complete, marked. simpl.
  rewrite andb_true_iff, mem_isdir_true. unfold ref_check.
  by rewrite bool_decide_eq_true.
Qed.

Lemma complete_abs_false (f : memfs) d :
  complete f d = false ↔ abs f !! resolve f (str d) = None.
Proof.
  rewrite eq_None_not_Some, <-complete_abs. by destruct (complete f d).
Qed.

Lemma a_save_lookup k c m k' :
  a_save k c m !! k' =
  if decide (k' = k) then Some (default (Some c) (m !! k)) else m !! k'.
Proof.
  unfold a_save. case_decide as Hk; case_decide as Hk'; subst.
  - destruct Hk as [x ->]. done.
  - done.
  - rewrite lookup_insert_eq. apply eq_None_not_Some in Hk. by rewrite Hk.
  - by rewrite lookup_insert_ne.
Qed.

Lemma a_remove_lookup r m k :
  a_remove r m !! k = if decide (r `prefix_of` k) then None else m !! k.
Proof.
  unfold a_remove. case_decide as Hr.
  - apply map_lookup_filter_None. right. intros x _ Hx. by apply Hx.
  - destruct (m !! k) as [x|] eqn:E.
    + by apply map_lookup_filter_Some.
    + apply map_lookup_filter_None. by left.
Qed.

(** ** What a save changes *)

Section save_frame.
Context (t : gmap key node) (k : key) (c mf : node).
Hypothesis Hwf : tree_wf t.
Hypothesis Hfile : ¬ Exists (λ a, is_file (t !! a)) (prefixes k).
Hypothesis Hempty : below k (mkdirs k t) = ∅.

Let T : gmap key node := <[k ++ [metadata] := mf]> (<[k ++ [common] := c]> (mkdirs k t)).

Lemma lookup_after_save a :
  T !! a =
  if decide (a = k ++ [metadata]) then Some mf
  else if decide (a = k ++ [common]) then Some c
  else if decide (a `prefix_of` k) then Some Dir else t !! a.
Proof. unfold T. by rewrite lookup_saved, lookup_mkdirs. Qed.

Lemma no_file_above a : a `prefix_of` k → ¬ is_file (t !! a).
Proof.
  intros Ha Hf. apply Hfile, Exists_exists. exists a. by rewrite elem_of_prefixes.
Qed.

Lemma nothing_below a : k `prefix_of` a → a ≠ k → t !! a = None.
Proof.
  intros Ha Hne. destruct (t !! a) as [n|] eqn:E; [|done]. exfalso. apply Hne.
  apply (below_empty k (mkdirs k t) a n); [done| |done].
  rewrite lookup_mkdirs, decide_False; [done|].
  intros Hp. apply Hne. by apply (anti_symm prefix).
Qed.

(** Making the directories adds no checkpoint and touches none. *)
Lemma stored_mkdirs k' : stored (mkdirs k t) k' = stored t k'.
Proof.
  assert (∀ x, is_file (mkdirs k t !! (k' ++ [x])) ↔ is_file (t !! (k' ++ [x]))) as Hx.
  { intros x. rewrite lookup_mkdirs. case_decide as Hp; [|done].
    split; [by intros [? ?]|]. intros Hf. by destruct (no_file_above _ Hp). }
  apply stored_ext.
  - unfold marked. rewrite Hx, lookup_mkdirs.
    split; intros [Hd [v Hf]]; (split; [|by exists v]); [|by case_decide].
    eapply (proj1 (tree_wf_alt t) Hwf); [done|by apply prefix_app_r|apply not_eq_sym, snoc_ne].
  - intros _. unfold shard. rewrite lookup_mkdirs. case_decide as Hp; [|done].
    destruct (t !! (k' ++ [common])) as [[v|]|] eqn:E; try done.
    destruct (no_file_above _ Hp). rewrite E. by eexists.
Qed.

Lemma lookup_child_after_save k' x :
  k' ≠ k →
  T !! (k' ++ [x]) = if decide (k' ++ [x] `prefix_of` k) then Some Dir else t !! (k' ++ [x]).
Proof.
  intros Hne. rewrite lookup_after_save.
  by do 2 (rewrite decide_False by (by intros [? _]%app_inj_tail)).
Qed.

Lemma shard_after_save k' : k' ≠ k → shard T k' = shard t k'.
Proof.
  intros Hne. unfold shard. rewrite lookup_child_after_save by done.
  case_decide as Hp; [|done].
  destruct (t !! (k' ++ [common])) as [[v|]|] eqn:E; try done.
  destruct (no_file_above _ Hp). rewrite E. by eexists.
Qed.

Lemma marked_after_save k' : k' ≠ k → marked T k' ↔ marked t k'.
Proof.
  intros Hne. unfold marked. rewrite lookup_child_after_save by done.
  assert (is_file (if decide (k' ++ [metadata] `prefix_of` k) then Some Dir
                   else t !! (k' ++ [metadata])) ↔ is_file (t !! (k' ++ [metadata]))) as ->.
  { case_decide as Hp; [|done]. split; [by intros [? ?]|].
    intros Hf. by destruct (no_file_above _ Hp). }
  split; intros [Hd [v Hf]]; (split; [|by exists v]).
  - eapply (proj1 (tree_wf_alt t) Hwf); [done|by apply prefix_app_r|apply not_eq_sym, snoc_ne].
  - rewrite lookup_after_save.
    destruct (decide (k' = k ++ [metadata])) as [->|];
      [rewrite nothing_below in Hd; [done|by apply prefix_app_r|apply snoc_ne]|].
    destruct (decide (k' = k ++ [common])) as [->|];
      [rewrite nothing_below in Hd; [done|by apply prefix_app_r|apply snoc_ne]|].
    by case_decide.
Qed.

Lemma marked_saved : is_file (Some mf) → marked T k.
Proof.
  intros Hmf. unfold marked.
  rewrite (lookup_after_save k), (lookup_after_save (k ++ [metadata])). split.
  - do 2 (rewrite decide_False by apply not_eq_sym, snoc_ne).
    by rewrite decide_True.
  - by rewrite decide_True.
Qed.

Lemma shard_saved (v : value) : c = File v → shard T k = Some v.
Proof.
  intros Hc. unfold shard. rewrite lookup_after_save.
  rewrite decide_False by (by intros [_ [=]]%app_inj_tail).
  by rewrite decide_True, Hc.
Qed.

Lemma stored_after_save (v : value) k' :
  c = File v → is_file (Some mf) →
  stored T k' = if decide (k' = k) then Some (Some v) else stored t k'.
Proof.
  intros Hc Hmf. case_decide as Hk.
  - subst k'. unfold stored. rewrite decide_True by (by apply marked_saved).
    by rewrite (shard_saved v).
  - apply stored_ext; [by apply marked_after_save|intros _; by apply shard_after_save].
Qed.

End save_frame.

(** ** What a removal changes *)

Lemma rmtree_absent t r : tree_wf t → t !! r = None → rmtree r t = t.
Proof.
  intros Hwf Hr. apply map_eq. intros a. rewrite lookup_rmtree.
  case_decide as Hp; [|done]. destruct (t !! a) as [n|] eqn:E; [|done]. exfalso.
  destruct (decide (r = a)) as [->|Hne]; [congruence|].
  pose proof (proj1 (tree_wf_alt t) Hwf a n E r Hp Hne). congruence.
Qed.

Lemma stored_rmtree t r k' :
  (marked t k' → k' `prefix_of` r → k' = r) →
  stored (rmtree r t) k' = if decide (r `prefix_of` k') then None else stored t k'.
Proof.
  intros Hout. case_decide as Hp.
  { unfold stored. rewrite decide_False; [done|]. intros [Hd _].
    by rewrite lookup_rmtree, decide_True in Hd. }
  assert (∀ x, marked t k' → ¬ r `prefix_of` k' ++ [x]) as Hx.
  { intros x Hm Hr. destruct (decide (r = k' ++ [x])) as [->|Hne].
    - apply (snoc_ne k' x). symmetry. apply Hout; [done|by apply prefix_app_r].
    - apply Hp. by eapply prefix_snoc_inv. }
  symmetry. apply stored_ext.
  - unfold marked. rewrite !lookup_rmtree, (decide_False (P:=r `prefix_of` k')) by done.
    split; intros [Hd Hf]; (split; [done|]).
    + rewrite decide_False; [done|]. by apply Hx.
    + destruct (decide _); [by destruct Hf|done].
  - intros Hm. unfold shard. rewrite lookup_rmtree, decide_False; [done|]. by apply Hx.
Qed.

(** A removal beside [k], neither above it nor inside it, leaves what
    is stored at [k]. *)
Lemma stored_rmtree_beside t r k :
  ¬ r `prefix_of` k → ¬ k `prefix_of` r → stored (rmtree r t) k = stored t k.
Proof.
  intros Hr Hk.
  assert (∀ x, ¬ r `prefix_of` k ++ [x]) as Hx.
  { intros x Hp. destruct (decide (r = k ++ [x])) as [->|Hne].
    - by apply Hk, prefix_app_r.
    - by apply Hr, (prefix_snoc_inv r k x). }
  apply stored_ext.
  - unfold marked. by rewrite !lookup_rmtree, !decide_False by auto.
  - intros _. unfold shard. by rewrite lookup_rmtree, decide_False by auto.
Qed.

(** The key does not depend on the tree, only on the working directory. *)
Lemma resolve_same_cwd (f f' : memfs) s : cwd f' = cwd f → resolve f' s = resolve f s.
Proof. unfold resolve. by intros ->. Qed.

(** ** The refinement *)

Section refinement.
Context `{SP : site_packages} {MI : Megatron} {SO ML : Type}.
Implicit Types (w : world memfs) (p : pathlike) (self : MegatronCheckpointIO).

(** A save in the abstract store, whatever its outcome: a save that
    returns is [a_save]; a save that raises after its checks found no
    checkpoint at the directory, and leaves every checkpoint as it was
    (the directories it may have made hold none). *)
Lemma save_abs self c p d w :
  fs_wf (fs w) → ckpt_to_dir p = Ok d →
  let out := run (save_checkpoint self c p (@None SO)) w in
  cwd (fs out.2) = cwd (fs w) ∧
  match out.1 with
  | Ok _ => abs (fs out.2) = a_save (resolve (fs w) (str d)) c (abs (fs w))
  | Raise _ => abs (fs out.2) = abs (fs w) ∧ abs (fs w) !! resolve (fs w) (str d) = None
  end.
Proof.
  intros Hwf Hd. cbv zeta. destruct (complete (fs w) d) eqn:Hc.
  - rewrite (save_checkpoint_skip _ _ _ _ _ Hd Hc). simpl.
    split; [done|]. apply map_eq. intros k'. rewrite a_save_lookup.
    case_decide as Hk; [|done]. subst. apply complete_abs in Hc as [x Hx].
    simpl. by rewrite Hx.
  - destruct (run _ w) as [r w'] eqn:Hr.
    pose proof (save_checkpoint_write_inv _ _ _ _ _ _ _ Hd Hc Hr) as Hi.
    apply complete_abs_false in Hc.
    cbn [fs_makedirs save memfs_fs ref_backend fst snd] in *.
    destruct (mem_makedirs _ _ _) as [f1|] eqn:Hm; [|by destruct Hi as [-> ->]].
    destruct Hi as (_ & _ & Hi). apply mem_makedirs_inv in Hm as [Hfile ->].
    destruct (ref_save _ _ _ _) as [f2|] eqn:Hs; destruct Hi as [-> ->].
    + apply ref_save_inv in Hs as (Hk & He & ->). rewrite resolve_cwd in *.
      split; [done|]. apply map_eq. intros k'.
      rewrite a_save_lookup, !lookup_abs. cbn [tree].
      rewrite (stored_after_save _ _ _ _ Hwf Hfile He c) by (done || by eexists).
      case_decide; [|done]. rewrite lookup_abs in Hc. subst. by rewrite Hc.
    + split; [done|]. split; [|done]. apply map_eq. intros k'.
      rewrite !lookup_abs. cbn [tree]. by apply stored_mkdirs.
Qed.

(** C36. [save_checkpoint] refines [a_save]: a save that returns adds
    the payload at the directory of the path when that directory held
    no checkpoint, changes nothing when it did, and never touches
    another checkpoint. *)
Theorem refine_save self c p d w w' :
  fs_wf (fs w) → ckpt_to_dir p = Ok d →
  run (save_checkpoint self c p (@None SO)) w = (Ok tt, w') →
  abs (fs w') = a_save (resolve (fs w) (str d)) c (abs (fs w)) ∧
  cwd (fs w') = cwd (fs w).
Proof.
  intros Hwf Hd Hr. pose proof (save_abs self c p d w Hwf Hd) as Hs.
  cbv zeta in Hs. rewrite Hr in Hs. by destruct Hs.
Qed.

(** [load_checkpoint] is [a_load] and changes no checkpoint: it returns
    the stored payload through the device pass, raises the backend's
    exception for a checkpoint whose shard is gone, and raises for a
    path that holds no checkpoint.  A path whose filesystem fsspec
    cannot serve is refused before the store is looked at. *)
Lemma load_abs self p hint w :
  let out := run (load_checkpoint self p hint (@None ML)) w in
  fs out.2 = fs w ∧
  match get_filesystem p with
  | Raise e => out.1 = Raise e
  | Ok _ =>
      match a_load (cuda w) (resolve (fs w) (fspath p)) (abs (fs w)) with
      | Loaded r => out.1 = r
      | Damaged => ∃ msg, out.1 = Raise (CheckpointingException msg)
      | Absent => is_ok out.1 = false
      end
  end.
Proof.
  cbv zeta. destruct (get_filesystem p) as [o|e] eqn:Hg;
    [|by rewrite (load_checkpoint_unserved _ _ _ _ _ Hg)].
  rewrite (run_load_checkpoint _ _ _ _ _ Hg). unfold a_load. rewrite lookup_abs.
  cbn [fs_exists fs_isdir load memfs_fs ref_backend].
  unfold stored, ref_load, ref_check.
  destruct (mem_exists _ _) eqn:He; simpl.
  2: { split; [done|]. apply mem_exists_false in He.
       rewrite decide_False; [done|]. intros [? _]. congruence. }
  destruct (mem_isdir _ _) eqn:Hd; simpl.
  2: { split; [done|]. rewrite decide_False; [done|]. intros [Hk _].
       apply mem_isdir_true in Hk. congruence. }
  split; [done|]. apply mem_isdir_true in Hd.
  destruct (decide (is_file (tree (fs w) !! (resolve (fs w) (fspath p) ++ [metadata]))))
    as [Hf|Hf].
  - rewrite bool_decide_eq_true_2, decide_True by done. unfold shard.
    destruct (tree (fs w) !! (resolve (fs w) (fspath p) ++ [common])) as [[v|]|];
      simpl; eauto.
  - rewrite bool_decide_eq_false_2, decide_False; [done| |done]. by intros [_ ?].
Qed.

(** The abstract store after the subtree at [r] is gone. *)
Lemma abs_rmtree (f : memfs) r :
  fs_wf f → outside (abs f) r → abs (Mem (cwd f) (rmtree r (tree f))) = a_remove r (abs f).
Proof.
  intros Hwf Hout. apply map_eq. intros k'. rewrite a_remove_lookup, !lookup_abs.
  apply stored_rmtree. intros Hm.
  assert (is_Some (abs f !! k')) as [x Hx] by (by rewrite lookup_abs, stored_Some).
  apply (map_Forall_lookup_1 _ _ _ _ Hout Hx).
Qed.

(** A removal in the abstract store: when fsspec serves the path and
    the path is not inside a checkpoint directory, it returns and is
    [a_remove]. *)
Lemma remove_abs self p w :
  is_ok (get_filesystem p) = true →
  fs_wf (fs w) → outside (abs (fs w)) (resolve (fs w) (fspath p)) →
  ∃ w', run (remove_checkpoint self p) w = (Ok tt, w') ∧
        abs (fs w') = a_remove (resolve (fs w) (fspath p)) (abs (fs w)) ∧
        cwd (fs w') = cwd (fs w).
Proof.
  intros Hg Hwf Hout. destruct (get_filesystem p) as [o|] eqn:Ho; [|done].
  rewrite (run_remove_checkpoint _ _ _ _ Ho). cbn [fs_exists fs_rm memfs_fs].
  pose proof (abs_rmtree (fs w) _ Hwf Hout) as Habs.
  destruct (mem_exists _ _) eqn:He.
  - pose proof (rm_existing (fs w) _ He) as Hok. cbn [fs_rm memfs_fs] in Hok.
    destruct (mem_rm _ _ _) as [f2|] eqn:Hrm; [|done].
    apply mem_rm_inv in Hrm as [_ ->]; [|done]. by eexists.
  - exists w. split_and!; [done| |done]. apply mem_exists_false in He.
    rewrite rmtree_absent in Habs by done. rewrite <-Habs. by destruct (fs w).
Qed.

(** C37. [remove_checkpoint] refines [a_remove]: when the path is not
    inside a checkpoint directory, a removal that returns forgets the
    checkpoints at and below the path and no other. *)
Theorem refine_remove self p w w' :
  fs_wf (fs w) → outside (abs (fs w)) (resolve (fs w) (fspath p)) →
  run (remove_checkpoint self p) w = (Ok tt, w') →
  abs (fs w') = a_remove (resolve (fs w) (fspath p)) (abs (fs w)) ∧
  cwd (fs w') = cwd (fs w).
Proof.
  intros Hwf Hout Hr. pose proof (remove_checkpoint_served _ _ _ _ _ Hr) as Hg.
  destruct (remove_abs self p w Hg Hwf Hout) as (w'' & Hr' & Ha).
  rewrite Hr in Hr'. by injection Hr' as <-.
Qed.

(** [is_distributed_ckpt] is membership in the abstract store, at the
    directory of the path. *)
Lemma oracle_abs p d w :
  ckpt_to_dir p = Ok d →
  run (is_distributed_ckpt p) w =
    (Ok (bool_decide (is_Some (abs (fs w) !! resolve (fs w) (str d)))), w).
Proof.
  intros Hd. rewrite run_is_distributed_ckpt, Hd. simpl. do 2 f_equal.
  destruct (complete (fs w) d) eqn:Hc; symmetry.
  - by apply bool_decide_eq_true_2, complete_abs.
  - apply bool_decide_eq_false_2. rewrite <-complete_abs. congruence.
Qed.

End refinement.

(** ** What a call leaves of another checkpoint *)

Section beside.
Context `{SP : site_packages} {MI : Megatron}.
Implicit Types (w : world memfs) (p : pathlike) (self : MegatronCheckpointIO).

(** A removal beside a directory leaves the checkpoint there, whatever
    else it removes and whether it returns or raises. *)
Lemma remove_beside self p w k :
  fs_wf (fs w) →
  ¬ resolve (fs w) (fspath p) `prefix_of` k → ¬ k `prefix_of` resolve (fs w) (fspath p) →
  let w' := (run (remove_checkpoint self p) w).2 in
  abs (fs w') !! k = abs (fs w) !! k ∧ cwd (fs w') = cwd (fs w).
Proof.
  intros Hwf Hr Hk. cbv zeta. destruct (get_filesystem p) as [o|e] eqn:Hg;
    [|by rewrite (remove_checkpoint_unserved _ _ _ _ Hg)].
  rewrite (run_remove_checkpoint _ _ _ _ Hg). cbn [fs_exists fs_rm memfs_fs].
  destruct (mem_exists _ _) eqn:He; [|done].
  pose proof (rm_existing (fs w) _ He) as Hok. cbn [fs_rm memfs_fs] in Hok.
  destruct (mem_rm _ _ _) as [f2|] eqn:Hrm; [|done].
  apply mem_rm_inv in Hrm as [_ ->]; [|done]. cbn [fs cwd snd]. split; [|done].
  rewrite !lookup_abs. by apply stored_rmtree_beside.
Qed.

(** A call that leaves the directory [k] alone leaves what is stored
    there: a save to [k] skips, a save elsewhere writes elsewhere or
    raises, a load and the oracle write nothing, and a removal is beside
    [k]. *)
Lemma after_keeps self c w k x :
  fs_wf (fs w) → keeps (fs w) k c → abs (fs w) !! k = Some x →
  abs (fs (after self c w)) !! k = Some x ∧ cwd (fs (after self c w)) = cwd (fs w).
Proof.
  intros Hwf Hk Hx. destruct c as [c p so|p hint ml|p|p]; cbn [after].
  - destruct so as [v|]; [by rewrite run_save_checkpoint_options|].
    destruct (ckpt_to_dir p) as [d|e] eqn:Hd; [|by rewrite run_save_checkpoint, Hd].
    destruct (save_abs (SO:=value) self c p d w Hwf Hd) as [Hc Ha].
    destruct (run _ w) as [[[]|e] w1]; cbn [fst snd] in *; (split; [|done]).
    + rewrite Ha, a_save_lookup. case_decide; subst; by rewrite ?Hx.
    + destruct Ha as [-> _]. done.
  - destruct ml as [v|]; [by rewrite run_load_checkpoint_map_location|].
    by destruct (load_abs (ML:=value) self p hint w) as [-> _].
  - destruct Hk as [Hr Hk]. destruct (remove_beside self p w k Hwf Hr Hk) as [-> ?]. done.
  - by rewrite run_is_distributed_ckpt.
Qed.

(** So does a sequence of such calls. *)
Lemma after_all_keeps self ks w k x :
  fs_wf (fs w) → Forall (keeps (fs w) k) ks → abs (fs w) !! k = Some x →
  let w' := after_all self ks w in
  abs (fs w') !! k = Some x ∧ cwd (fs w') = cwd (fs w) ∧ cuda w' = cuda w.
Proof.
  revert w. induction ks as [|c ks IH]; intros w Hwf Hks Hx; [done|].
  apply Forall_cons in Hks as [Hc Hks]. cbv zeta.
  change (after_all self (c :: ks) w) with (after_all self ks (after self c w)).
  destruct (after_keeps self c w k x Hwf Hc Hx) as [Hx' Hcwd].
  destruct (after_invariant self c w Hwf) as (Hwf' & Hcuda & _).
  destruct (IH (after self c w)) as (? & ? & ?); [done| |done|].
  - eapply Forall_impl; [done|]. intros [] ?; simpl; [done..| |done].
    by rewrite !(resolve_same_cwd _ _ _ Hcwd).
  - split_and!; [done|congruence..].
Qed.

End beside.

(** A save that returned from a directory without a checkpoint leaves
    the payload in the abstract store. *)
Lemma save_stored `{SP : site_packages} self c p d w0 w :
  fs_wf (fs w0) → ckpt_to_dir p = Ok d → complete (fs w0) d = false →
  run (save_checkpoint self c p (@None value)) w0 = (Ok tt, w) →
  abs (fs w) !! resolve (fs w0) (str d) = Some (Some c) ∧
  fs_wf (fs w) ∧ cwd (fs w) = cwd (fs w0) ∧ cuda w = cuda w0.
Proof.
  intros Hwf Hd Hc Hr. pose proof (save_checkpoint_imported _ _ _ _ _ _ _ Hr) as MI.
  destruct (save_abs (SO:=value) self c p d w0 Hwf Hd) as [Hcwd Ha].
  destruct (after_invariant self (CallSave c p None) w0 Hwf) as (Hwf' & Hcuda & _).
  cbn [after] in *. rewrite Hr in *. cbn [fst snd] in *.
  apply complete_abs_false in Hc.
  split_and!; [|done..]. by rewrite Ha, a_save_lookup, decide_True, Hc.
Qed.

(** C18. A checkpoint stays until it is removed.  After a save that
    wrote a checkpoint and returned, let the client make any calls of
    the four entry points, in any number and order, with any arguments,
    returning or raising, other than a removal of a path that is the
    checkpoint's directory, lies above it or lies inside it: the oracle
    still answers [True] for the path, and a load of the directory
    returns the payload that was saved, through the device pass.
    Removals elsewhere are free, inside other checkpoints included. *)
Theorem checkpoint_durable `{SP : site_packages} self c p d hint w0 w ks :
  fs_wf (fs w0) → ckpt_to_dir p = Ok d → complete (fs w0) d = false →
  run (save_checkpoint self c p (@None value)) w0 = (Ok tt, w) →
  Forall (keeps (fs w0) (resolve (fs w0) (str d))) ks →
  let w' := after_all self ks w in
  (run (load_checkpoint self (PPath d) hint (@None value)) w').1 =
    _fix_tensors_device (cuda w0) c ∧
  run (is_distributed_ckpt p) w' = (Ok true, w').
Proof.
  intros Hwf Hd Hc Hr Hk w'. pose proof (save_checkpoint_imported _ _ _ _ _ _ _ Hr) as MI.
  destruct (save_stored self c p d w0 w Hwf Hd Hc Hr) as (Hx & Hwf1 & Hcwd & Hcuda).
  assert (Forall (keeps (fs w) (resolve (fs w0) (str d))) ks) as Hk'.
  { eapply Forall_impl; [done|]. intros [] ?; simpl; [done..| |done].
    by rewrite !(resolve_same_cwd _ _ _ Hcwd). }
  destruct (after_all_keeps self ks w _ _ Hwf1 Hk' Hx) as (Hx' & Hcwd' & Hcuda').
  fold w' in Hx', Hcwd', Hcuda'.
  assert (resolve (fs w') (str d) = resolve (fs w0) (str d)) as Hres
    by (apply resolve_same_cwd; congruence).
  split.
  - destruct (load_abs (ML:=value) self (PPath d) hint w') as [_ Hl].
    rewrite (get_filesystem_path d) in Hl by apply (ckpt_to_dir_Ok_wf p d Hd).
    unfold a_load in Hl. cbn [fspath] in Hl. rewrite Hres, Hx' in Hl. congruence.
  - rewrite (oracle_abs p d w' Hd), Hres, Hx'. by rewrite bool_decide_eq_true_2.
Qed.

(** ** On the scenario's worlds *)

Import Scenario.
#[local] Existing Instance with_megatron.

(** The abstract store before the save, after it, and after the removal. *)
Example abs_scenario :
  abs (fs w0) = ∅ ∧
  abs (fs w1) = {[ [py "work"; py "step10"] := Some payload ]} ∧
  abs (fs w2) = ∅.
Proof. split_and!; vm_refl. Qed.

Lemma refine_save_witness :
  abs (fs w1) = a_save (resolve (fs w0) (str (parse "step10"))) payload (abs (fs w0)) ∧
  cwd (fs w1) = cwd (fs w0).
Proof.
  apply (refine_save (SO:=unit) store payload (PStr "step10.ckpt") (parse "step10") w0 w1);
    [vm_decide|vm_refl..].
Defined.

(** What the client does after the save of the scenario: it saves
    another checkpoint, loads the first, saves to the first again,
    removes a file inside the other checkpoint and then the other
    checkpoint, and asks the oracle. *)
Definition later_calls : list call :=
  [CallSave relocated (PStr "step20.ckpt") None;
   CallLoad (PStr "step10") None None;
   CallSave relocated (PStr "step10.ckpt") None;
   CallRemove (PStr "step20/metadata.json");
   CallRemove (PStr "step20");
   CallIsDistributed (PStr "step10.ckpt")].

Lemma checkpoint_durable_witness :
  let w' := after_all store later_calls w1 in
  (run (load_checkpoint store (PPath (parse "step10")) None (@None value)) w').1 =
    _fix_tensors_device (cuda w0) payload ∧
  run (is_distributed_ckpt (PStr "step10.ckpt")) w' = (Ok true, w').
Proof.
  apply (checkpoint_durable store payload (PStr "step10.ckpt") (parse "step10") None
           w0 w1 later_calls); [vm_decide|vm_refl|vm_refl|vm_refl|vm_decide].
Defined.

Lemma refine_remove_witness :
  abs (fs w2) = a_remove (resolve (fs w1) (fspath (PStr "step10"))) (abs (fs w1)) ∧
  cwd (fs w2) = cwd (fs w1).
Proof.
  apply (refine_remove store (PStr "step10") w1 w2); [vm_decide..|vm_refl].
Defined.

End Refinement.
