(* ===== verification/Simulation.v ===== *)
(** * Every run of the store is a run of the abstract store

    [Refinement] relates one call of the store to one operation on the
    map from directories to payloads.  This file puts the calls in
    sequence.  The store becomes a labelled transition system: a step is
    a call of an entry point, labelled with the call and with what the
    client gets back ([respond]).  The abstract store becomes one too
    ([a_step]), written without files: a save adds a payload unless one
    is there or fails leaving the map alone, a load answers from the
    map, a removal forgets a directory, the oracle is membership; and
    where the serialization package is missing, every call but a
    removal is refused with [ModuleNotFoundError] and the map is kept;
    and a load or a removal of a path whose protocol no filesystem
    serves raises what [get_filesystem] raises, and the map is kept.

    The theorem is a forward simulation ([simulation_steps], proved once
    for any two labelled systems) instantiated with the abstraction
    function: whatever sequence of calls a client makes, the replies it
    sees are replies the abstract store can give, and the checkpoints on
    disk at the end are those of the abstract store.

    One obligation is the client's: it removes checkpoint directories,
    or paths outside them, and not single files inside a checkpoint
    directory, whose layout belongs to the backend ([allowed]). *)

From Stdlib Require Import Ascii.
From stdpp Require Import base tactics option list numbers strings gmap relations.
From S2P Require Import Prelude PyStr PurePath PathConvention CloudIO Payload.
From S2P Require Import DeviceFixup FileSystem Backend CheckpointIO Scenario Refinement.

(** ** Labelled runs and the simulation diagram *)

Module Labelled.

Section runs.
Context {S L : Type} (R : S → L → S → Prop).

(** A run with the labels of its steps, first step first. *)
Inductive steps : S → list L → S → Prop :=
| steps_nil s : steps s [] s
| steps_cons s l s' ls s'' : R s l s' → steps s' ls s'' → steps s (l :: ls) s''.

Lemma steps_app s ls s' ls' s'' :
  steps s ls s' → steps s' ls' s'' → steps s (ls ++ ls') s''.
Proof. induction 1; [done|]. intros. econstructor; eauto. Qed.

Lemma steps_rtc s ls s' : steps s ls s' → rtc (λ a b, ∃ l, R a l b) s s'.
Proof. induction 1; [done|]. eapply rtc_l; eauto. Qed.

End runs.

Section diagram.
Context {C A L : Type}.
Context (cstep : C → L → C → Prop) (astep : A → L → A → Prop) (inv : C → A → Prop).

(** Every step of the implementation is matched by a step of the
    specification with the same label, and the relation is kept. *)
Hypothesis simulation :
  ∀ c l c' a, cstep c l c' → inv c a → ∃ a', astep a l a' ∧ inv c' a'.

Lemma simulation_steps c ls c' a :
  steps cstep c ls c' → inv c a → ∃ a', steps astep a ls a' ∧ inv c' a'.
Proof.
  intros Hs. revert a. induction Hs as [c|c l c1 ls c2 Hstep _ IH]; intros a Hinv.
  - exists a. split; [constructor|done].
  - destruct (simulation _ _ _ _ Hstep Hinv) as (a1 & Ha1 & Hinv1).
    destruct (IH _ Hinv1) as (a2 & Ha2 & Hinv2).
    exists a2. split; [by econstructor|done].
Qed.

End diagram.

End Labelled.

Module Simulation.
Import PurePath PathConvention CloudIO Payload DeviceFixup FileSystem MemFS.
Import dist_checkpointing RefBackend CheckpointIO Refinement Labelled.

(** ** The store, labelled *)

(** What a call gives back when it returns: [None], the payload, or the
    oracle's answer. *)
Inductive reply : Type :=
| RNone
| RPayload (v : value)
| RBool (b : bool).

#[export] Instance reply_eq_dec : EqDecision reply.
Proof. solve_decision. Defined.

Definition label : Type := call * result reply.

Section store.
Context {F : Type} `{FileSystem F, Backend F} `{SP : site_packages}.

(** A call, with what the client gets back and the world it leaves. *)
Definition respond (self : MegatronCheckpointIO) (k : call) (w : world F) :
    result reply * world F :=
  match k with
  | CallSave c p so =>
      let out := run (save_checkpoint self c p so) w in ((λ _, RNone) <$> out.1, out.2)
  | CallLoad p hint ml =>
      let out := run (load_checkpoint self p hint ml) w in (RPayload <$> out.1, out.2)
  | CallRemove p =>
      let out := run (remove_checkpoint self p) w in ((λ _, RNone) <$> out.1, out.2)
  | CallIsDistributed p =>
      let out := run (is_distributed_ckpt p) w in (RBool <$> out.1, out.2)
  end.

(** The labels of a sequence of calls. *)
Fixpoint observe (self : MegatronCheckpointIO) (ks : list call) (w : world F) :
    list label :=
  match ks with
  | [] => []
  | k :: ks => (k, (respond self k w).1) :: observe self ks (respond self k w).2
  end.

Lemma respond_after self k w : (respond self k w).2 = after self k w.
Proof. by destruct k. Qed.

End store.

(** The client's obligation: a removal is of a path that is not inside
    a checkpoint directory. *)
Definition allowed (f : memfs) (k : call) : Prop :=
  match k with
  | CallRemove p => outside (abs f) (resolve f (fspath p))
  | _ => True
  end.

#[export] Instance allowed_dec f k : Decision (allowed f k).
Proof. destruct k; apply _. Defined.

Inductive c_step `{SP : site_packages} (self : MegatronCheckpointIO) :
    world memfs → label → world memfs → Prop :=
| c_step_call k w :
    allowed (fs w) k → c_step self w (k, (respond self k w).1) (respond self k w).2.

Fixpoint disciplined `{SP : site_packages} (self : MegatronCheckpointIO)
    (ks : list call) (w : world memfs) : Prop :=
  match ks with
  | [] => True
  | k :: ks => allowed (fs w) k ∧ disciplined self ks (after self k w)
  end.

#[export] Instance disciplined_dec `{SP : site_packages} self ks w :
  Decision (disciplined self ks w).
Proof. revert w. induction ks; intros w; apply _. Defined.

(** The entry points that import the backend: all but the removal. *)
Definition imports (k : call) : bool :=
  match k with CallRemove _ => false | _ => true end.

(** ** The abstract store, labelled *)

Section abstract.
Context `{SP : site_packages} (cwd0 : key) (rt : cuda_runtime).

(** The directory a path string names. *)
Definition at_ (s : pystr) : key := resolve (Mem cwd0 ∅) s.

Definition a_reply (o : outcome) (r : result reply) : Prop :=
  match o with
  | Loaded r' => r = RPayload <$> r'
  | Damaged => ∃ msg, r = Raise (CheckpointingException msg)
  | Absent => is_ok r = false
  end.

Inductive a_step : astore → label → astore → Prop :=
| a_no_package m k :
    has_megatron = false → imports k = true →
    a_step m (k, Raise megatron_missing) m
| a_save_unsupported m c p x :
    a_step m (CallSave c p (Some x), Raise (TypeError storage_options_msg)) m
| a_save_no_directory m c p e :
    ckpt_to_dir p = Raise e → a_step m (CallSave c p None, Raise e) m
| a_save_returns m c p d :
    ckpt_to_dir p = Ok d →
    a_step m (CallSave c p None, Ok RNone) (a_save (at_ (str d)) c m)
| a_save_fails m c p d e :
    ckpt_to_dir p = Ok d → m !! at_ (str d) = None →
    a_step m (CallSave c p None, Raise e) m
| a_load_unsupported m p hint x :
    a_step m (CallLoad p hint (Some x), Raise (ValueError map_location_msg)) m
| a_load_unserved m p hint e :
    get_filesystem p = Raise e → a_step m (CallLoad p hint None, Raise e) m
| a_load_answers m p hint r :
    is_ok (get_filesystem p) = true →
    a_reply (a_load rt (at_ (fspath p)) m) r → a_step m (CallLoad p hint None, r) m
| a_remove_unserved m p e :
    get_filesystem p = Raise e → a_step m (CallRemove p, Raise e) m
| a_remove_returns m p :
    is_ok (get_filesystem p) = true → outside m (at_ (fspath p)) →
    a_step m (CallRemove p, Ok RNone) (a_remove (at_ (fspath p)) m)
| a_oracle_answers m p :
    a_step m (CallIsDistributed p,
              (λ d, RBool (bool_decide (is_Some (m !! at_ (str d))))) <$> ckpt_to_dir p) m.

(** The relation the simulation keeps. *)
Definition sim (w : world memfs) (m : astore) : Prop :=
  fs_wf (fs w) ∧ cwd (fs w) = cwd0 ∧ cuda w = rt ∧ abs (fs w) = m.

End abstract.

(** ** Runs of the store as labelled runs *)

Lemma observe_steps `{SP : site_packages} self ks w :
  disciplined self ks w → steps (c_step self) w (observe self ks w) (after_all self ks w).
Proof.
  revert w. induction ks as [|k ks IH]; intros w; [constructor|].
  intros [Hk Hks]. cbn [observe after_all foldl]. rewrite <-respond_after in *.
  econstructor; [by constructor|by apply IH].
Qed.

(** ** One call *)

Section one_call.
Context `{SP : site_packages} (self : MegatronCheckpointIO) (w : world memfs).
Hypothesis Hwf : fs_wf (fs w).

Local Abbreviation a_step' := (a_step (cwd (fs w)) (cuda w)).
Local Abbreviation sim' := (sim (cwd (fs w)) (cuda w)).

(** What a call leaves is related to the abstract store it leaves, as
    soon as it keeps the working directory. *)
Lemma sim_respond k :
  cwd (fs (respond self k w).2) = cwd (fs w) →
  sim' (respond self k w).2 (abs (fs (respond self k w).2)).
Proof.
  intros Hc. rewrite respond_after in *.
  destruct (after_invariant self k w Hwf) as (? & ? & _). by split_and!.
Qed.

Lemma sim_same : sim' w (abs (fs w)).
Proof. by split_and!. Qed.

(** Without the package a call that imports raises, and the map is the
    one it was. *)
Lemma no_package_simulation k :
  has_megatron = false → imports k = true →
  ∃ m', a_step' (abs (fs w)) (k, (respond self k w).1) m' ∧ sim' (respond self k w).2 m'.
Proof.
  intros Hno Hk. exists (abs (fs w)).
  assert (respond self k w = (Raise megatron_missing, w)) as ->.
  { destruct k; try done; cbn [respond];
      by rewrite ?save_checkpoint_unimportable, ?load_checkpoint_unimportable,
        ?is_distributed_ckpt_unimportable. }
  split; [by constructor|apply sim_same].
Qed.

Lemma save_simulation c p so :
  ∃ m', a_step' (abs (fs w)) (CallSave c p so, (respond self (CallSave c p so) w).1) m' ∧
        sim' (respond self (CallSave c p so) w).2 m'.
Proof.
  destruct megatron_dec as [MI|Hno]; [|by apply no_package_simulation].
  destruct so as [x|].
  { cbn [respond]. rewrite run_save_checkpoint_options.
    exists (abs (fs w)). split; [constructor|apply sim_same]. }
  pose proof (sim_respond (CallSave c p None)) as Hsim. cbn [respond] in *.
  destruct (ckpt_to_dir p) as [d|e] eqn:Hd.
  - destruct (save_abs (SO:=value) self c p d w Hwf Hd) as [Hc Ha].
    destruct (run _ w) as [[[]|e] w1]; cbn [fst snd fmap result_fmap] in *.
    + exists (abs (fs w1)). split; [|by apply Hsim].
      rewrite Ha. by apply a_save_returns.
    + destruct Ha as [Ha Hn]. exists (abs (fs w1)). split; [|by apply Hsim].
      rewrite Ha. by eapply a_save_fails.
  - rewrite run_save_checkpoint, Hd. eexists.
    split; [by apply a_save_no_directory|apply sim_same].
Qed.

Lemma load_simulation p hint ml :
  ∃ m', a_step' (abs (fs w)) (CallLoad p hint ml, (respond self (CallLoad p hint ml) w).1) m' ∧
        sim' (respond self (CallLoad p hint ml) w).2 m'.
Proof.
  destruct megatron_dec as [MI|Hno]; [|by apply no_package_simulation].
  destruct ml as [x|].
  { cbn [respond]. rewrite run_load_checkpoint_map_location.
    exists (abs (fs w)). split; [constructor|apply sim_same]. }
  pose proof (sim_respond (CallLoad p hint None)) as Hsim. cbn [respond fst snd] in *.
  destruct (load_abs (ML:=value) self p hint w) as [Hfs Ha].
  exists (abs (fs w)). split.
  - destruct (get_filesystem p) as [o|e] eqn:Hg; [|rewrite Ha; by constructor].
    apply a_load_answers; [by rewrite Hg|]. unfold a_reply.
    destruct (a_load _ _ _) as [r| |]; [by rewrite Ha|by destruct Ha as [msg ->]; eexists|].
    by destruct (run _ w).1.
  - specialize (Hsim (f_equal cwd Hfs)). by rewrite Hfs in Hsim.
Qed.

Lemma remove_simulation p :
  allowed (fs w) (CallRemove p) →
  ∃ m', a_step' (abs (fs w)) (CallRemove p, (respond self (CallRemove p) w).1) m' ∧
        sim' (respond self (CallRemove p) w).2 m'.
Proof.
  intros Hout. pose proof (sim_respond (CallRemove p)) as Hsim. cbn [respond allowed] in *.
  destruct (get_filesystem p) as [o|e] eqn:Hg.
  - destruct (remove_abs self p w) as (w' & Hr & Ha & Hc); [by rewrite Hg|done..|].
    rewrite Hr in *. exists (abs (fs w')). split; [|by apply Hsim].
    rewrite Ha. apply a_remove_returns; [by rewrite Hg|done].
  - rewrite (remove_checkpoint_unserved _ _ _ _ Hg). exists (abs (fs w)).
    split; [by constructor|apply sim_same].
Qed.

Lemma oracle_simulation p :
  ∃ m', a_step' (abs (fs w)) (CallIsDistributed p, (respond self (CallIsDistributed p) w).1) m' ∧
        sim' (respond self (CallIsDistributed p) w).2 m'.
Proof.
  destruct megatron_dec as [MI|Hno]; [|by apply no_package_simulation].
  exists (abs (fs w)). cbn [respond]. destruct (ckpt_to_dir p) as [d|e] eqn:Hd.
  - rewrite (oracle_abs p d w Hd). split; [|apply sim_same].
    pose proof (a_oracle_answers (cwd (fs w)) (cuda w) (abs (fs w)) p) as Ho.
    by rewrite Hd in Ho.
  - rewrite run_is_distributed_ckpt, Hd. split; [|apply sim_same].
    pose proof (a_oracle_answers (cwd (fs w)) (cuda w) (abs (fs w)) p) as Ho.
    by rewrite Hd in Ho.
Qed.

End one_call.

(** One step of the store is one step of the abstract store. *)
Lemma step_simulation `{SP : site_packages} self cwd0 rt w l w' m :
  c_step self w l w' → sim cwd0 rt w m →
  ∃ m', a_step cwd0 rt m l m' ∧ sim cwd0 rt w' m'.
Proof.
  intros [k w0 Hk] (Hwf & <- & <- & <-). destruct k.
  - by apply save_simulation.
  - by apply load_simulation.
  - by apply remove_simulation.
  - by apply oracle_simulation.
Qed.

(** A run of the store is a run of the abstract store, and the relation
    of the simulation holds at its end. *)
Lemma store_simulation `{SP : site_packages} self w ls w' :
  fs_wf (fs w) → steps (c_step self) w ls w' →
  steps (a_step (cwd (fs w)) (cuda w)) (abs (fs w)) ls (abs (fs w')) ∧
  sim (cwd (fs w)) (cuda w) w' (abs (fs w')).
Proof.
  intros Hwf Hs.
  destruct (simulation_steps (c_step self) (a_step (cwd (fs w)) (cuda w))
              (sim (cwd (fs w)) (cuda w)) (step_simulation self _ _) w ls w' (abs (fs w)))
    as (m' & Hm & Hsim); [done|by split_and!|].
  pose proof Hsim as (_ & _ & _ & <-). by split.
Qed.

(** C7. The store refines the abstract store.  Whatever sequence of
    calls a client makes of the four entry points, from a world with a
    well-formed filesystem, with the package or without, returning or
    raising, the replies it sees, in their order, are replies the map
    from directories to payloads gives to the same calls, and the
    checkpoints on disk at the end are the map at the end. *)
Theorem store_refines `{SP : site_packages} self w ls w' :
  fs_wf (fs w) → steps (c_step self) w ls w' →
  steps (a_step (cwd (fs w)) (cuda w)) (abs (fs w)) ls (abs (fs w')) ∧ fs_wf (fs w').
Proof.
  intros Hwf Hs. by destruct (store_simulation self w ls w' Hwf Hs) as (? & ? & _).
Qed.

(** The abstract store leaves no choice of the next map: the call and
    the reply determine it. *)
Lemma a_step_functional `{SP : site_packages} cwd0 rt m l m1 m2 :
  a_step cwd0 rt m l m1 → a_step cwd0 rt m l m2 → m1 = m2.
Proof.
  intros H1 H2. inversion H1; subst; inversion H2; subst; try done; congruence.
Qed.

(** In the abstract store a save that returned is followed by a load of
    the same directory that answers with a payload, through the device
    pass: the one saved, or the one that was there. *)
Lemma a_save_then_load `{SP : site_packages, MI : !Megatron} cwd0 rt m c p d hint r m1 m2 :
  ckpt_to_dir p = Ok d →
  a_step cwd0 rt m (CallSave c p None, Ok RNone) m1 →
  a_step cwd0 rt m1 (CallLoad (PPath d) hint None, r) m2 →
  m2 = m1 ∧
  a_reply (a_load rt (at_ cwd0 (str d)) m1) r ∧
  m1 !! at_ cwd0 (str d) = Some (default (Some c) (m !! at_ cwd0 (str d))).
Proof.
  intros Hd Hs Hl. pose proof (megatron_installed (Megatron:=MI)) as Hi.
  assert (get_filesystem (PPath d) = Ok None) as Hg
    by apply get_filesystem_path, (ckpt_to_dir_Ok_wf p d Hd).
  inversion Hs; subst. inversion Hl; subst; [congruence..|].
  assert (d0 = d) as -> by congruence.
  split_and!; [done..|]. by rewrite a_save_lookup, decide_True.
Qed.

(** ** On the scenario's world *)

Import Scenario.
#[local] Existing Instance with_megatron.

(** What the client of the scenario's calls sees, call by call. *)
Example observe_calls :
  (observe store calls w0).*2 =
    [Ok RNone;
     Raise (ValueError "Distributed checkpoints should be a directory. Found: notes.txt.");
     Ok RNone;
     Raise (ValueError "PosixPath('.') has an empty name");
     Ok RNone;
     Raise (OSError "[Errno 20] Not a directory: '/work/notes.txt/x'")] ∧
  abs (fs (after_all store calls w0)) = ∅.
Proof. split; vm_refl. Qed.

Lemma store_refines_witness :
  steps (a_step (cwd (fs w0)) (cuda w0)) (abs (fs w0)) (observe store calls w0)
        (abs (fs (after_all store calls w0))) ∧
  fs_wf (fs (after_all store calls w0)).
Proof.
  apply (store_refines store w0 (observe store calls w0) (after_all store calls w0));
    [vm_decide|apply observe_steps; vm_decide].
Defined.

End Simulation.
