(* ===== verification/Paths.v ===== *)
(** * The path a checkpoint is saved under and the path it is found at

    [save_checkpoint] and [is_distributed_ckpt] map the path they are
    given through [ckpt_to_dir]; [load_checkpoint] and
    [remove_checkpoint] use it as it is (pl.py 85, 122-129, 143-144,
    207).  For a path that carries the marker the two are different
    directories, siblings under the same parent.

    This file makes that precise on [MemFS] with [RefBackend].  The
    first part computes the key a path string denotes ([resolve]) from
    the parsed path: the key of the parent, then one [step] for the
    name.  The second part is a frame property of a save: apart from
    the directories down to the checkpoint directory and the two files
    the backend writes in it, no entry of the filesystem changes.  The
    theorems follow: the identifier a checkpoint was saved under neither
    loads nor removes it, and the oracle asked about a checkpoint
    directory whose own name ends in the marker answers for another
    directory. *)

From Stdlib Require Import Ascii.
From stdpp Require Import base tactics option list numbers strings gmap relations.
From S2P Require Import Prelude PyStr PurePath PathConvention CloudIO Payload.
From S2P Require Import DeviceFixup FileSystem Backend CheckpointIO Scenario Refinement.

Module Paths.
Import PyStr PurePath PathConvention CloudIO Payload DeviceFixup FileSystem MemFS.
Import dist_checkpointing RefBackend CheckpointIO Refinement.

(** ** The key of a path *)

(** Where resolution starts: the root for an absolute path, the working
    directory for a relative one. *)
Definition base (f : memfs) (q : path) : key :=
  if decide (root q = []) then cwd f else [].

(** The key of the directory a path with a name lies in. *)
Definition parent_key (f : memfs) (q : path) : key :=
  foldl MemFS.step (base f q) (removelast (parts q)).

Lemma resolve_str f q :
  path_wf q → resolve f (str q) = foldl MemFS.step (base f q) (parts q).
Proof. intros Hq. unfold resolve. by rewrite parse_str. Qed.

Lemma resolve_fspath f p :
  resolve f (fspath p) = foldl MemFS.step (base f (Path p)) (parts (Path p)).
Proof. by destruct p. Qed.

Lemma key_sibling f q n :
  foldl MemFS.step (base f (sibling q n)) (parts (sibling q n)) =
  MemFS.step (parent_key f q) n.
Proof. unfold sibling, parent_key, base. simpl. by rewrite foldl_app. Qed.

Lemma resolve_sibling f q n :
  path_wf q → part_ok n → resolve f (str (sibling q n)) = MemFS.step (parent_key f q) n.
Proof.
  intros Hq Hn. rewrite resolve_str by (by apply sibling_wf). apply key_sibling.
Qed.

Lemma resolve_name f p :
  name (Path p) ≠ [] →
  resolve f (fspath p) = MemFS.step (parent_key f (Path p)) (name (Path p)).
Proof.
  intros Hn. rewrite resolve_fspath.
  by rewrite <-(key_sibling f (Path p) (name (Path p))), sibling_name.
Qed.

(** ** Names that end in the marker *)

Implicit Types (K : key) (st x : pystr).

Lemma marked_ends st : take 5 (reverse (st ++ ckpt)) = reverse ckpt.
Proof. rewrite reverse_app. apply (take_app_length (reverse ckpt)). Qed.

Lemma marked_ne st x : take 5 (reverse x) ≠ reverse ckpt → st ++ ckpt ≠ x.
Proof. intros Hx <-. by rewrite marked_ends in Hx. Qed.

Lemma marked_longer st : st ++ ckpt ≠ st.
Proof.
  intros H%(f_equal length). rewrite length_app in H. simpl in H. lia.
Qed.

Lemma step_marked K st : MemFS.step K (st ++ ckpt) = K ++ [st ++ ckpt].
Proof.
  unfold MemFS.step. rewrite decide_False; [done|]. apply marked_ne. compute_done.
Qed.

Lemma step_length K x : length (MemFS.step K x) ≤ S (length K).
Proof.
  unfold MemFS.step. case_decide.
  - rewrite removelast_firstn_len, length_take. lia.
  - rewrite length_app. simpl. lia.
Qed.

(** The key of a marked name is not on the way to the key of the same
    name without the marker, and is not one of the files the backend
    writes there. *)
Lemma marked_not_above K st : ¬ K ++ [st ++ ckpt] `prefix_of` MemFS.step K st.
Proof.
  intros Hp. pose proof (step_length K st) as Hl.
  apply prefix_length_eq in Hp; [|rewrite length_app; cbn [length]; lia].
  unfold MemFS.step in Hp. case_decide.
  - apply (f_equal length) in Hp.
    rewrite length_app, removelast_firstn_len, length_take in Hp. simpl in Hp. lia.
  - apply app_inj_tail in Hp as [_ Hp]. by apply marked_longer in Hp.
Qed.

Lemma marked_not_inside K st x :
  x = metadata ∨ x = common → K ++ [st ++ ckpt] ≠ MemFS.step K st ++ [x].
Proof.
  intros Hx H. unfold MemFS.step in H. case_decide.
  - apply app_inj_tail in H as [_ H].
    destruct Hx as [-> | ->]; revert H; apply marked_ne; compute_done.
  - apply (f_equal length) in H. rewrite !length_app in H. simpl in H. lia.
Qed.

(** The two keys of a marked path: the one it denotes and the one of
    the directory [ckpt_to_dir] gives. *)
Lemma marked_keys f p d :
  suffix (Path p) = ckpt → ckpt_to_dir p = Ok d →
  resolve f (fspath p) = parent_key f (Path p) ++ [stem (Path p) ++ ckpt] ∧
  resolve f (str d) = MemFS.step (parent_key f (Path p)) (stem (Path p)) ∧
  name d = stem (Path p).
Proof.
  intros Hs Hd. apply ckpt_to_dir_Ok in Hd as (-> & Hn & Hok).
  unfold dir_name in *. rewrite decide_True in * by done. split_and!.
  - rewrite resolve_name by done. rewrite (suffix_ckpt_name _ Hs). apply step_marked.
  - apply resolve_sibling; [apply Path_wf|done].
  - apply name_sibling.
Qed.

(** ** What a save leaves alone *)

Section frame.
Context `{SP : site_packages} {SO ML : Type}.
Implicit Types (w : world memfs) (p : pathlike) (self : MegatronCheckpointIO).

(** A save that returned changed no entry but the directories down to
    the checkpoint directory and the two files in it, and kept the
    working directory. *)
Lemma save_lookup self c p d w w' a :
  ckpt_to_dir p = Ok d →
  run (save_checkpoint self c p (@None SO)) w = (Ok tt, w') →
  ¬ a `prefix_of` resolve (fs w) (str d) →
  a ≠ resolve (fs w) (str d) ++ [metadata] → a ≠ resolve (fs w) (str d) ++ [common] →
  cwd (fs w') = cwd (fs w) ∧ tree (fs w') !! a = tree (fs w) !! a.
Proof.
  intros Hd Hr Ha Hm Hc. pose proof (save_checkpoint_imported _ _ _ _ _ _ _ Hr) as MI.
  destruct (complete (fs w) d) eqn:Hcomp.
  - rewrite (save_checkpoint_skip _ _ _ _ _ Hd Hcomp) in Hr. by injection Hr as <-.
  - pose proof (save_checkpoint_write_inv _ _ _ _ _ _ _ Hd Hcomp Hr) as Hi.
    cbn [fs_makedirs save memfs_fs ref_backend] in Hi.
    destruct (mem_makedirs _ _ _) as [f1|] eqn:Hmk; [|by destruct Hi].
    destruct Hi as (_ & _ & Hi). apply mem_makedirs_inv in Hmk as [_ ->].
    destruct (ref_save _ _ _ _) as [f2|] eqn:Hs; [|by destruct Hi].
    destruct Hi as [_ ->]. apply ref_save_inv in Hs as (_ & _ & ->).
    rewrite resolve_cwd. cbn [cwd tree]. split; [done|].
    by rewrite lookup_saved, lookup_mkdirs, !decide_False.
Qed.

(** A save of a marked path leaves what is at the path itself. *)
Lemma save_keeps_marked self c p d w w' :
  suffix (Path p) = ckpt → ckpt_to_dir p = Ok d →
  run (save_checkpoint self c p (@None SO)) w = (Ok tt, w') →
  fs_exists (fs w') (fspath p) = fs_exists (fs w) (fspath p).
Proof.
  intros Hs Hd Hr. destruct (marked_keys (fs w) p d Hs Hd) as (Hkp & Hkd & _).
  destruct (save_lookup self c p d w w' (resolve (fs w) (fspath p)) Hd Hr) as [Hcwd Hl].
  - rewrite Hkp, Hkd. apply marked_not_above.
  - rewrite Hkp, Hkd. apply marked_not_inside. by left.
  - rewrite Hkp, Hkd. apply marked_not_inside. by right.
  - cbn [fs_exists memfs_fs]. unfold mem_exists.
    by rewrite (resolve_same_cwd _ _ _ Hcwd), Hl.
Qed.

(** C16. The identifier a checkpoint is saved under does not name it
    afterwards.  [save_checkpoint] of a local path that ends in the
    marker writes to the directory without it and leaves whatever is at
    the path itself.  So when nothing was there, [load_checkpoint] of
    the same path raises [FileNotFoundError] and [remove_checkpoint] of
    it returns having removed nothing, while [is_distributed_ckpt] of it
    answers [True].  The directory written and the path are siblings:
    under the same parent, the stem without and with the marker. *)
Theorem marked_path_asymmetry self c p d hint w w' :
  fs_wf (fs w) → protocol_of p = None → suffix (Path p) = ckpt → ckpt_to_dir p = Ok d →
  run (save_checkpoint self c p (@None SO)) w = (Ok tt, w') →
  resolve (fs w) (fspath p) = parent_key (fs w) (Path p) ++ [stem (Path p) ++ ckpt] ∧
  resolve (fs w) (str d) = MemFS.step (parent_key (fs w) (Path p)) (stem (Path p)) ∧
  fs_exists (fs w') (fspath p) = fs_exists (fs w) (fspath p) ∧
  (fs_exists (fs w) (fspath p) = false →
   run (load_checkpoint self p hint (@None ML)) w' =
     (Raise (FileNotFoundError (not_found_msg p)), w') ∧
   run (remove_checkpoint self p) w' = (Ok tt, w')) ∧
  run (is_distributed_ckpt p) w' = (Ok true, w').
Proof.
  intros Hwf Hp%get_filesystem_local Hs Hd Hr.
  pose proof (save_checkpoint_imported _ _ _ _ _ _ _ Hr) as MI.
  pose proof (save_keeps_marked self c p d w w' Hs Hd Hr) as He.
  destruct (marked_keys (fs w) p d Hs Hd) as (Hkp & Hkd & _).
  split_and!; [done..| |].
  - intros Hno. rewrite <-He in Hno.
    rewrite (run_load_checkpoint _ _ _ _ _ Hp), (run_remove_checkpoint _ _ _ _ Hp).
    by rewrite Hno.
  - destruct (save_checkpoint_Ok_inv _ _ _ _ _ Hwf Hr) as (d' & Hd' & Hc & _).
    rewrite run_is_distributed_ckpt, Hd'. simpl. by rewrite Hc.
Qed.

(** A save changes whether there is a complete checkpoint at no
    directory but its own. *)
Lemma save_keeps_complete self c p d d2 w w' :
  fs_wf (fs w) → ckpt_to_dir p = Ok d →
  run (save_checkpoint self c p (@None SO)) w = (Ok tt, w') →
  resolve (fs w) (str d2) ≠ resolve (fs w) (str d) →
  complete (fs w') d2 = complete (fs w) d2.
Proof.
  intros Hwf Hd Hr Hne. pose proof (save_checkpoint_imported _ _ _ _ _ _ _ Hr) as MI.
  destruct (save_abs (SO:=SO) self c p d w Hwf Hd) as [Hcwd Ha].
  rewrite Hr in *. cbn [fst snd] in *.
  apply eq_true_iff_eq.
  by rewrite !complete_abs, (resolve_same_cwd _ _ _ Hcwd), Ha, a_save_lookup, decide_False.
Qed.

(** C17. The oracle does not answer for the directory it is given when
    the name of that directory ends in the marker.  After a save that
    wrote such a directory [d] (the identifier ended in the marker
    twice) the directory holds a complete checkpoint, and
    [is_distributed_ckpt] asked about [d] answers what was true, before
    the save, of the directory [d2] without the marker, its sibling. *)
Theorem oracle_marked_directory self c p d d2 w w' :
  fs_wf (fs w) → ckpt_to_dir p = Ok d → suffix d = ckpt →
  ckpt_to_dir (PPath d) = Ok d2 →
  run (save_checkpoint self c p (@None SO)) w = (Ok tt, w') →
  name d2 ++ ckpt = name d ∧
  resolve (fs w) (str d2) = MemFS.step (parent_key (fs w) d) (stem d) ∧
  complete (fs w') d = true ∧
  run (is_distributed_ckpt (PPath d)) w' = (Ok (complete (fs w) d2), w').
Proof.
  intros Hwf Hd Hs Hd2 Hr. pose proof (save_checkpoint_imported _ _ _ _ _ _ _ Hr) as MI.
  destruct (ckpt_to_dir_Ok_wf p d Hd) as [Hdwf _].
  destruct (marked_keys (fs w) (PPath d) d2) as (Hkd & Hk2 & Hn);
    [by rewrite Path_PPath|done|].
  rewrite Path_PPath in * by done. cbn [fspath] in *. split_and!.
  - by rewrite Hn, <-suffix_ckpt_name.
  - done.
  - destruct (save_checkpoint_Ok_inv _ _ _ _ _ Hwf Hr) as (d' & Hd' & Hc & _). congruence.
  - rewrite run_is_distributed_ckpt, Hd2. cbn [fmap result_fmap]. do 2 f_equal.
    apply (save_keeps_complete self c p d d2 w w' Hwf Hd Hr).
    rewrite Hkd, Hk2. intros Heq. apply (marked_not_above (parent_key (fs w) d) (stem d)).
    by rewrite Heq.
Qed.

End frame.

(** ** On the scenario's worlds *)

Import Scenario.
#[local] Existing Instance with_megatron.

Lemma marked_path_asymmetry_witness :
  resolve (fs w0) (fspath (PStr "step10.ckpt")) =
    parent_key (fs w0) (Path (PStr "step10.ckpt")) ++
      [stem (Path (PStr "step10.ckpt")) ++ ckpt] ∧
  resolve (fs w0) (str (parse "step10")) =
    MemFS.step (parent_key (fs w0) (Path (PStr "step10.ckpt")))
      (stem (Path (PStr "step10.ckpt"))) ∧
  fs_exists (fs w1) (fspath (PStr "step10.ckpt")) =
    fs_exists (fs w0) (fspath (PStr "step10.ckpt")) ∧
  (fs_exists (fs w0) (fspath (PStr "step10.ckpt")) = false →
   run (load_checkpoint store (PStr "step10.ckpt") None (@None unit)) w1 =
     (Raise (FileNotFoundError (not_found_msg (PStr "step10.ckpt"))), w1) ∧
   run (remove_checkpoint store (PStr "step10.ckpt")) w1 = (Ok tt, w1)) ∧
  run (is_distributed_ckpt (PStr "step10.ckpt")) w1 = (Ok true, w1).
Proof.
  apply (marked_path_asymmetry (SO:=unit) (ML:=unit) store payload (PStr "step10.ckpt")
           (parse "step10") None w0 w1); [vm_decide|vm_refl..].
Defined.

(** The world after a save under an identifier that ends in the marker
    twice. *)
Definition w_twice : world memfs :=
  (run (save_checkpoint store payload (PStr "a.ckpt.ckpt") (@None unit)) w0).2.

Lemma oracle_marked_directory_witness :
  name (parse "a") ++ ckpt = name (parse "a.ckpt") ∧
  resolve (fs w0) (str (parse "a")) =
    MemFS.step (parent_key (fs w0) (parse "a.ckpt")) (stem (parse "a.ckpt")) ∧
  complete (fs w_twice) (parse "a.ckpt") = true ∧
  run (is_distributed_ckpt (PPath (parse "a.ckpt"))) w_twice =
    (Ok (complete (fs w0) (parse "a")), w_twice).
Proof.
  apply (oracle_marked_directory (SO:=unit) store payload (PStr "a.ckpt.ckpt")
           (parse "a.ckpt") (parse "a") w0 w_twice); [vm_decide|vm_refl..].
Defined.

End Paths.
