(* ===== verification/Loading.v ===== *)
(** * Loading the module: the imports at its top (pl.py 1-15)

    Importing [nemo.lightning.io.pl] runs the import statements at its
    top, in order; the first one whose package is missing raises
    [ModuleNotFoundError] and the module is not loaded.  The
    serialization backend is not among them: the module imports it
    inside the functions that use it (pl.py 79, 118, 163, 205), so the
    module loads without it and the failure is left to the call.

    [module_imports] lists the statements by the top-level package each
    loads; [load_module] runs them.  The lemmas give the outcome of
    loading as a function of what is installed (the first missing
    requirement, in the order of the source); the examples put the two
    halves together: in an environment
    without [megatron] the module loads, the constructor and
    [remove_checkpoint] work, and the other entry points raise when
    called. *)

From Stdlib Require Import Ascii.
From stdpp Require Import base tactics option list strings.
From S2P Require Import Prelude PurePath Payload DeviceFixup FileSystem Backend CheckpointIO Scenario.

Module Loading.
Import PurePath Payload DeviceFixup FileSystem MemFS dist_checkpointing RefBackend CheckpointIO.

(** The modules of the standard library the module imports: part of
    the interpreter, whatever is installed. *)
Definition stdlib : list pystr :=
  [py "logging"; py "dataclasses"; py "pathlib"; py "typing"].

(** The import statements of lines 1-15, each by the top-level package
    it loads. *)
Definition module_imports : list pystr :=
  [py "logging"; py "dataclasses"; py "pathlib"; py "typing";
   py "pytorch_lightning"; py "torch";
   py "lightning_fabric"; py "lightning_fabric"; py "lightning_fabric";
   py "torch"; py "typing_extensions";
   py "nemo"; py "nemo"].

(** The packages that must be installed, in the order the module first
    asks for them. *)
Definition requirements : list pystr :=
  [py "pytorch_lightning"; py "torch"; py "lightning_fabric"; py "typing_extensions";
   py "nemo"].

Section loading.
Context `{SP : site_packages}.

Definition importable (name : pystr) : bool :=
  bool_decide (name ∈ stdlib) || installed name.

(** One import statement at the top of the module. *)
Definition import_stmt (name : pystr) : result unit :=
  if bool_decide (name ∈ stdlib) then Ok tt else import_ name.

(** The statements in order; the first that raises ends the loading. *)
Fixpoint exec_imports (names : list pystr) : result unit :=
  match names with
  | [] => Ok tt
  | name :: names => import_stmt name;; exec_imports names
  end.

(** [import nemo.lightning.io.pl], as far as its imports go. *)
Definition load_module : result unit := exec_imports module_imports.

(** The first package of a list that is missing. *)
Definition first_missing (p : pystr → bool) (names : list pystr) : option pystr :=
  List.find (λ name, negb (p name)) names.

(** What loading gives when [missing] is the first package missing. *)
Definition raise_missing (missing : option pystr) : result unit :=
  match missing with
  | Some name => Raise (ModuleNotFoundError (no_module_msg name))
  | None => Ok tt
  end.

(** ** The statements in order *)

Lemma import_stmt_eq name :
  import_stmt name = if importable name then Ok tt
                     else Raise (ModuleNotFoundError (no_module_msg name)).
Proof. unfold import_stmt, importable, import_. by case_bool_decide. Qed.

Lemma exec_imports_eq names :
  exec_imports names = raise_missing (first_missing importable names).
Proof.
  induction names as [|name names IH]; [done|].
  cbn [exec_imports first_missing List.find]. rewrite import_stmt_eq.
  by destruct (importable name).
Qed.

Lemma first_missing_None p names :
  first_missing p names = None ↔ Forall (λ name, p name = true) names.
Proof.
  unfold first_missing. induction names as [|name names IH]; cbn [List.find].
  - by split; [constructor|].
  - rewrite Forall_cons. destruct (p name); cbn [negb]; [|by split; [|intros [? _]]].
    rewrite IH. tauto.
Qed.

(** What [first_missing] finds is missing, is in the list, and
    everything before it is there. *)
Lemma first_missing_Some p names name :
  first_missing p names = Some name ↔
  ∃ l1 l2, names = l1 ++ name :: l2 ∧ Forall (λ x, p x = true) l1 ∧ p name = false.
Proof.
  unfold first_missing. induction names as [|x names IH]; cbn [List.find].
  - split; [done|]. by intros ([|??] & ? & ? & _).
  - destruct (p x) eqn:Hx; cbn [negb].
    + rewrite IH. split.
      * intros (l1 & l2 & -> & Hl & Hn). exists (x :: l1), l2. by repeat constructor.
      * intros ([|y l1] & l2 & Heq & Hl & Hn); simplify_eq/=; [congruence|].
        apply Forall_cons in Hl as [_ Hl]. eauto.
    + split.
      * intros [= <-]. exists [], names. by repeat constructor.
      * intros ([|y l1] & l2 & Heq & Hl & Hn); simplify_eq/=; [done|].
        apply Forall_cons in Hl as [? _]. congruence.
Qed.

(** The statements of the module ask for the requirements, in their
    order: the standard library is always there, and a package asked
    for again was there the first time. *)
Lemma first_missing_module :
  first_missing importable module_imports = first_missing installed requirements.
Proof.
  unfold first_missing, importable. cbv -[installed].
  repeat match goal with |- context [installed ?name] => destruct (installed name) end;
    reflexivity.
Qed.

(** Loading the module asks for the requirements in their order. *)
Lemma load_module_eq :
  load_module = raise_missing (first_missing installed requirements).
Proof. unfold load_module. by rewrite exec_imports_eq, first_missing_module. Qed.

(** When loading raises, it is for a requirement that is missing while
    every requirement before it is installed. *)
Lemma load_module_raises e :
  load_module = Raise e ↔
  ∃ l1 name l2, requirements = l1 ++ name :: l2 ∧
                Forall (λ x, installed x = true) l1 ∧ installed name = false ∧
                e = ModuleNotFoundError (no_module_msg name).
Proof.
  rewrite load_module_eq. split.
  - destruct (first_missing _ _) as [name|] eqn:Hm; [|done].
    intros [= <-]. apply first_missing_Some in Hm as (l1 & l2 & ? & ? & ?). eauto 10.
  - intros (l1 & name & l2 & Hr & Hl & Hn & ->).
    assert (first_missing installed requirements = Some name) as ->; [|done].
    apply first_missing_Some. eauto.
Qed.

End loading.

(** ** Without the serialization backend *)

Import Scenario.

(** The lazy imports at work.  In an environment with everything but
    [megatron] the module loads and a store is constructed and removes
    checkpoints; a save, a load and the oracle raise when they are
    called, and the device pass raises after its assertion. *)
Example lazy_imports :
  load_module (SP:=without_megatron) = Ok tt ∧
  (run (__init__ (py "format-A")) w0).1 = Ok store ∧
  run (remove_checkpoint (SP:=without_megatron) store (PStr "step10")) w1 = (Ok tt, w2) ∧
  run (save_checkpoint (SP:=without_megatron) store payload (PStr "step10.ckpt") (@None unit))
      w0 = (Raise megatron_missing, w0) ∧
  run (load_checkpoint (SP:=without_megatron) store (PStr "step10") None (@None unit)) w1 =
    (Raise megatron_missing, w1) ∧
  run (is_distributed_ckpt (SP:=without_megatron) (PStr "step10.ckpt")) w1 =
    (Raise megatron_missing, w1) ∧
  _fix_tensors_device (SP:=without_megatron) rt0 payload = Raise megatron_missing.
Proof. split_and!; vm_refl. Qed.

(** Without [torch] the module does not load, whatever else is there. *)
Example load_without_torch :
  load_module (SP:=SitePackages (λ name, bool_decide (name ≠ py "torch")) fsspec_known) =
    Raise (ModuleNotFoundError "No module named 'torch'").
Proof. vm_refl. Qed.

End Loading.
