(* ===== verification/Logging.v ===== *)
(** * What the log shows

    The store writes three log records: the notice that a save is
    skipped (pl.py 90) and the strategy chosen by the constructor
    (pl.py 155), both with [logging.info], that is at level INFO on the
    root logger; and the removal of a checkpoint (pl.py 146) with
    [log.debug], at level DEBUG on the logger of the module.  In
    [CheckpointIO] each is an event of the trace.  Whether a record
    reaches a handler is decided by the level in force at its logger
    ([Logger.isEnabledFor]): the level set on the logger, or else the
    level of the nearest ancestor that has one, down to the root, which
    starts at WARNING.

    [config] is that part of the logging configuration, [shown] the
    records of a trace that pass it.  The lemmas say what is shown of
    a removal and of the constructor, and that under the configuration
    Python starts with nothing is shown of any sequence of calls; the
    example shows the notice of a skipped save once INFO is enabled at
    the root logger. *)

From Stdlib Require Import Ascii.
From stdpp Require Import base tactics option list numbers strings relations.
From S2P Require Import Prelude PyStr PurePath PathConvention CloudIO Payload.
From S2P Require Import DeviceFixup FileSystem Backend CheckpointIO Scenario.

Module Logging.
Import PurePath PathConvention CloudIO Payload DeviceFixup FileSystem.
Import dist_checkpointing CheckpointIO.

(** ** Levels and configuration *)

(** [logging.DEBUG], [logging.INFO], and the two levels the module
    does not log at but is measured against. *)
Definition levelno (l : level) : Z :=
  match l with DEBUG => 10 | INFO => 20 end.
Definition WARNING : Z := 30.
Definition NOTSET : Z := 0.

(** The level set on the root logger, and the level set on the logger
    of the module or on its nearest ancestor below the root that has
    one ([NOTSET] when none has). *)
Record config : Type := Config { root_level : Z; module_level : Z }.

(** Before any configuration. *)
Definition default_config : config := Config WARNING NOTSET.

(** [Logger.getEffectiveLevel] *)
Definition effective_level (cfg : config) (lg : logger) : Z :=
  match lg with
  | root_logger => root_level cfg
  | module_logger =>
      if decide (module_level cfg = NOTSET) then root_level cfg else module_level cfg
  end.

(** [Logger.isEnabledFor] *)
Definition enabled (cfg : config) (lg : logger) (lvl : level) : bool :=
  bool_decide (effective_level cfg lg ≤ levelno lvl)%Z.

Definition is_shown (cfg : config) (e : event) : bool :=
  match e with Log lg lvl _ => enabled cfg lg lvl | _ => false end.

(** The records of a trace that reach the handlers. *)
Definition shown (cfg : config) (es : list event) : list event :=
  filter (is_shown cfg) es.

(** A configuration under which the module is silent: INFO is off at
    the root, and the module's logger has no level of its own that
    would let INFO or DEBUG through. *)
Definition quiet (cfg : config) : Prop :=
  (levelno INFO < root_level cfg)%Z ∧
  (module_level cfg = NOTSET ∨ levelno INFO < module_level cfg)%Z.

#[export] Instance quiet_dec cfg : Decision (quiet cfg).
Proof. unfold quiet. apply _. Defined.

(** ** The three records *)

(** Line 90, line 146 and line 155. *)
Definition skip_record (checkpoint_dir : path) : event :=
  Log root_logger INFO (skip_msg checkpoint_dir).
Definition removed_record (p : pathlike) : event :=
  Log module_logger DEBUG (removed_msg p).
Definition strategy_record (save_strategy : strategy) : event :=
  Log root_logger INFO (strategy_msg save_strategy).

(** ** What passes a configuration *)

Lemma shown_nil cfg : shown cfg [] = [].
Proof. done. Qed.

Lemma shown_app cfg es es' : shown cfg (es ++ es') = shown cfg es ++ shown cfg es'.
Proof. apply filter_app. Qed.

Lemma shown_cons cfg e es :
  shown cfg (e :: es) = if is_shown cfg e then e :: shown cfg es else shown cfg es.
Proof. unfold shown. rewrite filter_cons. by destruct (is_shown cfg e). Qed.

Lemma quiet_disabled cfg lg lvl : quiet cfg → enabled cfg lg lvl = false.
Proof.
  intros [Hr Hm]. apply bool_decide_eq_false.
  destruct lg; cbn [effective_level]; [destruct lvl; cbn in *; lia|].
  case_decide; destruct lvl; cbn in *; lia.
Qed.

(** Under a quiet configuration no record of any trace is shown. *)
Lemma shown_quiet cfg es : quiet cfg → shown cfg es = [].
Proof.
  intros Hq. induction es as [|e es IH]; [done|]. rewrite shown_cons, IH.
  destruct e; cbn [is_shown]; try done. by rewrite quiet_disabled.
Qed.

Lemma default_config_quiet : quiet default_config.
Proof. compute_done. Qed.

Section store.
Context {F : Type} {FS : FileSystem F} {BE : Backend F}.
Context {FSL : FileSystemLaws F} {BEL : BackendLaws F}.
Context `{SP : site_packages} {SO ML : Type}.
Implicit Types (w : world F) (d : path) (p : pathlike) (self : MegatronCheckpointIO).

(** Of a removal the record is shown when a filesystem serves the
    path, something was removed and DEBUG is enabled at the logger of
    the module. *)
Theorem remove_checkpoint_shown cfg self p w :
  let w' := (run (remove_checkpoint self p) w).2 in
  shown cfg (added w w') =
    if is_ok (get_filesystem p) && fs_exists (fs w) (fspath p) &&
       enabled cfg module_logger DEBUG
    then [removed_record p] else [].
Proof.
  cbv zeta. destruct (get_filesystem p) as [o|e] eqn:Hg; cbn [is_ok andb];
    [|by rewrite (remove_checkpoint_unserved _ _ _ _ Hg), added_refl].
  rewrite (run_remove_checkpoint _ _ _ _ Hg).
  destruct (fs_exists _ _) eqn:He; cbn [andb]; [|by rewrite added_refl].
  pose proof (rm_existing _ _ He) as Hok.
  destruct (fs_rm _ _ _) as [f'|] eqn:Hrm; [|done]. cbn [snd].
  unfold added. cbn [trace]. rewrite drop_app_length, !shown_cons. cbn [is_shown].
  by destruct (enabled _ _ _).
Qed.

(** Of the constructor the strategy is shown when INFO is enabled at
    the root logger. *)
Theorem init_shown cfg fmt (w : world F) :
  let w' := (run (__init__ fmt) w).2 in
  shown cfg (added w w') =
    if enabled cfg root_logger INFO then [strategy_record (fmt, 1%Z)] else [].
Proof.
  cbv zeta. rewrite run_init. cbn [snd]. rewrite added_record, shown_cons.
  cbn [is_shown]. by destruct (enabled _ _ _).
Qed.

(** Whatever the client calls, under a quiet configuration nothing is
    shown. *)
Theorem quiet_calls cfg self ks w :
  quiet cfg → shown cfg (added w (after_all self ks w)) = [].
Proof. apply shown_quiet. Qed.

End store.

(** ** On the scenario's worlds *)

Import MemFS RefBackend Scenario.
#[local] Existing Instance with_megatron.

(** A configuration with INFO enabled at the root. *)
Definition verbose : config := Config (levelno INFO) NOTSET.

(** The second save of the scenario, seen through the log: with INFO
    enabled the notice, by default nothing; the removal shows nothing in
    either, its record being at DEBUG. *)
Example skip_seen_when_verbose :
  let w' := (run (save_checkpoint store relocated (PStr "step10.ckpt") (@None unit)) w1).2 in
  shown verbose (added w1 w') =
    [Log root_logger INFO
       "Distributed checkpoint at path step10 already exists, skipping saving"] ∧
  shown default_config (added w1 w') = [] ∧
  shown verbose (added w1 w2) = [] ∧
  shown (Config (levelno DEBUG) NOTSET) (added w1 w2) =
    [Log module_logger DEBUG "Removed checkpoint: step10"].
Proof. cbv zeta. split_and!; vm_refl. Qed.

End Logging.
